(* ===== verification/_CoqProject ===== *)
-Q . S2P
Prelude.v
Utf8.v
GoStrings.v
Calendar.v
GoTime.v
Slack.v
TimeRange.v
Resolver.v
Reactions.v
Threads.v
Formatter.v
Paginator.v
Machine.v
Actions.v
Files.v
Main.v
CommandLine.v
Credentials.v
Persistence.v
