(* ===== verification/Prelude.v ===== *)
(** * A verification development for slack-cli (src/main.go)

    The program is a single-file Go command-line client for the Slack
    Web API.  Its main part is the [show] command: [fetchMessages]
    parses an optional date range, requests a page of the channel's
    history, reverses it to chronological order, filters it, resolves
    the authors' names through a two-level cache ([getUserName]),
    expands threads ([getThreadReplies]), renders reactions
    ([getReactionsString], [unicodeToEmoji]) and formats every accepted
    message as lines with ANSI colour codes.  The other commands send a
    single request each, apart from the upload, which sends three, and
    [main] hands the command line to the cobra library, which reads the
    flags and calls the function of the command it found.

    ** Files, in dependency order

    - [Prelude] (this file): the libraries every file loads; the
      state-and-abort monad [M] in which stateful Go code is written,
      with its notation in [go_scope] and its laws; the predicate
      [preserves] and the tactic [preserves_tac] that carry a preorder
      on states through the text of a computation, and in the same
      way [keeps_returning] (no panic, no exit) and [noExit] (no call
      of [os.Exit]); the tactics and the hint database [go]; lemmas on
      [string]; [forallRange], a check of a range of integers by
      evaluation.
    - [Utf8]: [string(rune)] and [utf8.DecodeRuneInString] with the bit
      operations of the Go library, and their round trip.
    - [GoStrings]: the functions of [strings] and [strconv] that main.go
      calls: [HasPrefix], [Contains], [Split], [ReplaceAll], [Repeat],
      [FormatInt], [ParseInt]; [Split] and [ReplaceAll] by well-founded
      recursion on the length of what is left ([Equations]).
    - [Calendar]: the proleptic Gregorian calendar, a day number from a
      date and back, inverse of each other for every date.
    - [GoTime]: [time.Parse] with the layout [2006-01-02], [Unix],
      [AddDate], [Format] with the layout [2006-01-02 15:04:05], the
      seconds of a timestamp written in decimal, and numbers printed
      in decimal and read back.
    - [Slack]: the structs of main.go (lines 29-37, 133-196), the
      globals [config] and [emojiList], the configuration files, the
      files of the working directory, the requests sent and the text
      printed, as the record [World]; JSON values as [Json]; what
      the program cannot control as the class [Environment];
      [loadConfig], [loadEmojiConfig], [saveConfig], [createConfig],
      [checkAndLoadConfig] (lines 42-131); and the classes [Frame],
      [Saves] and [Stores] of the relations on worlds that the steps of
      the commands respect.
    - [TimeRange]: the bounds of the [--date] argument (lines 285-316)
      and [formatTimestamp] (lines 458-462).
    - [Resolver]: [getUserName] (lines 198-245) on a [Session], the
      world and the cache of the running command.
    - [Reactions]: [unicodeToEmoji] (838-846), [getReactionsString]
      (500-511), [listEmoji] (813-836).
    - [Threads]: [getThreadReplies] (lines 464-498).
    - [Formatter]: the lines of a message, its files and its replies
      (lines 324-327, 377-441).
    - [Paginator]: [fetchMessages] (lines 275-457): the request of a
      page, the loop over the page with its [break], the loop over the
      pages, the printing.
    - [Machine]: the loops of [fetchMessages] (lines 331-456) once
      more, as a transition system: a state for every point of the
      code between which something happens, the relation [step] with a
      rule for every branch, the function [next] that computes it.
    - [Actions]: [sendMessage], [addReaction], [removeReaction],
      [updateMessage], [deleteMessage], [handleError], [handleEmoji]
      (lines 247-273, 660-811).
    - [Files]: [uploadFile] (lines 513-615) and [getFile] (lines
      617-658), with [path.Base] and [path.Ext].
    - [Main]: [main] and the [Run] function of every command (lines
      848-1011), with [strconv.Atoi].
    - [CommandLine]: the commands and flags main.go declares (lines
      853-1004) and [rootCmd.Execute] (line 1008) on the arguments of
      the process, for a command named by the first argument: the loop
      of the flag parser, the conversion of the values, the help flag,
      the check of the number of arguments; [program] is [main] on
      the arguments.
    - [Credentials]: which requests carry a token, and where to.
    - [Persistence]: a process that starts (the globals of lines 39-40
      at their zero values), a sequence of runs, and what a run leaves
      in the files for the next one.

    ** How state and operations correspond to the code

    A Go [string] is a Rocq [string], a sequence of bytes ([ascii]).  Go
    [int] and [int64] values are [Z]; where a width matters the bound is
    a hypothesis of the theorem.  A Go [map[string]string] is an
    [option (gmap string string)], [None] being the nil map (reads
    succeed, a write panics).  A function that reads or writes the
    globals, prints or sends a request is a function
    [W -> Outcome A * W]: it returns a value, exits the process
    ([os.Exit]) or panics, and in each case leaves a state behind.  The
    state [World] holds the globals, the two configuration files (each
    absent, unreadable, holding a value or holding what does not
    decode), the files of the working directory as a map from names to
    contents, the list of requests sent and the list of strings
    printed.  [os.Stat] finds the files of that map, the directories
    every directory has (a dot, two dots, a slash) and the two
    configuration files.  The map
    [userCache] that
    [fetchMessages] creates and shares by reference with [getUserName]
    and [getThreadReplies] is a field of [Session].  A request is
    answered by a function of the [Environment] that sees the requests
    sent before it: [client.Do], [io.ReadAll] and [json.Unmarshal] are
    one step whose result is the decoded struct or the error of the step
    that failed.

    A property that a command keeps whatever it does is a frame: a
    preorder on worlds that printing and loading the emoji table
    respect (class [Frame]), with the writes to the configuration
    ([Saves]), the files stored ([Stores]), the names remembered
    ([Remembers], in [Resolver]) and the requests sent ([admits]) as
    what a command may need in addition.  Every component proves once,
    for every frame, that its functions respect it (the lemmas named
    [_frame]); [Credentials] and [Persistence] give the instances.

    ** What the theorems show

    - [Paginator]: [fetchMessages] equals a reference without loops
      (one request, then the first [limit] accepted messages of the
      reversed page); it sends one request for a page and never a
      cursor; it never needs a second round; the loop over a page never
      renders more than [limit] messages; the loop that swaps the
      messages of a page reverses it; with a map for the names in
      the configuration it returns, without a panic; a malformed date
      range and a failed request end the command with one line.
    - [Machine]: the relation [step] is the function [next] and is
      deterministic; every state the loops can reach is well formed
      (the request is the first one, the count of messages is within
      the limit and at most the number of lines, every line ends with
      a newline), by induction on the run; from every reachable state
      some run halts, and halts as a return when the configuration has
      a map for the names; [fetchMessages] ends with an outcome exactly
      when the machine reaches the halted state with that outcome;
      states that differ in the flag [hasMore] only are bisimilar
      ([Proper] instances for the operations on the loop variables),
      so that the assignment of line 370 is a dead store.
    - [Resolver]: every run of [getUserName] is a case of the relation
      [Resolves]; the two caches stay coherent; a name found is written
      through to both caches and the file; asking again costs no
      request; a failure is not remembered.
    - [TimeRange], [GoTime], [Calendar]: a date selects the 86400
      seconds of its day in UTC, a range runs to the last second of its
      second day, the order of the two dates is not checked; the
      parser accepts exactly the strings the layout prints for the
      dates of the years 0 to 9999; what [FormatInt] prints is read
      back by [ParseUint] in base 10; the time shown for a message is
      the local time of the seconds of its timestamp, the fraction cut
      off, and an empty timestamp is shown as the epoch.
    - [Utf8]: decoding the encoding of a valid code point gives the
      code point and the width of the encoding, whatever follows.
    - [Threads]: the replies are the kept messages in order, with no
      edit mark.
    - [Reactions]: a code-point reference becomes its glyph; a name
      that is no reference and no number gives an empty glyph; a name
      that is a hexadecimal number is taken for a code point.
    - [Formatter]: the search pattern is marked at every occurrence
      and wins over the filter; with empty patterns the colour codes
      are still inserted, at every character; a message is rendered
      as at least one line, and every line ends with a newline; a
      message without a thread costs no request but the lookup of its
      author, and one of a single line whose author is known is shown
      as one line with the pattern marked.
    - [Actions]: [sendMessage] reports success without reading the
      answer; a refusal reaches the caller of [addReaction]; the two
      reaction commands do not agree on the default emoji.
    - [GoStrings]: [ReplaceAll] is [Split] followed by a join; joining
      what [Split] returns gives the string back.
    - [Slack]: how the start-up check ends for every state of the two
      files, and what a first run leaves behind.
    - [Files]: the search for a free file name ends and finds the first
      free numbered name; a download overwrites no file, sends one
      request and prints one line, and panics on a URL that cannot be
      parsed; for a URL without a file name the numbering meant for
      duplicates takes over; an upload sends its three requests in order whatever the
      first answer says, panics when the first request fails, and
      prints the line of success for the right answers only.
    - [Main]: the exit code of the program for every state of the files
      and every command line (no command calls [os.Exit]); the errors
      of a reaction are dropped by [emoji]; [show] with a limit that is
      not positive shows nothing.
    - [CommandLine]: the values the parser collects are of flags of the
      command and of their types, and the arguments it passes on are
      arguments of the command line in their order; the flags of
      [show] written as [--name=value] are read back as written; a
      flag that is not declared is an error, as in three lines of
      [examples]; a negative number is no argument; and the path of
      [slack show N --date D] from the arguments to the one request
      with the bounds of the day, which puts the parser, the start-up
      check, [Atoi], the date range and the paginator together; and
      the path of the download line of [examples] to the file it
      stores, named [(1).].
    - [Credentials]: no command other than [download] sends a token to
      a URL outside [https://slack.com/api/]; [download] sends the user
      token to whatever URL it is given.
    - [Persistence]: no command writes the emoji file, and none but
      [download] changes the files of the directory; with a file
      system that works the configuration file holds the configuration
      of the memory after every run, and so after every sequence of
      runs; a run changes nothing of that file but the names it holds,
      which it never loses; a name that the server gave is found by the next process
      in the file and costs no request; a write that fails leaves a
      file that does not decode, and the next run exits with code 1.

    ** Bounds and fuel

    The loop over the pages has no bound in the source; [historyLoop]
    takes a number of rounds and reports [OutOfFuel] apart from ending.
    [fetchMessages_ends] and [fetchMessages_reference] show that one
    round is enough for every input, so that no result depends on the
    fuel.  The search for a free file name in [getFile] has no bound
    either; [chooseName] gives it one round more than there are names
    taken, and [chooseName_fresh] shows by counting that a free name is
    found within them.  The calendar is checked by evaluation on the 400 years of one
    cycle and the 366 days of a year, and extended to every year by the
    period of the calendar.  The two-digit and four-digit numbers of a date are
    checked by evaluation on 0..99 and 0..9999, the years [time.Parse]
    accepts with this layout.  [ParseInt] has the cutoffs of the Go
    library for every base; the theorems on base 16 and 32 bits, as
    [unicodeToEmoji] calls it, ask for a value below 2^31, those on
    base 0 and 64 bits, as an int flag calls it, for a number of 64
    bits.  [Atoi] accepts the numbers of a Go [int] of 64 bits.  The
    transition system of [Machine] has no fuel: its runs are the
    reflexive transitive closure of [step], and that they end is a
    theorem ([reachable_completes]).  The loops of the flag parser are
    structural on the list of arguments and on the letters of a group
    of shorthands.

    ** What is not modelled

    JSON and HTTP themselves: a response is the decoded value the code
    goes on to use, or the error of the step that failed.
    [strconv.ParseFloat] outside of plain decimal numbers, which the
    environment answers.  The daylight-saving rules of the local zone,
    which the environment gives as an offset for every instant.  The
    order in which Go ranges over a map.  [fmt.Errorf] with a format
    that has a percent sign and no operand.  A failure of
    [http.NewRequest] on a URL the program builds from its own
    constants: it is modelled where the whole URL comes from outside
    ([getFile], the upload URL of [uploadFile]).  Of cobra, what it
    does with a command line whose first argument is not the name of
    a command (flags of the root, unknown commands and the
    suggestions for them, the completion commands it adds), the text
    of its help pages and the quoting of [%q] in its error texts:
    they are the class [Cobra] of [CommandLine], and the spec leaves
    the parsing of the command line out of scope.  What cobra prints
    on the standard error.  The boundary of a multipart
    body, drawn at random, and [time.Sleep].  Failures of the file
    system other than those the environment names (a file that cannot
    be created, a configuration that cannot be opened or written).
    Directories other than the three every directory has: a name of
    the working directory is the name of a file, so that [upload] is
    not given a directory and [download] meets no directory of the
    name it is about to use.  The text of the two configuration files:
    they are the values they decode to, and [upload] is not given one
    of them. *)

From Equations Require Export Equations.
From stdpp Require Export strings list gmap pretty.
From Stdlib Require Export ZArith Lia Ascii.

(** * The state-and-abort monad *)

Declare Scope go_scope.
Delimit Scope go_scope with go.

(** How a Go function ends: it returns, the process exits with a code,
    or a run-time panic unwinds it. *)
Inductive Outcome (A : Type) : Type :=
| Ret (a : A)
| Exit (code : Z)
| Panic (msg : string).
Arguments Ret {A} a.
Arguments Exit {A} code.
Arguments Panic {A} msg.

Definition M (W A : Type) : Type := W -> Outcome A * W.

Definition ret {W A} (a : A) : M W A := fun w => (Ret a, w).

Definition bind {W A B} (m : M W A) (k : A -> M W B) : M W B :=
  fun w =>
    match m w with
    | (Ret a, w') => k a w'
    | (Exit c, w') => (Exit c, w')
    | (Panic p, w') => (Panic p, w')
    end.

Definition get {W} : M W W := fun w => (Ret w, w).
Definition gets {W A} (f : W -> A) : M W A := fun w => (Ret (f w), w).
Definition modify {W} (f : W -> W) : M W unit := fun w => (Ret tt, f w).
Definition exit {W A} (code : Z) : M W A := fun w => (Exit code, w).
Definition panic {W A} (msg : string) : M W A := fun w => (Panic msg, w).

Notation "x <- c1 ;; c2" := (bind c1 (fun x => c2))
  (at level 100, c1 at next level, right associativity) : go_scope.
Notation "c1 ;; c2" := (bind c1 (fun _ => c2))
  (at level 100, right associativity) : go_scope.

(** [for _, x := range l { body x }] with no [break]. *)
Fixpoint forM {W A} (l : list A) (body : A -> M W unit) : M W unit :=
  match l with
  | [] => ret tt
  | x :: l' => bind (body x) (fun _ => forM l' body)
  end.

(** A loop whose body appends lines to a list. *)
Fixpoint collectM {W A B} (body : A -> M W (list B)) (l : list A) : M W (list B) :=
  match l with
  | [] => ret []
  | a :: l' =>
      bind (body a) (fun out => bind (collectM body l') (fun outs => ret (out ++ outs)))
  end.

(** The value a computation returned, if it returned. *)
Definition returned {A} (o : Outcome A) : option A :=
  match o with Ret a => Some a | _ => None end.

(** Running out of rounds: a command whose loop the source leaves
    unbounded is given a number of rounds and returns [false] when they
    are used up. *)
Definition ranOut (o : Outcome bool) : bool :=
  match o with
  | Ret false => true
  | _ => false
  end.

(** * Tactics *)

Create HintDb go discriminated.
Create Rewrite HintDb go.

(** Case analysis on the head [match] or [if] of the goal, keeping the
    equation. *)
Ltac destr_head :=
  match goal with
  | |- context [match ?x with _ => _ end] =>
      lazymatch x with
      | context [match _ with _ => _ end] => fail
      | _ => destruct x eqn:?
      end
  end.

(** Unfold the monad's operations and compute. *)
Ltac munfold := unfold bind, ret, get, gets, modify, exit, panic in *.
Ltac msimpl := munfold; simpl in *.

(** * Monad laws *)

Section MonadLaws.
Context {W A B C : Type}.

Lemma bind_ret_l (a : A) (k : A -> M W B) w : bind (ret a) k w = k a w.
Proof. reflexivity. Qed.

Lemma bind_ret_r (m : M W A) w : bind m ret w = m w.
Proof. unfold bind, ret. by destruct (m w) as [[]]. Qed.

Lemma bind_assoc (m : M W A) (k : A -> M W B) (h : B -> M W C) w :
  bind (bind m k) h w = bind m (fun a => bind (k a) h) w.
Proof. unfold bind. by destruct (m w) as [[]]. Qed.

Lemma bind_Ret (m : M W A) (k : A -> M W B) w a w' :
  m w = (Ret a, w') -> bind m k w = k a w'.
Proof. unfold bind. by intros ->. Qed.
End MonadLaws.

Lemma forM_app {W A} (l1 l2 : list A) (body : A -> M W unit) w :
  forM (l1 ++ l2) body w = bind (forM l1 body) (fun _ => forM l2 body) w.
Proof.
  revert w; induction l1 as [|x l1 IH]; intros w; simpl; [done|].
  rewrite bind_assoc. unfold bind at 1 2.
  destruct (body x w) as [[] ?]; [apply IH|done..].
Qed.

(** * Strings as byte sequences *)

Lemma app_cons_s (c : ascii) (s t : string) :
  String c s +:+ t = String c (s +:+ t).
Proof. reflexivity. Qed.

Lemma app_nil_l_s (s : string) : "" +:+ s = s.
Proof. reflexivity. Qed.

Lemma app_nil_r_s (s : string) : s +:+ "" = s.
Proof. induction s as [|c s IH]; [done|]. by rewrite app_cons_s, IH. Qed.

Lemma app_assoc_s (s t u : string) : (s +:+ t) +:+ u = s +:+ (t +:+ u).
Proof. induction s as [|c s IH]; [done|]. by rewrite !app_cons_s, IH. Qed.

Lemma length_app_s (s t : string) :
  String.length (s +:+ t) = String.length s + String.length t.
Proof. induction s as [|c s IH]; [done|]. rewrite app_cons_s; simpl. by rewrite IH. Qed.

Lemma app_eq_nil_s (s t : string) : s +:+ t = "" -> s = "" /\ t = "".
Proof. by destruct s. Qed.

Lemma app_inv_head_s (s t u : string) : s +:+ t = s +:+ u -> t = u.
Proof. apply (inj (String.app s)). Qed.

Lemma length_zero_s (s : string) : String.length s = 0 -> s = "".
Proof. by destruct s. Qed.

#[export] Hint Rewrite app_nil_l_s app_cons_s app_nil_r_s app_assoc_s length_app_s : go.

(** Simplification with the database [go]. *)
Ltac gosimpl := repeat (autorewrite with go in *; simpl in * ).

(** Rewriting with the database [go], reducing only the projections of
    pairs: definitions stay folded. *)
Ltac gorw := repeat (progress (cbn [fst snd] in *; autorewrite with go in * )).

Lemma app_inv_tail_s (s t u : string) : s +:+ u = t +:+ u -> s = t.
Proof.
  revert t; induction s as [|c s IH]; intros [|d t] H; [done|..].
  1,2: apply (f_equal String.length) in H; gosimpl; lia.
  rewrite !app_cons_s in H. injection H as -> H. f_equal. by apply IH.
Qed.

(** Induction on the length of a string, for the loops that continue on a
    suffix. *)
Lemma string_length_ind (P : string -> Prop) :
  (forall s, (forall t, String.length t < String.length s -> P t) -> P s) ->
  forall s, P s.
Proof.
  intros H s. remember (String.length s) as n eqn:Hn. revert s Hn.
  induction (lt_wf n) as [n _ IH]. intros s ->. apply H.
  intros t Ht. by eapply IH.
Qed.

(** ** Computations that agree *)

Lemma bind_gets {W A B} (f : W -> A) (k : A -> M W B) w : bind (gets f) k w = k (f w) w.
Proof. reflexivity. Qed.

Lemma bind_ext {W A B} (m : M W A) (k k' : A -> M W B) w :
  (forall a w', k a w' = k' a w') -> bind m k w = bind m k' w.
Proof. intros Hk. unfold bind. destruct (m w) as [[a| |] w']; auto. Qed.

Lemma bind_ext_Ret {W A B} (m : M W A) (k k' : A -> M W B) w :
  (forall a w', m w = (Ret a, w') -> k a w' = k' a w') -> bind m k w = bind m k' w.
Proof. intros Hk. unfold bind. destruct (m w) as [[a| |] w']; auto. Qed.

Lemma bind_Exit {W A B} (m : M W A) (k : A -> M W B) w code w' :
  m w = (Exit code, w') -> bind m k w = (Exit code, w').
Proof. unfold bind. by intros ->. Qed.

Lemma bind_Panic {W A B} (m : M W A) (k : A -> M W B) w msg w' :
  m w = (Panic msg, w') -> bind m k w = (Panic msg, w').
Proof. unfold bind. by intros ->. Qed.

(** ** What a computation leaves as it is

    [preserves R m]: the state after [m] is related by [R] to the state
    before it, whether [m] returns, exits or panics.  For a preorder [R]
    the property passes through [bind] and the loops, so that it is
    proved of a function by going through its text. *)

Definition preserves {W A} (R : relation W) (m : M W A) : Prop :=
  forall w, R w (m w).2.

Section Preserves.
Context {W : Type} (R : relation W) `{!PreOrder R}.

Lemma preserves_ret {A} (a : A) : preserves R (ret a).
Proof. intros w. reflexivity. Qed.

Lemma preserves_get : preserves R get.
Proof. intros w. reflexivity. Qed.

Lemma preserves_gets {A} (f : W -> A) : preserves R (gets f).
Proof. intros w. reflexivity. Qed.

Lemma preserves_exit {A} code : preserves R (exit (A := A) code).
Proof. intros w. reflexivity. Qed.

Lemma preserves_panic {A} msg : preserves R (panic (A := A) msg).
Proof. intros w. reflexivity. Qed.

Lemma preserves_modify (f : W -> W) : (forall w, R w (f w)) -> preserves R (modify f).
Proof. intros Hf w. apply Hf. Qed.

Lemma preserves_bind {A B} (m : M W A) (k : A -> M W B) :
  preserves R m -> (forall a, preserves R (k a)) -> preserves R (bind m k).
Proof.
  intros Hm Hk w. specialize (Hm w). unfold bind.
  destruct (m w) as [[a| |] w']; [|done..]. etrans; [exact Hm|apply Hk].
Qed.

Lemma preserves_forM {A} (l : list A) (body : A -> M W unit) :
  (forall a, preserves R (body a)) -> preserves R (forM l body).
Proof.
  intros Hb. induction l as [|a l IH]; [apply preserves_ret|].
  by apply preserves_bind.
Qed.

Lemma preserves_collectM {A B} (body : A -> M W (list B)) (l : list A) :
  (forall a, preserves R (body a)) -> preserves R (collectM body l).
Proof.
  intros Hb. induction l as [|a l IH]; [apply preserves_ret|].
  apply preserves_bind; [done|]. intros out.
  apply preserves_bind; [done|]. intros outs. apply preserves_ret.
Qed.

End Preserves.

#[export] Hint Resolve preserves_ret preserves_get preserves_gets preserves_exit
  preserves_panic : go.
#[export] Hint Extern 1 (PreOrder _) => tc_solve : go.

(** Goes through the text of a computation: binds are split, tests are
    decided both ways, and what is left is given to the hints. *)
Ltac preserves_step :=
  first
    [ solve [eauto with go]
    | apply preserves_bind; [tc_solve| |intros ?]
    | apply preserves_forM; [tc_solve|intros ?]
    | apply preserves_collectM; [tc_solve|intros ?]
    | case_match
    | case_decide ].
Ltac preserves_tac := repeat preserves_step.

(** ** Computations that return

    [keeps_returning I m]: from a state where [I] holds, [m] returns a
    value (it neither exits nor panics) and [I] holds again. *)

Definition keeps_returning {W A} (I : W -> Prop) (m : M W A) : Prop :=
  forall w, I w -> I (m w).2 /\ is_Some (returned (m w).1).

Section Returning.
Context {W : Type} (I : W -> Prop).

Lemma returning_ret {A} (a : A) : keeps_returning I (ret a).
Proof. by intros w Hw. Qed.

Lemma returning_get : keeps_returning I get.
Proof. by intros w Hw. Qed.

Lemma returning_gets {A} (f : W -> A) : keeps_returning I (gets f).
Proof. by intros w Hw. Qed.

Lemma returning_modify (f : W -> W) :
  (forall w, I w -> I (f w)) -> keeps_returning I (modify f).
Proof. intros Hf w Hw. split; [by apply Hf|done]. Qed.

Lemma returning_bind {A B} (m : M W A) (k : A -> M W B) :
  keeps_returning I m -> (forall a, keeps_returning I (k a)) ->
  keeps_returning I (bind m k).
Proof.
  intros Hm Hk w Hw. destruct (Hm w Hw) as [Hw' Hr]. unfold bind.
  destruct (m w) as [[a| |] w']; [by apply Hk|by destruct Hr..].
Qed.

Lemma returning_forM {A} (l : list A) (body : A -> M W unit) :
  (forall a, keeps_returning I (body a)) -> keeps_returning I (forM l body).
Proof.
  intros Hb. induction l as [|a l IH]; [apply returning_ret|].
  by apply returning_bind.
Qed.

Lemma returning_collectM {A B} (body : A -> M W (list B)) (l : list A) :
  (forall a, keeps_returning I (body a)) -> keeps_returning I (collectM body l).
Proof.
  intros Hb. induction l as [|a l IH]; [apply returning_ret|].
  apply returning_bind; [done|]. intros out.
  apply returning_bind; [done|]. intros outs. apply returning_ret.
Qed.

End Returning.

#[export] Hint Resolve returning_ret returning_get returning_gets : go.

Ltac returning_step :=
  first
    [ solve [eauto with go]
    | apply returning_bind; [|intros ?]
    | apply returning_forM; intros ?
    | apply returning_collectM; intros ?
    | case_match
    | case_decide ].
Ltac returning_tac := repeat returning_step.

(** ** What a collection holds *)

Section CollectM.
Context {W A B : Type}.

(** What holds of every output of the body holds of the collection. *)
Lemma collectM_Forall (P : B -> Prop) (body : A -> M W (list B)) l s outs s' :
  (forall a s out s', body a s = (Ret out, s') -> Forall P out) ->
  collectM body l s = (Ret outs, s') -> Forall P outs.
Proof.
  intros Hb. revert s outs s'. induction l as [|a l IH]; intros s outs s'; cbn [collectM].
  - by intros [= <- _].
  - unfold bind at 1. destruct (body a s) as [[out| |] s1] eqn:Ea; [|done..].
    unfold bind at 1. destruct (collectM body l s1) as [[rest| |] s2] eqn:El; [|done..].
    intros [= <- _]. apply Forall_app. split; [by eapply Hb|by eapply IH].
Qed.
End CollectM.

(** ** Computations that do not end the process

    [noExit m]: whatever the state, [m] does not call [os.Exit]; it
    returns or panics. *)

(** The code a computation ended the process with. *)
Definition exitCode {A} (o : Outcome A) : option Z :=
  match o with
  | Exit code => Some code
  | _ => None
  end.

Definition noExit {W A} (m : M W A) : Prop := forall w, exitCode (m w).1 = None.

Section NoExit.
Context {W : Type}.

Lemma noExit_ret {A} (a : A) : noExit (ret (W:=W) a).
Proof. done. Qed.

Lemma noExit_get : noExit (get (W:=W)).
Proof. done. Qed.

Lemma noExit_gets {A} (f : W -> A) : noExit (gets f).
Proof. done. Qed.

Lemma noExit_modify (f : W -> W) : noExit (modify f).
Proof. done. Qed.

Lemma noExit_panic {A} msg : noExit (panic (W:=W) (A:=A) msg).
Proof. done. Qed.

Lemma noExit_bind {A B} (m : M W A) (k : A -> M W B) :
  noExit m -> (forall a, noExit (k a)) -> noExit (bind m k).
Proof.
  intros Hm Hk w. specialize (Hm w). unfold bind.
  destruct (m w) as [[a| |] w']; [apply Hk|done..].
Qed.

Lemma noExit_forM {A} (l : list A) (body : A -> M W unit) :
  (forall a, noExit (body a)) -> noExit (forM l body).
Proof.
  intros Hb. induction l as [|a l IH]; [apply noExit_ret|]. by apply noExit_bind.
Qed.

Lemma noExit_collectM {A B} (body : A -> M W (list B)) (l : list A) :
  (forall a, noExit (body a)) -> noExit (collectM body l).
Proof.
  intros Hb. induction l as [|a l IH]; [apply noExit_ret|].
  apply noExit_bind; [done|]. intros out.
  apply noExit_bind; [done|]. intros outs. apply noExit_ret.
Qed.

(** The code of a sequence is the code of its first part, or of what
    follows when that returns. *)
Lemma exitCode_bind {A B} (m : M W A) (k : A -> M W B) w :
  exitCode (bind m k w).1
  = match (m w).1 with
    | Ret a => exitCode (k a (m w).2).1
    | Exit code => Some code
    | Panic _ => None
    end.
Proof. unfold bind. by destruct (m w) as [[a| |] w']. Qed.

End NoExit.

#[export] Hint Resolve noExit_ret noExit_get noExit_gets noExit_modify noExit_panic : go.

Ltac noExit_step :=
  first
    [ solve [eauto with go]
    | apply noExit_bind; [|intros ?]
    | apply noExit_forM; intros ?
    | apply noExit_collectM; intros ?
    | case_match
    | case_decide ].
Ltac noExit_tac := repeat noExit_step.

(** ** Checking a range of integers by computation *)

(** [f] holds of the [p] integers from [a] on; the range is halved at
    each step, so that a large range is checked without a list of it. *)
Fixpoint forallRange (f : Z -> bool) (a : Z) (p : positive) : bool :=
  match p with
  | xH => f a
  | xO q => forallRange f a q && forallRange f (a + Z.pos q) q
  | xI q => f a && forallRange f (a + 1) q && forallRange f (a + 1 + Z.pos q) q
  end.

Lemma forallRange_spec (f : Z -> bool) (p : positive) (a : Z) :
  forallRange f a p = true ->
  forall x : Z, (a <= x < a + Z.pos p)%Z -> f x = true.
Proof.
  revert a; induction p as [q IH|q IH|]; intros a; cbn [forallRange].
  - intros [[Ha H1]%andb_prop H2]%andb_prop x Hx.
    destruct (decide (x = a)) as [->|]; [done|].
    destruct (decide (x < a + 1 + Z.pos q)%Z); [apply (IH _ H1)|apply (IH _ H2)]; lia.
  - intros [H1 H2]%andb_prop x Hx.
    destruct (decide (x < a + Z.pos q)%Z); [apply (IH _ H1)|apply (IH _ H2)]; lia.
  - intros Ha x Hx. by replace x with a by lia.
Qed.
