(* ===== verification/Utf8.v ===== *)
(** * UTF-8, as Go's [unicode/utf8] and the conversion [string(rune)]

    main.go turns a code point into a glyph with [string(rune(v))]
    ([unicodeToEmoji]) and, through [strings.ReplaceAll] with an empty
    pattern, depends on where Go's decoder sees rune boundaries.  This
    file holds both directions with the bit operations of the Go
    library, the widths the decoder reports, the slices [s[n:]] and
    [s[:n]] with their lemmas, and the round trip: decoding what was
    encoded gives the code point back, proved from the bit operations by
    turning them into divisions and remainders. *)

From S2P Require Import Prelude.

Local Open Scope Z_scope.

(** ** Bytes *)

Definition byteZ (c : ascii) : Z := Z.of_N (N_of_ascii c).

(** Go's conversion [byte(x)]: the low eight bits. *)
Definition byte_of (z : Z) : ascii := ascii_of_N (Z.to_N (z mod 256)).

(** ** Constants of unicode/utf8 *)

Definition RuneError : Z := 0xFFFD.
Definition MaxRune : Z := 0x10FFFF.
Definition surrogateMin : Z := 0xD800.
Definition surrogateMax : Z := 0xDFFF.
Definition rune1Max : Z := 0x7F.
Definition rune2Max : Z := 0x7FF.
Definition rune3Max : Z := 0xFFFF.
Definition locb : Z := 0x80.
Definition hicb : Z := 0xBF.

(** A code point that has an encoding of its own. *)
Definition ValidRune (r : Z) : bool :=
  ((0 <=? r) && (r <? surrogateMin)) || ((surrogateMax <? r) && (r <=? MaxRune)).

(** ** Encoding: [utf8.AppendRune], which [string(rune)] uses *)

Definition EncodeRune (r : Z) : string :=
  if (0 <=? r) && (r <=? rune1Max) then
    String (byte_of r) ""
  else if (0 <=? r) && (r <=? rune2Max) then
    String (byte_of (Z.lor 0xC0 (Z.shiftr r 6)))
      (String (byte_of (Z.lor 0x80 (Z.land r 0x3F))) "")
  else
    let r := if ValidRune r then r else RuneError in
    if r <=? rune3Max then
      String (byte_of (Z.lor 0xE0 (Z.shiftr r 12)))
        (String (byte_of (Z.lor 0x80 (Z.land (Z.shiftr r 6) 0x3F)))
           (String (byte_of (Z.lor 0x80 (Z.land r 0x3F))) ""))
    else
      String (byte_of (Z.lor 0xF0 (Z.shiftr r 18)))
        (String (byte_of (Z.lor 0x80 (Z.land (Z.shiftr r 12) 0x3F)))
           (String (byte_of (Z.lor 0x80 (Z.land (Z.shiftr r 6) 0x3F)))
              (String (byte_of (Z.lor 0x80 (Z.land r 0x3F))) ""))).

(** [utf8.RuneLen]: the bytes of a code point, 0 for one that has no
    encoding. *)
Definition RuneLen (r : Z) : nat :=
  if r <? 0 then 0
  else if r <=? rune1Max then 1
  else if r <=? rune2Max then 2
  else if (surrogateMin <=? r) && (r <=? surrogateMax) then 0
  else if r <=? rune3Max then 3
  else if r <=? MaxRune then 4
  else 0.

(** ** Decoding: [utf8.DecodeRuneInString] *)

(** The table [first] and [acceptRanges]: what a leading byte announces. *)
Inductive FirstByte : Type :=
| FAscii
| FInvalid
| FLead (size : nat) (lo hi : Z).

Definition first (b : Z) : FirstByte :=
  if b <? 0x80 then FAscii
  else if b <? 0xC2 then FInvalid
  else if b <? 0xE0 then FLead 2 locb hicb
  else if b =? 0xE0 then FLead 3 0xA0 hicb
  else if b <? 0xED then FLead 3 locb hicb
  else if b =? 0xED then FLead 3 locb 0x9F
  else if b <? 0xF0 then FLead 3 locb hicb
  else if b =? 0xF0 then FLead 4 0x90 hicb
  else if b <? 0xF4 then FLead 4 locb hicb
  else if b =? 0xF4 then FLead 4 locb 0x8F
  else FInvalid.

Definition outside (lo hi b : Z) : bool := (b <? lo) || (hi <? b).

Definition DecodeRuneInString (s : string) : Z * nat :=
  match s with
  | "" => (RuneError, 0%nat)
  | String c0 t0 =>
      let s0 := byteZ c0 in
      match first s0 with
      | FAscii => (s0, 1%nat)
      | FInvalid => (RuneError, 1%nat)
      | FLead sz lo hi =>
          if (String.length s <? sz)%nat then (RuneError, 1%nat) else
          match t0 with
          | "" => (RuneError, 1%nat)
          | String c1 t1 =>
              let s1 := byteZ c1 in
              if outside lo hi s1 then (RuneError, 1%nat) else
              if (sz <=? 2)%nat then
                (Z.lor (Z.shiftl (Z.land s0 0x1F) 6) (Z.land s1 0x3F), 2%nat)
              else
              match t1 with
              | "" => (RuneError, 1%nat)
              | String c2 t2 =>
                  let s2 := byteZ c2 in
                  if outside locb hicb s2 then (RuneError, 1%nat) else
                  if (sz <=? 3)%nat then
                    (Z.lor (Z.lor (Z.shiftl (Z.land s0 0x0F) 12)
                                  (Z.shiftl (Z.land s1 0x3F) 6))
                           (Z.land s2 0x3F), 3%nat)
                  else
                  match t2 with
                  | "" => (RuneError, 1%nat)
                  | String c3 _ =>
                      let s3 := byteZ c3 in
                      if outside locb hicb s3 then (RuneError, 1%nat) else
                      (Z.lor (Z.lor (Z.lor (Z.shiftl (Z.land s0 0x07) 18)
                                           (Z.shiftl (Z.land s1 0x3F) 12))
                                    (Z.shiftl (Z.land s2 0x3F) 6))
                             (Z.land s3 0x3F), 4%nat)
                  end
              end
          end
      end
  end.

(** The width of the first rune of [s], as [ReplaceAll] and [explode]
    step over it. *)
Definition runeWidth (s : string) : nat := snd (DecodeRuneInString s).

(** ** Slicing *)

(** [s[n:]], clipped at the end of [s]. *)
Fixpoint dropS (n : nat) (s : string) : string :=
  match n, s with
  | S n', String _ s' => dropS n' s'
  | _, _ => s
  end.

(** [s[:n]], clipped at the end of [s]. *)
Fixpoint takeS (n : nat) (s : string) : string :=
  match n, s with
  | S n', String c s' => String c (takeS n' s')
  | _, _ => ""
  end.

(** ** Facts on slices *)

Lemma takeS_dropS n s : takeS n s +:+ dropS n s = s.
Proof.
  revert s; induction n as [|n IH]; intros [|c s]; simpl; try done.
  by rewrite app_cons_s, IH.
Qed.

Lemma length_dropS n s : String.length (dropS n s) = (String.length s - n)%nat.
Proof. revert s; induction n as [|n IH]; intros [|c s]; simpl; auto. Qed.

Lemma length_takeS n s : String.length (takeS n s) = (n `min` String.length s)%nat.
Proof. revert s; induction n as [|n IH]; intros [|c s]; simpl; auto. Qed.

Lemma dropS_app s t : dropS (String.length s) (s +:+ t) = t.
Proof. induction s as [|c s IH]; [by destruct t|done]. Qed.

Lemma takeS_app s t : takeS (String.length s) (s +:+ t) = s.
Proof.
  induction s as [|c s IH]; [by destruct t|].
  rewrite app_cons_s; simpl. by rewrite IH.
Qed.

#[export] Hint Rewrite takeS_dropS length_dropS length_takeS dropS_app takeS_app : go.

(** ** Widths *)

Lemma runeWidth_nil : runeWidth "" = 0%nat.
Proof. reflexivity. Qed.

(** The decoder consumes between one and four bytes of a string that has
    any, and never more than there are. *)
Lemma runeWidth_bounds c s :
  (1 <= runeWidth (String c s) <= 4)%nat /\
  (runeWidth (String c s) <= String.length (String c s))%nat.
Proof.
  unfold runeWidth, DecodeRuneInString.
  repeat (destr_head; simpl in *; try lia).
Qed.

Lemma runeWidth_pos c s : (0 < runeWidth (String c s))%nat.
Proof. pose proof (runeWidth_bounds c s). lia. Qed.

Lemma runeWidth_le s : (runeWidth s <= String.length s)%nat.
Proof.
  destruct s as [|c s]; [done|]. pose proof (runeWidth_bounds c s). lia.
Qed.

(** * The round trip *)

(** ** Bytes and bits as arithmetic *)

Lemma byteZ_byte_of z : byteZ (byte_of z) = z mod 256.
Proof.
  unfold byteZ, byte_of. pose proof (Z.mod_pos_bound z 256 eq_refl).
  rewrite N_ascii_embedding by lia. lia.
Qed.

Lemma byteZ_range c : 0 <= byteZ c < 256.
Proof. unfold byteZ. pose proof (N_ascii_bounded c). lia. Qed.

Lemma byteZ_inj c d : byteZ c = byteZ d -> c = d.
Proof.
  unfold byteZ. intros Hcd%N2Z.inj.
  by rewrite <- (ascii_N_embedding c), <- (ascii_N_embedding d), Hcd.
Qed.

(** Bits put above a number that is below them are added to it. *)
Lemma lor_above hi x n :
  0 <= n -> 0 <= x < 2 ^ n -> Z.lor (hi * 2 ^ n) x = hi * 2 ^ n + x.
Proof.
  intros Hn Hx. rewrite <- Z.lxor_lor; [symmetry; apply Z.add_nocarry_lxor|].
  all: apply Z.bits_inj'; intros i Hi; rewrite Z.land_spec, Z.bits_0.
  all: destruct (Z.lt_ge_cases i n);
    [by rewrite Z.mul_pow2_bits_low|
     rewrite <- (Z.mod_small x (2 ^ n)), Z.mod_pow2_bits_high by lia;
     apply andb_false_r].
Qed.

Lemma land_low x n : 0 <= n -> Z.land x (2 ^ n - 1) = x mod 2 ^ n.
Proof. intros Hn. rewrite <- Z.land_ones by done. by rewrite Z.ones_equiv, Z.sub_1_r. Qed.

Ltac zdm := Z.div_mod_to_equations; lia.

(** The continuation byte for the six bits of [x]. *)
Lemma byteZ_continuation x :
  byteZ (byte_of (Z.lor 0x80 (Z.land x 0x3F))) = 0x80 + x mod 64.
Proof.
  change 0x3F with (2 ^ 6 - 1). rewrite land_low by lia.
  pose proof (Z.mod_pos_bound x (2 ^ 6) eq_refl).
  rewrite (lor_above 2 _ 6), byteZ_byte_of by lia. change (2 ^ 6) with 64 in *. zdm.
Qed.

(** The leading byte: the high bits from [lead], the [n] low bits from
    [x]. *)
Lemma byteZ_leading lead x n :
  0 <= n -> 0 <= lead -> lead mod 2 ^ n = 0 -> lead + 2 ^ n <= 256 -> 0 <= x < 2 ^ n ->
  byteZ (byte_of (Z.lor lead x)) = lead + x.
Proof.
  intros Hn Hl Hm Hb Hx. rewrite (Z.div_mod lead (2 ^ n)), Hm, Z.add_0_r, Z.mul_comm by lia.
  rewrite lor_above, byteZ_byte_of by lia. apply Z.mod_small.
  pose proof (Z.div_mod lead (2 ^ n)). nia.
Qed.

(** A continuation byte is in the range of every table entry that does
    not narrow it, and gives its six bits back. *)
Lemma continuation_inside y : 0 <= y < 64 -> outside locb hicb (0x80 + y) = false.
Proof. intros Hy. unfold outside, locb, hicb. lia. Qed.

Lemma continuation_bits y : 0 <= y < 64 -> Z.land (0x80 + y) 0x3F = y.
Proof. intros Hy. change 0x3F with (2 ^ 6 - 1). rewrite land_low by lia. change (2^6) with 64. zdm. Qed.

Lemma Decode_Encode_1 r rest :
  0 <= r <= rune1Max -> DecodeRuneInString (EncodeRune r +:+ rest) = (r, 1%nat).
Proof.
  intros Hr. unfold rune1Max in *. unfold EncodeRune.
  replace ((0 <=? r) && (r <=? rune1Max)) with true by (unfold rune1Max; lia).
  rewrite app_cons_s. cbn [DecodeRuneInString].
  rewrite byteZ_byte_of, Z.mod_small by lia. unfold first.
  by replace (r <? 0x80) with true by lia.
Qed.

Lemma Decode_Encode_2 r rest :
  rune1Max < r <= rune2Max -> DecodeRuneInString (EncodeRune r +:+ rest) = (r, 2%nat).
Proof.
  intros Hr. unfold rune1Max, rune2Max in *. unfold EncodeRune.
  replace ((0 <=? r) && (r <=? rune1Max)) with false by (unfold rune1Max; lia).
  replace ((0 <=? r) && (r <=? rune2Max)) with true by (unfold rune2Max; lia).
  rewrite !app_cons_s. cbn [DecodeRuneInString String.length].
  rewrite Z.shiftr_div_pow2 by lia. change (2 ^ 6) with 64.
  assert (2 <= r / 64 < 32) as Ha by zdm.
  pose proof (Z.mod_pos_bound r 64 eq_refl) as Hb.
  rewrite (byteZ_leading 0xC0 (r / 64) 5), byteZ_continuation by (done || lia).
  assert (first (0xC0 + r / 64) = FLead 2 locb hicb) as ->.
  { unfold first. repeat (case_match; try lia). done. }
  cbn [Nat.ltb Nat.leb]. rewrite continuation_inside, continuation_bits by done. cbn [Nat.leb].
  f_equal. change 0x1F with (2 ^ 5 - 1). rewrite land_low, Z.shiftl_mul_pow2 by lia.
  rewrite lor_above by (change (2^6) with 64; lia). change (2^6) with 64. change (2^5) with 32. zdm.
Qed.

(** What the table says of the first byte of three, and that the second
    byte is in the range it asks for: the range is narrowed where an
    overlong form or a surrogate would start. *)
Lemma first_3 a b :
  0 <= a < 16 -> 0 <= b < 64 -> (a = 0 -> 32 <= b) -> (a = 13 -> b < 32) ->
  exists lo hi, first (0xE0 + a) = FLead 3 lo hi /\ outside lo hi (0x80 + b) = false.
Proof.
  intros Ha Hb H0 H13. unfold first, outside, locb, hicb.
  repeat (case_match; try lia); eexists _, _; (split; [done|lia]).
Qed.

Lemma first_4 a b :
  0 <= a <= 4 -> 0 <= b < 64 -> (a = 0 -> 16 <= b) -> (a = 4 -> b < 16) ->
  exists lo hi, first (0xF0 + a) = FLead 4 lo hi /\ outside lo hi (0x80 + b) = false.
Proof.
  intros Ha Hb H0 H4. unfold first, outside, locb, hicb.
  repeat (case_match; try lia); eexists _, _; (split; [done|lia]).
Qed.

Lemma Decode_Encode_3 r rest :
  rune2Max < r <= rune3Max -> ValidRune r = true ->
  DecodeRuneInString (EncodeRune r +:+ rest) = (r, 3%nat).
Proof.
  intros Hr Hv. unfold rune2Max, rune3Max in *. unfold EncodeRune. rewrite Hv.
  replace ((0 <=? r) && (r <=? rune1Max)) with false by (unfold rune1Max; lia).
  replace ((0 <=? r) && (r <=? rune2Max)) with false by (unfold rune2Max; lia).
  replace (r <=? rune3Max) with true by (unfold rune3Max; lia).
  rewrite !app_cons_s. cbn [DecodeRuneInString String.length].
  rewrite !Z.shiftr_div_pow2 by lia. change (2 ^ 6) with 64. change (2 ^ 12) with 4096.
  assert (0 <= r / 4096 < 16) as Ha by zdm.
  pose proof (Z.mod_pos_bound (r / 64) 64 eq_refl) as Hb.
  pose proof (Z.mod_pos_bound r 64 eq_refl) as Hc.
  rewrite (byteZ_leading 0xE0 (r / 4096) 4), !byteZ_continuation by (done || lia).
  destruct (first_3 (r / 4096) ((r / 64) mod 64)) as (lo & hi & -> & ->);
    [done|done|unfold ValidRune, surrogateMin, surrogateMax, MaxRune in Hv; zdm..|].
  cbn [Nat.ltb Nat.leb]. rewrite continuation_inside, !continuation_bits by done.
  f_equal. change 0x0F with (2 ^ 4 - 1). rewrite land_low, !Z.shiftl_mul_pow2 by lia.
  set (a := (0xE0 + r / 4096) mod 2 ^ 4) in *. set (b := (r / 64) mod 64) in *.
  assert (a = r / 4096) as Ea by (unfold a; change (2 ^ 4) with 16; zdm).
  rewrite (lor_above a (b * 2 ^ 6) 12) by lia.
  replace (a * 2 ^ 12 + b * 2 ^ 6) with ((a * 64 + b) * 2 ^ 6) by lia.
  rewrite lor_above by lia. unfold b. change (2 ^ 6) with 64. zdm.
Qed.

Lemma Decode_Encode_4 r rest :
  rune3Max < r <= MaxRune ->
  DecodeRuneInString (EncodeRune r +:+ rest) = (r, 4%nat).
Proof.
  intros Hr. unfold rune3Max, MaxRune in *. unfold EncodeRune.
  replace (ValidRune r) with true
    by (unfold ValidRune, surrogateMin, surrogateMax, MaxRune; lia).
  replace ((0 <=? r) && (r <=? rune1Max)) with false by (unfold rune1Max; lia).
  replace ((0 <=? r) && (r <=? rune2Max)) with false by (unfold rune2Max; lia).
  replace (r <=? rune3Max) with false by (unfold rune3Max; lia).
  rewrite !app_cons_s. cbn [DecodeRuneInString String.length].
  rewrite !Z.shiftr_div_pow2 by lia.
  change (2 ^ 6) with 64. change (2 ^ 12) with 4096. change (2 ^ 18) with 262144.
  assert (0 <= r / 262144 <= 4) as Ha by zdm.
  pose proof (Z.mod_pos_bound (r / 4096) 64 eq_refl) as Hb.
  pose proof (Z.mod_pos_bound (r / 64) 64 eq_refl) as Hc.
  pose proof (Z.mod_pos_bound r 64 eq_refl) as Hd.
  rewrite (byteZ_leading 0xF0 (r / 262144) 3), !byteZ_continuation by (done || lia).
  destruct (first_4 (r / 262144) ((r / 4096) mod 64)) as (lo & hi & -> & ->);
    [done|done|zdm..|].
  cbn [Nat.ltb Nat.leb]. rewrite !continuation_inside, !continuation_bits by done.
  f_equal. change 0x07 with (2 ^ 3 - 1). rewrite land_low, !Z.shiftl_mul_pow2 by lia.
  set (a := (0xF0 + r / 262144) mod 2 ^ 3) in *.
  set (b := (r / 4096) mod 64) in *. set (c := (r / 64) mod 64) in *.
  assert (a = r / 262144) as Ea by (unfold a; change (2 ^ 3) with 8; zdm).
  rewrite (lor_above a (b * 2 ^ 12) 18) by lia.
  replace (a * 2 ^ 18 + b * 2 ^ 12) with ((a * 64 + b) * 2 ^ 12) by lia.
  rewrite (lor_above _ (c * 2 ^ 6) 12) by lia.
  replace ((a * 64 + b) * 2 ^ 12 + c * 2 ^ 6) with (((a * 64 + b) * 64 + c) * 2 ^ 6) by lia.
  rewrite lor_above by lia. unfold b, c. change (2 ^ 6) with 64. zdm.
Qed.

Ltac rune_ranges :=
  unfold ValidRune, RuneLen, rune1Max, rune2Max, rune3Max, surrogateMin, surrogateMax,
    MaxRune, RuneError in *.

Lemma RuneLen_bounds r : ValidRune r = true -> (1 <= RuneLen r <= 4)%nat.
Proof. rune_ranges. intros Hv. repeat case_match; lia. Qed.

Lemma length_EncodeRune r : ValidRune r = true -> String.length (EncodeRune r) = RuneLen r.
Proof.
  intros Hv. unfold EncodeRune. rewrite Hv. rune_ranges.
  repeat case_match; (done || lia).
Qed.

(** C16. Decoding what was encoded gives the code point back: for every
    code point that has an encoding of its own (not a surrogate, not
    beyond U+10FFFF) and whatever follows its bytes, the decoder of
    [utf8.DecodeRuneInString] returns the code point and the number of
    bytes [string(rune)] wrote for it, between one and four. *)
Theorem Decode_Encode r rest :
  ValidRune r = true ->
  DecodeRuneInString (EncodeRune r +:+ rest) = (r, String.length (EncodeRune r)).
Proof.
  intros Hv. rewrite length_EncodeRune by done. pose proof Hv as Hr. unfold RuneLen.
  unfold ValidRune in Hr.
  repeat case_match; rune_ranges; try lia;
    first [apply Decode_Encode_1 | apply Decode_Encode_2 | apply Decode_Encode_3
          | apply Decode_Encode_4]; rune_ranges; (done || lia).
Qed.

(** A code point without an encoding is written as U+FFFD. *)
Lemma EncodeRune_invalid r : ValidRune r = false -> EncodeRune r = EncodeRune RuneError.
Proof.
  intros Hv. unfold EncodeRune. rewrite Hv. rune_ranges.
  repeat case_match; (done || lia).
Qed.

Lemma Decode_Encode_invalid r rest :
  ValidRune r = false -> DecodeRuneInString (EncodeRune r +:+ rest) = (RuneError, 3%nat).
Proof.
  intros Hv. rewrite EncodeRune_invalid by done. by apply Decode_Encode_3.
Qed.

Lemma Decode_Encode_witness :
  DecodeRuneInString (EncodeRune 0x2705 +:+ ":2") = (0x2705, String.length (EncodeRune 0x2705)).
Proof. apply (Decode_Encode 0x2705 ":2"). reflexivity. Defined.
