(* ===== verification/GoStrings.v ===== *)
(** * Go's [strings] and [strconv], as far as main.go calls them

    [HasPrefix], [Index], [Contains], [Cut], [Split], [ReplaceAll],
    [Repeat] and [Count] over byte strings, [FormatInt] and the
    hexadecimal [ParseInt] that [unicodeToEmoji] calls.  [Split] and
    [ReplaceAll] follow the loops of the Go library: find the next
    occurrence with [Index], emit what stands before it, continue behind
    it.  The recursion is on the length of what is left, by [Equations].
    [Join] is not called by the program: it states what [Split] and
    [ReplaceAll] compute. *)

From S2P Require Import Prelude Utf8.

(** ** Prefixes and occurrences *)

Fixpoint HasPrefix (s prefix : string) : bool :=
  match prefix, s with
  | "", _ => true
  | String p prefix', String c s' =>
      if decide (c = p) then HasPrefix s' prefix' else false
  | String _ _, "" => false
  end.

(** [strings.Index]: the byte offset of the first occurrence, [None] for
    Go's [-1]. *)
Fixpoint Index (s substr : string) : option nat :=
  if HasPrefix s substr then Some 0
  else match s with
       | "" => None
       | String _ s' => S <$> Index s' substr
       end.

Definition Contains (s substr : string) : bool :=
  match Index s substr with Some _ => true | None => false end.

(** [strings.Cut]: the text before and after the first occurrence. *)
Definition Cut (s sep : string) : option (string * string) :=
  match Index s sep with
  | Some i => Some (takeS i s, dropS (i + String.length sep) s)
  | None => None
  end.

Fixpoint Repeat (s : string) (count : nat) : string :=
  match count with
  | O => ""
  | S n => s +:+ Repeat s n
  end.

Fixpoint Join (elems : list string) (sep : string) : string :=
  match elems with
  | [] => ""
  | [x] => x
  | x :: rest => x +:+ sep +:+ Join rest sep
  end.

(** ** Facts on prefixes and occurrences *)

Lemma HasPrefix_nil s : HasPrefix s "" = true.
Proof. by destruct s. Qed.

Lemma HasPrefix_app p t : HasPrefix (p +:+ t) p = true.
Proof.
  induction p as [|c p IH]; [apply HasPrefix_nil|].
  rewrite app_cons_s; simpl. by rewrite decide_True.
Qed.

Lemma HasPrefix_inv s p : HasPrefix s p = true -> s = p +:+ dropS (String.length p) s.
Proof.
  revert s; induction p as [|c p IH]; intros [|d s]; simpl; try done.
  case_decide; [|done]. intros Hp%IH. rewrite app_cons_s. congruence.
Qed.

Lemma HasPrefix_spec s p : HasPrefix s p = true <-> exists t, s = p +:+ t.
Proof.
  split; [intros H%HasPrefix_inv; eauto|]. intros [t ->]. apply HasPrefix_app.
Qed.

Lemma HasPrefix_app_l s t p : HasPrefix s p = true -> HasPrefix (s +:+ t) p = true.
Proof.
  intros [u ->]%HasPrefix_spec. rewrite app_assoc_s. apply HasPrefix_app.
Qed.

Lemma HasPrefix_length s p :
  HasPrefix s p = true -> String.length p <= String.length s.
Proof. intros [t ->]%HasPrefix_spec. rewrite length_app_s. lia. Qed.

Lemma Index_nil sep : Index "" sep = if HasPrefix "" sep then Some 0 else None.
Proof. reflexivity. Qed.

Lemma Index_cons c s sep :
  Index (String c s) sep =
  if HasPrefix (String c s) sep then Some 0 else S <$> Index s sep.
Proof. reflexivity. Qed.

(** Induction on the string [Index] scans, with the three ways a scan
    step can go. *)
Lemma Index_ind (sep : string) (P : string -> option nat -> Prop) :
  (forall s, HasPrefix s sep = true -> P s (Some 0)) ->
  (HasPrefix "" sep = false -> P "" None) ->
  (forall c s, HasPrefix (String c s) sep = false ->
     P s (Index s sep) -> P (String c s) (S <$> Index s sep)) ->
  forall s, P s (Index s sep).
Proof.
  intros Hhit Hend Hstep. induction s as [|c s IH].
  - rewrite Index_nil. destruct (HasPrefix "" sep) eqn:E; auto.
  - rewrite Index_cons. destruct (HasPrefix (String c s) sep) eqn:E; auto.
Qed.

Ltac index_induction s sep :=
  pattern s, (Index s sep);
  match goal with
  | |- ?P s (Index s sep) => refine (Index_ind sep P _ _ _ s); clear s; cbv beta
  end.

(** The occurrence [Index] finds is an occurrence. *)
Lemma Index_Some s sep i :
  Index s sep = Some i ->
  s = takeS i s +:+ sep +:+ dropS (i + String.length sep) s.
Proof.
  revert i. index_induction s sep; [intros s H|intros H|intros c s H IH]; intros i Hi.
  - injection Hi as <-. by apply HasPrefix_inv.
  - done.
  - destruct (Index s sep) as [j|]; [|done]. injection Hi as <-. simpl.
    rewrite app_cons_s. f_equal. by apply IH.
Qed.

Lemma Index_bound s sep i :
  Index s sep = Some i -> i + String.length sep <= String.length s.
Proof.
  revert i. index_induction s sep; [intros s H|intros H|intros c s H IH]; intros i Hi.
  - injection Hi as <-. apply HasPrefix_length in H. lia.
  - done.
  - destruct (Index s sep) as [j|]; [|done]. injection Hi as <-.
    specialize (IH _ eq_refl). simpl. lia.
Qed.

(** It is the first one: no occurrence starts before it. *)
Lemma Index_first s sep i j :
  Index s sep = Some i -> j < i -> HasPrefix (dropS j s) sep = false.
Proof.
  revert i j. index_induction s sep; [intros s H|intros H|intros c s H IH];
    intros i j Hi Hj.
  - injection Hi as <-. lia.
  - done.
  - destruct (Index s sep) as [k|]; [|done]. injection Hi as <-.
    destruct j as [|j]; [done|]. simpl. eapply IH; eauto; lia.
Qed.

Lemma Index_None s sep a b : Index s sep = None -> s <> a +:+ sep +:+ b.
Proof.
  revert a. index_induction s sep; [intros s H|intros H|intros c s H IH];
    intros a Hi Hs.
  - done.
  - symmetry in Hs. apply app_eq_nil_s in Hs as [_ [-> _]%app_eq_nil_s].
    by rewrite HasPrefix_nil in H.
  - destruct (Index s sep) eqn:Ei; [done|]. destruct a as [|d a].
    + rewrite app_nil_l_s in Hs. by rewrite Hs, HasPrefix_app in H.
    + rewrite app_cons_s in Hs. injection Hs as -> Hs. by eapply IH.
Qed.

Lemma Index_app_found a sep b : is_Some (Index (a +:+ sep +:+ b) sep).
Proof.
  destruct (Index (a +:+ sep +:+ b) sep) eqn:E; [eauto|].
  by eapply Index_None in E.
Qed.

Lemma Contains_spec s sub :
  Contains s sub = true <-> exists a b, s = a +:+ sub +:+ b.
Proof.
  unfold Contains. split.
  - destruct (Index s sub) eqn:E; [|done]. intros _. apply Index_Some in E. eauto.
  - intros (a & b & ->). by destruct (Index_app_found a sub b) as [? ->].
Qed.

Lemma Contains_empty s : Contains s "" = true.
Proof. unfold Contains. destruct s; simpl; done. Qed.

Lemma Contains_false_Index s sub : Contains s sub = false <-> Index s sub = None.
Proof. unfold Contains. by destruct (Index s sub). Qed.

Lemma length_Repeat s n : String.length (Repeat s n) = n * String.length s.
Proof. induction n as [|n IH]; [done|]. simpl. rewrite length_app_s. lia. Qed.

(** ** Splitting and replacing *)

(** The runes of [s] as Go's decoder delimits them, invalid bytes one by
    one: the slices [explode] returns and between which [ReplaceAll]
    inserts when the pattern is empty. *)
Equations? runeChunks (s : string) : list string by wf (String.length s) lt :=
  runeChunks "" := [];
  runeChunks (String c s') :=
    takeS (runeWidth (String c s')) (String c s')
      :: runeChunks (dropS (runeWidth (String c s')) (String c s')).
Proof. pose proof (runeWidth_pos c s'). rewrite length_dropS. simpl. lia. Qed.

(** The loop of [genSplit] for a separator [String c sep']. *)
Equations? splitLoop (c : ascii) (sep' s : string) : list string
  by wf (String.length s) lt :=
  splitLoop c sep' "" := [""];
  splitLoop c sep' (String d s') with Index (String d s') (String c sep') => {
    | Some m =>
        takeS m (String d s')
          :: splitLoop c sep' (dropS (m + S (String.length sep')) (String d s'));
    | None => [String d s'] }.
Proof. rewrite length_dropS. simpl. lia. Qed.

Definition Split (s sep : string) : list string :=
  match sep with
  | "" => runeChunks s
  | String c sep' => splitLoop c sep' s
  end.

(** The loop of [Replace] for a pattern [String c old']. *)
Equations? replaceLoop (c : ascii) (old' new s : string) : string
  by wf (String.length s) lt :=
  replaceLoop c old' new "" := "";
  replaceLoop c old' new (String d s') with Index (String d s') (String c old') => {
    | Some m =>
        takeS m (String d s') +:+ new
          +:+ replaceLoop c old' new (dropS (m + S (String.length old')) (String d s'));
    | None => String d s' }.
Proof. rewrite length_dropS. simpl. lia. Qed.

Definition ReplaceAll (s old new : string) : string :=
  if decide (old = new) then s else
  match old with
  | "" => new +:+ Join (map (fun ch => ch +:+ new) (runeChunks s)) ""
  | String c old' => replaceLoop c old' new s
  end.

(** ** Numbers *)

(** [strconv.FormatInt(i, 10)] and the verb [%d]. *)
Definition FormatInt (i : Z) : string := pretty i.

(** ** The loops, one step at a time *)

Lemma Index_nil_cons c sep' : Index "" (String c sep') = None.
Proof. reflexivity. Qed.

Lemma splitLoop_step c sep' s :
  splitLoop c sep' s =
  match Index s (String c sep') with
  | Some m => takeS m s :: splitLoop c sep' (dropS (m + S (String.length sep')) s)
  | None => [s]
  end.
Proof.
  destruct s as [|d s]; [done|]. simp splitLoop.
  by destruct (Index (String d s) (String c sep')).
Qed.

Lemma replaceLoop_step c old' new s :
  replaceLoop c old' new s =
  match Index s (String c old') with
  | Some m =>
      takeS m s +:+ new
        +:+ replaceLoop c old' new (dropS (m + S (String.length old')) s)
  | None => s
  end.
Proof.
  destruct s as [|d s]; [done|]. simp replaceLoop.
  by destruct (Index (String d s) (String c old')).
Qed.

Lemma runeChunks_cons c s :
  runeChunks (String c s) =
  takeS (runeWidth (String c s)) (String c s)
    :: runeChunks (dropS (runeWidth (String c s)) (String c s)).
Proof. by simp runeChunks. Qed.

(** ** What [Split] and [ReplaceAll] compute *)

Lemma Join_cons x y rest sep :
  Join (x :: y :: rest) sep = x +:+ sep +:+ Join (y :: rest) sep.
Proof. reflexivity. Qed.

Lemma splitLoop_not_nil c sep' s : splitLoop c sep' s <> [].
Proof. rewrite splitLoop_step. by destruct (Index s (String c sep')). Qed.

Lemma Join_cons_splitLoop x c sep' s sep :
  Join (x :: splitLoop c sep' s) sep = x +:+ sep +:+ Join (splitLoop c sep' s) sep.
Proof.
  pose proof (splitLoop_not_nil c sep' s).
  destruct (splitLoop c sep' s); [done|apply Join_cons].
Qed.

(** The remainder behind an occurrence is shorter than the string. *)
Lemma Index_rest_shorter s c sep' m :
  Index s (String c sep') = Some m ->
  String.length (dropS (m + S (String.length sep')) s) < String.length s.
Proof. intros H%Index_bound. rewrite length_dropS. simpl in H. lia. Qed.

(** Joining the pieces with the separator gives the string back. *)
Lemma Join_splitLoop c sep' s :
  Join (splitLoop c sep' s) (String c sep') = s.
Proof.
  induction s as [s IH] using string_length_ind. rewrite splitLoop_step.
  destruct (Index s (String c sep')) as [m|] eqn:E; [|done].
  rewrite Join_cons_splitLoop, IH by by eapply Index_rest_shorter.
  symmetry. by apply Index_Some in E.
Qed.

(** Replacing is splitting at the pattern and joining with the
    replacement. *)
Lemma replaceLoop_Join c old' new s :
  replaceLoop c old' new s = Join (splitLoop c old' s) new.
Proof.
  induction s as [s IH] using string_length_ind.
  rewrite replaceLoop_step, splitLoop_step.
  destruct (Index s (String c old')) as [m|] eqn:E; [|done].
  by rewrite Join_cons_splitLoop, IH by by eapply Index_rest_shorter.
Qed.

Lemma Split_not_Contains s sep :
  sep <> "" -> Contains s sep = false -> Split s sep = [s].
Proof.
  intros Hne H%Contains_false_Index. destruct sep as [|c sep']; [done|].
  unfold Split. by rewrite splitLoop_step, H.
Qed.

Lemma ReplaceAll_not_Contains s old new :
  Contains s old = false -> ReplaceAll s old new = s.
Proof.
  intros H. unfold ReplaceAll. case_decide; [done|].
  destruct old as [|c old']; [by rewrite Contains_empty in H|].
  apply Contains_false_Index in H. by rewrite replaceLoop_step, H.
Qed.

Lemma ReplaceAll_same s old : ReplaceAll s old old = s.
Proof. unfold ReplaceAll. by rewrite decide_True. Qed.

(** The chunks of [runeChunks] are the string, cut. *)
Lemma Join_runeChunks s : Join (runeChunks s) "" = s.
Proof.
  induction s as [s IH] using string_length_ind.
  destruct s as [|c s]; [done|]. rewrite runeChunks_cons.
  set (w := runeWidth (String c s)).
  assert (Hlt : String.length (dropS w (String c s)) < String.length (String c s)).
  { pose proof (runeWidth_pos c s). rewrite length_dropS. simpl. lia. }
  specialize (IH _ Hlt).
  destruct (runeChunks (dropS w (String c s))) as [|y rest] eqn:E.
  - simpl in IH. simpl. rewrite <- (takeS_dropS w (String c s)) at 2.
    by rewrite <- IH, app_nil_r_s.
  - rewrite Join_cons, IH, app_nil_l_s. apply takeS_dropS.
Qed.

(** ** The contracts the program relies on *)

(** [strings.Split] loses nothing: for a separator that is not
    empty, joining the pieces of [s] with the separator gives [s] back,
    whatever [s] holds. *)
Theorem Join_Split (s sep : string) :
  sep <> "" -> Join (Split s sep) sep = s.
Proof.
  intros Hne. destruct sep as [|c sep']; [done|]. apply Join_splitLoop.
Qed.

Lemma Join_Split_witness :
  ":" <> "" /\ Join (Split "2023-12-29:2023-12-31" ":") ":" = "2023-12-29:2023-12-31".
Proof. split; [done|]. apply (Join_Split "2023-12-29:2023-12-31" ":"). done. Defined.

(** [strings.ReplaceAll] with a pattern that is neither empty nor
    its own replacement is [strings.Split] at the pattern followed by a
    join with the replacement: the occurrences replaced are the ones a
    left-to-right scan without overlaps finds, and the text between them
    is kept byte for byte. *)
Theorem ReplaceAll_Join_Split (s old new : string) :
  old <> "" -> old <> new -> ReplaceAll s old new = Join (Split s old) new.
Proof.
  intros Hne Hnew. unfold ReplaceAll, Split. rewrite decide_False by done.
  destruct old as [|c old']; [done|]. apply replaceLoop_Join.
Qed.

Lemma ReplaceAll_Join_Split_witness :
  "foo" <> "" /\ "foo" <> "[foo]" /\
  ReplaceAll "a foo, foofoo" "foo" "[foo]" = Join (Split "a foo, foofoo" "foo") "[foo]".
Proof.
  split; [done|]. split; [done|].
  apply (ReplaceAll_Join_Split "a foo, foofoo" "foo" "[foo]"); done.
Defined.

(** ** [strconv.ParseInt] *)

(** [lower(c)]: the byte with bit 0x20 set. *)
Definition lower (b : Z) : Z := Z.lor b 0x20.

(** The value of a digit in a base up to 36, as [ParseUint] reads it. *)
Definition digitVal (c : ascii) : option Z :=
  let b := byteZ c in
  if (0x30 <=? b)%Z && (b <=? 0x39)%Z then Some (b - 0x30)%Z
  else if (0x61 <=? lower b)%Z && (lower b <=? 0x7A)%Z then Some (lower b - 0x61 + 10)%Z
  else None.

(** The loop of [ParseUint]; [None] stands for a syntax error and for a
    range error alike.  The cutoff is [maxUint64/base + 1], the least
    number whose product with the base does not fit 64 bits. *)
Fixpoint parseUintLoop (base maxVal : Z) (s : string) (n : Z) : option Z :=
  match s with
  | "" => Some n
  | String c s' =>
      match digitVal c with
      | None => None
      | Some d =>
          if (base <=? d)%Z then None
          else if ((2 ^ 64 - 1) `div` base + 1 <=? n)%Z then None
          else
            let n1 := (n * base + d)%Z in
            if (maxVal <? n1)%Z then None else parseUintLoop base maxVal s' n1
      end
  end.

Definition ParseUint (s : string) (base bitSize : Z) : option Z :=
  if decide (s = "") then None
  else parseUintLoop base (2 ^ bitSize - 1) s 0.

(** [strconv.ParseInt(s, base, bitSize)] for a base from 2 to 36 and a
    bit size from 1 to 64; [None] for any error. *)
Definition ParseInt (s : string) (base bitSize : Z) : option Z :=
  match s with
  | "" => None
  | String c s' =>
      let neg := bool_decide (c = "-"%char) in
      let digits := if bool_decide (c = "+"%char) || neg then s' else s in
      match ParseUint digits base bitSize with
      | None => None
      | Some un =>
          let cutoff := (2 ^ (bitSize - 1))%Z in
          if negb neg && (cutoff <=? un)%Z then None
          else if neg && (cutoff <? un)%Z then None
          else Some (if neg then - un else un)%Z
      end
  end.

(** ** Strings without a given byte *)

(** Every byte of [s] passes the test [P]. *)
Fixpoint allBytes (P : ascii -> bool) (s : string) : bool :=
  match s with
  | "" => true
  | String c s' => P c && allBytes P s'
  end.

Definition isNot (c : ascii) : ascii -> bool := fun d => negb (bool_decide (d = c)).

Lemma allBytes_app P s t : allBytes P (s +:+ t) = allBytes P s && allBytes P t.
Proof.
  induction s as [|c s IH]; [done|]. rewrite app_cons_s. simpl.
  by rewrite IH, andb_assoc.
Qed.

Lemma allBytes_impl (P Q : ascii -> bool) s :
  (forall c, P c = true -> Q c = true) -> allBytes P s = true -> allBytes Q s = true.
Proof.
  intros HPQ. induction s as [|c s IH]; [done|]. simpl.
  intros [Hc Hs]%andb_prop. by rewrite (HPQ _ Hc), IH.
Qed.

Lemma HasPrefix_cons_ne c d s p : d <> c -> HasPrefix (String d s) (String c p) = false.
Proof. intros Hne. simpl. by rewrite decide_False. Qed.

(** A pattern does not occur in a string that lacks its first byte, and
    the scan for it steps over such a string. *)
Lemma Index_skip c p a t :
  allBytes (isNot c) a = true ->
  Index (a +:+ t) (String c p) = (fun i => String.length a + i) <$> Index t (String c p).
Proof.
  induction a as [|d a IH]; intros Ha.
  - rewrite app_nil_l_s. by destruct (Index t (String c p)).
  - simpl in Ha. apply andb_prop in Ha as [Hd Ha].
    unfold isNot in Hd. apply negb_true_iff, bool_decide_eq_false in Hd.
    rewrite app_cons_s, Index_cons, HasPrefix_cons_ne, IH by done.
    by destruct (Index t (String c p)).
Qed.

Lemma Index_absent c p a : allBytes (isNot c) a = true -> Index a (String c p) = None.
Proof.
  intros Ha. rewrite <- (app_nil_r_s a), Index_skip by done. by rewrite Index_nil_cons.
Qed.

Lemma Index_at c p a t :
  allBytes (isNot c) a = true ->
  Index (a +:+ String c p +:+ t) (String c p) = Some (String.length a).
Proof.
  intros Ha. rewrite Index_skip by done.
  replace (Index (String c p +:+ t) (String c p)) with (Some 0).
  - simpl. f_equal. lia.
  - rewrite app_cons_s, Index_cons.
    by rewrite <- app_cons_s, HasPrefix_app.
Qed.

Lemma replaceLoop_absent c p new a :
  allBytes (isNot c) a = true -> replaceLoop c p new a = a.
Proof. intros Ha. by rewrite replaceLoop_step, Index_absent. Qed.

Lemma replaceLoop_at c p new a t :
  allBytes (isNot c) a = true ->
  replaceLoop c p new (a +:+ String c p +:+ t) = a +:+ new +:+ replaceLoop c p new t.
Proof.
  intros Ha. rewrite replaceLoop_step, Index_at by done.
  rewrite takeS_app. do 2 f_equal.
  rewrite <- (app_assoc_s a). replace (String.length a + S (String.length p))
    with (String.length (a +:+ String c p)) by (rewrite length_app_s; simpl; lia).
  by rewrite dropS_app.
Qed.

Lemma replaceLoop_prefix c p new t :
  replaceLoop c p new (String c p +:+ t) = new +:+ replaceLoop c p new t.
Proof. exact (replaceLoop_at c p new "" t eq_refl). Qed.

Lemma replaceLoop_suffix c p new a :
  allBytes (isNot c) a = true ->
  replaceLoop c p new (a +:+ String c p) = a +:+ new.
Proof.
  intros Ha. rewrite <- (app_nil_r_s (String c p)), replaceLoop_at by done.
  by rewrite replaceLoop_equation_1, app_nil_r_s.
Qed.

Lemma splitLoop_absent c p a :
  allBytes (isNot c) a = true -> splitLoop c p a = [a].
Proof. intros Ha. by rewrite splitLoop_step, Index_absent. Qed.

Lemma splitLoop_at c p a t :
  allBytes (isNot c) a = true ->
  splitLoop c p (a +:+ String c p +:+ t) = a :: splitLoop c p t.
Proof.
  intros Ha. rewrite splitLoop_step, Index_at by done.
  rewrite takeS_app. f_equal.
  rewrite <- (app_assoc_s a). replace (String.length a + S (String.length p))
    with (String.length (a +:+ String c p)) by (rewrite length_app_s; simpl; lia).
  by rewrite dropS_app.
Qed.

(** ** Hexadecimal numerals *)

Definition isHexDigit (c : ascii) : bool :=
  match digitVal c with
  | Some d => (d <? 16)%Z
  | None => false
  end.

(** The number a string of hexadecimal digits denotes, continuing from
    [acc]. *)
Fixpoint hexValue (s : string) (acc : Z) : Z :=
  match s with
  | "" => acc
  | String c s' => hexValue s' (acc * 16 + default 0%Z (digitVal c))
  end.

Lemma digitVal_range c d : digitVal c = Some d -> (0 <= d < 36)%Z.
Proof.
  destruct c as [[] [] [] [] [] [] [] []]; vm_compute; intros [= <-]; done.
Qed.

Lemma isHexDigit_digitVal c :
  isHexDigit c = true -> exists d, digitVal c = Some d /\ (0 <= d < 16)%Z.
Proof.
  unfold isHexDigit. destruct (digitVal c) as [d|] eqn:E; [|done].
  intros Hd%Z.ltb_lt. apply digitVal_range in E. exists d. split; [done|lia].
Qed.

Lemma isHexDigit_not_sign c :
  isHexDigit c = true -> c <> "+"%char /\ c <> "-"%char.
Proof. intros Hc. split; intros ->; done. Qed.

Lemma hexValue_cons c s n :
  hexValue (String c s) n = hexValue s (n * 16 + default 0%Z (digitVal c)).
Proof. reflexivity. Qed.

Lemma hexValue_ge s n : (0 <= n)%Z -> (n <= hexValue s n)%Z.
Proof.
  revert n; induction s as [|c s IH]; intros n Hn; [simpl; lia|].
  rewrite hexValue_cons.
  assert (0 <= default 0 (digitVal c))%Z.
  { destruct (digitVal c) as [d|] eqn:E; [|done]. apply digitVal_range in E.
    simpl. lia. }
  etrans; [|apply IH]; lia.
Qed.

Lemma parseUintLoop_cons base maxVal c s n :
  parseUintLoop base maxVal (String c s) n =
  match digitVal c with
  | None => None
  | Some d =>
      if (base <=? d)%Z then None
      else if ((2 ^ 64 - 1) `div` base + 1 <=? n)%Z then None
      else if (maxVal <? n * base + d)%Z then None
      else parseUintLoop base maxVal s (n * base + d)
  end.
Proof. reflexivity. Qed.

Lemma parseUintLoop_hex maxVal s n :
  allBytes isHexDigit s = true -> (0 <= n)%Z ->
  (hexValue s n <= maxVal)%Z -> (maxVal < 2 ^ 60)%Z ->
  parseUintLoop 16 maxVal s n = Some (hexValue s n).
Proof.
  revert n; induction s as [|c s IH]; intros n Hs Hn Hmax Hcut; [done|].
  cbn [allBytes] in Hs. apply andb_prop in Hs as [Hc Hs].
  apply isHexDigit_digitVal in Hc as (d & Hd & Hr).
  rewrite parseUintLoop_cons, hexValue_cons, Hd in *. cbn [default from_option id] in *.
  pose proof (hexValue_ge s (n * 16 + d)%Z ltac:(lia)).
  change ((2 ^ 64 - 1) `div` 16 + 1)%Z with (2 ^ 60)%Z.
  repeat case_match; try lia. apply IH; [done|lia..].
Qed.

Lemma ParseInt_hex s :
  allBytes isHexDigit s = true -> s <> "" -> (hexValue s 0 < 2 ^ 31)%Z ->
  ParseInt s 16 32 = Some (hexValue s 0).
Proof.
  intros Hs Hne Hv. destruct s as [|c s]; [done|]. unfold ParseInt.
  pose proof Hs as Hc. cbn [allBytes] in Hc. apply andb_prop in Hc as [Hc _].
  apply isHexDigit_not_sign in Hc as [Hplus Hminus].
  rewrite !bool_decide_eq_false_2 by done. cbn [orb negb andb].
  unfold ParseUint. rewrite decide_False by done.
  rewrite parseUintLoop_hex by (done || lia).
  case_match; [lia|done].
Qed.

(** A byte that is no hexadecimal digit stops the loop with an error. *)
Lemma parseUintLoop_nonhex m s n :
  allBytes isHexDigit s = false -> parseUintLoop 16 m s n = None.
Proof.
  revert n; induction s as [|c s IH]; intros n; [done|].
  rewrite parseUintLoop_cons. cbn [allBytes]. unfold isHexDigit at 1.
  destruct (digitVal c) as [d|]; [|done].
  destruct (Z.ltb_spec d 16) as [Hd|Hd]; cbn [andb].
  - intros Hs. rewrite (proj2 (Z.leb_gt 16 d)) by done. repeat case_match; auto.
  - intros _. by rewrite (proj2 (Z.leb_le 16 d)).
Qed.

(** [ParseInt] in base 16 refuses a string with a byte after the first
    that is no hexadecimal digit. *)
Lemma ParseInt_nonhex c s :
  allBytes isHexDigit s = false -> ParseInt (String c s) 16 32 = None.
Proof.
  intros Hs. unfold ParseInt, ParseUint.
  assert (parseUintLoop 16 (2 ^ 32 - 1) (String c s) 0 = None) as Hc.
  { apply parseUintLoop_nonhex. cbn [allBytes]. rewrite Hs. apply andb_false_r. }
  destruct (_ || _); case_decide; try done.
  - by rewrite parseUintLoop_nonhex.
  - by rewrite Hc.
Qed.

(** ** The length of a replacement at every rune *)

(** The bytes of the strings of a list, together. *)
Definition totalLength (l : list string) : nat :=
  foldr (fun s n => String.length s + n) 0 l.

Lemma length_Join_empty l : String.length (Join l "") = totalLength l.
Proof.
  induction l as [|x [|y l] IH]; [done|simpl; lia|].
  rewrite Join_cons, !length_app_s, IH. simpl. lia.
Qed.

Lemma totalLength_map_app new l :
  totalLength (map (fun ch => ch +:+ new) l)
  = totalLength l + length l * String.length new.
Proof.
  induction l as [|x l IH]; [done|]. cbn [map totalLength foldr length].
  fold (totalLength (map (fun ch => ch +:+ new) l)). fold (totalLength l).
  rewrite IH, length_app_s. lia.
Qed.

(** With an empty pattern the replacement is put before every rune and
    at the end. *)
Lemma length_ReplaceAll_empty s new :
  new <> "" ->
  String.length (ReplaceAll s "" new)
  = String.length s + S (length (runeChunks s)) * String.length new.
Proof.
  intros Hne. unfold ReplaceAll. rewrite decide_False by done.
  rewrite length_app_s, length_Join_empty, totalLength_map_app.
  rewrite <- length_Join_empty, Join_runeChunks. lia.
Qed.
