(* ===== verification/Calendar.v ===== *)
(** * The proleptic Gregorian calendar

    The arithmetic behind Go's [time.Date] and [Time.Date]: the number of
    a day counted from 1970-01-01, from a year, a month and a day, and
    back.  The two directions are shown inverse of each other for every
    date of every year: the 400 years of a cycle and the 366 days of a
    year are checked by evaluation, a day is placed in its year because
    the year grows with the day, and the calendar repeats from cycle to
    cycle. *)

From S2P Require Import Prelude.

Local Open Scope Z_scope.

(** ** Days and dates *)

Definition secondsPerDay : Z := 86400.

(** Days in a cycle of 400 years. *)
Definition daysPer400Years : Z := 146097.

Definition isLeap (year : Z) : bool :=
  (year mod 4 =? 0) && (negb (year mod 100 =? 0) || (year mod 400 =? 0)).

(** [daysBefore[m]]: the days of a common year before month [m + 1]. *)
Definition daysBefore (m : Z) : Z :=
  match m with
  | 0 => 0 | 1 => 31 | 2 => 59 | 3 => 90 | 4 => 120 | 5 => 151 | 6 => 181
  | 7 => 212 | 8 => 243 | 9 => 273 | 10 => 304 | 11 => 334 | _ => 365
  end.

(** [daysIn(month, year)]. *)
Definition daysIn (month year : Z) : Z :=
  if (month =? 2) && isLeap year then 29
  else daysBefore month - daysBefore (month - 1).

(** The days from 1970-01-01 to the first of January of [year]. *)
Definition daysSinceEpoch (year : Z) : Z :=
  let y := year - 1 in
  365 * y + y / 4 - y / 100 + y / 400 - 719162.

(** The day number (days since 1970-01-01) of a year, a month from 1 to
    12 and a day, which may lie outside the month. *)
Definition dayNumber (year month day : Z) : Z :=
  daysSinceEpoch year + daysBefore (month - 1)
  + (if isLeap year && (3 <=? month) then 1 else 0) + (day - 1).

(** The year of the 400-year cycle that holds its day [doe]; the cycles
    and their years start on a first of March. *)
Definition yearOfEra (doe : Z) : Z :=
  (doe - doe / 1460 + doe / 36524 - doe / 146096) / 365.

(** The day of the cycle on which its year [yoe] starts. *)
Definition yearStart (yoe : Z) : Z := 365 * yoe + yoe / 4 - yoe / 100.

(** The month and the day of day [doy] of a year that starts in March. *)
Definition monthOfYear (doy : Z) : Z * Z :=
  let mp := (5 * doy + 2) / 153 in
  let d := doy - (153 * mp + 2) / 5 + 1 in
  (if mp <? 10 then mp + 3 else mp - 9, d).

(** The year, the month and the day of day [doe] of the 400-year cycle
    number [era]. *)
Definition civilOfEra (era doe : Z) : Z * Z * Z :=
  let yoe := yearOfEra doe in
  let '(m, d) := monthOfYear (doe - yearStart yoe) in
  (yoe + era * 400 + (if m <=? 2 then 1 else 0), m, d).

(** The year, the month and the day of the day number [z]. *)
Definition civilFromDays (z : Z) : Z * Z * Z :=
  civilOfEra ((z + 719468) / daysPer400Years) ((z + 719468) mod daysPer400Years).

(** The position of a date in a year that is leap or not. *)
Definition yearDay (leap : bool) (m d : Z) : Z :=
  daysBefore (m - 1) + (if leap && (3 <=? m) then 1 else 0) + (d - 1).

(** ** The calendar is periodic *)

Lemma mod_add_400 (y k d : Z) : (d | 400) -> (y + 400 * k) mod d = y mod d.
Proof.
  intros [q Hq]. rewrite Hq. replace (y + q * d * k) with (y + (q * k) * d) by lia.
  apply Z_mod_plus_full.
Qed.

Lemma isLeap_era (y k : Z) : isLeap (y + 400 * k) = isLeap y.
Proof.
  unfold isLeap.
  rewrite (mod_add_400 y k 4), (mod_add_400 y k 100), (mod_add_400 y k 400);
    [done|by exists 1|by exists 4|by exists 100].
Qed.

Lemma daysIn_era (m y k : Z) : daysIn m (y + 400 * k) = daysIn m y.
Proof. unfold daysIn. by rewrite isLeap_era. Qed.

Lemma daysSinceEpoch_era (y k : Z) :
  daysSinceEpoch (y + 400 * k) = daysSinceEpoch y + daysPer400Years * k.
Proof.
  unfold daysSinceEpoch, daysPer400Years. cbv zeta.
  replace (y + 400 * k - 1) with (y - 1 + 400 * k) by lia.
  replace ((y - 1 + 400 * k) / 4) with ((y - 1) / 4 + 100 * k)
    by (replace (400 * k) with (100 * k * 4) by lia; by rewrite Z.div_add).
  replace ((y - 1 + 400 * k) / 100) with ((y - 1) / 100 + 4 * k)
    by (replace (400 * k) with (4 * k * 100) by lia; by rewrite Z.div_add).
  replace ((y - 1 + 400 * k) / 400) with ((y - 1) / 400 + k)
    by (replace (400 * k) with (k * 400) by lia; by rewrite Z.div_add).
  lia.
Qed.

Lemma dayNumber_era (y m d k : Z) :
  dayNumber (y + 400 * k) m d = dayNumber y m d + daysPer400Years * k.
Proof. unfold dayNumber. rewrite daysSinceEpoch_era, isLeap_era. lia. Qed.

Lemma dayNumber_day (y m d n : Z) : dayNumber y m (d + n) = dayNumber y m d + n.
Proof. unfold dayNumber. lia. Qed.

Lemma civilOfEra_era (era doe : Z) :
  civilOfEra era doe =
  let '(y, m, d) := civilOfEra 0 doe in (y + 400 * era, m, d).
Proof.
  unfold civilOfEra. cbv zeta. destruct (monthOfYear _) as [m d].
  f_equal. f_equal. lia.
Qed.

Lemma civilFromDays_era (z k : Z) :
  civilFromDays (z + daysPer400Years * k) =
  let '(y, m, d) := civilFromDays z in (y + 400 * k, m, d).
Proof.
  unfold civilFromDays.
  replace (z + daysPer400Years * k + 719468)
    with (z + 719468 + k * daysPer400Years) by lia.
  rewrite Z.div_add, Z_mod_plus_full by done.
  rewrite civilOfEra_era, (civilOfEra_era (_ / _)).
  destruct (civilOfEra 0 _) as [[y m] d]. f_equal. f_equal. lia.
Qed.

(** ** One cycle *)

(** A date of the calendar. *)
Definition validDate (year month day : Z) : bool :=
  (1 <=? month) && (month <=? 12) && (1 <=? day) && (day <=? daysIn month year).

(** Day [doe] of the cycle that starts on 0000-03-01 is a date of the
    calendar, and [dayNumber] gives its number back. *)
Definition checkDay (doe : Z) : bool :=
  let '(y, m, d) := civilOfEra 0 doe in
  validDate y m d && (dayNumber y m d =? doe - 719468).

(** The last day of year [yoe] of the cycle, whose February belongs to
    the calendar year [yoe + 1]. *)
Definition yearEnd (yoe : Z) : Z :=
  yearStart yoe + 364 + (if isLeap (yoe + 1) then 1 else 0).

(** Year [yoe] of the cycle: its first and its last day are found in it,
    the next year starts on the day after, and its first of March is
    where [daysSinceEpoch] puts it. *)
Definition checkYear (yoe : Z) : bool :=
  (yearOfEra (yearStart yoe) =? yoe) && (yearOfEra (yearEnd yoe) =? yoe)
  && (yearStart (yoe + 1) =? yearEnd yoe + (if yoe =? 399 then 0 else 1))
  && (daysSinceEpoch yoe + 59 + (if isLeap yoe then 1 else 0) + 719468 =? yearStart yoe).

(** Day [doy] of a year that starts in March: its month and day, against
    the table [daysBefore]; the last day is the 29th of February. *)
Definition checkDoy (doy : Z) : bool :=
  let '(m, d) := monthOfYear doy in
  (1 <=? m) && (m <=? 12) && (1 <=? d)
  && (d <=? (if m =? 2 then (if doy =? 365 then 29 else 28)
             else daysBefore m - daysBefore (m - 1)))
  && (daysBefore (m - 1) + (d - 1) =? (if m <=? 2 then doy - 306 else doy + 59)).

Lemma checkYear_cycle : forallRange checkYear 0 400 = true.
Proof. vm_cast_no_check (@eq_refl bool true). Qed.

Lemma checkDoy_year : forallRange checkDoy 0 366 = true.
Proof. vm_cast_no_check (@eq_refl bool true). Qed.

Lemma validDate_era (y m d k : Z) : validDate (y + 400 * k) m d = validDate y m d.
Proof. unfold validDate. by rewrite daysIn_era. Qed.

(** ** Day numbers are one to one on dates *)

Lemma daysSinceEpoch_succ (y : Z) :
  daysSinceEpoch (y + 1) = daysSinceEpoch y + 365 + (if isLeap y then 1 else 0).
Proof.
  unfold daysSinceEpoch, isLeap. cbv zeta. replace (y + 1 - 1) with y by lia.
  destruct (Z.eqb_spec (y mod 4) 0), (Z.eqb_spec (y mod 100) 0),
    (Z.eqb_spec (y mod 400) 0); cbn [andb orb negb];
    Z.div_mod_to_equations; lia.
Qed.

Lemma daysSinceEpoch_mono (y y' : Z) :
  y <= y' -> daysSinceEpoch y <= daysSinceEpoch y'.
Proof. unfold daysSinceEpoch. cbv zeta. intros. Z.div_mod_to_equations. lia. Qed.

Lemma validDate_inv y m d :
  validDate y m d = true -> 1 <= m <= 12 /\ 1 <= d <= daysIn m y.
Proof.
  unfold validDate.
  intros [[[?%Z.leb_le ?%Z.leb_le]%andb_prop ?%Z.leb_le]%andb_prop ?%Z.leb_le]%andb_prop.
  lia.
Qed.

(** Case analysis on a month known to lie between 1 and 12. *)
Ltac each_month m :=
  let H := fresh in
  assert (H : m = 1 \/ m = 2 \/ m = 3 \/ m = 4 \/ m = 5 \/ m = 6 \/ m = 7
              \/ m = 8 \/ m = 9 \/ m = 10 \/ m = 11 \/ m = 12) by lia;
  repeat (destruct H as [->|H]); [..|subst m].

(** Evaluates the calendar's tables at the months a case analysis has
    made concrete. *)
Ltac calendar_eval :=
  repeat match goal with
    | |- context [daysBefore ?m] =>
        let v := eval vm_compute in (daysBefore m) in
        progress change (daysBefore m) with v
    | H : context [daysBefore ?m] |- _ =>
        let v := eval vm_compute in (daysBefore m) in
        progress change (daysBefore m) with v in H
    | |- context [Z.leb 3 ?m] =>
        let v := eval vm_compute in (Z.leb 3 m) in
        progress change (Z.leb 3 m) with v
    | |- context [Z.eqb ?m 2] =>
        let v := eval vm_compute in (Z.eqb m 2) in
        progress change (Z.eqb m 2) with v
    | H : context [Z.eqb ?m 2] |- _ =>
        let v := eval vm_compute in (Z.eqb m 2) in
        progress change (Z.eqb m 2) with v in H
    end;
  cbn [andb orb negb] in *.

Lemma daysIn_bounds m y : 1 <= m <= 12 -> 28 <= daysIn m y <= 31.
Proof.
  intros Hm. unfold daysIn. each_month m; destruct (isLeap y); calendar_eval; lia.
Qed.

Lemma yearDay_bounds y m d :
  validDate y m d = true ->
  0 <= yearDay (isLeap y) m d < 365 + (if isLeap y then 1 else 0).
Proof.
  intros [Hm Hd]%validDate_inv. unfold yearDay, daysIn in *.
  each_month m; destruct (isLeap y); calendar_eval; lia.
Qed.

Lemma yearDay_inj leap y m d m' d' :
  leap = isLeap y ->
  validDate y m d = true -> validDate y m' d' = true ->
  yearDay leap m d = yearDay leap m' d' -> m = m' /\ d = d'.
Proof.
  intros -> [Hm Hd]%validDate_inv [Hm' Hd']%validDate_inv.
  unfold yearDay, daysIn in *.
  each_month m; each_month m'; destruct (isLeap y); calendar_eval; lia.
Qed.

Lemma dayNumber_yearDay y m d :
  dayNumber y m d = daysSinceEpoch y + yearDay (isLeap y) m d.
Proof. unfold dayNumber, yearDay. lia. Qed.

Lemma dayNumber_inj y m d y' m' d' :
  validDate y m d = true -> validDate y' m' d' = true ->
  dayNumber y m d = dayNumber y' m' d' -> y = y' /\ m = m' /\ d = d'.
Proof.
  intros Hv Hv'. rewrite !dayNumber_yearDay. intros Heq.
  pose proof (yearDay_bounds _ _ _ Hv) as Hb.
  pose proof (yearDay_bounds _ _ _ Hv') as Hb'.
  pose proof (daysSinceEpoch_succ y) as Hs.
  pose proof (daysSinceEpoch_succ y') as Hs'.
  assert (y = y') as <-.
  { destruct (Z.lt_trichotomy y y') as [Hlt|[?|Hlt]]; [|done|].
    - pose proof (daysSinceEpoch_mono (y + 1) y'). lia.
    - pose proof (daysSinceEpoch_mono (y' + 1) y). lia. }
  split; [done|]. apply (yearDay_inj (isLeap y) y); [done..|lia].
Qed.

(** ** Every day of a cycle *)

Lemma checkYear_inv yoe :
  0 <= yoe < 400 ->
  yearOfEra (yearStart yoe) = yoe /\ yearOfEra (yearEnd yoe) = yoe /\
  yearStart (yoe + 1) = yearEnd yoe + (if yoe =? 399 then 0 else 1) /\
  daysSinceEpoch yoe + 59 + (if isLeap yoe then 1 else 0) + 719468 = yearStart yoe.
Proof.
  intros Hy. assert (0 <= yoe < 0 + 400) as Hc by lia.
  apply (forallRange_spec _ _ _ checkYear_cycle) in Hc. unfold checkYear in Hc.
  apply andb_prop in Hc as [Hc H4]. apply andb_prop in Hc as [Hc H3].
  apply andb_prop in Hc as [H1 H2]. by rewrite !Z.eqb_eq in *.
Qed.

Lemma yearOfEra_mono a b : a <= b -> yearOfEra a <= yearOfEra b.
Proof.
  intros Hab. unfold yearOfEra. apply Z.div_le_mono; [lia|].
  Z.div_mod_to_equations. lia.
Qed.

Lemma yearOfEra_bounds doe : 0 <= doe < 146097 -> 0 <= yearOfEra doe < 400.
Proof.
  intros Hd. pose proof (yearOfEra_mono 0 doe). pose proof (yearOfEra_mono doe 146096).
  change (yearOfEra 0) with 0 in *. change (yearOfEra 146096) with 399 in *. lia.
Qed.

(** A day lies between the first and the last day of the year that
    [yearOfEra] finds for it. *)
Lemma yearOfEra_holds doe :
  0 <= doe < 146097 ->
  yearStart (yearOfEra doe) <= doe <= yearEnd (yearOfEra doe).
Proof.
  intros Hd. pose proof (yearOfEra_bounds doe Hd) as Hy.
  destruct (checkYear_inv _ Hy) as (_ & _ & Hnext & _). split.
  - destruct (decide (yearOfEra doe = 0)) as [->|Hne]; [change (yearStart 0) with 0; lia|].
    destruct (checkYear_inv (yearOfEra doe - 1)) as (_ & Hend & Hstart & _); [lia|].
    replace (yearOfEra doe - 1 + 1) with (yearOfEra doe) in Hstart by lia.
    destruct (Z.eqb_spec (yearOfEra doe - 1) 399); [lia|].
    destruct (decide (yearStart (yearOfEra doe) <= doe)); [done|].
    pose proof (yearOfEra_mono doe (yearEnd (yearOfEra doe - 1))). lia.
  - destruct (Z.eqb_spec (yearOfEra doe) 399) as [E|Hne].
    { rewrite E in *. change (yearEnd 399) with 146096. lia. }
    destruct (checkYear_inv (yearOfEra doe + 1)) as (Hstart & _); [lia|].
    destruct (decide (doe <= yearEnd (yearOfEra doe))); [done|].
    pose proof (yearOfEra_mono (yearStart (yearOfEra doe + 1)) doe). lia.
Qed.

Lemma checkDoy_inv doy m d :
  0 <= doy < 366 -> monthOfYear doy = (m, d) ->
  1 <= m <= 12 /\ 1 <= d /\
  d <= (if m =? 2 then (if doy =? 365 then 29 else 28)
        else daysBefore m - daysBefore (m - 1)) /\
  daysBefore (m - 1) + (d - 1) = (if m <=? 2 then doy - 306 else doy + 59).
Proof.
  intros Hd Hm. assert (0 <= doy < 0 + 366) as Hc by lia.
  apply (forallRange_spec _ _ _ checkDoy_year) in Hc. unfold checkDoy in Hc.
  rewrite Hm in Hc.
  apply andb_prop in Hc as [Hc H5]. apply andb_prop in Hc as [Hc H4].
  apply andb_prop in Hc as [Hc H3]. apply andb_prop in Hc as [H1 H2].
  rewrite Z.eqb_eq in H5. rewrite !Z.leb_le in *. lia.
Qed.

(** Every day of the cycle that starts on 0000-03-01 is a date of the
    calendar whose day number it is. *)
Lemma checkDay_holds doe : 0 <= doe < 146097 -> checkDay doe = true.
Proof.
  intros Hd. unfold checkDay, civilOfEra. cbv zeta.
  pose proof (yearOfEra_bounds doe Hd) as Hy.
  pose proof (yearOfEra_holds doe Hd) as Hin. unfold yearEnd in Hin.
  destruct (checkYear_inv _ Hy) as (_ & _ & _ & Hmarch).
  pose proof (daysSinceEpoch_succ (yearOfEra doe)) as Hsucc.
  set (y := yearOfEra doe) in *. set (doy := doe - yearStart y).
  destruct (monthOfYear doy) as [m d] eqn:Hm.
  destruct (checkDoy_inv doy m d) as (Hm12 & Hd1 & Hdmax & Hpos);
    [unfold doy; destruct (isLeap (y + 1)); lia|done|].
  replace (y + 0 * 400) with y by lia.
  apply andb_true_intro. split.
  - unfold validDate, daysIn.
    destruct (Z.eqb_spec m 2) as [->|Hm2]; cbn [andb].
    + change (2 <=? 2) with true in *. cbv iota.
      destruct (Z.eqb_spec doy 365); destruct (isLeap (y + 1)) eqn:El; calendar_eval;
        repeat (apply andb_true_intro; split); apply Z.leb_le; unfold doy in *; lia.
    + repeat (apply andb_true_intro; split); apply Z.leb_le; lia.
  - apply Z.eqb_eq. unfold dayNumber.
    destruct (Z.leb_spec m 2) as [Hle|Hgt].
    + rewrite Hsucc. destruct (Z.leb_spec 3 m); [lia|]. rewrite andb_false_r.
      unfold doy in *. lia.
    + replace (y + 0) with y by lia. destruct (Z.leb_spec 3 m); [|lia].
      rewrite andb_true_r. unfold doy in *. lia.
Qed.

(** ** The two directions of the calendar *)

Lemma civilFromDays_valid (z : Z) :
  let '(y, m, d) := civilFromDays z in
  validDate y m d = true /\ dayNumber y m d = z.
Proof.
  unfold civilFromDays. set (zz := z + 719468).
  assert (0 <= zz mod daysPer400Years < 146097) as Hdoe
    by (apply Z.mod_pos_bound; done).
  apply checkDay_holds in Hdoe. unfold checkDay in Hdoe.
  rewrite civilOfEra_era. destruct (civilOfEra 0 _) as [[y m] d].
  apply andb_prop in Hdoe as [Hv Hn%Z.eqb_eq].
  rewrite validDate_era, dayNumber_era, Hn. split; [done|].
  pose proof (Z.div_mod zz daysPer400Years ltac:(done)).
  unfold daysPer400Years, zz in *. lia.
Qed.

Lemma civilFromDays_dayNumber (y m d : Z) :
  validDate y m d = true -> civilFromDays (dayNumber y m d) = (y, m, d).
Proof.
  intros Hv. pose proof (civilFromDays_valid (dayNumber y m d)) as Hc.
  destruct (civilFromDays _) as [[y' m'] d']. destruct Hc as [Hv' Hn].
  by destruct (dayNumber_inj _ _ _ _ _ _ Hv' Hv Hn) as (-> & -> & ->).
Qed.
