(* ===== verification/GoTime.v ===== *)
(** * Dates and instants, as Go's [time] package computes them

    main.go parses calendar dates with [time.Parse("2006-01-02", s)],
    takes their instants with [Unix] and [AddDate(0, 0, 1)] (lines
    290-309), and prints the instant of a message with
    [time.Unix(sec, 0).Format("2006-01-02 15:04:05")] (lines 460-461).
    This file holds the instants, the parser of the date layout and the
    printer of the date-and-time layout, over the calendar of
    [Calendar].  An instant is its number of seconds since 1970-01-01
    00:00:00 UTC, which is all the program reads of a [time.Time]. *)

From S2P Require Import Prelude Utf8 GoStrings Calendar.

Local Open Scope Z_scope.

(** ** Instants *)

(** An instant. *)
Definition Time : Type := Z.

(** [time.Date(year, month, day, hour, min, sec, 0, time.UTC)]: a month
    outside 1..12 is carried into the year; days, hours, minutes and
    seconds outside their ranges are carried by the arithmetic. *)
Definition Date (year month day hour min sec : Z) : Time :=
  let m := month - 1 in
  dayNumber (year + m / 12) (m mod 12 + 1) day * secondsPerDay
  + hour * 3600 + min * 60 + sec.

(** [t.Unix()]. *)
Definition Unix (t : Time) : Z := t.

(** [t.Date()] and [t.Clock()] in a zone [offset] seconds east of UTC. *)
Definition dateOf (offset : Z) (t : Time) : Z * Z * Z :=
  civilFromDays ((t + offset) / secondsPerDay).

Definition clockOf (offset : Z) (t : Time) : Z * Z * Z :=
  let s := (t + offset) mod secondsPerDay in
  (s / 3600, s mod 3600 / 60, s mod 60).

(** [t.AddDate(years, months, days)] for a time in UTC. *)
Definition AddDate (t : Time) (years months days : Z) : Time :=
  let '(year, month, day) := dateOf 0 t in
  let '(hour, min, sec) := clockOf 0 t in
  Date (year + years) (month + months) (day + days) hour min sec.

(** ** Numbers in decimal *)

Definition isDigit (c : ascii) : bool := (0x30 <=? byteZ c) && (byteZ c <=? 0x39).

(** [isDigit(s, i)] of the time package: false out of range. *)
Definition isDigitAt (s : string) (i : nat) : bool :=
  match dropS i s with
  | String c _ => isDigit c
  | "" => false
  end.

(** The number a string of decimal digits denotes, continuing from [acc]. *)
Fixpoint decimalValue (s : string) (acc : Z) : Z :=
  match s with
  | "" => acc
  | String c s' => decimalValue s' (acc * 10 + (byteZ c - 0x30))
  end.

Definition digitChar (d : Z) : ascii := byte_of (0x30 + d).

(** [appendInt(b, x, width)] for [0 <= x]: at least [width] digits, zeros
    in front. *)
Fixpoint padDigits (width : nat) (x : Z) : string :=
  match width with
  | O => if x =? 0 then "" else pretty x
  | S w => if x <? 10 ^ Z.of_nat w
           then String "0" (padDigits w x)
           else pretty x
  end.

Definition appendInt (x : Z) (width : nat) : string :=
  if x <? 0 then "-" +:+ padDigits width (- x) else padDigits width x.

(** ** Parsing with the layout [2006-01-02] *)

(** [atoi] of the time package. *)
Definition atoi (s : string) : option Z :=
  let '(neg, digits) :=
    match s with
    | String c s' =>
        if bool_decide (c = "-"%char) then (true, s')
        else if bool_decide (c = "+"%char) then (false, s')
        else (false, s)
    | "" => (false, "")
    end in
  if allBytes isDigit digits
  then Some (if neg then - decimalValue digits 0 else decimalValue digits 0)
  else None.

(** [getnum(s, fixed)]: one or two digits, two when [fixed]. *)
Definition getnum (s : string) (fixed : bool) : option (Z * string) :=
  if negb (isDigitAt s 0) then None
  else if negb (isDigitAt s 1) then
    if fixed then None else Some (decimalValue (takeS 1 s) 0, dropS 1 s)
  else Some (decimalValue (takeS 2 s) 0, dropS 2 s).

(** [skip(value, prefix)] for a prefix without spaces. *)
Definition skip (value prefix : string) : option string :=
  if HasPrefix value prefix then Some (dropS (String.length prefix) value) else None.

(** [time.Parse("2006-01-02", value)]; [None] for any error. *)
Definition ParseDate (value : string) : option Time :=
  if (String.length value <? 4)%nat || negb (isDigitAt value 0) then None else
  year ← atoi (takeS 4 value) ;
  value ← skip (dropS 4 value) "-" ;
  '(month, value) ← getnum value true ;
  if (month <=? 0) || (12 <? month) then None else
  value ← skip value "-" ;
  '(day, value) ← getnum value true ;
  if negb (bool_decide (value = "")) then None else
  if (day <? 1) || (daysIn month year <? day) then None else
  Some (Date year month day 0 0 0).

(** ** Printing with the layout [2006-01-02 15:04:05] *)

Definition FormatDateTime (offset : Z) (t : Time) : string :=
  let '(year, month, day) := dateOf offset t in
  let '(hour, min, sec) := clockOf offset t in
  appendInt year 4 +:+ "-" +:+ appendInt month 2 +:+ "-" +:+ appendInt day 2
  +:+ " " +:+ appendInt hour 2 +:+ ":" +:+ appendInt min 2 +:+ ":" +:+ appendInt sec 2.

(** The date alone, as the layout [2006-01-02] prints it. *)
Definition FormatDate (year month day : Z) : string :=
  appendInt year 4 +:+ "-" +:+ appendInt month 2 +:+ "-" +:+ appendInt day 2.

(** ** Seconds written in decimal *)

(** [int64(f)] for the [f] that [strconv.ParseFloat(ts, 64)] returns, on
    the strings whose answer is plain: the empty string is a syntax
    error, for which [ParseFloat] returns 0; digits, or digits, a dot and
    at most six digits, with an integer part below 2^33, denote a number
    that lies at least 10^-6 below the next integer, while the nearest
    float64 is at most 2^-21 away from it, so the conversion to [int64]
    cuts it down to the integer part.  [None] for any other string. *)
Definition plainSeconds (ts : string) : option Z :=
  if decide (ts = "") then Some 0 else
  let '(int, frac) := default (ts, "") (Cut ts ".") in
  if negb (bool_decide (int = "")) && allBytes isDigit int && allBytes isDigit frac
     && (String.length frac <=? 6)%nat && (decimalValue int 0 <? 2 ^ 33)
  then Some (decimalValue int 0)
  else None.

(** The ten bytes of a date: four digits, two and two, with dashes. *)
Definition dateString (a b c d e f g h : ascii) : string :=
  String a (String b (String c (String d (String "-" (String e (String f
    (String "-" (String g (String h ""))))))))).

(** ** Instants and dates *)

Lemma Date_dayNumber (y m d h mi s : Z) :
  1 <= m <= 12 ->
  Date y m d h mi s = dayNumber y m d * secondsPerDay + h * 3600 + mi * 60 + s.
Proof.
  intros Hm. unfold Date. cbv zeta.
  rewrite (Z.div_small (m - 1) 12), (Z.mod_small (m - 1) 12) by lia.
  by replace (y + 0) with y by lia; replace (m - 1 + 1) with m by lia.
Qed.

(** The midnight of a date. *)
Lemma Date_midnight (y m d : Z) :
  1 <= m <= 12 -> Date y m d 0 0 0 = dayNumber y m d * secondsPerDay.
Proof. intros Hm. rewrite Date_dayNumber by done. lia. Qed.

Lemma instant_day (n s : Z) :
  0 <= s < secondsPerDay ->
  (n * secondsPerDay + s + 0) / secondsPerDay = n /\
  (n * secondsPerDay + s + 0) mod secondsPerDay = s.
Proof. unfold secondsPerDay. intros Hs. Z.div_mod_to_equations. lia. Qed.

(** Every instant of a day has the date of that day. *)
Lemma dateOf_Date (y m d s : Z) :
  validDate y m d = true -> 0 <= s < secondsPerDay ->
  dateOf 0 (Date y m d 0 0 0 + s) = (y, m, d).
Proof.
  intros Hv Hs. pose proof (validDate_inv _ _ _ Hv) as [Hm _].
  unfold dateOf. rewrite Date_midnight by done.
  by rewrite (proj1 (instant_day _ _ Hs)), civilFromDays_dayNumber.
Qed.

Lemma clockOf_Date (y m d s : Z) :
  1 <= m <= 12 -> 0 <= s < secondsPerDay ->
  clockOf 0 (Date y m d 0 0 0 + s) = (s / 3600, s mod 3600 / 60, s mod 60).
Proof.
  intros Hm Hs. unfold clockOf. rewrite Date_midnight by done.
  by rewrite (proj2 (instant_day _ _ Hs)).
Qed.

(** The instants whose date in UTC is a given one are the 86400 seconds
    from its midnight on. *)
Lemma dateOf_iff (y m d : Z) (t : Time) :
  validDate y m d = true ->
  dateOf 0 t = (y, m, d) <->
  Date y m d 0 0 0 <= t <= Date y m d 0 0 0 + (secondsPerDay - 1).
Proof.
  intros Hv. pose proof (validDate_inv _ _ _ Hv) as [Hm _]. split.
  - unfold dateOf. intros Hd.
    pose proof (civilFromDays_valid ((t + 0) / secondsPerDay)) as Hc.
    rewrite Hd in Hc. destruct Hc as [_ Hn].
    rewrite Date_midnight, Hn by done. clear. unfold secondsPerDay.
    Z.div_mod_to_equations; lia.
  - intros Ht. replace t with (Date y m d 0 0 0 + (t - Date y m d 0 0 0)) by lia.
    apply dateOf_Date; [done|lia].
Qed.

(** Adding days to a midnight adds as many times 86400 seconds. *)
Lemma AddDate_days (y m d n : Z) :
  validDate y m d = true ->
  AddDate (Date y m d 0 0 0) 0 0 n = Date y m d 0 0 0 + n * secondsPerDay.
Proof.
  intros Hv. pose proof (validDate_inv _ _ _ Hv) as [Hm _].
  assert (0 <= 0 < secondsPerDay) as H0 by done.
  pose proof (dateOf_Date y m d 0 Hv H0) as Hd.
  pose proof (clockOf_Date y m d 0 Hm H0) as Hc.
  rewrite Z.add_0_r in Hd, Hc. unfold AddDate. rewrite Hd, Hc.
  change (0 / 3600) with 0. change (0 mod 3600 / 60) with 0. change (0 mod 60) with 0.
  rewrite !Z.add_0_r, !Date_midnight, dayNumber_day by done. lia.
Qed.

(** ** Parsing dates *)

Lemma isDigit_not_sign c : isDigit c = true -> c <> "-"%char /\ c <> "+"%char.
Proof. intros Hc. split; intros ->; done. Qed.

Lemma atoi_digits s :
  allBytes isDigit s = true -> atoi s = Some (decimalValue s 0).
Proof.
  intros Hs. unfold atoi. destruct s as [|c s]; [done|].
  pose proof Hs as [[Hm Hp]%isDigit_not_sign _]%andb_prop.
  rewrite !bool_decide_eq_false_2 by done. by rewrite Hs.
Qed.

Lemma getnum_two a b rest :
  isDigit a = true -> isDigit b = true ->
  getnum (String a (String b rest)) true
  = Some (decimalValue (String a (String b "")) 0, rest).
Proof. intros Ha Hb. unfold getnum, isDigitAt. cbn [dropS takeS]. by rewrite Ha, Hb. Qed.

Lemma skip_dash rest : skip (String "-" rest) "-" = Some rest.
Proof. unfold skip. cbn [HasPrefix]. by rewrite decide_True, HasPrefix_nil. Qed.

Lemma validDate_parse (year month day : Z) :
  validDate year month day =
  negb ((month <=? 0) || (12 <? month)) && negb ((day <? 1) || (daysIn month year <? day)).
Proof.
  unfold validDate.
  destruct (Z.leb_spec month 0), (Z.ltb_spec 12 month), (Z.ltb_spec day 1),
    (Z.ltb_spec (daysIn month year) day), (Z.leb_spec 1 month),
    (Z.leb_spec month 12), (Z.leb_spec 1 day), (Z.leb_spec day (daysIn month year));
    cbn [negb andb orb]; first [reflexivity | lia].
Qed.

Lemma ParseDate_digits a b c d e f g h :
  allBytes isDigit (String a (String b (String c (String d
     (String e (String f (String g (String h "")))))))) = true ->
  ParseDate (dateString a b c d e f g h) =
  let year := decimalValue (String a (String b (String c (String d "")))) 0 in
  let month := decimalValue (String e (String f "")) 0 in
  let day := decimalValue (String g (String h "")) 0 in
  if validDate year month day then Some (Date year month day 0 0 0) else None.
Proof.
  cbn [allBytes]. intros Hall. repeat (apply andb_prop in Hall as [? Hall]).
  unfold ParseDate, dateString, isDigitAt. cbn [String.length dropS takeS Nat.ltb Nat.leb].
  rewrite H. cbn [negb orb]. rewrite atoi_digits by (cbn [allBytes]; by rewrite H, H0, H1, H2).
  cbn [mbind option_bind]. rewrite skip_dash. cbn [mbind option_bind].
  rewrite getnum_two by done. cbn [mbind option_bind]. rewrite validDate_parse.
  destruct (_ || _); [done|]. rewrite skip_dash. cbn [mbind option_bind].
  rewrite getnum_two by done. cbn [mbind option_bind bool_decide negb andb].
  rewrite bool_decide_eq_true_2 by done. cbn [negb]. by destruct (_ || _).
Qed.


(** ** What the parser accepts *)

Lemma atoi_inv a s y :
  isDigit a = true -> atoi (String a s) = Some y ->
  allBytes isDigit (String a s) = true /\ y = decimalValue (String a s) 0.
Proof.
  intros Ha. pose proof (isDigit_not_sign _ Ha) as [Hm Hp]. unfold atoi.
  rewrite !bool_decide_eq_false_2 by done.
  destruct (allBytes isDigit (String a s)); [|done]. by intros [= <-].
Qed.

Lemma skip_inv value rest : skip value "-" = Some rest -> value = String "-" rest.
Proof.
  unfold skip. destruct value as [|c value]; [done|]. cbn [HasPrefix].
  case_decide; [|done]. rewrite HasPrefix_nil. by intros [= <-]; subst.
Qed.

Lemma getnum_inv value n rest :
  getnum value true = Some (n, rest) ->
  exists a b, value = String a (String b rest) /\ isDigit a = true /\
              isDigit b = true /\ n = decimalValue (String a (String b "")) 0.
Proof.
  unfold getnum, isDigitAt. destruct value as [|a [|b value]]; cbn [dropS takeS].
  - done.
  - by destruct (isDigit a).
  - destruct (isDigit a) eqn:Ha; [|done]. destruct (isDigit b) eqn:Hb; [|done].
    cbn [negb]. intros [= <- <-]. by exists a, b.
Qed.

Lemma ParseDate_inv value t :
  ParseDate value = Some t ->
  exists a b c d e f g h,
    value = dateString a b c d e f g h /\
    allBytes isDigit (String a (String b (String c (String d
       (String e (String f (String g (String h "")))))))) = true.
Proof.
  unfold ParseDate, isDigitAt.
  destruct value as [|a [|b [|c [|d value]]]]; try done.
  cbn [String.length dropS takeS Nat.ltb Nat.leb orb].
  destruct (isDigit a) eqn:Ha; [|done]. cbn [negb].
  destruct (atoi _) as [year|] eqn:Hyear; [|done]. cbn [mbind option_bind].
  apply atoi_inv in Hyear as [Hdigits _]; [|done].
  destruct (skip value "-") as [v1|] eqn:Hs1; [|done]. cbn [mbind option_bind].
  apply skip_inv in Hs1 as ->.
  destruct (getnum v1 true) as [[month v2]|] eqn:Hm; [|done]. cbn [mbind option_bind].
  apply getnum_inv in Hm as (e & f & -> & He & Hf & _).
  destruct (_ || _); [done|].
  destruct (skip v2 "-") as [v3|] eqn:Hs2; [|done]. cbn [mbind option_bind].
  apply skip_inv in Hs2 as ->.
  destruct (getnum v3 true) as [[day v4]|] eqn:Hd; [|done]. cbn [mbind option_bind].
  apply getnum_inv in Hd as (g & h & -> & Hg & Hh & _).
  case_bool_decide as Hv4; [|done]. subst v4. intros _.
  exists a, b, c, d, e, f, g, h. split; [done|].
  cbn [allBytes] in *. apply andb_prop in Hdigits as [_ Hdigits].
  apply andb_prop in Hdigits as [Hb Hdigits].
  apply andb_prop in Hdigits as [Hc Hdigits].
  apply andb_prop in Hdigits as [Hd' _].
  by rewrite Ha, Hb, Hc, Hd', He, Hf, Hg, Hh.
Qed.

(** A parsed date has ten bytes. *)
Lemma ParseDate_length value t :
  ParseDate value = Some t -> String.length value = 10%nat.
Proof. by intros (a & b & c & d & e & f & g & h & -> & _)%ParseDate_inv. Qed.

(** ** Numbers of a fixed width *)

Definition checkPad (w : nat) (x : Z) : bool :=
  let s := appendInt x w in
  (String.length s =? w)%nat && allBytes isDigit s && (decimalValue s 0 =? x).

Lemma checkPad_2 : forallRange (checkPad 2) 0 100 = true.
Proof. vm_cast_no_check (@eq_refl bool true). Qed.

Lemma checkPad_4 : forallRange (checkPad 4) 0 10000 = true.
Proof. vm_cast_no_check (@eq_refl bool true). Qed.

Lemma checkPad_inv w x :
  checkPad w x = true ->
  String.length (appendInt x w) = w /\ allBytes isDigit (appendInt x w) = true /\
  decimalValue (appendInt x w) 0 = x.
Proof.
  unfold checkPad. cbv zeta.
  by intros [[?%Nat.eqb_eq ?]%andb_prop ?%Z.eqb_eq]%andb_prop.
Qed.

Lemma appendInt_2 x :
  0 <= x < 100 ->
  exists a b, appendInt x 2 = String a (String b "") /\
    isDigit a = true /\ isDigit b = true /\
    decimalValue (String a (String b "")) 0 = x.
Proof.
  intros Hx%(forallRange_spec _ _ _ checkPad_2). apply checkPad_inv in Hx.
  destruct Hx as (Hlen & Hdig & Hval).
  destruct (appendInt x 2) as [|a [|b [|]]]; try done.
  cbn [allBytes] in Hdig. apply andb_prop in Hdig as [Ha [Hb _]%andb_prop].
  by exists a, b.
Qed.

Lemma appendInt_4 x :
  0 <= x < 10000 ->
  exists a b c d, appendInt x 4 = String a (String b (String c (String d ""))) /\
    allBytes isDigit (String a (String b (String c (String d "")))) = true /\
    decimalValue (String a (String b (String c (String d "")))) 0 = x.
Proof.
  intros Hx%(forallRange_spec _ _ _ checkPad_4). apply checkPad_inv in Hx.
  destruct Hx as (Hlen & Hdig & Hval).
  destruct (appendInt x 4) as [|a [|b [|c [|d [|]]]]]; try done.
  by exists a, b, c, d.
Qed.

(** Parsing what the layout prints gives the date back. *)
Lemma ParseDate_FormatDate (y m d : Z) :
  0 <= y < 10000 -> validDate y m d = true ->
  ParseDate (FormatDate y m d) = Some (Date y m d 0 0 0).
Proof.
  intros Hy Hv. pose proof (validDate_inv _ _ _ Hv) as [Hm Hd].
  pose proof (daysIn_bounds m y Hm).
  destruct (appendInt_4 y Hy) as (a & b & c & d' & Ey & Hdy & Vy).
  destruct (appendInt_2 m) as (e & f & Em & He & Hf & Vm); [lia|].
  destruct (appendInt_2 d) as (g & h & Ed & Hg & Hh & Vd); [lia|].
  unfold FormatDate. rewrite Ey, Em, Ed. rewrite !app_cons_s, !app_nil_l_s.
  change (ParseDate (dateString a b c d' e f g h) = Some (Date y m d 0 0 0)).
  rewrite ParseDate_digits.
  - cbv zeta. by rewrite Vy, Vm, Vd, Hv.
  - cbn [allBytes] in *. rewrite He, Hf, Hg, Hh.
    repeat (apply andb_prop in Hdy as [-> Hdy]). done.
Qed.

(** What the layout prints for a date of the years 0 to 9999 is ten
    bytes of the shape the parser reads. *)
Lemma FormatDate_dateString (y m d : Z) :
  0 <= y < 10000 -> validDate y m d = true ->
  exists a b c d' e f g h,
    FormatDate y m d = dateString a b c d' e f g h /\
    allBytes isDigit (String a (String b (String c (String d'
       (String e (String f (String g (String h "")))))))) = true.
Proof.
  intros Hy Hv. pose proof (validDate_inv _ _ _ Hv) as [Hm Hd].
  pose proof (daysIn_bounds m y Hm).
  destruct (appendInt_4 y Hy) as (a & b & c & d' & Ey & Hdy & _).
  destruct (appendInt_2 m) as (e & f & Em & He & Hf & _); [lia|].
  destruct (appendInt_2 d) as (g & h & Ed & Hg & Hh & _); [lia|].
  exists a, b, c, d', e, f, g, h. unfold FormatDate.
  rewrite Ey, Em, Ed, !app_cons_s, !app_nil_l_s. split; [done|].
  cbn [allBytes] in *. rewrite He, Hf, Hg, Hh.
  repeat (apply andb_prop in Hdy as [-> Hdy]). done.
Qed.

(** A date has no byte that is not a digit or a dash. *)
Lemma dateString_isNot x a b c d e f g h :
  isDigit x = false -> x <> "-"%char ->
  allBytes isDigit (String a (String b (String c (String d
     (String e (String f (String g (String h "")))))))) = true ->
  allBytes (isNot x) (dateString a b c d e f g h) = true.
Proof.
  intros Hx Hdash Hall.
  assert (forall k, isDigit k = true -> isNot x k = true) as Hk.
  { intros k Hk. unfold isNot. apply negb_true_iff, bool_decide_eq_false.
    intros ->. congruence. }
  assert (isNot x "-"%char = true) as Hd
    by (unfold isNot; apply negb_true_iff, bool_decide_eq_false; congruence).
  cbn [allBytes dateString] in *. rewrite Hd.
  repeat (apply andb_prop in Hall as [?%Hk Hall]).
  repeat (apply andb_true_intro; split); done.
Qed.

(** ** The dates the parser accepts are those the layout prints *)

Lemma isDigit_value c : isDigit c = true -> 0 <= byteZ c - 0x30 <= 9.
Proof. unfold isDigit. intros [?%Z.leb_le ?%Z.leb_le]%andb_prop. lia. Qed.

(** Two digits are determined by their value, and so are four. *)
Lemma digits_inj_2 a b a' b' :
  isDigit a = true -> isDigit b = true -> isDigit a' = true -> isDigit b' = true ->
  decimalValue (String a (String b "")) 0 = decimalValue (String a' (String b' "")) 0 ->
  String a (String b "") = String a' (String b' "").
Proof.
  intros Ha%isDigit_value Hb%isDigit_value Ha'%isDigit_value Hb'%isDigit_value.
  cbn [decimalValue]. intros Hv.
  assert (byteZ a = byteZ a' /\ byteZ b = byteZ b') as [->%byteZ_inj ->%byteZ_inj] by lia.
  done.
Qed.

Lemma digits_inj_4 a b c d a' b' c' d' :
  allBytes isDigit (String a (String b (String c (String d "")))) = true ->
  allBytes isDigit (String a' (String b' (String c' (String d' "")))) = true ->
  decimalValue (String a (String b (String c (String d "")))) 0
  = decimalValue (String a' (String b' (String c' (String d' "")))) 0 ->
  String a (String b (String c (String d "")))
  = String a' (String b' (String c' (String d' ""))).
Proof.
  cbn [allBytes decimalValue]. intros H1 H2.
  repeat (apply andb_prop in H1 as [?%isDigit_value H1]).
  repeat (apply andb_prop in H2 as [?%isDigit_value H2]). intros Hv.
  assert (byteZ a = byteZ a' /\ byteZ b = byteZ b' /\ byteZ c = byteZ c' /\
          byteZ d = byteZ d')
    as (->%byteZ_inj & ->%byteZ_inj & ->%byteZ_inj & ->%byteZ_inj) by lia.
  done.
Qed.

Lemma decimalValue_bound_2 a b :
  isDigit a = true -> isDigit b = true ->
  0 <= decimalValue (String a (String b "")) 0 < 100.
Proof. intros Ha%isDigit_value Hb%isDigit_value. cbn [decimalValue]. lia. Qed.

Lemma decimalValue_bound_4 a b c d :
  allBytes isDigit (String a (String b (String c (String d "")))) = true ->
  0 <= decimalValue (String a (String b (String c (String d "")))) 0 < 10000.
Proof.
  cbn [allBytes decimalValue]. intros H1.
  repeat (apply andb_prop in H1 as [?%isDigit_value H1]). lia.
Qed.

(** Printing the value of digits with their width gives the digits. *)
Lemma appendInt_decimalValue_2 a b :
  isDigit a = true -> isDigit b = true ->
  appendInt (decimalValue (String a (String b "")) 0) 2 = String a (String b "").
Proof.
  intros Ha Hb.
  destruct (appendInt_2 _ (decimalValue_bound_2 a b Ha Hb)) as (a' & b' & -> & ? & ? & ?).
  by apply digits_inj_2.
Qed.

Lemma appendInt_decimalValue_4 a b c d :
  allBytes isDigit (String a (String b (String c (String d "")))) = true ->
  appendInt (decimalValue (String a (String b (String c (String d "")))) 0) 4
  = String a (String b (String c (String d ""))).
Proof.
  intros Hd.
  destruct (appendInt_4 _ (decimalValue_bound_4 a b c d Hd)) as (a' & b' & c' & d' & -> & ? & ?).
  by apply digits_inj_4.
Qed.

(** C17. [time.Parse] with the layout [2006-01-02] and [Format] with the
    same layout are inverse to each other: a string is accepted exactly
    when it is what the layout prints for a date of the calendar in the
    years 0 to 9999, and the time returned is the midnight that begins
    that day in UTC.  Nothing else is accepted: no other width, no sign,
    no space, no month 13, no 30th of February. *)
Theorem ParseDate_iff (value : string) (t : Time) :
  ParseDate value = Some t <->
  exists y m d, 0 <= y < 10000 /\ validDate y m d = true /\
                value = FormatDate y m d /\ t = Date y m d 0 0 0.
Proof.
  split.
  - intros Hp. destruct (ParseDate_inv _ _ Hp) as (a & b & c & d & e & f & g & h & -> & Hd).
    rewrite ParseDate_digits in Hp by done. cbv zeta in Hp.
    destruct (validDate _ _ _) eqn:Hv; [|done]. injection Hp as <-.
    cbn [allBytes] in Hd. repeat (apply andb_prop in Hd as [? Hd]).
    assert (allBytes isDigit (String a (String b (String c (String d "")))) = true) as Hy
      by (cbn [allBytes]; repeat match goal with Hc : isDigit _ = true |- _ => rewrite Hc; clear Hc end; done).
    eexists _, _, _. split; [by apply decimalValue_bound_4|]. split; [done|]. split; [|done].
    unfold FormatDate.
    by rewrite appendInt_decimalValue_4, !appendInt_decimalValue_2.
  - intros (y & m & d & Hy & Hv & -> & ->). by apply ParseDate_FormatDate.
Qed.

Lemma ParseDate_iff_witness :
  exists y m d, 0 <= y < 10000 /\ validDate y m d = true /\
                "2024-02-29" = FormatDate y m d /\ Date 2024 2 29 0 0 0 = Date y m d 0 0 0.
Proof. by apply (ParseDate_iff "2024-02-29" (Date 2024 2 29 0 0 0)). Defined.

(** ** Numbers printed in decimal and read back *)

Lemma pretty_N_char_digit d :
  (d < 10)%N ->
  isDigit (pretty_N_char d) = true /\ byteZ (pretty_N_char d) - 0x30 = Z.of_N d.
Proof.
  intros Hd.
  assert (d = 0 \/ d = 1 \/ d = 2 \/ d = 3 \/ d = 4 \/ d = 5 \/ d = 6 \/ d = 7 \/ d = 8
          \/ d = 9)%N as Hc by lia.
  by repeat (destruct Hc as [->|Hc]; [done|]); subst.
Qed.

Lemma decimalValue_pretty_N_go x s :
  decimalValue (pretty_N_go x s) 0 = decimalValue s (Z.of_N x).
Proof.
  revert s. induction (N.lt_wf_0 x) as [x _ IH]. intros s.
  destruct (decide (x = 0%N)) as [->|Hx]; [done|].
  rewrite pretty_N_go_step by lia. rewrite IH by (apply N.div_lt; lia).
  cbn [decimalValue]. f_equal.
  destruct (pretty_N_char_digit (x `mod` 10)) as [_ ->]; [by apply N.mod_lt|].
  rewrite N2Z.inj_div, N2Z.inj_mod. change (Z.of_N 10) with 10. 
  pose proof (Z.div_mod (Z.of_N x) 10). lia.
Qed.

Lemma allBytes_pretty_N_go x s :
  allBytes isDigit s = true -> allBytes isDigit (pretty_N_go x s) = true.
Proof.
  revert s. induction (N.lt_wf_0 x) as [x _ IH]. intros s Hs.
  destruct (decide (x = 0%N)) as [->|Hx]; [done|].
  rewrite pretty_N_go_step by lia. apply IH; [apply N.div_lt; lia|].
  cbn [allBytes]. rewrite Hs.
  by destruct (pretty_N_char_digit (x `mod` 10)) as [-> _]; [by apply N.mod_lt|].
Qed.

(** A number other than zero is printed without a zero in front. *)
Lemma pretty_N_go_leading x s :
  (0 < x)%N -> exists c t, pretty_N_go x s = String c t /\ c <> "0"%char.
Proof.
  revert s. induction (N.lt_wf_0 x) as [x _ IH]. intros s Hx.
  rewrite pretty_N_go_step by done.
  destruct (decide (x `div` 10 = 0)%N) as [Hq|Hq].
  - rewrite Hq, pretty_N_go_0. eexists _, _. split; [done|].
    assert (x < 10)%N by (by apply N.div_small_iff in Hq).
    rewrite N.mod_small by done.
    assert (x = 1 \/ x = 2 \/ x = 3 \/ x = 4 \/ x = 5 \/ x = 6 \/ x = 7 \/ x = 8
            \/ x = 9)%N as Hc by lia.
    by repeat (destruct Hc as [->|Hc]; [done|]); subst.
  - apply IH; [apply N.div_lt; lia|by apply N.neq_0_lt_0].
Qed.

(** What [FormatInt] prints for a number that is not negative: digits,
    whose value is the number, without a zero in front unless the
    number is zero. *)
Lemma FormatInt_digits n :
  0 <= n ->
  allBytes isDigit (FormatInt n) = true /\ decimalValue (FormatInt n) 0 = n /\
  FormatInt n <> "" /\ (0 < n -> exists c t, FormatInt n = String c t /\ c <> "0"%char).
Proof.
  intros Hn. destruct n as [|p|p]; [by repeat split; try lia| |lia].
  unfold FormatInt, pretty, pretty_Z, pretty, pretty_positive, pretty, pretty_N.
  rewrite decide_False by done.
  destruct (pretty_N_go_leading (N.pos p) "") as (c & t & Hp & Hc); [done|].
  split; [by apply allBytes_pretty_N_go|]. split; [by rewrite decimalValue_pretty_N_go|].
  split; [by rewrite Hp|]. intros _. by exists c, t.
Qed.

Lemma FormatInt_negative n : n < 0 -> FormatInt n = "-" +:+ FormatInt (- n).
Proof. by destruct n. Qed.

Lemma decimalValue_ge s n : allBytes isDigit s = true -> 0 <= n -> n <= decimalValue s n.
Proof.
  revert n. induction s as [|c s IH]; intros n Hs Hn; [done|].
  cbn [allBytes] in Hs. apply andb_prop in Hs as [Hc%isDigit_value Hs].
  cbn [decimalValue]. etrans; [|apply IH]; [lia|done|lia].
Qed.

Lemma isDigit_digitVal c : isDigit c = true -> digitVal c = Some (byteZ c - 0x30).
Proof. intros Hc. unfold digitVal. unfold isDigit in Hc. by rewrite Hc. Qed.

(** The loop of [ParseUint] in base 10 on digits whose value fits. *)
Lemma parseUintLoop_decimal maxVal s n :
  allBytes isDigit s = true -> 0 <= n -> decimalValue s n <= maxVal -> maxVal < 2 ^ 64 ->
  parseUintLoop 10 maxVal s n = Some (decimalValue s n).
Proof.
  revert n. induction s as [|c s IH]; intros n Hs Hn Hv Hmax; [done|].
  cbn [allBytes] in Hs. apply andb_prop in Hs as [Hc Hs].
  pose proof (isDigit_value _ Hc). cbn [decimalValue] in *.
  pose proof (decimalValue_ge s (n * 10 + (byteZ c - 48)) Hs ltac:(lia)).
  rewrite parseUintLoop_cons, (isDigit_digitVal _ Hc).
  change ((2 ^ 64 - 1) `div` 10 + 1) with 1844674407370955162.
  repeat case_match; try lia. apply IH; [done|lia..].
Qed.
