(* ===== verification/Slack.v ===== *)
(** * The data of the program and the world it runs in

    The structs of main.go (lines 29-37 and 133-196), the two globals
    [config] and [emojiList], the configuration files, the requests
    sent and the text printed, gathered in the record [World]; the
    environment the program cannot control (the server's answers, the
    file system's faults, the time zone) as the class [Environment];
    the functions that load and save the configuration (lines
    42-131); and the classes of frames, the relations on worlds that
    the steps of the commands respect. *)

From S2P Require Import Prelude Utf8 GoStrings Calendar GoTime.

Local Open Scope Z_scope.
Local Open Scope go_scope.

(** ** Structs *)

(** [type Config].  A Go map may be nil: [None]. *)
Record Config : Type := {
  SlackBotToken : string;
  SlackUserToken : string;
  ChannelID : string;
  ServerBotUserID : string;
  UserCache : option (gmap string string);
  DefaultShowLimit : Z;
  DefaultEmoji : string;
}.

(** [type SlackMessage], which no function of main.go uses. *)
Record SlackMessage : Type := {
  MessageText : string;
}.

Record SlackReaction : Type := {
  Name : string;
  Count : Z;
  Users : list string;
}.

(** The anonymous struct of the [Files] fields. *)
Record SlackFile : Type := {
  URLPrivate : string;
  FileName : string;
  Mimetype : string;
}.

(** [type SlackMessageReply]; [ReplyEdited] is the field [Edited.User]. *)
Record SlackMessageReply : Type := {
  ReplyUserID : string;
  ReplyUserName : string;
  ReplyText : string;
  ReplyTs : string;
  ReplyReactions : list SlackReaction;
  ReplyFiles : list SlackFile;
  ReplyEdited : string;
}.

(** [type SlackMessageItem]; [Edited] is the field [Edited.User]. *)
Record SlackMessageItem : Type := {
  UserID : string;
  UserName : string;
  Text : string;
  Ts : string;
  ThreadTS : string;
  Replies : list SlackMessageReply;
  Reactions : list SlackReaction;
  Files : list SlackFile;
  Edited : string;
}.

(** [type SlackMessagesResponse]; [NextCursor] is the field
    [ResponseMetadata.NextCursor]. *)
Record SlackMessagesResponse : Type := {
  Messages : list SlackMessageItem;
  HasMore : bool;
  NextCursor : string;
}.

Record GetUploadURLResponse : Type := {
  UploadOK : bool;
  UploadURL : string;
  FileID : string;
}.

(** [type UserProfile]; [RealName] is the field [User.RealName]. *)
Record UserProfile : Type := {
  OK : bool;
  RealName : string;
}.

(** The struct that [handleError] decodes (lines 786-789). *)
Record ApiStatus : Type := {
  StatusOK : bool;
  StatusError : string;
}.

(** ** Requests and answers *)

(** What a request carries besides its URL and headers. *)
Inductive Payload : Type :=
| NoPayload
| JSONFields (fields : list (string * string))
| JSONComplete (fileID channel : string)
| FormFields (fields : list (string * string))
| FormFile (name : string) (content : string).

Record Request : Type := {
  Method : string;
  URL : string;
  Headers : list (string * string);
  Body : Payload;
}.

(** How fetching and decoding a response ends: [client.Do] fails,
    [io.ReadAll] fails, [json.Unmarshal] fails, or the struct is filled. *)
Inductive Fetch (A : Type) : Type :=
| DoErr (e : string)
| ReadErr (e : string)
| DecodeErr (e : string)
| Decoded (a : A).
Arguments DoErr {A} e.
Arguments ReadErr {A} e.
Arguments DecodeErr {A} e.
Arguments Decoded {A} a.

(** A JSON value decoded into an [interface{}]: [nil], [bool],
    [float64] (kept as its text), [string], [[]interface{}] and
    [map[string]interface{}]. *)
#[warnings="-register-all"]
Inductive Json : Type :=
| JNull
| JBool (b : bool)
| JNumber (text : string)
| JString (s : string)
| JArray (items : list Json)
| JObject (fields : gmap string Json).

(** ** Files *)

(** What the program can find of a file: no file ([os.Stat] says it
    does not exist), a file that [os.Open] refuses, a file whose
    content decodes to a value, a file whose content does not. *)
Inductive FileState (A : Type) : Type :=
| Absent
| Unreadable
| Holds (a : A)
| Garbled.
Arguments Absent {A}.
Arguments Unreadable {A}.
Arguments Holds {A} a.
Arguments Garbled {A}.

(** ** The world *)

Record World : Type := {
  config : Config;
  emojiList : option (gmap string string);
  configFile : FileState Config;
  emojiFile : FileState (option (gmap string string));
  requests : list Request;
  stdout : list string;
  (** the files of the working directory, by name *)
  directory : gmap string string;
}.

Definition setConfig (c : Config) (w : World) : World :=
  {| config := c; emojiList := emojiList w; configFile := configFile w;
     emojiFile := emojiFile w; requests := requests w; stdout := stdout w;
     directory := directory w |}.

Definition setEmojiList (e : option (gmap string string)) (w : World) : World :=
  {| config := config w; emojiList := e; configFile := configFile w;
     emojiFile := emojiFile w; requests := requests w; stdout := stdout w;
     directory := directory w |}.

Definition setConfigFile (f : FileState Config) (w : World) : World :=
  {| config := config w; emojiList := emojiList w; configFile := f;
     emojiFile := emojiFile w; requests := requests w; stdout := stdout w;
     directory := directory w |}.

Definition addRequest (r : Request) (w : World) : World :=
  {| config := config w; emojiList := emojiList w; configFile := configFile w;
     emojiFile := emojiFile w; requests := requests w ++ [r]; stdout := stdout w;
     directory := directory w |}.

Definition addOutput (s : string) (w : World) : World :=
  {| config := config w; emojiList := emojiList w; configFile := configFile w;
     emojiFile := emojiFile w; requests := requests w; stdout := stdout w ++ [s];
     directory := directory w |}.

(** [os.Create(name)] followed by writing [content]. *)
Definition addFile (name content : string) (w : World) : World :=
  {| config := config w; emojiList := emojiList w; configFile := configFile w;
     emojiFile := emojiFile w; requests := requests w; stdout := stdout w;
     directory := <[name := content]> (directory w) |}.

(** Reading a Go map that may be nil. *)
Definition lookupNil (m : option (gmap string string)) (k : string) : option string :=
  match m with
  | Some m => m !! k
  | None => None
  end.

(** ** The environment *)

(** The errors of the operating system that the program prints. *)
Inductive OsError : Type :=
| ErrOpenConfig
| ErrDecodeConfig
| ErrCreateConfig
| ErrWriteConfig
| ErrOpenEmoji
| ErrDecodeEmoji
| ErrCreateFile
| ErrParseURL
| ErrOpenFile.

Class Environment : Type := {
  (** the server: its answer to a request, given the requests before it *)
  usersInfo : list Request -> Request -> Fetch UserProfile;
  conversationsHistory : list Request -> Request -> Fetch SlackMessagesResponse;
  (** [inl]: [client.Do] failed; [inr]: what [Decode], whose error is
      dropped, left in the struct *)
  conversationsReplies : list Request -> Request -> string + list SlackMessageItem;
  (** the answer to a request that posts, updates, deletes or reacts *)
  apiCall : list Request -> Request -> Fetch ApiStatus;
  (** the answer to the request for an upload URL: [None] when
      [client.Do] failed, else what [Decode], whose error is dropped,
      left in the struct *)
  getUploadURL : list Request -> Request -> option GetUploadURLResponse;
  (** the answer to the request that completes an upload, decoded into a
      [map[string]interface{}] (empty for [null]) *)
  completeUpload : list Request -> Request -> Fetch (gmap string Json);
  (** the variable [buildTime], set when the program is linked *)
  buildTime : string;
  (** a download: the error of [client.Do] or the body *)
  download : list Request -> Request -> string + string;
  (** [url.Parse]: the path of a URL, [None] when it cannot be parsed *)
  urlPath : string -> option string;
  (** whether [os.Create] fails for a file to download *)
  createFileFails : string -> bool;
  (** seconds east of UTC of the local zone at an instant *)
  zoneOffset : Z -> Z;
  (** [int64(f)] for the [f] that [strconv.ParseFloat] returns, on the
      strings [plainSeconds] leaves out *)
  floatSeconds : string -> Z;
  (** [fmt.Sprintf(format)] without operands, for a format with a
      percent sign *)
  sprintfBare : string -> string;
  (** whether [os.Create] and [Write] on the configuration file fail *)
  createFails : bool;
  writeFails : bool;
  (** the text of an error *)
  errorText : OsError -> string;
}.

(** ** Constants *)

Definition nl : string := String "010"%char "".
Definition esc : string := String "027"%char "".

Definition configFileName : string := "slack.config.json".
Definition emojiFileName : string := "slack.emoji.json".
Definition slackUploadURL : string := "https://slack.com/api/files.getUploadURLExternal".
Definition slackCompleteUploadURL : string :=
  "https://slack.com/api/files.completeUploadExternal".

(** ** Printing and sending *)

(** [fmt.Println(a, b, ...)]: the operands, a space between them, a
    newline. *)
Definition Println (args : list string) : M World unit :=
  modify (addOutput (Join args " " +:+ nl)).

(** [fmt.Print(s)] and [fmt.Printf] with the text already formatted. *)
Definition Print (s : string) : M World unit := modify (addOutput s).

(** [req.Header.Set("Authorization", "Bearer "+token)]. *)
Definition bearer (token : string) : string * string :=
  ("Authorization", "Bearer " +:+ token).

(** [client.Do(req)] followed by reading and decoding: the request is
    recorded, the environment answers. *)
Definition send {A} (answer : list Request -> Request -> A) (r : Request)
  : M World A :=
  fun w => (Ret (answer (requests w) r), addRequest r w).

(** ** Frames

    A frame is a preorder on worlds that the steps of every command
    respect: printing, and loading the emoji table.  What else a
    relation has to respect depends on the command: the requests it
    sends ([admits]), the writes to the configuration ([Saves]), the
    files it stores ([Stores]).  A theorem that holds of every frame is
    proved once, by going through the text of the command. *)

(** The update [f] of the world respects [R]. *)
Definition respects (R : relation World) (f : World -> World) : Prop :=
  forall w, R w (f w).

(** Sending [r] respects [R]. *)
Definition admits (R : relation World) (r : Request) : Prop := respects R (addRequest r).

Class Frame (R : relation World) : Prop := {
  #[global] frame_preorder :: PreOrder R;
  frame_output s : respects R (addOutput s);
  frame_emoji e : respects R (setEmojiList e);
}.

(** A frame that the writes to the configuration and to its file
    respect. *)
Class Saves (R : relation World) : Prop := {
  frame_config c : respects R (setConfig c);
  frame_configFile f : respects R (setConfigFile f);
}.

(** A frame that the files stored respect. *)
Class Stores (R : relation World) : Prop :=
  frame_file name content : respects R (addFile name content).

#[export] Hint Extern 1 (Frame _) => tc_solve : go.
#[export] Hint Extern 1 (Saves _) => tc_solve : go.
#[export] Hint Extern 1 (Stores _) => tc_solve : go.

Section Frame.
Context (R : relation World) `{!Frame R}.

Lemma send_frame {A} (answer : list Request -> Request -> A) r :
  admits R r -> preserves R (send answer r).
Proof. intros Hr w. apply Hr. Qed.

Lemma Print_frame s : preserves R (Print s).
Proof. intros w. apply frame_output. Qed.

Lemma Println_frame args : preserves R (Println args).
Proof. intros w. apply frame_output. Qed.

Lemma setEmojiList_frame e : preserves R (modify (setEmojiList e)).
Proof. intros w. apply frame_emoji. Qed.

End Frame.

#[export] Hint Resolve send_frame Println_frame Print_frame setEmojiList_frame : go.

(** ** Requests of one kind *)

Section Keeps.
Variable P : Request -> bool.

(** The requests of the kind [P] are the same in both worlds. *)
Definition keeps : relation World :=
  fun w w' => base.filter (fun r => P r) (requests w') = base.filter (fun r => P r) (requests w).

#[export] Instance keeps_preorder : PreOrder keeps.
Proof. split; [done|]. intros w1 w2 w3 H12 H23. unfold keeps in *. congruence. Qed.

Lemma keeps_same w w' : requests w' = requests w -> keeps w w'.
Proof. unfold keeps. by intros ->. Qed.

#[export] Instance keeps_frame : Frame keeps.
Proof. split; [tc_solve|..]; intros ? w; by apply keeps_same. Qed.

#[export] Instance keeps_saves : Saves keeps.
Proof. split; intros ? w; by apply keeps_same. Qed.

#[export] Instance keeps_stores : Stores keeps.
Proof. intros ?? w. by apply keeps_same. Qed.

(** A request of another kind is admitted. *)
Lemma keeps_admits r : P r = false -> admits keeps r.
Proof.
  intros Hr w. unfold keeps. cbn [requests addRequest].
  rewrite filter_app, filter_cons_False, filter_nil, app_nil_r by (rewrite Hr; exact id).
  done.
Qed.

Lemma added_addRequest r w :
  P r = true ->
  base.filter (fun r => P r) (requests (addRequest r w))
  = base.filter (fun r => P r) (requests w) ++ [r].
Proof.
  intros Hr. cbn [requests addRequest].
  by rewrite filter_app, filter_cons_True, filter_nil by by rewrite Hr.
Qed.

End Keeps.

#[export] Hint Resolve keeps_admits : go.

(** ** A configuration with a map for the names *)

(** The configuration has a map for the names: its file had a
    [user_cache] entry. *)
Definition hasCache (w : World) : Prop := is_Some (UserCache (config w)).

Lemma send_returning {A} (answer : list Request -> Request -> A) r :
  keeps_returning hasCache (send answer r).
Proof. by intros w Hw. Qed.

Lemma Println_returning args : keeps_returning hasCache (Println args).
Proof. by intros w Hw. Qed.

Lemma Print_returning s : keeps_returning hasCache (Print s).
Proof. by intros w Hw. Qed.

#[export] Hint Resolve send_returning Println_returning Print_returning : go.

Section Config.
Context `{Environment}.

(** ** Loading and saving (lines 42-131) *)

(** [loadConfig]; the result is Go's [error], [None] for nil.  Decoding
    fills the zero-valued global, so the file's value replaces it. *)
Definition loadConfig : M World (option string) :=
  w <- get ;;
  match configFile w with
  | Absent | Unreadable =>
      ret (Some ("could not open config file: " +:+ errorText ErrOpenConfig))
  | Garbled => ret (Some ("could not decode config JSON: " +:+ errorText ErrDecodeConfig))
  | Holds c => modify (setConfig c) ;; ret None
  end.

Definition loadEmojiConfig : M World (option string) :=
  w <- get ;;
  match emojiFile w with
  | Absent | Unreadable =>
      ret (Some ("could not open emoji file: " +:+ errorText ErrOpenEmoji))
  | Garbled => ret (Some ("could not decode emoji JSON: " +:+ errorText ErrDecodeEmoji))
  | Holds None =>
      (* the JSON value null makes the map nil *)
      modify (setEmojiList None) ;; ret None
  | Holds (Some e) =>
      (* an existing map keeps its entries; a nil map is allocated *)
      modify (setEmojiList (Some (e ∪ default ∅ (emojiList w)))) ;; ret None
  end.

(** [saveConfig]: [os.Create] truncates the file before anything is
    written to it. *)
Definition saveConfig : M World (option string) :=
  if createFails then
    ret (Some ("could not create config file: " +:+ errorText ErrCreateConfig))
  else if writeFails then
    modify (setConfigFile Garbled) ;;
    ret (Some ("could not write to config file: " +:+ errorText ErrWriteConfig))
  else
    w <- get ;;
    modify (setConfigFile (Holds (config w))) ;; ret None.

Definition templateConfig : Config :=
  {| ChannelID := "your_channel_id";
     SlackBotToken := "your_slack_bot_token";
     SlackUserToken := "your_slack_user_token";
     ServerBotUserID := "your_server_bot_user_id";
     UserCache := Some {[ "U075JAXRYV7" := "Bot" ]};
     DefaultShowLimit := 20;
     DefaultEmoji := "white-check-mark" |}.

Definition createConfig : M World (option string) :=
  modify (setConfig templateConfig) ;; saveConfig.

Definition checkAndLoadConfig : M World unit :=
  w <- get ;;
  (match configFile w with
   | Absent =>
       Println ["Config file not found, creating a new one with template."] ;;
       err <- createConfig ;;
       match err with
       | Some e => Println ["Error creating config file:"; e] ;; exit 1
       | None =>
           Print ("Please edit " +:+ configFileName +:+ " with your configuration." +:+ nl) ;;
           exit 0
       end
   | _ =>
       err <- loadConfig ;;
       match err with
       | Some e => Println ["Error loading config file:"; e] ;; exit 1
       | None => ret tt
       end
   end) ;;
  err <- loadEmojiConfig ;;
  match err with
  | Some e => Println ["Error loading emoji config file:"; e] ;; exit 1
  | None => ret tt
  end.

(** The world after both files were read: the configuration of the
    file, and the emoji table of the file. *)
Definition loadedWorld (c : Config) (e : option (gmap string string)) (w : World) : World :=
  match e with
  | None => setEmojiList None (setConfig c w)
  | Some e => setEmojiList (Some (e ∪ default ∅ (emojiList w))) (setConfig c w)
  end.

End Config.

(** ** The files of the configuration and the frames *)

Section ConfigFrame.
Context `{Environment} (R : relation World) `{!Frame R}.

Lemma loadEmojiConfig_frame : preserves R loadEmojiConfig.
Proof. unfold loadEmojiConfig. preserves_tac. Qed.

Context `{!Saves R}.

Lemma setConfig_frame c : preserves R (modify (setConfig c)).
Proof. intros w. apply frame_config. Qed.

Lemma setConfigFile_frame f : preserves R (modify (setConfigFile f)).
Proof. intros w. apply frame_configFile. Qed.

#[local] Hint Resolve setConfig_frame setConfigFile_frame loadEmojiConfig_frame : go.

Lemma saveConfig_frame : preserves R saveConfig.
Proof. unfold saveConfig. preserves_tac. Qed.

#[local] Hint Resolve saveConfig_frame : go.

Lemma checkAndLoadConfig_frame : preserves R checkAndLoadConfig.
Proof. unfold checkAndLoadConfig, loadConfig, createConfig. preserves_tac. Qed.

End ConfigFrame.

#[export] Hint Resolve loadEmojiConfig_frame setConfig_frame setConfigFile_frame
  saveConfig_frame checkAndLoadConfig_frame : go.

(** ** An environment and a world to run the model in *)

Definition demoMessage (user text ts : string) : SlackMessageItem :=
  {| UserID := user; UserName := ""; Text := text; Ts := ts; ThreadTS := "";
     Replies := []; Reactions := []; Files := []; Edited := "" |}.

(** A server that knows the user [U1], answers [ok: false] for [U2],
    cannot be reached for anybody else, and serves one page of history
    that claims there is more. *)
Definition demoUsersInfo (_ : list Request) (r : Request) : Fetch UserProfile :=
  if decide (URL r = "https://slack.com/api/users.info?user=U1") then
    Decoded {| OK := true; RealName := "Alice" |}
  else if decide (URL r = "https://slack.com/api/users.info?user=U2") then
    Decoded {| OK := false; RealName := "" |}
  else DoErr "dial tcp: i/o timeout".

Definition demoPage : SlackMessagesResponse :=
  {| Messages := [demoMessage "U1" "third foo" "1704110400.000300";
                  demoMessage "" "second" "1704106800.000200";
                  demoMessage "U075JAXRYV7" "first foo" "1704103200.000100"];
     HasMore := true;
     NextCursor := "bmV4dA==" |}.

#[export] Instance demoEnvironment : Environment := {
  usersInfo := demoUsersInfo;
  conversationsHistory := fun _ _ => Decoded demoPage;
  conversationsReplies := fun _ _ => inr [];
  apiCall := fun _ _ => Decoded {| StatusOK := true; StatusError := "" |};
  getUploadURL := fun _ _ =>
    Some {| UploadOK := true; UploadURL := "https://files.slack.com/upload/v1/abc";
            FileID := "F07" |};
  completeUpload := fun _ _ =>
    Decoded {[ "ok" := JBool true;
               "files" := JArray [JObject {[ "id" := JString "F07";
                                             "permalink" := JString "https://x/p";
                                             "url_private" := JString "https://x/u" ]}] ]};
  buildTime := "2024-01-01";
  download := fun _ _ => inr "new";
  urlPath := fun u =>
    if decide (u = "https://file.url") then Some ""
    else Some "/files-pri/T1-F1/report.pdf";
  createFileFails := fun _ => false;
  zoneOffset := fun _ => 0;
  floatSeconds := fun _ => 0;
  sprintfBare := fun format => format;
  createFails := false;
  writeFails := false;
  errorText := fun _ => "no such file or directory";
}.

(** A server that cannot be reached. *)
Definition offlineEnvironment : Environment := {|
  usersInfo := fun _ _ => DoErr "dial tcp: i/o timeout";
  conversationsHistory := fun _ _ => DoErr "dial tcp: i/o timeout";
  conversationsReplies := fun _ _ => inl "dial tcp: i/o timeout";
  apiCall := fun _ _ => DoErr "dial tcp: i/o timeout";
  getUploadURL := fun _ _ => None;
  completeUpload := fun _ _ => DoErr "dial tcp: i/o timeout";
  buildTime := "";
  download := fun _ _ => inl "dial tcp: i/o timeout";
  urlPath := fun _ => Some "/files-pri/T1-F1/report.pdf";
  createFileFails := fun _ => false;
  zoneOffset := fun _ => 0%Z;
  floatSeconds := fun _ => 0%Z;
  sprintfBare := fun format => format;
  createFails := false;
  writeFails := false;
  errorText := fun _ => "no such file or directory";
|}.

Definition demoConfig : Config :=
  {| ChannelID := "C0123";
     SlackBotToken := "xoxb-1";
     SlackUserToken := "xoxp-1";
     ServerBotUserID := "U075JAXRYV7";
     UserCache := Some {[ "U075JAXRYV7" := "Bot" ]};
     DefaultShowLimit := 20;
     DefaultEmoji := "white-check-mark" |}.

Definition demoWorld : World :=
  {| config := demoConfig;
     emojiList := Some {[ "white_check_mark" := "&#x2705;"; "thumbsup" := "&#x1F44D;" ]};
     configFile := Holds demoConfig;
     emojiFile := Holds (Some {[ "white_check_mark" := "&#x2705;"; "thumbsup" := "&#x1F44D;" ]});
     requests := [];
     stdout := [];
     directory := {[ "report.pdf" := "old"; "report(1).pdf" := "older" ]} |}.

(** ** The start-up check *)

Section ConfigProperties.
Context `{Environment}.

(** With both files in place the check returns. *)
Lemma checkAndLoadConfig_loaded w c e :
  configFile w = Holds c -> emojiFile w = Holds e ->
  checkAndLoadConfig w = (Ret tt, loadedWorld c e w).
Proof.
  intros Hc He. destruct w. cbn in Hc, He. subst. by destruct e.
Qed.

(** The code the check ends the process with. *)
Lemma checkAndLoadConfig_exitCode w :
  exitCode (checkAndLoadConfig w).1 =
  match configFile w with
  | Absent => Some (if createFails || writeFails then 1 else 0)
  | Unreadable | Garbled => Some 1
  | Holds _ =>
      match emojiFile w with
      | Holds _ => None
      | _ => Some 1
      end
  end.
Proof.
  unfold checkAndLoadConfig, createConfig, saveConfig, loadConfig, loadEmojiConfig.
  rewrite bind_gets || unfold bind at 1, get. cbn [fst snd].
  destruct (configFile w) as [| |c|] eqn:Ec.
  - unfold Println, Print, bind, modify, ret, exit, get. cbn.
    by destruct createFails, writeFails.
  - unfold bind, modify, ret, exit, get. cbn. by rewrite Ec.
  - unfold bind, modify, ret, exit, get. cbn. rewrite Ec. cbn.
    by destruct (emojiFile w) as [| |[e|]|].
  - unfold bind, modify, ret, exit, get. cbn. by rewrite Ec.
Qed.

(** How the start-up check ends: without a configuration file the
    template is written and the process exits, with code 0 when the
    file could be created and written and with code 1 otherwise; with a
    configuration file that cannot be opened or decoded the process
    exits with code 1; with a good one the emoji file decides, and the check
    returns only when both files could be read, with the configuration
    and the table of the files in the globals and nothing printed. *)
Theorem checkAndLoadConfig_outcome w :
  match configFile w, emojiFile w with
  | Absent, _ => (checkAndLoadConfig w).1 = Exit (if createFails || writeFails then 1 else 0)
  | Holds c, Holds e => checkAndLoadConfig w = (Ret tt, loadedWorld c e w)
  | _, _ => (checkAndLoadConfig w).1 = Exit 1
  end.
Proof.
  pose proof (checkAndLoadConfig_exitCode w) as Hcode.
  pose proof (checkAndLoadConfig_loaded w) as Hload.
  destruct (configFile w) as [| |c|], (emojiFile w) as [| |e|]; try by apply Hload.
  all: by destruct (checkAndLoadConfig w).1; simplify_eq/=.
Qed.

(** A first run leaves the template behind: without a configuration
    file, and when the file can be created and written, the check puts
    the template in the configuration and in the file, prints the two
    lines that say so, and exits with code 0. *)
Theorem checkAndLoadConfig_first_run w :
  configFile w = Absent -> createFails = false -> writeFails = false ->
  exists w',
    checkAndLoadConfig w = (Exit 0, w') /\
    config w' = templateConfig /\ configFile w' = Holds templateConfig /\
    stdout w' = stdout w
      ++ ["Config file not found, creating a new one with template." +:+ nl;
          "Please edit slack.config.json with your configuration." +:+ nl].
Proof.
  intros Ec Hc Hw. eexists. split.
  - unfold checkAndLoadConfig, createConfig, saveConfig.
    unfold bind at 1, get. cbn [fst snd]. rewrite Ec, Hc, Hw. reflexivity.
  - cbn. by rewrite <- app_assoc.
Qed.

End ConfigProperties.

Lemma checkAndLoadConfig_first_run_witness :
  exists w',
    checkAndLoadConfig (setConfigFile Absent demoWorld) = (Exit 0, w') /\
    config w' = templateConfig /\ configFile w' = Holds templateConfig /\
    stdout w' = stdout (setConfigFile Absent demoWorld)
      ++ ["Config file not found, creating a new one with template." +:+ nl;
          "Please edit slack.config.json with your configuration." +:+ nl].
Proof. apply (checkAndLoadConfig_first_run (setConfigFile Absent demoWorld)); done. Defined.
