(* ===== verification/TimeRange.v ===== *)
(** * The time range of [show] and the time of a message

    [fetchMessages] turns the [--date] argument into the two bounds it
    sends to the server (main.go, lines 285-316): a date gives the
    seconds of that day in UTC, two dates separated by a colon give the
    seconds from the first midnight to the last second of the second
    day.  [formatTimestamp] (lines 458-462) prints the instant of a
    message in the local zone. *)

From S2P Require Import Prelude Utf8 GoStrings Calendar GoTime Slack.

Local Open Scope Z_scope.

(** ** The bounds (lines 287-313) *)

(** [oldestInt] and [latestInt] for a non-empty [dateRange]; [inl] holds
    the line printed before the function returns. *)
Definition dateRangeInts (dateRange : string) : string + Z * Z :=
  match Split dateRange ":" with
  | [date] =>
      match ParseDate date with
      | None => inl "Invalid date format. Use YYYY-MM-DD."
      | Some parsedDate =>
          inr (Unix parsedDate, Unix (AddDate parsedDate 0 0 1) - 1)
      end
  | [startDate; endDate] =>
      match ParseDate startDate with
      | None => inl "Invalid start date format. Use YYYY-MM-DD."
      | Some parsedStartDate =>
          match ParseDate endDate with
          | None => inl "Invalid end date format. Use YYYY-MM-DD."
          | Some parsedEndDate =>
              inr (Unix parsedStartDate, Unix (AddDate parsedEndDate 0 0 1) - 1)
          end
      end
  | _ => inl "Invalid date range format. Use YYYY-MM-DD or YYYY-MM-DD:YYYY-MM-DD."
  end.

(** [oldest] and [latest] (lines 285-316): empty without a date range. *)
Definition dateRangeBounds (dateRange : string) : string + string * string :=
  if decide (dateRange = "") then inr ("", "")
  else match dateRangeInts dateRange with
       | inl line => inl line
       | inr (oldestInt, latestInt) => inr (FormatInt oldestInt, FormatInt latestInt)
       end.

(** ** The time of a message (lines 458-462) *)

Section FormatTimestamp.
Context `{Environment}.

(** [int64(tsFloat)]; the error of [ParseFloat] is dropped. *)
Definition tsSeconds (ts : string) : Z :=
  default (floatSeconds ts) (plainSeconds ts).

Definition formatTimestamp (ts : string) : string :=
  let sec := tsSeconds ts in
  FormatDateTime (zoneOffset sec) sec.

End FormatTimestamp.

(** ** Splitting at the colon *)

Lemma Split_one s x : Split s ":" = [x] -> s = x.
Proof.
  unfold Split. intros Hs. rewrite <- (Join_splitLoop ":" "" s). by rewrite Hs.
Qed.

Lemma Split_two s x y : Split s ":" = [x; y] -> s = x +:+ ":" +:+ y.
Proof.
  unfold Split. intros Hs. rewrite <- (Join_splitLoop ":" "" s). by rewrite Hs.
Qed.

Lemma FormatDate_no_colon (y m d : Z) :
  0 <= y < 10000 -> validDate y m d = true ->
  allBytes (isNot ":") (FormatDate y m d) = true.
Proof.
  intros Hy Hv.
  destruct (FormatDate_dateString y m d Hy Hv) as (a & b & c & d' & e & f & g & h & -> & Hall).
  by apply dateString_isNot.
Qed.

Lemma Split_date (y m d : Z) :
  0 <= y < 10000 -> validDate y m d = true ->
  Split (FormatDate y m d) ":" = [FormatDate y m d].
Proof. intros Hy Hv. unfold Split. by rewrite splitLoop_absent by by apply FormatDate_no_colon. Qed.

Lemma Split_dates (y m d y' m' d' : Z) :
  0 <= y < 10000 -> validDate y m d = true ->
  0 <= y' < 10000 -> validDate y' m' d' = true ->
  Split (FormatDate y m d +:+ ":" +:+ FormatDate y' m' d') ":"
  = [FormatDate y m d; FormatDate y' m' d'].
Proof.
  intros Hy Hv Hy' Hv'. unfold Split.
  rewrite splitLoop_at by by apply FormatDate_no_colon.
  by rewrite splitLoop_absent by by apply FormatDate_no_colon.
Qed.

(** The last second of the day after which [days] more days begin. *)
Lemma last_second (y m d : Z) :
  validDate y m d = true ->
  Unix (AddDate (Date y m d 0 0 0) 0 0 1) - 1 = Date y m d 0 0 0 + (secondsPerDay - 1).
Proof. intros Hv. unfold Unix. rewrite AddDate_days by done. lia. Qed.

(** ** The bounds of a date and of a range *)

(** C23. A single date selects its day in UTC: for a date [y]-[m]-[d] of
    the calendar written as YYYY-MM-DD, the bounds are the midnight that
    begins the day and the instant 86399 seconds later, and the instants
    between the two bounds are those whose date in UTC is [y]-[m]-[d]. *)
Theorem dateRangeInts_single (y m d : Z) :
  0 <= y < 10000 -> validDate y m d = true ->
  exists oldestInt latestInt,
    dateRangeInts (FormatDate y m d) = inr (oldestInt, latestInt) /\
    oldestInt = Date y m d 0 0 0 /\ latestInt = oldestInt + 86399 /\
    forall t : Time, oldestInt <= t <= latestInt <-> dateOf 0 t = (y, m, d).
Proof.
  intros Hy Hv. exists (Date y m d 0 0 0), (Date y m d 0 0 0 + 86399).
  unfold dateRangeInts. rewrite Split_date, ParseDate_FormatDate, last_second by done.
  repeat split; try done; by apply dateOf_iff.
Qed.

Lemma dateRangeInts_single_witness :
  exists oldestInt latestInt,
    dateRangeInts (FormatDate 2024 2 29) = inr (oldestInt, latestInt) /\
    oldestInt = Date 2024 2 29 0 0 0 /\ latestInt = oldestInt + 86399 /\
    forall t : Time, oldestInt <= t <= latestInt <-> dateOf 0 t = (2024, 2, 29).
Proof. apply (dateRangeInts_single 2024 2 29); [lia|reflexivity]. Defined.

Lemma dateRangeInts_two (y m d y' m' d' : Z) :
  0 <= y < 10000 -> validDate y m d = true ->
  0 <= y' < 10000 -> validDate y' m' d' = true ->
  dateRangeInts (FormatDate y m d +:+ ":" +:+ FormatDate y' m' d')
  = inr (Date y m d 0 0 0, Date y' m' d' 0 0 0 + 86399).
Proof.
  intros Hy Hv Hy' Hv'. unfold dateRangeInts.
  by rewrite Split_dates, !ParseDate_FormatDate, last_second by done.
Qed.

(** The instants from the midnight of one day to the last second of
    another are those of the days from the one to the other. *)
Lemma between_days (n n' : Z) (t : Time) :
  n * secondsPerDay <= t <= n' * secondsPerDay + 86399 <->
  n <= t / secondsPerDay <= n'.
Proof. unfold secondsPerDay. Z.div_mod_to_equations. lia. Qed.

(** A range of two dates runs from the midnight that begins the first
    day to the last second of the second day, both in UTC: the instants
    between the two bounds are those of the days from the first date to
    the second, both included. *)
Theorem dateRangeInts_range (y m d y' m' d' : Z) :
  0 <= y < 10000 -> validDate y m d = true ->
  0 <= y' < 10000 -> validDate y' m' d' = true ->
  exists oldestInt latestInt,
    dateRangeInts (FormatDate y m d +:+ ":" +:+ FormatDate y' m' d')
    = inr (oldestInt, latestInt) /\
    oldestInt = Date y m d 0 0 0 /\ latestInt = Date y' m' d' 0 0 0 + 86399 /\
    forall t : Time,
      oldestInt <= t <= latestInt <->
      dayNumber y m d <= t / secondsPerDay <= dayNumber y' m' d'.
Proof.
  intros Hy Hv Hy' Hv'. eexists _, _.
  split; [by apply dateRangeInts_two|]. split; [done|]. split; [done|]. intros t.
  pose proof (validDate_inv _ _ _ Hv) as [Hm _].
  pose proof (validDate_inv _ _ _ Hv') as [Hm' _].
  rewrite !Date_midnight by done. apply between_days.
Qed.

Lemma dateRangeInts_range_witness :
  exists oldestInt latestInt,
    dateRangeInts (FormatDate 2024 1 1 +:+ ":" +:+ FormatDate 2024 1 3)
    = inr (oldestInt, latestInt) /\
    oldestInt = Date 2024 1 1 0 0 0 /\ latestInt = Date 2024 1 3 0 0 0 + 86399 /\
    forall t : Time,
      oldestInt <= t <= latestInt <->
      dayNumber 2024 1 1 <= t / secondsPerDay <= dayNumber 2024 1 3.
Proof.
  apply (dateRangeInts_range 2024 1 1 2024 1 3); [lia|reflexivity|lia|reflexivity].
Defined.

(** Nothing but a date of ten bytes or two of them around a colon is
    accepted. *)
Lemma dateRangeInts_accepts (dateRange : string) (bounds : Z * Z) :
  dateRangeInts dateRange = inr bounds ->
  (exists t, ParseDate dateRange = Some t /\ String.length dateRange = 10%nat) \/
  (exists startDate endDate t t',
     dateRange = startDate +:+ ":" +:+ endDate /\
     ParseDate startDate = Some t /\ ParseDate endDate = Some t' /\
     String.length dateRange = 21%nat).
Proof.
  unfold dateRangeInts.
  destruct (Split dateRange ":") as [|x [|x' [|]]] eqn:Hs; [done| | |done].
  - apply Split_one in Hs as ->.
    destruct (ParseDate x) as [t|] eqn:Hp; [|done]. intros _. left.
    exists t. split; [done|]. by eapply ParseDate_length.
  - apply Split_two in Hs as ->.
    destruct (ParseDate x) as [t|] eqn:Hp; [|done].
    destruct (ParseDate x') as [t'|] eqn:Hp'; [|done]. intros _. right.
    exists x, x', t, t'. repeat split; try done.
    rewrite !length_app_s, (ParseDate_length _ _ Hp), (ParseDate_length _ _ Hp'). done.
Qed.

(** An argument of another length than 10 and 21 is refused. *)
Lemma dateRangeInts_refuses (dateRange : string) :
  String.length dateRange <> 10%nat -> String.length dateRange <> 21%nat ->
  exists line, dateRangeInts dateRange = inl line.
Proof.
  intros H10 H21. destruct (dateRangeInts dateRange) as [line|bounds] eqn:E; [by eexists|].
  by destruct (dateRangeInts_accepts _ _ E) as [(t & _ & ?)|(? & ? & ? & ? & _ & _ & _ & ?)].
Qed.

(** The order of the two dates is not checked: a range whose second
    date lies before its first is accepted, with a latest bound below the
    oldest one, so that no instant lies between them. *)
Theorem dateRangeInts_reversed (y m d y' m' d' : Z) :
  0 <= y < 10000 -> validDate y m d = true ->
  0 <= y' < 10000 -> validDate y' m' d' = true ->
  dayNumber y' m' d' < dayNumber y m d ->
  exists oldestInt latestInt,
    dateRangeInts (FormatDate y m d +:+ ":" +:+ FormatDate y' m' d')
    = inr (oldestInt, latestInt) /\ latestInt < oldestInt.
Proof.
  intros Hy Hv Hy' Hv' Hlt. eexists _, _. split; [by apply dateRangeInts_two|].
  pose proof (validDate_inv _ _ _ Hv) as [Hm _].
  pose proof (validDate_inv _ _ _ Hv') as [Hm' _].
  rewrite !Date_midnight by done. unfold secondsPerDay. lia.
Qed.

Lemma dateRangeInts_reversed_witness :
  exists oldestInt latestInt,
    dateRangeInts (FormatDate 2024 1 3 +:+ ":" +:+ FormatDate 2024 1 1)
    = inr (oldestInt, latestInt) /\ latestInt < oldestInt.
Proof.
  apply (dateRangeInts_reversed 2024 1 3 2024 1 1);
    [lia|reflexivity|lia|reflexivity|reflexivity].
Defined.

(** The bounds sent for a single date. *)
Lemma dateRangeBounds_single (y m d : Z) :
  0 <= y < 10000 -> validDate y m d = true ->
  dateRangeBounds (FormatDate y m d)
  = inr (FormatInt (Date y m d 0 0 0), FormatInt (Date y m d 0 0 0 + 86399)).
Proof.
  intros Hy Hv. unfold dateRangeBounds, dateRangeInts.
  destruct (FormatDate_dateString y m d Hy Hv) as (a & b & c & d' & e & f & g & h & Hs & _).
  rewrite decide_False by by rewrite Hs.
  by rewrite Split_date, ParseDate_FormatDate, last_second by done.
Qed.

(** ** The time of a message *)

Lemma isDigit_not_dot c : isDigit c = true -> isNot "." c = true.
Proof.
  intros Hc. unfold isNot. apply negb_true_iff, bool_decide_eq_false. by intros ->.
Qed.

(** The seconds of a timestamp as Slack writes it: digits, a dot and at
    most six digits. *)
Lemma plainSeconds_decimal (int frac : string) :
  int <> "" -> allBytes isDigit int = true -> allBytes isDigit frac = true ->
  (String.length frac <= 6)%nat -> decimalValue int 0 < 2 ^ 33 ->
  plainSeconds (int +:+ "." +:+ frac) = Some (decimalValue int 0).
Proof.
  intros Hne Hi Hf Hl Hv. unfold plainSeconds.
  rewrite decide_False by (by intros [? _]%app_eq_nil_s).
  unfold Cut. rewrite Index_at by (eapply allBytes_impl; [apply isDigit_not_dot|done]).
  replace (String.length int + String.length ".")%nat with (String.length (int +:+ "."))
    by by rewrite length_app_s.
  rewrite <- (app_assoc_s int "." frac), dropS_app, app_assoc_s, takeS_app.
  cbn [default from_option id]. rewrite bool_decide_eq_false_2, Hi, Hf by done.
  cbn [negb andb].
  by rewrite (proj2 (Nat.leb_le _ _)), (proj2 (Z.ltb_lt _ _)) by done.
Qed.

(** The date and the clock of an instant given by its local time. *)
Lemma dateOf_clockOf_local (offset : Z) (t : Time) (y m d h mi s : Z) :
  validDate y m d = true -> 0 <= h < 24 -> 0 <= mi < 60 -> 0 <= s < 60 ->
  t + offset = Date y m d h mi s ->
  dateOf offset t = (y, m, d) /\ clockOf offset t = (h, mi, s).
Proof.
  intros Hv Hh Hmi Hs Ht. pose proof (validDate_inv _ _ _ Hv) as [Hm _].
  unfold dateOf, clockOf. rewrite Ht, Date_dayNumber by done. cbv zeta.
  set (n := dayNumber y m d). unfold secondsPerDay.
  assert ((n * 86400 + h * 3600 + mi * 60 + s) / 86400 = n) as ->
    by (Z.div_mod_to_equations; lia).
  assert ((n * 86400 + h * 3600 + mi * 60 + s) mod 86400 = h * 3600 + mi * 60 + s) as ->
    by (Z.div_mod_to_equations; lia).
  split; [by apply civilFromDays_dayNumber|].
  f_equal; [f_equal|]; Z.div_mod_to_equations; lia.
Qed.

Section TimestampProperties.
Context `{Environment}.

(** C38. The time shown for a message is the local time of its
    timestamp: for a timestamp written as the seconds since the epoch
    (below 2^33), a dot and at most six digits, whose instant is
    [y]-[m]-[d] [h]:[mi]:[s] in the zone of the user, [formatTimestamp]
    prints that date and that time with the layout
    [2006-01-02 15:04:05]; the fraction is cut off, not rounded. *)
Theorem formatTimestamp_local (t : Z) (frac : string) (y m d h mi s : Z) :
  0 <= t < 2 ^ 33 -> allBytes isDigit frac = true -> (String.length frac <= 6)%nat ->
  validDate y m d = true -> 0 <= h < 24 -> 0 <= mi < 60 -> 0 <= s < 60 ->
  t + zoneOffset t = Date y m d h mi s ->
  formatTimestamp (FormatInt t +:+ "." +:+ frac)
  = FormatDate y m d +:+ " " +:+ appendInt h 2 +:+ ":" +:+ appendInt mi 2 +:+ ":"
    +:+ appendInt s 2.
Proof.
  intros Ht Hf Hl Hv Hh Hmi Hs Hz.
  destruct (FormatInt_digits t ltac:(lia)) as (Hd & Hval & Hne & _).
  unfold formatTimestamp, tsSeconds. rewrite plainSeconds_decimal by (done || lia).
  cbn [default from_option id]. cbv zeta. rewrite Hval. unfold FormatDateTime, FormatDate.
  destruct (dateOf_clockOf_local _ _ _ _ _ _ _ _ Hv Hh Hmi Hs Hz) as [-> ->].
  by rewrite !app_assoc_s.
Qed.

(** A timestamp that is empty is shown as the epoch: the error of
    [ParseFloat] is dropped. *)
Lemma formatTimestamp_empty : formatTimestamp "" = FormatDateTime (zoneOffset 0) 0.
Proof. reflexivity. Qed.

End TimestampProperties.

Lemma formatTimestamp_local_witness :
  @formatTimestamp demoEnvironment ("1704067200" +:+ "." +:+ "123456")
  = FormatDate 2024 1 1 +:+ " " +:+ appendInt 0 2 +:+ ":" +:+ appendInt 0 2 +:+ ":"
    +:+ appendInt 0 2.
Proof.
  apply (@formatTimestamp_local demoEnvironment 1704067200 "123456" 2024 1 1 0 0 0);
    done || lia.
Defined.
