(* ===== verification/Resolver.v ===== *)
(** * The name resolver: [getUserName] (main.go, lines 198-245)

    A user identifier is resolved through the cache of the running
    command ([userCache], a Go map shared by reference between
    [fetchMessages], [getThreadReplies] and [getUserName]), then the
    cache kept in the configuration, then the server.  The shared map is
    a field of the state: [Session] is the world together with the map.
    A name the server gives is written to both caches and the
    configuration is saved at once; a failure is answered by ["Unknown"]
    and leaves no trace in either cache. *)

From S2P Require Import Prelude Utf8 GoStrings Slack.

Local Open Scope go_scope.

(** ** The state of a [show] command *)

Record Session : Type := {
  world : World;
  userCache : gmap string string;
}.

Definition setWorld (w : World) (s : Session) : Session :=
  {| world := w; userCache := userCache s |}.

(** [userCache[userID] = name]. *)
Definition cacheName (userID name : string) (s : Session) : Session :=
  {| world := world s; userCache := <[userID := name]> (userCache s) |}.

(** A computation on the world, run inside a session. *)
Definition liftW {A} (m : M World A) : M Session A :=
  fun s => let (o, w) := m (world s) in (o, setWorld w s).

(** [c.UserCache = m]. *)
Definition withUserCache (m : gmap string string) (c : Config) : Config :=
  {| SlackBotToken := SlackBotToken c; SlackUserToken := SlackUserToken c;
     ChannelID := ChannelID c; ServerBotUserID := ServerBotUserID c;
     UserCache := Some m; DefaultShowLimit := DefaultShowLimit c;
     DefaultEmoji := DefaultEmoji c |}.

Definition usersInfoRequest (token userID : string) : Request :=
  {| Method := "GET";
     URL := "https://slack.com/api/users.info?user=" +:+ userID;
     Headers := [bearer token];
     Body := NoPayload |}.

Section Resolver.
Context `{Environment}.

(** [config.UserCache[userID] = name; saveConfig()]: writing to a nil map
    panics; the error of [saveConfig] is dropped. *)
Definition rememberName (userID name : string) : M World unit :=
  c <- gets config ;;
  match UserCache c with
  | None => panic "assignment to entry in nil map"
  | Some m =>
      modify (setConfig (withUserCache (<[userID := name]> m) c)) ;;
      _ <- saveConfig ;;
      ret tt
  end.

Definition getUserName (userID : string) : M Session string :=
  if decide (userID = "") then ret "Unknown" else
  s <- get ;;
  match userCache s !! userID with
  | Some name => ret name
  | None =>
      match lookupNil (UserCache (config (world s))) userID with
      | Some name => modify (cacheName userID name) ;; ret name
      | None =>
          r <- liftW (send usersInfo
                        (usersInfoRequest (SlackBotToken (config (world s))) userID)) ;;
          match r with
          | DoErr e =>
              liftW (Println ["Error fetching user profile:"; e]) ;; ret "Unknown"
          | ReadErr e =>
              liftW (Println ["Error reading user profile response:"; e]) ;;
              ret "Unknown"
          | DecodeErr e =>
              liftW (Println ["Error decoding user profile JSON:"; e]) ;;
              ret "Unknown"
          | Decoded userProfile =>
              if OK userProfile then
                modify (cacheName userID (RealName userProfile)) ;;
                liftW (rememberName userID (RealName userProfile)) ;;
                ret (RealName userProfile)
              else ret "Unknown"
          end
      end
  end.

(** ** One lemma per path *)

(** The request [getUserName] sends for [userID] in state [s], and the
    server's answer to it. *)
Definition lookupRequest (userID : string) (s : Session) : Request :=
  usersInfoRequest (SlackBotToken (config (world s))) userID.

Definition lookupAnswer (userID : string) (s : Session) : Fetch UserProfile :=
  usersInfo (requests (world s)) (lookupRequest userID s).

(** Neither cache knows [userID]. *)
Definition missed (userID : string) (s : Session) : Prop :=
  userCache s !! userID = None /\
  lookupNil (UserCache (config (world s))) userID = None.

(** The line a failed lookup prints, if it prints one. *)
Definition failureLine (r : Fetch UserProfile) : option string :=
  match r with
  | DoErr e => Some (Join ["Error fetching user profile:"; e] " " +:+ nl)
  | ReadErr e => Some (Join ["Error reading user profile response:"; e] " " +:+ nl)
  | DecodeErr e => Some (Join ["Error decoding user profile JSON:"; e] " " +:+ nl)
  | Decoded _ => None
  end.

(** The answer names no user. *)
Definition failed (r : Fetch UserProfile) : bool :=
  match r with
  | Decoded p => negb (OK p)
  | _ => true
  end.

(** The world after a failed lookup: the request sent, the line printed. *)
Definition afterFailure (userID : string) (s : Session) : Session :=
  let w := addRequest (lookupRequest userID s) (world s) in
  setWorld (from_option (fun l => addOutput l w) w
              (failureLine (lookupAnswer userID s))) s.

End Resolver.

Arguments afterFailure : simpl never.

Ltac resolver_unfold :=
  repeat (progress unfold getUserName, rememberName, saveConfig, liftW, send,
            Println, Print, lookupAnswer, lookupRequest, afterFailure, missed in * );
  munfold.

Section ResolverPaths.
Context `{Environment}.


Lemma getUserName_session_hit userID name s :
  userID <> "" -> userCache s !! userID = Some name ->
  getUserName userID s = (Ret name, s).
Proof. intros Hne Hs. resolver_unfold. by rewrite decide_False, Hs. Qed.

Lemma getUserName_config_hit userID name s :
  userID <> "" -> userCache s !! userID = None ->
  lookupNil (UserCache (config (world s))) userID = Some name ->
  getUserName userID s = (Ret name, cacheName userID name s).
Proof. intros Hne Hs Hc. resolver_unfold. by rewrite decide_False, Hs, Hc. Qed.

Lemma getUserName_failure userID s :
  userID <> "" -> missed userID s -> failed (lookupAnswer userID s) = true ->
  getUserName userID s = (Ret "Unknown", afterFailure userID s).
Proof.
  intros Hne [Hs Hc] Hf. resolver_unfold. rewrite decide_False, Hs, Hc by done.
  simpl. destruct (usersInfo _ _) as [e|e|e|p]; simpl in *; [done..|].
  by destruct (OK p).
Qed.

(** The state after the server named [userID]: the request sent, both
    caches updated, the configuration saved. *)
Definition afterSuccess (userID name : string) (m : gmap string string)
  (s : Session) : Session :=
  let w := addRequest (lookupRequest userID s) (world s) in
  {| world := (saveConfig
                 (setConfig (withUserCache (<[userID := name]> m) (config w)) w)).2;
     userCache := <[userID := name]> (userCache s) |}.

Lemma getUserName_success userID s p m :
  userID <> "" -> missed userID s ->
  lookupAnswer userID s = Decoded p -> OK p = true ->
  UserCache (config (world s)) = Some m ->
  getUserName userID s = (Ret (RealName p), afterSuccess userID (RealName p) m s).
Proof.
  intros Hne [Hs Hc] Ha Hok Hm. unfold afterSuccess. resolver_unfold.
  rewrite decide_False, Hs, Hc by done. simpl. rewrite Ha, Hok. simpl.
  rewrite Hm. by destruct createFails, writeFails.
Qed.

Lemma getUserName_nil_map userID s p :
  userID <> "" -> missed userID s ->
  lookupAnswer userID s = Decoded p -> OK p = true ->
  UserCache (config (world s)) = None ->
  (getUserName userID s).1 = Panic "assignment to entry in nil map".
Proof.
  intros Hne [Hs Hc] Ha Hok Hm. resolver_unfold.
  rewrite decide_False, Hs, Hc by done. simpl. rewrite Ha, Hok. simpl.
  by rewrite Hm.
Qed.

(** The state in which the write to a nil map panics: the request is
    sent and the session cache already holds the name. *)
Definition afterNilMap (userID name : string) (s : Session) : Session :=
  cacheName userID name
    (setWorld (addRequest (lookupRequest userID s) (world s)) s).

Lemma getUserName_nil_map_state userID s p :
  userID <> "" -> missed userID s ->
  lookupAnswer userID s = Decoded p -> OK p = true ->
  UserCache (config (world s)) = None ->
  (getUserName userID s).2 = afterNilMap userID (RealName p) s.
Proof.
  intros Hne [Hs Hc] Ha Hok Hm. unfold afterNilMap. resolver_unfold.
  rewrite decide_False, Hs, Hc by done. simpl. rewrite Ha, Hok. simpl.
  by rewrite Hm.
Qed.

End ResolverPaths.

Arguments afterSuccess : simpl never.
Arguments afterNilMap : simpl never.

(** ** The resolver as a relation

    [Resolves userID s o s']: from state [s], resolving [userID] ends
    with outcome [o] in state [s'].  One rule per path of the code. *)

Section ResolverSpec.
Context `{Environment}.

Inductive Resolves : string -> Session -> Outcome string -> Session -> Prop :=
| ResolveEmpty s :
    Resolves "" s (Ret "Unknown") s
| ResolveSession userID name s :
    userID <> "" -> userCache s !! userID = Some name ->
    Resolves userID s (Ret name) s
| ResolveConfig userID name s :
    userID <> "" -> userCache s !! userID = None ->
    lookupNil (UserCache (config (world s))) userID = Some name ->
    Resolves userID s (Ret name) (cacheName userID name s)
| ResolveFailure userID s :
    userID <> "" -> missed userID s -> failed (lookupAnswer userID s) = true ->
    Resolves userID s (Ret "Unknown") (afterFailure userID s)
| ResolveRemote userID s p m :
    userID <> "" -> missed userID s ->
    lookupAnswer userID s = Decoded p -> OK p = true ->
    UserCache (config (world s)) = Some m ->
    Resolves userID s (Ret (RealName p)) (afterSuccess userID (RealName p) m s)
| ResolveNilMap userID s p :
    userID <> "" -> missed userID s ->
    lookupAnswer userID s = Decoded p -> OK p = true ->
    UserCache (config (world s)) = None ->
    Resolves userID s (Panic "assignment to entry in nil map")
      (afterNilMap userID (RealName p) s).

(** Both caches agree: what [fetchMessages] establishes when it copies
    the configuration's cache into a fresh map. *)
Definition coherent (s : Session) : Prop :=
  UserCache (config (world s)) = Some (userCache s).

(** The configuration file holds the configuration in memory. *)
Definition persisted (s : Session) : Prop :=
  configFile (world s) = Holds (config (world s)).

Lemma failed_false r : failed r = false -> exists p, r = Decoded p /\ OK p = true.
Proof. destruct r as [| | |p]; simpl; try done. destruct (OK p) eqn:E; eauto. Qed.

Lemma saveConfig_config w : config (saveConfig w).2 = config w.
Proof. unfold saveConfig. munfold. by destruct createFails, writeFails. Qed.

Lemma saveConfig_requests w : requests (saveConfig w).2 = requests w.
Proof. unfold saveConfig. munfold. by destruct createFails, writeFails. Qed.

Lemma saveConfig_stdout w : stdout (saveConfig w).2 = stdout w.
Proof. unfold saveConfig. munfold. by destruct createFails, writeFails. Qed.

Lemma saveConfig_written w :
  createFails = false -> writeFails = false ->
  configFile (saveConfig w).2 = Holds (config w).
Proof. unfold saveConfig. munfold. by intros -> ->. Qed.

(** What a failed lookup leaves: one more request, perhaps one more
    line, and nothing else. *)
Lemma afterFailure_config userID s :
  config (world (afterFailure userID s)) = config (world s).
Proof. unfold afterFailure. by destruct (failureLine _). Qed.

Lemma afterFailure_configFile userID s :
  configFile (world (afterFailure userID s)) = configFile (world s).
Proof. unfold afterFailure. by destruct (failureLine _). Qed.

Lemma afterFailure_userCache userID s :
  userCache (afterFailure userID s) = userCache s.
Proof. reflexivity. Qed.

Lemma afterFailure_requests userID s :
  requests (world (afterFailure userID s)) =
  requests (world s) ++ [lookupRequest userID s].
Proof. unfold afterFailure. by destruct (failureLine _). Qed.

Lemma lookupRequest_afterFailure userID userID' s :
  lookupRequest userID (afterFailure userID' s) = lookupRequest userID s.
Proof. unfold lookupRequest. by rewrite afterFailure_config. Qed.

Lemma afterSuccess_config userID name m s :
  config (world (afterSuccess userID name m s)) =
  withUserCache (<[userID := name]> m) (config (world s)).
Proof. unfold afterSuccess. simpl. by rewrite saveConfig_config. Qed.

Lemma afterSuccess_requests userID name m s :
  requests (world (afterSuccess userID name m s)) =
  requests (world s) ++ [lookupRequest userID s].
Proof. unfold afterSuccess. simpl. by rewrite saveConfig_requests. Qed.

Lemma afterNilMap_requests userID name s :
  requests (world (afterNilMap userID name s)) =
  requests (world s) ++ [lookupRequest userID s].
Proof. reflexivity. Qed.

Lemma afterNilMap_config userID name s :
  config (world (afterNilMap userID name s)) = config (world s).
Proof. reflexivity. Qed.

Lemma afterNilMap_userCache userID name s :
  userCache (afterNilMap userID name s) = <[userID := name]> (userCache s).
Proof. reflexivity. Qed.

Lemma afterSuccess_userCache userID name m s :
  userCache (afterSuccess userID name m s) = <[userID := name]> (userCache s).
Proof. reflexivity. Qed.

End ResolverSpec.

#[export] Hint Constructors Resolves : go.
#[export] Hint Rewrite @saveConfig_config @saveConfig_requests @saveConfig_stdout
  @afterFailure_config @afterFailure_configFile @afterFailure_userCache
  @afterFailure_requests @lookupRequest_afterFailure @afterSuccess_config @afterSuccess_requests
  @afterSuccess_userCache @afterNilMap_requests @afterNilMap_config
  @afterNilMap_userCache : go.

(** ** The properties of the resolver *)

(** ** The resolver and the frames *)

(** A relation on worlds, as a relation on the sessions that hold
    them. *)
Definition onWorld (R : relation World) : relation Session :=
  fun s s' => R (world s) (world s').

#[export] Instance onWorld_preorder R `{!PreOrder R} : PreOrder (onWorld R).
Proof.
  split; [by intros s; unfold onWorld|]. intros s1 s2 s3. unfold onWorld. apply transitivity.
Qed.

(** A frame that remembering a name respects. *)
Class Remembers `{Environment} (R : relation World) : Prop :=
  frame_remember userID name : preserves R (rememberName userID name).

#[export] Hint Extern 1 (Remembers _) => tc_solve : go.

Section ResolverFrame.
Context `{Environment} (R : relation World) `{!Frame R}.

Lemma liftW_frame {A} (m : M World A) : preserves R m -> preserves (onWorld R) (liftW m).
Proof.
  intros Hm s. unfold liftW, onWorld. specialize (Hm (world s)).
  by destruct (m (world s)).
Qed.

Lemma cacheName_frame userID name : preserves (onWorld R) (modify (cacheName userID name)).
Proof. intros s. unfold onWorld. cbn. reflexivity. Qed.

(** The writes to the configuration are what remembering a name
    does. *)
#[export] Instance saves_remembers `{!Saves R} : Remembers R.
Proof. intros userID name. unfold rememberName. preserves_tac. Qed.

Context `{!Remembers R}.
Hypothesis admits_usersInfo : forall token userID, admits R (usersInfoRequest token userID).

#[local] Hint Resolve liftW_frame cacheName_frame frame_remember : go.

Lemma getUserName_frame userID : preserves (onWorld R) (getUserName userID).
Proof. unfold getUserName. preserves_tac. Qed.

End ResolverFrame.

#[export] Hint Resolve liftW_frame cacheName_frame : go.

(** ** The resolver returns *)

Definition hasCacheS (s : Session) : Prop := hasCache (world s).

Section ResolverReturns.
Context `{Environment}.

Lemma liftW_returning {A} (m : M World A) :
  keeps_returning hasCache m -> keeps_returning hasCacheS (liftW m).
Proof.
  intros Hm s Hs. unfold liftW, hasCacheS in *. specialize (Hm (world s) Hs).
  by destruct (m (world s)).
Qed.

Lemma saveConfig_returning : keeps_returning hasCache saveConfig.
Proof.
  intros w Hw. unfold hasCache. rewrite saveConfig_config. split; [done|].
  unfold saveConfig. repeat case_match; by eexists.
Qed.

#[local] Hint Resolve liftW_returning saveConfig_returning : go.

(** With a map to write to, [rememberName] does not panic. *)
Lemma rememberName_returning userID name :
  keeps_returning hasCache (rememberName userID name).
Proof.
  intros w Hw. unfold rememberName. pose proof Hw as [m Hm].
  rewrite !bind_gets, Hm.
  refine (returning_bind hasCache _ _ _ _ w Hw); [|intros; returning_tac].
  apply returning_modify. intros w' _. by eexists.
Qed.

Lemma cacheName_returning userID name :
  keeps_returning hasCacheS (modify (cacheName userID name)).
Proof. by intros s Hs. Qed.

#[local] Hint Resolve rememberName_returning cacheName_returning : go.

Lemma getUserName_returning userID : keeps_returning hasCacheS (getUserName userID).
Proof. unfold getUserName. returning_tac. Qed.

End ResolverReturns.

Definition demoSession : Session :=
  {| world := demoWorld; userCache := {[ "U075JAXRYV7" := "Bot" ]} |}.

Section ResolverProperties.
Context `{Environment}.
Implicit Types (userID name : string) (s : Session).

(** C7. [getUserName] implements the relation [Resolves]: whatever the
    identifier, the caches, the configuration and the server's answer,
    the outcome and the final state of the code are the ones of exactly
    one of its six rules (empty identifier, session hit, configuration
    hit with back-fill, failed lookup, successful lookup written to both
    caches and saved, write to a nil configuration map). *)
Theorem getUserName_Resolves userID s :
  Resolves userID s (getUserName userID s).1 (getUserName userID s).2.
Proof.
  destruct (decide (userID = "")) as [->|Hne]; [constructor|].
  destruct (userCache s !! userID) as [name|] eqn:Hs.
  { rewrite (getUserName_session_hit _ name) by done. by constructor. }
  destruct (lookupNil (UserCache (config (world s))) userID) as [name|] eqn:Hc.
  { rewrite (getUserName_config_hit _ name) by done. by constructor. }
  assert (Hmiss : missed userID s) by by split.
  destruct (failed (lookupAnswer userID s)) eqn:Hf.
  { rewrite getUserName_failure by done. by constructor. }
  apply failed_false in Hf as (p & Hp & Hok).
  destruct (UserCache (config (world s))) as [m|] eqn:Hm.
  - erewrite getUserName_success by done. by econstructor.
  - erewrite getUserName_nil_map, getUserName_nil_map_state by done.
    by econstructor.
Qed.

Lemma coherent_missed userID s :
  coherent s -> userCache s !! userID = None -> missed userID s.
Proof. unfold coherent, missed. intros -> Hs. done. Qed.

Lemma Resolves_coherent userID s o s' :
  Resolves userID s o s' -> coherent s -> coherent s' /\ is_Some (returned o).
Proof.
  unfold coherent.
  destruct 1 as [s|userID name s Hne Hs|userID name s Hne Hs Hc|userID s Hne Hm Hf
                |userID s p m Hne Hmiss Ha Hok Hm|userID s p Hne Hmiss Ha Hok Hm];
    intros Hco; try (rewrite Hco in *; simplify_eq/=);
    (split; [|by eexists]); autorewrite with go; try done.
Qed.

(** C8. Coherence of the two caches is an invariant of the resolver:
    when the session's cache equals the cache of the configuration, as it
    does after [fetchMessages] copies one into the other, it still does
    after [getUserName], whichever path is taken, and the call returns
    (the write to the configuration's map cannot panic). *)
Theorem getUserName_coherent userID s :
  coherent s ->
  coherent (getUserName userID s).2 /\ is_Some (returned (getUserName userID s).1).
Proof.
  intros Hco. eapply Resolves_coherent; [apply getUserName_Resolves|done].
Qed.


(** A lookup the server answers puts the name in the session's cache. *)
Lemma getUserName_success_cached userID s p m :
  userID <> "" -> missed userID s ->
  lookupAnswer userID s = Decoded p -> OK p = true ->
  UserCache (config (world s)) = Some m ->
  userCache (getUserName userID s).2 !! userID = Some (RealName p).
Proof.
  intros. erewrite getUserName_success by done. simpl. apply lookup_insert_eq.
Qed.

(** C9. Write-through: when neither cache knows the identifier, the
    server names the user and the configuration has a map, the call
    returns the server's name, sends exactly one request, leaves the
    name in the session's cache and in the configuration's cache, and,
    when the file system does not fail, the configuration file holds the
    updated configuration before the call returns. *)
Theorem getUserName_write_through userID s p m :
  userID <> "" -> missed userID s ->
  lookupAnswer userID s = Decoded p -> OK p = true ->
  UserCache (config (world s)) = Some m ->
  let s' := (getUserName userID s).2 in
  (getUserName userID s).1 = Ret (RealName p) /\
  requests (world s') = requests (world s) ++ [lookupRequest userID s] /\
  userCache s' !! userID = Some (RealName p) /\
  lookupNil (UserCache (config (world s'))) userID = Some (RealName p) /\
  (createFails = false -> writeFails = false -> persisted s').
Proof.
  intros Hne Hmiss Ha Hok Hm. cbv zeta.
  erewrite getUserName_success by done. gorw. cbn [lookupNil withUserCache UserCache].
  rewrite !lookup_insert_eq. repeat split.
  intros Hc Hw. unfold persisted, afterSuccess. cbn [world configFile].
  by rewrite saveConfig_written, saveConfig_config.
Qed.

(** A call that misses both caches sends one request, whatever the
    answer. *)
Lemma getUserName_missed_requests userID s :
  userID <> "" -> missed userID s ->
  requests (world (getUserName userID s).2) =
  requests (world s) ++ [lookupRequest userID s].
Proof.
  intros Hne Hmiss. destruct (failed (lookupAnswer userID s)) eqn:Hf.
  { rewrite getUserName_failure by done. by gorw. }
  apply failed_false in Hf as (p & Hp & Hok).
  destruct (UserCache (config (world s))) as [m|] eqn:Hm.
  - erewrite getUserName_success by done. by gorw.
  - erewrite getUserName_nil_map_state by done. by gorw.
Qed.

(** C19. A failure is not cached: when neither cache knows the
    identifier and the lookup fails (transport, read or decode error, or
    an answer that is not ok), the call returns ["Unknown"], both caches
    and the configuration file are as before, one request was sent, and
    the next call for the same identifier sends a request again. *)
Theorem getUserName_failure_not_cached userID s :
  userID <> "" -> missed userID s -> failed (lookupAnswer userID s) = true ->
  let s' := (getUserName userID s).2 in
  (getUserName userID s).1 = Ret "Unknown" /\
  userCache s' = userCache s /\
  config (world s') = config (world s) /\
  configFile (world s') = configFile (world s) /\
  requests (world s') = requests (world s) ++ [lookupRequest userID s] /\
  requests (world (getUserName userID s').2) =
    requests (world s) ++ [lookupRequest userID s; lookupRequest userID s].
Proof.
  intros Hne Hmiss Hf. cbv zeta.
  assert (Hmiss' : missed userID (afterFailure userID s)).
  { destruct Hmiss. split; by gorw. }
  rewrite getUserName_failure by done. cbn [fst snd].
  rewrite getUserName_missed_requests by done. gorw.
  repeat split. by rewrite <- app_assoc.
Qed.

End ResolverProperties.

Lemma getUserName_coherent_witness :
  coherent demoSession /\
  coherent (getUserName "U1" demoSession).2 /\
  is_Some (returned (getUserName "U1" demoSession).1).
Proof.
  assert (Hc : coherent demoSession) by reflexivity.
  split; [exact Hc|]. exact (getUserName_coherent "U1" demoSession Hc).
Defined.



Lemma getUserName_write_through_witness :
  (getUserName "U1" demoSession).1 = Ret "Alice" /\
  userCache (getUserName "U1" demoSession).2 !! "U1" = Some "Alice".
Proof.
  assert (Hm : missed "U1" demoSession) by (split; reflexivity).
  pose proof (getUserName_write_through "U1" demoSession
                {| OK := true; RealName := "Alice" |} {[ "U075JAXRYV7" := "Bot" ]}
                ltac:(done) Hm eq_refl eq_refl eq_refl) as (H1 & _ & H3 & _).
  split; [exact H1|exact H3].
Defined.

Lemma getUserName_failure_not_cached_witness :
  (getUserName "U2" demoSession).1 = Ret "Unknown" /\
  userCache (getUserName "U2" demoSession).2 = userCache demoSession.
Proof.
  assert (Hm : missed "U2" demoSession) by (split; reflexivity).
  pose proof (getUserName_failure_not_cached "U2" demoSession
                ltac:(done) Hm eq_refl) as (H1 & H2 & _).
  split; [exact H1|exact H2].
Defined.
