(* ===== verification/Reactions.v ===== *)
(** * The reaction renderer (main.go, lines 500-511 and 813-846)

    [unicodeToEmoji] strips the decoration of a code-point reference
    ([&#x] and [;]), reads what is left as a hexadecimal number of at
    most 31 bits and converts it to the UTF-8 encoding of that code
    point.  [getReactionsString] looks each reaction up in the emoji
    table, falls back to the reaction's own name, converts, and appends
    the glyph and the count.  [listEmoji] prints the table. *)

From S2P Require Import Prelude Utf8 GoStrings Slack.

Local Open Scope go_scope.

(** [unicodeToEmoji]; [None] stands for the pair [("", err)]. *)
Definition unicodeToEmoji (unicodeStr : string) : option string :=
  let unicodeStr := ReplaceAll unicodeStr "&#x" "" in
  let unicodeStr := ReplaceAll unicodeStr ";" "" in
  match ParseInt unicodeStr 16 32 with
  | None => None
  | Some runeValue => Some (EncodeRune runeValue)
  end.

(** The body of the loop of [getReactionsString]: what one reaction
    appends.  The error of [unicodeToEmoji] is dropped, its string, empty
    then, is used. *)
Definition reactionString (emojiList : option (gmap string string))
  (reaction : SlackReaction) : string :=
  let emoji := default (Name reaction) (lookupNil emojiList (Name reaction)) in
  let emojiUnicode := default "" (unicodeToEmoji emoji) in
  " " +:+ emojiUnicode +:+ ":" +:+ FormatInt (Count reaction).

Fixpoint getReactionsString (emojiList : option (gmap string string))
  (reactions : list SlackReaction) : string :=
  match reactions with
  | [] => ""
  | reaction :: rest =>
      reactionString emojiList reaction +:+ getReactionsString emojiList rest
  end.

Section ListEmoji.
Context `{Environment}.

(** The line [listEmoji] prints for one entry of the table. *)
Definition emojiLine (name code : string) : string :=
  match unicodeToEmoji code with
  | None => name +:+ ": " +:+ code +:+ " (failed to convert)" +:+ nl
  | Some emoji => name +:+ ": " +:+ emoji +:+ nl
  end.

(** [len(emojiList)], zero for a nil map. *)
Definition lenNil (m : option (gmap string string)) : nat :=
  match m with
  | Some m => size m
  | None => 0
  end.

(** [listEmoji]; the result is Go's [error].  Go ranges over a map in an
    order it does not fix: the model takes the order of [map_to_list]. *)
Definition listEmoji : M World (option string) :=
  w <- get ;;
  err <- (if decide (lenNil (emojiList w) = 0) then
            Println ["Loading emoji list from file..."] ;;
            err <- loadEmojiConfig ;;
            match err with
            | Some e => ret (Some ("Error loading emoji list from file: " +:+ e))
            | None => Println ["Emoji list loaded successfully"] ;; ret None
            end
          else ret None) ;;
  match err with
  | Some e => ret (Some e)
  | None =>
      Println ["Emoji List:"] ;;
      w <- get ;;
      forM (map_to_list (default ∅ (emojiList w)))
        (fun entry => Print (emojiLine entry.1 entry.2)) ;;
      ret None
  end.

End ListEmoji.

(** [listEmoji] respects every frame. *)
Lemma listEmoji_frame `{Environment} (R : relation World) `{!Frame R} :
  preserves R listEmoji.
Proof. unfold listEmoji. preserves_tac. Qed.

#[export] Hint Resolve listEmoji_frame : go.

(** ** Code-point references *)

Lemma isHexDigit_isNot c0 c :
  isHexDigit c0 = false -> isHexDigit c = true -> isNot c0 c = true.
Proof.
  intros H0 Hc. unfold isNot. apply negb_true_iff, bool_decide_eq_false.
  intros ->. congruence.
Qed.

Lemma allBytes_hex_isNot c0 h :
  isHexDigit c0 = false -> allBytes isHexDigit h = true ->
  allBytes (isNot c0) h = true.
Proof. intros H0. apply allBytes_impl. intros c. by apply isHexDigit_isNot. Qed.

(** Stripping the decoration of a reference leaves its digits. *)
Lemma strip_reference h :
  allBytes isHexDigit h = true ->
  ReplaceAll (ReplaceAll ("&#x" +:+ h +:+ ";") "&#x" "") ";" "" = h.
Proof.
  intros Hh. unfold ReplaceAll. rewrite !decide_False by done.
  rewrite replaceLoop_prefix, app_nil_l_s, (replaceLoop_absent "&").
  - by rewrite replaceLoop_suffix, app_nil_r_s by by apply allBytes_hex_isNot.
  - rewrite allBytes_app, allBytes_hex_isNot by done. done.
Qed.

(** C26. A code-point reference is decoded to its glyph: for every
    non-empty string [h] of hexadecimal digits (either case) whose value
    is below 2^31, [unicodeToEmoji] applied to ["&#x" ++ h ++ ";"]
    succeeds with the UTF-8 encoding of the code point [h] denotes (of
    U+FFFD when that is not a valid code point). *)
Theorem unicodeToEmoji_reference (h : string) :
  allBytes isHexDigit h = true -> h <> "" -> (hexValue h 0 < 2 ^ 31)%Z ->
  unicodeToEmoji ("&#x" +:+ h +:+ ";") = Some (EncodeRune (hexValue h 0)).
Proof.
  intros Hh Hne Hv. unfold unicodeToEmoji.
  by rewrite strip_reference, ParseInt_hex.
Qed.

Lemma unicodeToEmoji_reference_witness :
  unicodeToEmoji "&#x2705;" = Some (EncodeRune 0x2705).
Proof.
  apply (unicodeToEmoji_reference "2705"); [reflexivity|done|reflexivity].
Defined.

(** ** The reactions of a message *)

Lemma getReactionsString_app emojiList l1 l2 :
  getReactionsString emojiList (l1 ++ l2) =
  getReactionsString emojiList l1 +:+ getReactionsString emojiList l2.
Proof.
  induction l1 as [|r l1 IH]; [done|]. simpl. by rewrite IH, app_assoc_s.
Qed.

(** A reaction the emoji table maps to a code-point reference is
    rendered as a space, the glyph of that code point, a colon and the
    count in decimal; the reactions of a message are rendered one after
    the other in the order the server gave them. *)
Theorem getReactionsString_table emojiList (r : SlackReaction) (rest : list SlackReaction) h :
  lookupNil emojiList (Name r) = Some ("&#x" +:+ h +:+ ";") ->
  allBytes isHexDigit h = true -> h <> "" -> (hexValue h 0 < 2 ^ 31)%Z ->
  getReactionsString emojiList (r :: rest) =
  " " +:+ EncodeRune (hexValue h 0) +:+ ":" +:+ FormatInt (Count r)
    +:+ getReactionsString emojiList rest.
Proof.
  intros Hr Hh Hne Hv. simpl. unfold reactionString.
  rewrite Hr. simpl. rewrite unicodeToEmoji_reference by done. simpl.
  by rewrite !app_assoc_s.
Qed.

Lemma getReactionsString_table_witness :
  getReactionsString (Some {[ "x" := "&#x2705;" ]})
    [ {| Name := "x"; Count := 2; Users := [] |} ]
  = " " +:+ EncodeRune 0x2705 +:+ ":" +:+ "2" +:+ "".
Proof.
  apply (getReactionsString_table (Some {[ "x" := "&#x2705;" ]})
           {| Name := "x"; Count := 2; Users := [] |} [] "2705");
    [reflexivity|reflexivity|done|reflexivity].
Defined.

(** ** Names that are no reference *)

(** On a string without ['&'] and [';'] the two replacements do nothing. *)
Lemma unicodeToEmoji_plain s :
  allBytes (isNot "&") s = true -> allBytes (isNot ";") s = true ->
  unicodeToEmoji s = EncodeRune <$> ParseInt s 16 32.
Proof.
  intros Hamp Hsemi. unfold unicodeToEmoji, ReplaceAll.
  rewrite !decide_False by done.
  rewrite (replaceLoop_absent "&") by done. rewrite replaceLoop_absent by done.
  by destruct (ParseInt s 16 32).
Qed.

(** A string of hexadecimal digits alone, with no [&#x] and no [;],
    is accepted as a code point just the same: an emoji name such as
    [bee] or [100] is turned into the character U+0BEE or U+0100. *)
Theorem unicodeToEmoji_hex_name (h : string) :
  allBytes isHexDigit h = true -> h <> "" -> (hexValue h 0 < 2 ^ 31)%Z ->
  unicodeToEmoji h = Some (EncodeRune (hexValue h 0)).
Proof.
  intros Hh Hne Hv.
  rewrite unicodeToEmoji_plain by by apply allBytes_hex_isNot.
  by rewrite ParseInt_hex.
Qed.

Lemma unicodeToEmoji_hex_name_witness :
  unicodeToEmoji "bee" = Some (EncodeRune 0xbee).
Proof.
  apply (unicodeToEmoji_hex_name "bee"); [reflexivity|done|reflexivity].
Defined.

(** C27. A reaction whose name is not in the emoji table, has no ['&'] and
    no [';'], and has a byte after the first that is no hexadecimal digit
    (as [thumbsup] has) is rendered with an empty glyph: a space, a
    colon and the count.  The conversion error is dropped, and neither
    the name nor the code is shown. *)
Theorem reactionString_undecodable emojiList (r : SlackReaction) c s :
  Name r = String c s -> lookupNil emojiList (Name r) = None ->
  allBytes (isNot "&") (Name r) = true -> allBytes (isNot ";") (Name r) = true ->
  allBytes isHexDigit s = false ->
  reactionString emojiList r = " :" +:+ FormatInt (Count r).
Proof.
  intros Hname Hlook Hamp Hsemi Hs. unfold reactionString.
  rewrite Hlook. cbn [default]. rewrite unicodeToEmoji_plain by done.
  by rewrite Hname, ParseInt_nonhex.
Qed.

Lemma reactionString_undecodable_witness :
  reactionString (Some {[ "x" := "&#x2705;" ]})
    {| Name := "thumbsup"; Count := 3; Users := [] |} = " :" +:+ "3".
Proof.
  apply (reactionString_undecodable (Some {[ "x" := "&#x2705;" ]})
           {| Name := "thumbsup"; Count := 3; Users := [] |} "t" "humbsup");
    reflexivity.
Defined.
