(* ===== verification/Threads.v ===== *)
(** * The thread expander: [getThreadReplies] (main.go, lines 464-498)

    One request to [conversations.replies] brings the messages of a
    thread, its parent included.  The parent is left out by comparing
    timestamps, the filter is applied to the text, and the author of
    every reply that is kept is resolved through [getUserName] while the
    list is built.  A reply carries no edit mark: the field is not
    copied. *)

From S2P Require Import Prelude Utf8 GoStrings Calendar GoTime Slack Resolver.

Local Open Scope go_scope.

Definition repliesRequest (channel token threadTs : string) : Request :=
  {| Method := "GET";
     URL := "https://slack.com/api/conversations.replies?channel=" +:+ channel
            +:+ "&ts=" +:+ threadTs;
     Headers := [bearer token];
     Body := NoPayload |}.

(** The test of lines 483-484: not the parent, and the filter, if there
    is one, occurs in the text. *)
Definition keptReply (threadTs filter : string) (msg : SlackMessageItem) : bool :=
  negb (bool_decide (Ts msg = threadTs))
  && (bool_decide (filter = "") || Contains (Text msg) filter).

(** The struct literal of lines 485-492. *)
Definition replyOf (msg : SlackMessageItem) (userName : string) : SlackMessageReply :=
  {| ReplyUserID := UserID msg;
     ReplyUserName := userName;
     ReplyText := Text msg;
     ReplyTs := Ts msg;
     ReplyReactions := Reactions msg;
     ReplyFiles := Files msg;
     ReplyEdited := "" |}.

Section Threads.
Context `{Environment}.

(** The loop of lines 482-495. *)
Fixpoint collectReplies (threadTs filter : string) (msgs : list SlackMessageItem)
  : M Session (list SlackMessageReply) :=
  match msgs with
  | [] => ret []
  | msg :: rest =>
      if keptReply threadTs filter msg then
        userName <- getUserName (UserID msg) ;;
        replies <- collectReplies threadTs filter rest ;;
        ret (replyOf msg userName :: replies)
      else collectReplies threadTs filter rest
  end.

(** [getThreadReplies]; [inl] is the error of [client.Do].  [search] and
    the cache are parameters of the Go function; the first is not used,
    the second is the session's. *)
Definition getThreadReplies (threadTs filter search : string)
  : M Session (string + list SlackMessageReply) :=
  s <- get ;;
  r <- liftW (send conversationsReplies
                (repliesRequest (ChannelID (config (world s)))
                   (SlackBotToken (config (world s))) threadTs)) ;;
  match r with
  | inl err => ret (inl err)
  | inr messages =>
      replies <- collectReplies threadTs filter messages ;;
      ret (inr replies)
  end.

End Threads.

(** ** The replies and the frames *)

Section ThreadsFrame.
Context `{Environment} (R : relation World) `{!Frame R} `{!Remembers R}.
Hypothesis admits_usersInfo : forall token userID, admits R (usersInfoRequest token userID).
Hypothesis admits_replies : forall channel token ts, admits R (repliesRequest channel token ts).

#[local] Hint Resolve getUserName_frame : go.

Lemma collectReplies_frame threadTs filter msgs :
  preserves (onWorld R) (collectReplies threadTs filter msgs).
Proof. induction msgs as [|msg msgs IH]; cbn [collectReplies]; preserves_tac. Qed.

#[local] Hint Resolve collectReplies_frame : go.

Lemma getThreadReplies_frame threadTs filter search :
  preserves (onWorld R) (getThreadReplies threadTs filter search).
Proof. unfold getThreadReplies. preserves_tac. Qed.

End ThreadsFrame.

(** ** What the replies are *)

Section ThreadsProperties.
Context `{Environment}.

(** The replies are the kept messages, in their order, each with the
    name found for its author. *)
Lemma collectReplies_kept threadTs filter msgs s replies s' :
  collectReplies threadTs filter msgs s = (Ret replies, s') ->
  Forall2 (fun msg reply => reply = replyOf msg (ReplyUserName reply))
    (base.filter (fun msg => keptReply threadTs filter msg) msgs) replies.
Proof.
  revert s replies. induction msgs as [|msg msgs IH]; intros s replies;
    cbn [collectReplies].
  - intros [= <- <-]. constructor.
  - destruct (keptReply threadTs filter msg) eqn:Hk.
    + rewrite filter_cons_True by by rewrite Hk. unfold bind at 1.
      destruct (getUserName (UserID msg) s) as [[userName| |] s1]; [|done..].
      unfold bind at 1.
      destruct (collectReplies threadTs filter msgs s1) as [[rest| |] s2] eqn:E; [|done..].
      intros [= <- <-]. constructor; [done|]. by eapply IH.
    + rewrite filter_cons_False by (rewrite Hk; exact id). apply IH.
Qed.

(** C25. The replies of a thread are the messages of the answer other
    than the parent in whose text the filter, if there is one, occurs,
    in the order of the answer; the user, the text, the timestamp, the
    reactions and the files are copied, and the edit mark is not: no
    reply that [getThreadReplies] returns is marked as edited. *)
Theorem getThreadReplies_kept threadTs filter search s replies s' :
  getThreadReplies threadTs filter search s = (Ret (inr replies), s') ->
  exists messages,
    conversationsReplies (requests (world s))
      (repliesRequest (ChannelID (config (world s)))
         (SlackBotToken (config (world s))) threadTs) = inr messages /\
    Forall2 (fun msg reply => reply = replyOf msg (ReplyUserName reply))
      (base.filter (fun msg => keptReply threadTs filter msg) messages) replies /\
    Forall (fun reply => ReplyEdited reply = "") replies.
Proof.
  unfold getThreadReplies, liftW, send, bind, get. cbn.
  destruct (conversationsReplies _ _) as [err|messages]; [done|].
  destruct (collectReplies _ _ _ _) as [[rs| |] s1] eqn:E; [|done..].
  intros [= <- <-]. exists messages. split; [done|].
  apply collectReplies_kept in E. split; [done|].
  clear -E. induction E as [|msg reply ? ? Hr]; constructor; [by rewrite Hr|done].
Qed.

End ThreadsProperties.

(** A server whose thread has a parent and two replies. *)
Definition threadEnvironment : Environment := {|
  usersInfo := demoUsersInfo;
  conversationsHistory := fun _ _ => Decoded demoPage;
  conversationsReplies := fun _ _ =>
    inr [demoMessage "U1" "parent" "1704110400.000300";
         demoMessage "U075JAXRYV7" "a reply with foo" "1704110500.000400";
         demoMessage "U1" "another reply" "1704110600.000500"];
  apiCall := fun _ _ => Decoded {| StatusOK := true; StatusError := "" |};
  getUploadURL := fun _ _ => None;
  completeUpload := fun _ _ => DoErr "dial tcp: i/o timeout";
  buildTime := "";
  download := fun _ _ => inl "dial tcp: i/o timeout";
  urlPath := fun _ => Some "/files-pri/T1-F1/report.pdf";
  createFileFails := fun _ => false;
  zoneOffset := fun _ => 0%Z;
  floatSeconds := fun _ => 0%Z;
  sprintfBare := fun format => format;
  createFails := false;
  writeFails := false;
  errorText := fun _ => "no such file or directory";
|}.

Lemma getThreadReplies_kept_witness :
  exists messages,
    @conversationsReplies threadEnvironment (requests (world demoSession))
      (repliesRequest (ChannelID (config (world demoSession)))
         (SlackBotToken (config (world demoSession))) "1704110400.000300")
    = inr messages /\
    Forall2 (fun msg reply => reply = replyOf msg (ReplyUserName reply))
      (base.filter (fun msg => keptReply "1704110400.000300" "foo" msg) messages)
      [replyOf (demoMessage "U075JAXRYV7" "a reply with foo" "1704110500.000400") "Bot"] /\
    Forall (fun reply => ReplyEdited reply = "")
      [replyOf (demoMessage "U075JAXRYV7" "a reply with foo" "1704110500.000400") "Bot"].
Proof.
  eapply (@getThreadReplies_kept threadEnvironment "1704110400.000300" "foo" ""
            demoSession). vm_compute. reflexivity.
Defined.

(** ** The expander returns *)

Section ThreadsReturns.
Context `{Environment}.

#[local] Hint Resolve liftW_returning getUserName_returning : go.

Lemma collectReplies_returning threadTs filter msgs :
  keeps_returning hasCacheS (collectReplies threadTs filter msgs).
Proof. induction msgs as [|msg msgs IH]; cbn [collectReplies]; returning_tac. Qed.

#[local] Hint Resolve collectReplies_returning : go.

Lemma getThreadReplies_returning threadTs filter search :
  keeps_returning hasCacheS (getThreadReplies threadTs filter search).
Proof. unfold getThreadReplies. returning_tac. Qed.

End ThreadsReturns.
