(* ===== verification/Formatter.v ===== *)
(** * The message formatter (main.go, lines 324-327 and 377-441)

    What [fetchMessages] appends to its list of lines for one message:
    a header line with the timestamp, the local time, the author, the
    first line of the text, the edit mark and the reactions; one
    indented line for every further line of the text; one line per
    attached file; and the same for every reply of its thread.  The
    occurrences of the search pattern, or else of the filter, are
    wrapped in colour codes. *)

From S2P Require Import Prelude Utf8 GoStrings Calendar GoTime Slack TimeRange.
From S2P Require Import Resolver Reactions Threads.

Local Open Scope go_scope.

(** ** Colours and indentation (lines 324-327) *)

Definition indent : string := Repeat " " 40.
Definition redColorStart : string := esc +:+ "[91m".
Definition resetColor : string := esc +:+ "[0m".
Definition defaultColorStart : string := esc +:+ "[39m".

(** [fmt.Sprintf("%s%s%s%s", redColorStart, pattern, resetColor,
    defaultColorStart)]. *)
Definition highlight (pattern : string) : string :=
  redColorStart +:+ pattern +:+ resetColor +:+ defaultColorStart.

(** ** Lines of text *)

(** A line of a message (lines 385-389): the search pattern wins over
    the filter. *)
Definition markLine (search filter text line : string) : string :=
  if negb (bool_decide (search = "")) then ReplaceAll line search (highlight search)
  else if Contains text filter then ReplaceAll line filter (highlight filter)
  else line.

(** A line of a reply (lines 419-421): the search pattern only. *)
Definition markReplyLine (search line : string) : string :=
  if negb (bool_decide (search = "")) then ReplaceAll line search (highlight search)
  else line.

(** [" (edited)"] when the message names the user who edited it. *)
Definition editedMark (editedUser : string) : string :=
  if negb (bool_decide (editedUser = "")) then " (edited)" else "".

(** The first line (lines 391 and 423), after the prefix of a reply. *)
Definition headerLine (ts stamp userName line edited reactions : string) : string :=
  ts +:+ " (" +:+ stamp +:+ ") " +:+ userName +:+ ": " +:+ defaultColorStart
  +:+ line +:+ edited +:+ reactions +:+ nl.

(** A further line (lines 393 and 425). *)
Definition continuationLine (line : string) : string :=
  indent +:+ defaultColorStart +:+ line +:+ nl.

(** The loop over [textLines]: every line is marked, the line with
    index 0 goes into the header. *)
Definition textBlock (mark header : string -> string) (textLines : list string)
  : list string :=
  match textLines with
  | [] => []
  | line :: rest => header (mark line) :: map (fun l => continuationLine (mark l)) rest
  end.

(** ** Files (lines 396-406 and 428-438) *)

Definition fileNameColor (file : SlackFile) : string :=
  if HasPrefix (Mimetype file) "image/" then esc +:+ "[91m" else esc +:+ "[94m".

(** The entry of a file, [margin] being the two blanks of a message or
    the four of a reply; without colours when there is a search
    pattern. *)
Definition fileEntry (margin search : string) (file : SlackFile) : string :=
  if negb (bool_decide (search = "")) then
    margin +:+ "- File: " +:+ FileName file +:+ " (" +:+ URLPrivate file +:+ ")" +:+ nl
  else
    margin +:+ "- File: " +:+ fileNameColor file +:+ FileName file +:+ resetColor
    +:+ " (" +:+ esc +:+ "[36m" +:+ URLPrivate file +:+ esc +:+ "[0m)" +:+ nl.

(** A string that ends with a newline. *)
Definition wholeLine (line : string) : Prop := exists text, line = text +:+ nl.

Section Formatter.
Context `{Environment}.

(** ** A reply (lines 411-438) *)

Definition renderReply (search : string) (reply : SlackMessageReply)
  : M Session (list string) :=
  replyUserName <- getUserName (ReplyUserID reply) ;;
  s <- get ;;
  let edited := editedMark (ReplyEdited reply) in
  let reactions := getReactionsString (emojiList (world s)) (ReplyReactions reply) in
  let textLines := Split (ReplyText reply) nl in
  ret (textBlock (markReplyLine search)
         (fun line =>
            "  ↳ " +:+ headerLine (ReplyTs reply) (formatTimestamp (ReplyTs reply))
                         replyUserName line edited reactions)
         textLines
       ++ map (fileEntry "    " search) (ReplyFiles reply)).

(** ** A message with its thread (lines 377-441) *)

Definition renderMessage (search filter : string) (msg : SlackMessageItem)
  : M Session (list string) :=
  userName <- getUserName (UserID msg) ;;
  s <- get ;;
  let edited := editedMark (Edited msg) in
  let reactions := getReactionsString (emojiList (world s)) (Reactions msg) in
  let textLines := Split (Text msg) nl in
  let lines :=
    textBlock (markLine search filter (Text msg))
      (fun line => headerLine (Ts msg) (formatTimestamp (Ts msg)) userName line
                     edited reactions)
      textLines
    ++ map (fileEntry "  " search) (Files msg) in
  if negb (bool_decide (ThreadTS msg = "")) then
    r <- getThreadReplies (ThreadTS msg) filter search ;;
    match r with
    | inr replies =>
        out <- collectM (renderReply search) replies ;;
        ret (lines ++ out)
    | inl _ => ret lines
    end
  else ret lines.

End Formatter.

(** ** The formatter and the frames *)

Section FormatterFrame.
Context `{Environment} (R : relation World) `{!Frame R} `{!Remembers R}.
Hypothesis admits_usersInfo : forall token userID, admits R (usersInfoRequest token userID).
Hypothesis admits_replies : forall channel token ts, admits R (repliesRequest channel token ts).

#[local] Hint Resolve getUserName_frame getThreadReplies_frame : go.

Lemma renderReply_frame search reply : preserves (onWorld R) (renderReply search reply).
Proof. unfold renderReply. preserves_tac. Qed.

#[local] Hint Resolve renderReply_frame : go.

Lemma renderMessage_frame search filter msg :
  preserves (onWorld R) (renderMessage search filter msg).
Proof. unfold renderMessage. preserves_tac. Qed.

End FormatterFrame.

(** ** Marking with empty patterns *)

Lemma length_highlight pattern : String.length (highlight pattern) = 14 + String.length pattern.
Proof.
  unfold highlight, redColorStart, resetColor, defaultColorStart.
  rewrite !length_app_s. simpl. lia.
Qed.

(** C37. A [show] with neither a search pattern nor a filter still marks
    its lines: the empty filter occurs in every text, and replacing the
    empty pattern puts the fourteen bytes of colour codes before every
    character of the line and after the last. *)
Theorem markLine_default (text line : string) :
  String.length (markLine "" "" text line)
  = String.length line + 14 * S (length (runeChunks line)).
Proof.
  unfold markLine. rewrite bool_decide_eq_true_2 by done. cbn [negb].
  rewrite Contains_empty, length_ReplaceAll_empty by done.
  rewrite length_highlight. simpl String.length. lia.
Qed.

(** ** The formatter returns *)

Section FormatterReturns.
Context `{Environment}.

#[local] Hint Resolve getUserName_returning getThreadReplies_returning : go.

Lemma renderReply_returning search reply :
  keeps_returning hasCacheS (renderReply search reply).
Proof. unfold renderReply. returning_tac. Qed.

#[local] Hint Resolve renderReply_returning : go.

Lemma renderMessage_returning search filter msg :
  keeps_returning hasCacheS (renderMessage search filter msg).
Proof. unfold renderMessage. returning_tac. Qed.

End FormatterReturns.

(** ** Marking with a search pattern *)

Lemma highlight_differs pattern : pattern <> highlight pattern.
Proof.
  intros Heq%(f_equal String.length). rewrite length_highlight in Heq. lia.
Qed.

(** The search pattern wins over the filter: with a search pattern,
    a line of a message is cut at every occurrence of the pattern (the
    ones a scan from the left finds, without overlaps) and put together
    again with the pattern in colour codes between the pieces; the
    filter plays no part, whether it occurs in the text or not. *)
Theorem markLine_search (search filter text line : string) :
  search <> "" ->
  markLine search filter text line = Join (Split line search) (highlight search).
Proof.
  intros Hne. unfold markLine. rewrite bool_decide_eq_false_2 by done. cbn [negb].
  unfold ReplaceAll, Split. rewrite decide_False by apply highlight_differs.
  destruct search as [|c search']; [done|]. apply replaceLoop_Join.
Qed.

Lemma markLine_search_witness :
  markLine "foo" "bar" "foo bar foo" "foo bar foo"
  = Join (Split "foo bar foo" "foo") (highlight "foo").
Proof. by apply (markLine_search "foo" "bar" "foo bar foo" "foo bar foo"). Defined.

(** ** The shape of the lines *)

Lemma wholeLine_app s t : wholeLine t -> wholeLine (s +:+ t).
Proof. intros [text ->]. exists (s +:+ text). by rewrite app_assoc_s. Qed.

Lemma wholeLine_nl : wholeLine nl.
Proof. by exists "". Qed.

#[local] Hint Resolve wholeLine_app wholeLine_nl : go.

Lemma headerLine_whole ts stamp userName line edited reactions :
  wholeLine (headerLine ts stamp userName line edited reactions).
Proof. unfold headerLine. eauto 20 with go. Qed.

Lemma continuationLine_whole line : wholeLine (continuationLine line).
Proof. unfold continuationLine. eauto with go. Qed.

Lemma fileEntry_whole margin search file : wholeLine (fileEntry margin search file).
Proof. unfold fileEntry. case_match; eauto 20 with go. Qed.

Lemma textBlock_whole mark header textLines :
  (forall line, wholeLine (header line)) -> Forall wholeLine (textBlock mark header textLines).
Proof.
  intros Hh. destruct textLines as [|line rest]; [done|]. cbn [textBlock].
  constructor; [done|]. apply Forall_map, Forall_true. intros l. apply continuationLine_whole.
Qed.

Lemma textBlock_not_nil mark header textLines :
  textLines <> [] -> textBlock mark header textLines <> [].
Proof. by destruct textLines. Qed.

Lemma Split_nl_not_nil s : Split s nl <> [].
Proof. apply splitLoop_not_nil. Qed.

Section Lines.
Context `{Environment}.

Lemma renderReply_lines search reply s lines s' :
  renderReply search reply s = (Ret lines, s') -> Forall wholeLine lines.
Proof.
  unfold renderReply. unfold bind at 1.
  destruct (getUserName _ s) as [[name| |] s1]; [|done..].
  unfold bind, get, ret. cbn. intros [= <- _].
  apply Forall_app. split.
  - apply textBlock_whole. intros line. apply wholeLine_app, headerLine_whole.
  - apply Forall_map, Forall_true. intros file. apply fileEntry_whole.
Qed.

(** The lines of a message: at least one, each ending with a newline. *)
Lemma renderMessage_lines search filter msg s lines s' :
  renderMessage search filter msg s = (Ret lines, s') ->
  lines <> [] /\ Forall wholeLine lines.
Proof.
  unfold renderMessage. unfold bind at 1.
  destruct (getUserName _ s) as [[name| |] s1]; [|done..].
  rewrite bind_ret_l || (unfold bind at 1, get; cbn [fst snd]).
  set (own := textBlock _ _ _ ++ _).
  assert (own <> [] /\ Forall wholeLine own) as [Hne Hown].
  { split.
    - intros [Hb _]%app_eq_nil. revert Hb. apply textBlock_not_nil, Split_nl_not_nil.
    - apply Forall_app. split.
      + apply textBlock_whole. intros line. apply headerLine_whole.
      + apply Forall_map, Forall_true. intros file. apply fileEntry_whole. }
  case_match; [|by intros [= <- _]].
  unfold bind at 1. destruct (getThreadReplies _ _ _ s1) as [[[err|replies]| |] s2]; [| |done..].
  { by intros [= <- _]. }
  unfold bind at 1.
  destruct (collectM (renderReply search) replies s2) as [[out| |] s3] eqn:Eo; [|done..].
  intros [= <- _]. split.
  - by intros [? _]%app_eq_nil.
  - apply Forall_app. split; [done|].
    eapply collectM_Forall; [|done]. intros ????. apply renderReply_lines.
Qed.

End Lines.

(** ** A message without a thread *)

Section Plain.
Context `{Environment}.

(** Without a thread the formatter asks for nothing but the author's
    name: the lines are those of the text, then those of the files. *)
Lemma renderMessage_no_thread search filter msg s name s' :
  ThreadTS msg = "" -> getUserName (UserID msg) s = (Ret name, s') ->
  renderMessage search filter msg s
  = (Ret (textBlock (markLine search filter (Text msg))
            (fun line => headerLine (Ts msg) (formatTimestamp (Ts msg)) name line
                           (editedMark (Edited msg))
                           (getReactionsString (emojiList (world s')) (Reactions msg)))
            (Split (Text msg) nl)
          ++ map (fileEntry "  " search) (Files msg)), s').
Proof.
  intros Ht Hn. unfold renderMessage. rewrite (bind_Ret _ _ _ _ _ Hn).
  by rewrite Ht, bool_decide_eq_true_2.
Qed.

(** C36. A found message of one line, without files and without a
    thread, whose author the session knows, is shown as one line: its
    timestamp, the local time in parentheses, the author, and the text
    with every occurrence of the search pattern between colour codes,
    followed by the edit mark and the reactions; the session is left as
    it was, so no request is sent. *)
Theorem renderMessage_one_line search filter msg name s :
  search <> "" -> ThreadTS msg = "" -> Files msg = [] ->
  Contains (Text msg) nl = false ->
  UserID msg <> "" -> userCache s !! UserID msg = Some name ->
  renderMessage search filter msg s
  = (Ret [Ts msg +:+ " (" +:+ formatTimestamp (Ts msg) +:+ ") " +:+ name +:+ ": "
          +:+ esc +:+ "[39m" +:+ Join (Split (Text msg) search) (highlight search)
          +:+ editedMark (Edited msg)
          +:+ getReactionsString (emojiList (world s)) (Reactions msg) +:+ nl], s).
Proof.
  intros Hs Ht Hf Hl Hu Hc.
  rewrite (renderMessage_no_thread _ _ _ _ name s Ht) by by apply getUserName_session_hit.
  by rewrite Hf, Split_not_Contains, app_nil_r, <- (markLine_search search filter (Text msg)).
Qed.

End Plain.

Lemma renderMessage_one_line_witness :
  let msg := demoMessage "U075JAXRYV7" "a foo b" "1704110400.000300" in
  renderMessage (H := demoEnvironment) "foo" "" msg demoSession
  = (Ret ["1704110400.000300 ("
          +:+ formatTimestamp (H := demoEnvironment) "1704110400.000300"
          +:+ ") Bot: " +:+ esc +:+ "[39m"
          +:+ Join (Split "a foo b" "foo") (highlight "foo") +:+ nl], demoSession).
Proof.
  by apply (renderMessage_one_line (H := demoEnvironment) "foo" ""
              (demoMessage "U075JAXRYV7" "a foo b" "1704110400.000300") "Bot" demoSession).
Defined.
