(* ===== verification/Paginator.v ===== *)
(** * The history paginator: [fetchMessages] (main.go, lines 275-457)

    The command [show]: the bounds of the time range, a copy of the
    name cache for the command, then the loop that requests a page of
    the channel's history, reverses it into chronological order, renders
    the messages that pass the filters until [limit] of them have been
    rendered, and decides whether to ask for another page.  The lines
    are printed when the loop has ended; an error of the request ends
    the command with one line and nothing else.  The reversal is the
    loop of the source, which swaps the elements from both ends inwards;
    it is shown to reverse the list.

    The outer loop of the source has no bound of its own: the model
    takes a number of rounds, [fuel], and tells running out of it apart
    from ending.  [fetchMessages_ends] shows that one round is always
    enough. *)

From S2P Require Import Prelude Utf8 GoStrings Calendar GoTime Slack TimeRange.
From S2P Require Import Resolver Reactions Threads Formatter.

Local Open Scope Z_scope.
Local Open Scope go_scope.

(** ** The request of a page (lines 332-341) *)

Definition historyURL (channel : string) (limit : Z) (oldest latest cursor : string)
  : string :=
  let apiURL := "https://slack.com/api/conversations.history?channel=" +:+ channel
                +:+ "&limit=" +:+ FormatInt limit in
  let apiURL := if negb (bool_decide (oldest = "")) && negb (bool_decide (latest = ""))
                then apiURL +:+ "&oldest=" +:+ oldest +:+ "&latest=" +:+ latest
                else apiURL in
  if negb (bool_decide (cursor = "")) then apiURL +:+ "&cursor=" +:+ cursor else apiURL.

Definition historyRequest (c : Config) (limit : Z) (oldest latest cursor : string)
  : Request :=
  {| Method := "GET";
     URL := historyURL (ChannelID c) limit oldest latest cursor;
     Headers := [bearer (SlackBotToken c)];
     Body := NoPayload |}.

(** ** The page in chronological order (lines 364-366) *)

Section Reverse.
Context {A : Type}.

(** [a[i], a[j] = a[j], a[i]] for indices in range. *)
Definition swap (i j : Z) (l : list A) : list A :=
  match l !! Z.to_nat i, l !! Z.to_nat j with
  | Some x, Some y => <[Z.to_nat i := y]> (<[Z.to_nat j := x]> l)
  | _, _ => l
  end.

(** [for i, j := 0, len(a)-1; i < j; i, j = i+1, j-1 { swap }], with a
    number of rounds. *)
Fixpoint reverseLoop (fuel : nat) (i j : Z) (l : list A) : list A :=
  match fuel with
  | O => l
  | S fuel => if i <? j then reverseLoop fuel (i + 1) (j - 1) (swap i j l) else l
  end.

Definition reverseInPlace (l : list A) : list A :=
  reverseLoop (length l) 0 (Z.of_nat (length l) - 1) l.

Lemma swap_ends pre x mid y post :
  swap (Z.of_nat (length pre)) (Z.of_nat (length pre + S (length mid)))
    (pre ++ x :: mid ++ y :: post)
  = pre ++ y :: mid ++ x :: post.
Proof.
  unfold swap. rewrite !Nat2Z.id.
  assert (pre ++ x :: mid ++ y :: post = (pre ++ x :: mid) ++ y :: post) as E
    by by rewrite <- app_assoc.
  assert (length pre + S (length mid) = length (pre ++ x :: mid) + 0)%nat as Ej
    by (rewrite length_app; simpl; lia).
  rewrite list_lookup_middle by done.
  rewrite E at 1. rewrite list_lookup_middle by lia.
  rewrite E, Ej, insert_app_r. cbn [insert list_insert].
  rewrite <- app_assoc. cbn [app].
  rewrite <- (Nat.add_0_r (length pre)), insert_app_r. done.
Qed.

(** The loop reverses what lies between its two indices. *)
Lemma reverseLoop_middle mid : forall fuel pre post,
  (length mid <= 2 * fuel)%nat ->
  reverseLoop fuel (Z.of_nat (length pre)) (Z.of_nat (length pre + length mid) - 1)
    (pre ++ mid ++ post)
  = pre ++ rev mid ++ post.
Proof.
  induction mid as [mid IH] using (induction_ltof1 _ length). unfold ltof in IH.
  intros fuel pre post Hfuel.
  destruct mid as [|x mid].
  { destruct fuel; cbn [reverseLoop]; [done|]. cbn [length].
    by rewrite (proj2 (Z.ltb_ge _ _)) by lia. }
  destruct mid as [|y mid' _] using rev_ind.
  - destruct fuel; cbn [reverseLoop]; [done|]. cbn [length].
    by rewrite (proj2 (Z.ltb_ge _ _)) by lia.
  - destruct fuel as [|fuel]; [simpl in Hfuel; lia|]. cbn [reverseLoop].
    rewrite length_cons, length_app in *. cbn [length] in *.
    rewrite (proj2 (Z.ltb_lt _ _)) by lia.
    replace (Z.of_nat (length pre + S (length mid' + 1)) - 1)
      with (Z.of_nat (length pre + S (length mid'))) by lia.
    cbn [app]. rewrite <- app_assoc. cbn [app]. rewrite swap_ends.
    replace (Z.of_nat (length pre) + 1) with (Z.of_nat (length (pre ++ [y])))
      by (rewrite length_app; simpl; lia).
    replace (Z.of_nat (length pre + S (length mid')) - 1)
      with (Z.of_nat (length (pre ++ [y]) + length mid') - 1)
      by (rewrite length_app; simpl; lia).
    replace (pre ++ y :: mid' ++ x :: post) with ((pre ++ [y]) ++ mid' ++ (x :: post))
      by by rewrite <- app_assoc.
    rewrite IH by (rewrite ?length_app; simpl; lia).
    rewrite <- app_assoc. cbn [rev app]. rewrite rev_app_distr. cbn [rev app].
    by rewrite <- !app_assoc.
Qed.

Lemma reverseInPlace_rev l : reverseInPlace l = rev l.
Proof.
  unfold reverseInPlace.
  pose proof (reverseLoop_middle l (length l) [] []) as Hm.
  cbn [length app] in Hm. rewrite !app_nil_r in Hm. rewrite Nat.add_0_l in Hm.
  apply Hm. lia.
Qed.

(** C6. The loop that swaps the messages of a page from both ends
    inwards puts the page in chronological order: the list keeps its
    length and the message the server gave at position [k] from the end
    stands at position [k] from the start. *)
Theorem reverseInPlace_lookup l k :
  (k < length l)%nat ->
  length (reverseInPlace l) = length l /\
  reverseInPlace l !! k = l !! (length l - S k)%nat.
Proof.
  intros Hk. rewrite reverseInPlace_rev, rev_alt. fold (reverse l).
  by rewrite length_reverse, reverse_lookup.
Qed.

End Reverse.

Lemma reverseInPlace_lookup_witness :
  length (reverseInPlace [1; 2; 3; 4; 5]) = length [1; 2; 3; 4; 5] /\
  reverseInPlace [1; 2; 3; 4; 5] !! 1%nat = [1; 2; 3; 4; 5] !! (length [1; 2; 3; 4; 5] - 2)%nat.
Proof. apply (reverseInPlace_lookup [1; 2; 3; 4; 5] 1). simpl. lia. Defined.

(** ** The variables of the loop (lines 276-277, 323, 329) *)

Record Loop : Type := {
  cursor : string;
  hasMore : bool;
  messages : list string;
  totalFetched : Z;
}.

(** [hasMore = false] (line 370). *)
Definition stopMore (st : Loop) : Loop :=
  {| cursor := cursor st; hasMore := false; messages := messages st;
     totalFetched := totalFetched st |}.

(** [messages = append(messages, ...)] for the lines of one message,
    then [totalFetched++] (line 442). *)
Definition addMessage (lines : list string) (st : Loop) : Loop :=
  {| cursor := cursor st; hasMore := hasMore st; messages := messages st ++ lines;
     totalFetched := totalFetched st + 1 |}.

(** Lines 446-447: [hasMore] is computed from the cursor of the request
    just made, then the cursor of the response is taken. *)
Definition nextPage (response : SlackMessagesResponse) (dateRange : string) (st : Loop)
  : Loop :=
  {| cursor := NextCursor response;
     hasMore := HasMore response && negb (bool_decide (cursor st = ""))
                && negb (bool_decide (dateRange = ""));
     messages := messages st;
     totalFetched := totalFetched st |}.

(** The tests of lines 373-376: the filter, if there is one, occurs in
    the text, and the message has a file when only files are shown. *)
Definition accepted (filter : string) (showFilesOnly : bool) (msg : SlackMessageItem)
  : bool :=
  (bool_decide (filter = "") || Contains (Text msg) filter)
  && negb (showFilesOnly && bool_decide (Files msg = [])).

(** How the loop over the pages ends. *)
Inductive LoopEnd : Type :=
| Finished (st : Loop)
| Returned
| OutOfFuel.

Section Paginator.
Context `{Environment}.

(** ** The messages of a page (lines 368-444) *)

Fixpoint pageLoop (limit : Z) (search filter : string) (showFilesOnly : bool)
    (msgs : list SlackMessageItem) (st : Loop) : M Session Loop :=
  match msgs with
  | [] => ret st
  | msg :: rest =>
      if limit <=? totalFetched st then ret (stopMore st)
      else if accepted filter showFilesOnly msg then
        lines <- renderMessage search filter msg ;;
        pageLoop limit search filter showFilesOnly rest (addMessage lines st)
      else pageLoop limit search filter showFilesOnly rest st
  end.

(** ** The pages (lines 331-452) *)

(** One round: the request, the three errors, the page in chronological
    order, its messages, the decision. *)
Definition round (limit : Z) (dateRange oldest latest search filter : string)
    (showFilesOnly : bool) (st : Loop) : M Session (option Loop) :=
  s <- get ;;
  r <- liftW (send conversationsHistory
                (historyRequest (config (world s)) limit oldest latest (cursor st))) ;;
  match r with
  | DoErr err => liftW (Println ["Error getting messages:"; err]) ;; ret None
  | ReadErr err => liftW (Println ["Error reading response body:"; err]) ;; ret None
  | DecodeErr err => liftW (Println ["Error unmarshaling response:"; err]) ;; ret None
  | Decoded messagesResponse =>
      st <- pageLoop limit search filter showFilesOnly
              (reverseInPlace (Messages messagesResponse)) st ;;
      ret (Some (nextPage messagesResponse dateRange st))
  end.

Fixpoint historyLoop (fuel : nat) (limit : Z)
    (dateRange oldest latest search filter : string) (showFilesOnly : bool)
    (st : Loop) : M Session LoopEnd :=
  match fuel with
  | O => ret OutOfFuel
  | S fuel =>
      r <- round limit dateRange oldest latest search filter showFilesOnly st ;;
      match r with
      | None => ret Returned
      | Some st =>
          if negb (hasMore st) then ret (Finished st)
          else historyLoop fuel limit dateRange oldest latest search filter
                 showFilesOnly st
      end
  end.

(** ** The command (lines 275-457) *)

(** The variables before the loop. *)
Definition startLoop (dateRange : string) : Loop :=
  {| cursor := ""; hasMore := negb (bool_decide (dateRange = ""));
     messages := []; totalFetched := 0 |}.

(** The session of a command: the world, and a fresh map with the
    entries of [config.UserCache] (lines 318-321). *)
Definition startSession (w : World) : Session :=
  {| world := w; userCache := default ∅ (UserCache (config w)) |}.

(** Runs a command's session in the world. *)
Definition inSession {A} (m : M Session A) : M World A :=
  fun w => let (o, s) := m (startSession w) in (o, world s).

(** Lines 454-456, when the loop has ended; the result tells whether
    the rounds were enough. *)
Definition finish (e : LoopEnd) : M World bool :=
  match e with
  | Finished st => forM (messages st) Print ;; ret true
  | Returned => ret true
  | OutOfFuel => ret false
  end.

(** [fetchMessages]. *)
Definition fetchMessages (fuel : nat) (limit : Z) (dateRange search filter : string)
    (showFilesOnly : bool) : M World bool :=
  match dateRangeBounds dateRange with
  | inl line => Println [line] ;; ret true
  | inr (oldest, latest) =>
      e <- inSession (historyLoop fuel limit dateRange oldest latest search filter
                        showFilesOnly (startLoop dateRange)) ;;
      finish e
  end.

End Paginator.

(** ** The reference: one request, the selected messages *)

(** The messages a page contributes: those that pass the tests, as
    many as there is room for. *)
Definition selected (room : Z) (filter : string) (showFilesOnly : bool)
    (msgs : list SlackMessageItem) : list SlackMessageItem :=
  take (Z.to_nat room) (base.filter (fun msg => accepted filter showFilesOnly msg) msgs).

Lemma selected_nil room filter files : selected room filter files [] = [].
Proof. unfold selected. by rewrite filter_nil, take_nil. Qed.

Lemma selected_full room filter files msgs :
  room <= 0 -> selected room filter files msgs = [].
Proof. intros Hl. unfold selected. by replace (Z.to_nat _) with 0%nat by lia. Qed.

Lemma selected_accepted room filter files msg msgs :
  0 < room -> accepted filter files msg = true ->
  selected room filter files (msg :: msgs) = msg :: selected (room - 1) filter files msgs.
Proof.
  intros Hl Ha. unfold selected. rewrite filter_cons_True by by rewrite Ha.
  by replace (Z.to_nat room) with (S (Z.to_nat (room - 1))) by lia.
Qed.

Lemma selected_rejected room filter files msg msgs :
  accepted filter files msg = false ->
  selected room filter files (msg :: msgs) = selected room filter files msgs.
Proof. intros Ha. unfold selected. by rewrite filter_cons_False by (rewrite Ha; exact id). Qed.

Lemma length_selected room filter files msgs :
  Z.of_nat (length (selected room filter files msgs)) <= Z.max 0 room.
Proof. unfold selected. rewrite length_take. lia. Qed.

Section Reference.
Context `{Environment}.

(** Rendering a list of messages, one after the other. *)
Fixpoint renderList (search filter : string) (msgs : list SlackMessageItem)
    (st : Loop) : M Session Loop :=
  match msgs with
  | [] => ret st
  | msg :: rest =>
      lines <- renderMessage search filter msg ;;
      renderList search filter rest (addMessage lines st)
  end.

(** The loop with its [break] renders the selected messages; what
    follows it must not read [hasMore], which the [break] clears. *)
Lemma pageLoop_renderList {A} limit search filter files msgs st
    (k : Loop -> M Session A) s :
  (forall st s, k (stopMore st) s = k st s) ->
  bind (pageLoop limit search filter files msgs st) k s
  = bind (renderList search filter
            (selected (limit - totalFetched st) filter files msgs) st) k s.
Proof.
  intros Hk. revert st s. induction msgs as [|msg msgs IH]; intros st s.
  - by rewrite selected_nil.
  - cbn [pageLoop]. destruct (Z.leb_spec limit (totalFetched st)) as [Hl|Hl].
    { rewrite selected_full by lia. cbn [renderList]. by rewrite !bind_ret_l. }
    destruct (accepted filter files msg) eqn:Ha.
    + rewrite selected_accepted by (done || lia). cbn [renderList].
      rewrite !bind_assoc. apply bind_ext. intros lines s'. rewrite IH.
      cbn [addMessage totalFetched].
      by replace (limit - (totalFetched st + 1)) with (limit - totalFetched st - 1) by lia.
    + by rewrite selected_rejected, IH.
Qed.

End Reference.

(** The variables when the loop has ended after the page [response]. *)
Definition endLoop (response : SlackMessagesResponse) (st : Loop) : Loop :=
  {| cursor := NextCursor response; hasMore := false; messages := messages st;
     totalFetched := totalFetched st |}.

(** The line printed for a failed request. *)
Definition historyErrorLine (r : Fetch SlackMessagesResponse) : option string :=
  match r with
  | DoErr err => Some (Join ["Error getting messages:"; err] " " +:+ nl)
  | ReadErr err => Some (Join ["Error reading response body:"; err] " " +:+ nl)
  | DecodeErr err => Some (Join ["Error unmarshaling response:"; err] " " +:+ nl)
  | Decoded _ => None
  end.

Section Once.
Context `{Environment}.

(** What is done with the answer to the request. *)
Definition answered (limit : Z) (dateRange search filter : string)
    (showFilesOnly : bool) (r : Fetch SlackMessagesResponse) : M Session LoopEnd :=
  match r with
  | Decoded response =>
      st <- renderList search filter
              (selected limit filter showFilesOnly (rev (Messages response)))
              (startLoop dateRange) ;;
      ret (Finished (endLoop response st))
  | _ => liftW (from_option Print (ret tt) (historyErrorLine r)) ;; ret Returned
  end.

(** What the loop over the pages amounts to. *)
Definition showOnce (limit : Z) (dateRange oldest latest search filter : string)
    (showFilesOnly : bool) : M Session LoopEnd :=
  s <- get ;;
  r <- liftW (send conversationsHistory
                (historyRequest (config (world s)) limit oldest latest "")) ;;
  answered limit dateRange search filter showFilesOnly r.

(** The session after the request for the first page. *)
Definition requested (limit : Z) (oldest latest : string) (s : Session) : Session :=
  setWorld (addRequest (historyRequest (config (world s)) limit oldest latest "")
              (world s)) s.

(** The answer to the request for the first page. *)
Definition firstPage (limit : Z) (oldest latest : string) (s : Session)
  : Fetch SlackMessagesResponse :=
  conversationsHistory (requests (world s))
    (historyRequest (config (world s)) limit oldest latest "").

Lemma showOnce_answered limit dateRange oldest latest search filter files s :
  showOnce limit dateRange oldest latest search filter files s
  = answered limit dateRange search filter files (firstPage limit oldest latest s)
      (requested limit oldest latest s).
Proof. reflexivity. Qed.

Lemma renderList_cursor search filter msgs st s st' s' :
  renderList search filter msgs st s = (Ret st', s') -> cursor st' = cursor st.
Proof.
  revert st s. induction msgs as [|msg msgs IH]; intros st s; cbn [renderList].
  - by intros [= <- <-].
  - unfold bind at 1. destruct (renderMessage search filter msg s) as [[lines| |] s1]; [|done..].
    by intros ->%IH.
Qed.

Lemma renderList_totalFetched search filter msgs st s st' s' :
  renderList search filter msgs st s = (Ret st', s') ->
  totalFetched st' = totalFetched st + Z.of_nat (length msgs).
Proof.
  revert st s. induction msgs as [|msg msgs IH]; intros st s; cbn [renderList].
  - intros [= <- <-]. cbn [length]. lia.
  - unfold bind at 1. destruct (renderMessage search filter msg s) as [[lines| |] s1]; [|done..].
    intros ->%IH. cbn [addMessage totalFetched length]. lia.
Qed.

Lemma nextPage_first response dateRange st :
  cursor st = "" -> nextPage response dateRange st = endLoop response st.
Proof.
  intros Hc. unfold nextPage, endLoop. rewrite Hc.
  by rewrite bool_decide_eq_true_2, andb_false_r by done.
Qed.

(** One round from the first cursor is the whole loop. *)
Lemma historyLoop_showOnce fuel limit dateRange oldest latest search filter files s :
  historyLoop (S fuel) limit dateRange oldest latest search filter files
    (startLoop dateRange) s
  = showOnce limit dateRange oldest latest search filter files s.
Proof.
  cbn [historyLoop]. unfold round, showOnce, answered. rewrite !bind_assoc.
  apply bind_ext. intros s0 s1. rewrite !bind_assoc. apply bind_ext.
  intros [err|err|err|response] s2; try (by rewrite bind_assoc).
  rewrite bind_assoc, reverseInPlace_rev.
  rewrite (pageLoop_renderList _ _ _ _ _ _ _ s2) by done.
  cbn [startLoop totalFetched]. rewrite Z.sub_0_r.
  apply bind_ext_Ret. intros st s3 Hc%renderList_cursor.
  rewrite !bind_ret_l, nextPage_first by done. done.
Qed.
End Once.

(** ** The requests for pages *)

Definition isHistory (r : Request) : bool :=
  HasPrefix (URL r) "https://slack.com/api/conversations.history".

(** The requests for pages the world has seen. *)
Definition historyRequests (w : World) : list Request :=
  base.filter (fun r => isHistory r) (requests w).

Lemma isHistory_usersInfo token userID : isHistory (usersInfoRequest token userID) = false.
Proof. reflexivity. Qed.

Lemma isHistory_replies channel token ts : isHistory (repliesRequest channel token ts) = false.
Proof. reflexivity. Qed.

Lemma isHistory_history c limit oldest latest cursor :
  isHistory (historyRequest c limit oldest latest cursor) = true.
Proof.
  unfold isHistory, historyRequest, historyURL. cbn [URL].
  repeat case_match; rewrite ?app_assoc_s; by apply HasPrefix_app_l.
Qed.

(** ** The paginator and the frames *)

Section PaginatorFrame.
Context `{Environment} (R : relation World) `{!Frame R} `{!Remembers R}.
Hypothesis admits_usersInfo : forall token userID, admits R (usersInfoRequest token userID).
Hypothesis admits_replies : forall channel token ts, admits R (repliesRequest channel token ts).

#[local] Hint Resolve renderMessage_frame : go.

Lemma renderList_frame search filter msgs st :
  preserves (onWorld R) (renderList search filter msgs st).
Proof.
  revert st. induction msgs as [|msg msgs IH]; intros st; cbn [renderList];
    preserves_tac.
Qed.

Lemma pageLoop_frame limit search filter files msgs st :
  preserves (onWorld R) (pageLoop limit search filter files msgs st).
Proof.
  revert st. induction msgs as [|msg rest IH]; intros st; cbn [pageLoop]; preserves_tac.
Qed.

Lemma inSession_frame {A} (m : M Session A) :
  preserves (onWorld R) m -> preserves R (inSession m).
Proof.
  intros Hm w. unfold inSession. specialize (Hm (startSession w)).
  by destruct (m (startSession w)).
Qed.

Lemma finish_frame e : preserves R (finish e).
Proof. destruct e; cbn [finish]; preserves_tac. Qed.

Lemma errorLine_frame (line : option string) :
  preserves R (from_option Print (ret tt) line).
Proof. destruct line; cbn [from_option]; eauto with go. Qed.

Hypothesis admits_history : forall c limit oldest latest cursor,
  admits R (historyRequest c limit oldest latest cursor).

#[local] Hint Resolve pageLoop_frame inSession_frame finish_frame : go.

Lemma round_frame limit dateRange oldest latest search filter files st :
  preserves (onWorld R) (round limit dateRange oldest latest search filter files st).
Proof. unfold round. preserves_tac. Qed.

#[local] Hint Resolve round_frame : go.

Lemma historyLoop_frame fuel limit dateRange oldest latest search filter files st :
  preserves (onWorld R)
    (historyLoop fuel limit dateRange oldest latest search filter files st).
Proof.
  revert st. induction fuel as [|fuel IH]; intros st; cbn [historyLoop]; preserves_tac.
Qed.

#[local] Hint Resolve historyLoop_frame : go.

Lemma fetchMessages_frame fuel limit dateRange search filter files :
  preserves R (fetchMessages fuel limit dateRange search filter files).
Proof. unfold fetchMessages. preserves_tac. Qed.

End PaginatorFrame.

(** ** The command and its reference *)

Section Command.
Context `{Environment}.

(** [fetchMessages] without its loops. *)
Definition fetchReference (limit : Z) (dateRange search filter : string)
    (showFilesOnly : bool) : M World bool :=
  match dateRangeBounds dateRange with
  | inl line => Println [line] ;; ret true
  | inr (oldest, latest) =>
      e <- inSession (showOnce limit dateRange oldest latest search filter
                        showFilesOnly) ;;
      finish e
  end.

Lemma inSession_ext {A} (m m' : M Session A) w :
  (forall s, m s = m' s) -> inSession m w = inSession m' w.
Proof. intros Hm. unfold inSession. by rewrite Hm. Qed.

(** In the session of a command, the loop is its first round. *)
Lemma inSession_historyLoop fuel limit dateRange oldest latest search filter files w :
  inSession (historyLoop (S fuel) limit dateRange oldest latest search filter files
               (startLoop dateRange)) w
  = inSession (showOnce limit dateRange oldest latest search filter files) w.
Proof. apply inSession_ext. intros s. apply historyLoop_showOnce. Qed.

Lemma forM_Print lines w : (forM lines Print w).1 = Ret tt.
Proof.
  revert w. induction lines as [|l lines IH]; intros w; [done|].
  cbn [forM]. unfold bind, Print, modify. cbn. apply IH.
Qed.

Lemma finish_ranOut e w : e <> OutOfFuel -> ranOut (finish e w).1 = false.
Proof.
  destruct e as [st| |]; [|done..]. intros _. cbn [finish]. unfold bind.
  pose proof (forM_Print (messages st) w) as Hp.
  by destruct (forM (messages st) Print w) as [[[]| |] w'].
Qed.

Lemma showOnce_ends limit dateRange oldest latest search filter files s e s' :
  showOnce limit dateRange oldest latest search filter files s = (Ret e, s') ->
  e <> OutOfFuel.
Proof.
  rewrite showOnce_answered. unfold answered, liftW, bind, ret.
  destruct (firstPage _ _ _ _) as [err|err|err|response]; cbn;
    try by intros [= <- _].
  destruct (renderList _ _ _ _ _) as [[st| |] s1]; [|done..]. by intros [= <- _].
Qed.

(** C3. One round is always enough: whatever the server answers, the
    loop over the pages ends in its first round, so that [fetchMessages]
    with any number of rounds from one on never runs out of them. *)
Theorem fetchMessages_ends fuel limit dateRange search filter files w :
  ranOut (fetchMessages (S fuel) limit dateRange search filter files w).1 = false.
Proof.
  unfold fetchMessages.
  destruct (dateRangeBounds dateRange) as [line|[oldest latest]]; [done|].
  unfold bind. rewrite inSession_historyLoop. unfold inSession.
  destruct (showOnce _ _ _ _ _ _ _ _) as [[e| |] s'] eqn:E; [|done..].
  apply finish_ranOut. by eapply showOnce_ends.
Qed.

(** C1. The loops of [fetchMessages] amount to one request: for any
    number of rounds from one on, the command is the reference that
    sends a single request for the first page, renders in chronological
    order the first [limit] messages of it that pass the filter and the
    files-only test, and prints their lines; it never asks for a second
    page. *)
Theorem fetchMessages_reference fuel limit dateRange search filter files w :
  (0 < fuel)%nat ->
  fetchMessages fuel limit dateRange search filter files w
  = fetchReference limit dateRange search filter files w.
Proof.
  intros Hfuel. destruct fuel as [|fuel]; [lia|]. unfold fetchMessages, fetchReference.
  destruct (dateRangeBounds dateRange) as [line|[oldest latest]]; [done|].
  unfold bind. by rewrite inSession_historyLoop.
Qed.

(** ** The requests for pages that are sent *)

#[local] Hint Resolve isHistory_usersInfo isHistory_replies renderList_frame
  errorLine_frame : go.

Lemma answered_keeps limit dateRange search filter files r :
  preserves (onWorld (keeps isHistory)) (answered limit dateRange search filter files r).
Proof. unfold answered. preserves_tac. Qed.

(** After its request, [showOnce] sends no request for a page. *)
Lemma showOnce_requests limit dateRange oldest latest search filter files s :
  historyRequests (world (showOnce limit dateRange oldest latest search filter files s).2)
  = historyRequests (world s)
    ++ [historyRequest (config (world s)) limit oldest latest ""].
Proof.
  rewrite showOnce_answered. unfold historyRequests.
  rewrite (answered_keeps _ _ _ _ _ _ (requested limit oldest latest s)).
  apply added_addRequest, isHistory_history.
Qed.

(** C2. A [show] command asks for one page and no more: when the date
    range is accepted, the requests to [conversations.history] after
    [fetchMessages] are those before it and one more, which carries no
    cursor; this holds whatever the answer says of further pages. *)
Theorem fetchMessages_one_request fuel limit dateRange search filter files w
    oldest latest :
  dateRangeBounds dateRange = inr (oldest, latest) ->
  historyRequests (fetchMessages (S fuel) limit dateRange search filter files w).2
  = historyRequests w ++ [historyRequest (config w) limit oldest latest ""].
Proof.
  intros Hb. unfold fetchMessages. rewrite Hb.
  unfold bind. rewrite inSession_historyLoop. unfold inSession.
  pose proof (showOnce_requests limit dateRange oldest latest search filter files
                (startSession w)) as Hs.
  destruct (showOnce _ _ _ _ _ _ _ _) as [[e| |] s'] eqn:E; cbn [fst snd] in *;
    [|done..].
  unfold historyRequests in *. by rewrite (finish_frame (keeps isHistory) e (world s')).
Qed.

End Command.

(** ** The limit *)

Section Limit.
Context `{Environment}.

(** C4. The limit bounds the messages rendered: when the loop over a
    page returns, the count of rendered messages has not gone down, and
    it has not passed the limit unless it was beyond it from the start. *)
Theorem pageLoop_limit limit search filter files msgs st s st' s' :
  pageLoop limit search filter files msgs st s = (Ret st', s') ->
  totalFetched st <= totalFetched st' <= Z.max limit (totalFetched st).
Proof.
  revert st s. induction msgs as [|msg msgs IH]; intros st s; cbn [pageLoop].
  - intros [= <- <-]. lia.
  - destruct (Z.leb_spec limit (totalFetched st)) as [Hl|Hl].
    { intros [= <- <-]. cbn [stopMore totalFetched]. lia. }
    destruct (accepted filter files msg); [|intros ?%IH; lia].
    unfold bind at 1.
    destruct (renderMessage search filter msg s) as [[lines| |] s1]; [|done..].
    intros ?%IH. cbn [addMessage totalFetched] in *. lia.
Qed.

(** A date range that is not empty and has neither 10 nor 21 bytes
    is refused before anything is sent: the command prints one line,
    which says what is wrong with the range, and returns. *)
Theorem fetchMessages_bad_date fuel limit dateRange search filter files w :
  dateRange <> "" ->
  String.length dateRange <> 10%nat -> String.length dateRange <> 21%nat ->
  exists line,
    fetchMessages fuel limit dateRange search filter files w
    = (Ret true, addOutput (line +:+ nl) w).
Proof.
  intros Hne H10 H21. destruct (dateRangeInts_refuses dateRange H10 H21) as [line Hl].
  exists line. unfold fetchMessages, dateRangeBounds.
  by rewrite decide_False, Hl by done.
Qed.

(** C24. A request that fails ends the command with one line: when the
    request for the first page cannot be sent, read or decoded, the
    command prints the line of that error and nothing else, and the
    configuration and the files are as before. *)
Theorem fetchMessages_request_error fuel limit dateRange search filter files w
    oldest latest line :
  dateRangeBounds dateRange = inr (oldest, latest) ->
  historyErrorLine (firstPage limit oldest latest (startSession w)) = Some line ->
  fetchMessages (S fuel) limit dateRange search filter files w
  = (Ret true, addOutput line (addRequest (historyRequest (config w) limit oldest latest "") w)).
Proof.
  intros Hb Hline. unfold fetchMessages. rewrite Hb.
  unfold bind. rewrite inSession_historyLoop. unfold inSession.
  rewrite showOnce_answered.
  by destruct (firstPage _ _ _ _) as [err|err|err|response]; cbn in Hline;
    simplify_eq.
Qed.

End Limit.

(** ** The command returns *)

Section PaginatorReturns.
Context `{Environment}.

#[local] Hint Resolve liftW_returning renderMessage_returning : go.

Lemma pageLoop_returning limit search filter files msgs st :
  keeps_returning hasCacheS (pageLoop limit search filter files msgs st).
Proof.
  revert st. induction msgs as [|msg msgs IH]; intros st; cbn [pageLoop]; returning_tac.
Qed.

#[local] Hint Resolve pageLoop_returning : go.

Lemma round_returning limit dateRange oldest latest search filter files st :
  keeps_returning hasCacheS (round limit dateRange oldest latest search filter files st).
Proof. unfold round. returning_tac. Qed.

#[local] Hint Resolve round_returning : go.

Lemma historyLoop_returning fuel limit dateRange oldest latest search filter files st :
  keeps_returning hasCacheS
    (historyLoop fuel limit dateRange oldest latest search filter files st).
Proof.
  revert st. induction fuel as [|fuel IH]; intros st; cbn [historyLoop]; returning_tac.
Qed.

Lemma inSession_returning {A} (m : M Session A) :
  keeps_returning hasCacheS m -> keeps_returning hasCache (inSession m).
Proof.
  intros Hm w Hw. unfold inSession. specialize (Hm (startSession w) Hw).
  by destruct (m (startSession w)).
Qed.

Lemma finish_returning e : keeps_returning hasCache (finish e).
Proof. destruct e; cbn [finish]; returning_tac. Qed.

#[local] Hint Resolve historyLoop_returning inSession_returning finish_returning : go.


End PaginatorReturns.

(** ** The theorems at work *)

Lemma fetchMessages_reference_witness :
  fetchMessages 3 2 "2024-01-01" "" "foo" false demoWorld
  = fetchReference 2 "2024-01-01" "" "foo" false demoWorld.
Proof. apply (fetchMessages_reference 3 2 "2024-01-01" "" "foo" false demoWorld). lia. Defined.

Lemma fetchMessages_one_request_witness :
  historyRequests (fetchMessages 3 2 "2024-01-01" "" "foo" false demoWorld).2
  = historyRequests demoWorld
    ++ [historyRequest (config demoWorld) 2 "1704067200" "1704153599" ""].
Proof.
  apply (fetchMessages_one_request 2 2 "2024-01-01" "" "foo" false demoWorld
           "1704067200" "1704153599").
  reflexivity.
Defined.

Lemma pageLoop_limit_witness :
  exists st',
    totalFetched (startLoop "") <= totalFetched st'
    <= Z.max 2 (totalFetched (startLoop "")).
Proof.
  eexists.
  eapply (pageLoop_limit 2 "" "" false (rev (Messages demoPage)) (startLoop "")
            (startSession demoWorld)).
  vm_compute. reflexivity.
Defined.

Lemma fetchMessages_bad_date_witness :
  exists line,
    fetchMessages 3 2 "yesterday" "" "" false demoWorld
    = (Ret true, addOutput (line +:+ nl) demoWorld).
Proof.
  apply (fetchMessages_bad_date 3 2 "yesterday" "" "" false demoWorld); done.
Defined.

Lemma fetchMessages_request_error_witness :
  @fetchMessages offlineEnvironment 1 2 "" "" "" false demoWorld
  = (Ret true,
     addOutput ("Error getting messages: dial tcp: i/o timeout" +:+ nl)
       (addRequest (historyRequest (config demoWorld) 2 "" "" "") demoWorld)).
Proof.
  apply (@fetchMessages_request_error offlineEnvironment 0 2 "" "" "" false demoWorld
           "" ""); reflexivity.
Defined.

