(* ===== verification/Machine.v ===== *)
(** * The loops of [fetchMessages] as a transition system (main.go,
      lines 331-456)

    [Paginator] writes the loops of [fetchMessages] as functions, the
    outer one with a number of rounds.  This file gives the same lines
    as a machine that takes one step at a time: a state is a point of
    the code with the variables of the loop and the session, a step is
    what the code does between two points.  The relation [step] has one
    rule for each branch; [next] computes the step.  The theorems are
    the ones a transition system asks for: the steps are the function
    [next]; an invariant of every reachable state, by induction on the
    run; every reachable state leads to a halt, and to a normal one
    when the configuration has a map for the names; the run of the
    machine is what [fetchMessages] computes; and states that differ in
    the flag [hasMore] only are bisimilar, so that the assignment to it
    before the [break] is a dead store. *)

From S2P Require Import Prelude Utf8 GoStrings Calendar GoTime Slack TimeRange Resolver.
From S2P Require Import Reactions Threads Formatter Paginator.
From stdpp Require Import relations.

Local Open Scope Z_scope.
Local Open Scope go_scope.

(** ** States *)

(** The points of the code between which a step is taken. *)
Inductive Control : Type :=
| AtRequest (st : Loop)
    (** the top of the loop over the pages (line 331) *)
| AtMessage (response : SlackMessagesResponse) (rest : list SlackMessageItem) (st : Loop)
    (** the top of the loop over the messages (line 368), with those left *)
| AtDecision (response : SlackMessagesResponse) (st : Loop)
    (** after the page (line 446) *)
| AtPrint (lines : list string)
    (** the loop that prints (line 454), with the lines left *)
| Halted (o : Outcome bool)
    (** the function has returned, or the process has ended *).

Definition State : Type := Control * Session.

(** The machine has halted. *)
Definition halted (x : State) : Prop := exists o, x.1 = Halted o.

(** The machine has halted as a function that returns does. *)
Definition completed (x : State) : Prop := x.1 = Halted (Ret true).

(** A session in which a line was printed. *)
Definition printed (line : string) (s : Session) : Session :=
  setWorld (addOutput line (world s)) s.

(** The loop variables are in order: the count of messages is not
    negative, is within the limit, is at most the number of lines
    (every message has a line), and every line ends with a newline. *)
Definition wfLoop (limit : Z) (st : Loop) : Prop :=
  0 <= totalFetched st <= Z.max 0 limit /\
  totalFetched st <= Z.of_nat (length (messages st)) /\
  Forall wholeLine (messages st).

(** Loop variables that agree but for [hasMore]. *)
Definition sameLoop : relation Loop := fun st st' =>
  cursor st = cursor st' /\ messages st = messages st' /\
  totalFetched st = totalFetched st'.

(** Points of the code that agree but for [hasMore]. *)
Inductive sameControl : relation Control :=
| same_request st st' : sameLoop st st' -> sameControl (AtRequest st) (AtRequest st')
| same_message response rest st st' :
    sameLoop st st' ->
    sameControl (AtMessage response rest st) (AtMessage response rest st')
| same_decision response st st' :
    sameLoop st st' -> sameControl (AtDecision response st) (AtDecision response st')
| same_print lines : sameControl (AtPrint lines) (AtPrint lines)
| same_halted o : sameControl (Halted o) (Halted o).

Definition sameState : relation State := fun x y => sameControl x.1 y.1 /\ x.2 = y.2.

Section Machine.
Context `{Environment}.
Variables (limit : Z) (dateRange oldest latest search filter : string)
  (showFilesOnly : bool).

(** The request for a page, its answer, and the session after it. *)
Definition pageRequest (st : Loop) (s : Session) : Request :=
  historyRequest (config (world s)) limit oldest latest (cursor st).

Definition pageAnswer (st : Loop) (s : Session) : Fetch SlackMessagesResponse :=
  conversationsHistory (requests (world s)) (pageRequest st s).

Definition asked (st : Loop) (s : Session) : Session :=
  setWorld (addRequest (pageRequest st s) (world s)) s.

(** ** Steps *)

Inductive step : State -> State -> Prop :=
| step_error st s line :
    historyErrorLine (pageAnswer st s) = Some line ->
    step (AtRequest st, s) (Halted (Ret true), printed line (asked st s))
| step_page st s response :
    pageAnswer st s = Decoded response ->
    step (AtRequest st, s)
         (AtMessage response (reverseInPlace (Messages response)) st, asked st s)
| step_page_end response st s :
    step (AtMessage response [] st, s) (AtDecision response st, s)
| step_break response msg rest st s :
    limit <= totalFetched st ->
    step (AtMessage response (msg :: rest) st, s) (AtDecision response (stopMore st), s)
| step_skip response msg rest st s :
    totalFetched st < limit -> accepted filter showFilesOnly msg = false ->
    step (AtMessage response (msg :: rest) st, s) (AtMessage response rest st, s)
| step_render response msg rest st s lines s' :
    totalFetched st < limit -> accepted filter showFilesOnly msg = true ->
    renderMessage search filter msg s = (Ret lines, s') ->
    step (AtMessage response (msg :: rest) st, s)
         (AtMessage response rest (addMessage lines st), s')
| step_exit response msg rest st s code s' :
    totalFetched st < limit -> accepted filter showFilesOnly msg = true ->
    renderMessage search filter msg s = (Exit code, s') ->
    step (AtMessage response (msg :: rest) st, s) (Halted (Exit code), s')
| step_panic response msg rest st s text s' :
    totalFetched st < limit -> accepted filter showFilesOnly msg = true ->
    renderMessage search filter msg s = (Panic text, s') ->
    step (AtMessage response (msg :: rest) st, s) (Halted (Panic text), s')
| step_again response st s :
    hasMore (nextPage response dateRange st) = true ->
    step (AtDecision response st, s) (AtRequest (nextPage response dateRange st), s)
| step_stop response st s :
    hasMore (nextPage response dateRange st) = false ->
    step (AtDecision response st, s) (AtPrint (messages st), s)
| step_print line lines s :
    step (AtPrint (line :: lines), s) (AtPrint lines, printed line s)
| step_done s :
    step (AtPrint [], s) (Halted (Ret true), s).

(** The step, computed. *)
Definition next (x : State) : option State :=
  let s := x.2 in
  match x.1 with
  | AtRequest st =>
      match pageAnswer st s with
      | Decoded response =>
          Some (AtMessage response (reverseInPlace (Messages response)) st, asked st s)
      | r => (fun line => (Halted (Ret true), printed line (asked st s)))
               <$> historyErrorLine r
      end
  | AtMessage response [] st => Some (AtDecision response st, s)
  | AtMessage response (msg :: rest) st =>
      if limit <=? totalFetched st then Some (AtDecision response (stopMore st), s)
      else if accepted filter showFilesOnly msg then
        match renderMessage search filter msg s with
        | (Ret lines, s') => Some (AtMessage response rest (addMessage lines st), s')
        | (Exit code, s') => Some (Halted (Exit code), s')
        | (Panic text, s') => Some (Halted (Panic text), s')
        end
      else Some (AtMessage response rest st, s)
  | AtDecision response st =>
      if hasMore (nextPage response dateRange st)
      then Some (AtRequest (nextPage response dateRange st), s)
      else Some (AtPrint (messages st), s)
  | AtPrint [] => Some (Halted (Ret true), s)
  | AtPrint (line :: lines) => Some (AtPrint lines, printed line s)
  | Halted _ => None
  end.

(** [n] steps, or as many as there are. *)
Fixpoint run (n : nat) (x : State) : State :=
  match n with
  | O => x
  | S n => match next x with Some y => run n y | None => x end
  end.

(** The state in which [fetchMessages] enters its loops. *)
Definition start (w : World) : State := (AtRequest (startLoop dateRange), startSession w).

(** What a run from the start of the command in [w] can reach. *)
Definition reachable (w : World) (x : State) : Prop := rtc step (start w) x.

(** What is known at each point: the request is made with the variables
    of the start; in and after a page the cursor is still empty and the
    variables are in order; the lines to print end with a newline. *)
Definition good (x : State) : Prop :=
  match x.1 with
  | AtRequest st => st = startLoop dateRange
  | AtMessage _ _ st | AtDecision _ st => cursor st = "" /\ wfLoop limit st
  | AtPrint lines => Forall wholeLine lines
  | Halted _ => True
  end.

(** Some run from [x] ends in a state of [P]. *)
Inductive eventually (P : State -> Prop) : State -> Prop :=
| eventually_now x : P x -> eventually P x
| eventually_step x y : step x y -> eventually P y -> eventually P x.

(** * Theorems *)

(** ** The steps are a function *)

Lemma step_next x y : step x y <-> next x = Some y.
Proof.
  split.
  - intros Hs. destruct Hs; unfold next; cbn [fst snd];
      repeat match goal with
             | Hr : _ = _ |- _ => rewrite Hr
             | Hl : _ <= _ |- _ => apply Z.leb_le in Hl
             | Hl : _ < _ |- _ => apply Z.leb_gt in Hl
             end; try done.
    by destruct (pageAnswer _ _) as [e|e|e|r]; simplify_eq/=.
  - destruct x as [c s]. unfold next. cbn [fst snd].
    destruct c as [st|r [|msg rest] st|r st|[|line lines]|o].
    + destruct (pageAnswer _ _) as [e|e|e|r] eqn:Ea; cbn; intros [= <-];
        first [by apply step_page | apply step_error; by rewrite Ea].
    + intros [= <-]. constructor.
    + destruct (Z.leb_spec limit (totalFetched st)); [intros [= <-]; by constructor|].
      destruct (accepted _ _ _) eqn:Hacc; [|intros [= <-]; by constructor].
      destruct (renderMessage _ _ _ _) as [[lines|code|text] s'] eqn:Er; intros [= <-];
        by econstructor.
    + case_match; intros [= <-]; by constructor.
    + intros [= <-]. constructor.
    + intros [= <-]. constructor.
    + done.
Qed.

Lemma step_deterministic x y z : step x y -> step x z -> y = z.
Proof. rewrite !step_next. congruence. Qed.

(** Every state that has not halted takes a step. *)
Lemma next_halted x : next x = None <-> halted x.
Proof.
  destruct x as [c s]. unfold next, halted. cbn [fst snd]. split.
  - destruct c as [st|r [|msg rest] st|r st|[|line lines]|o]; try done; [| | |by eauto].
    + by destruct (pageAnswer _ _).
    + repeat case_match; done.
    + by case_match.
  - by intros [o ->].
Qed.

Lemma run_steps n x : rtc step x (run n x).
Proof.
  revert x. induction n as [|n IH]; intros x; cbn [run]; [done|].
  destruct (next x) as [y|] eqn:Hy; [|done]. eapply rtc_l; [by apply step_next|apply IH].
Qed.

(** ** An invariant of the run *)

Lemma wfLoop_start : wfLoop limit (startLoop dateRange).
Proof. unfold wfLoop. cbn. split; [lia|]. split; [lia|done]. Qed.

Lemma wfLoop_addMessage lines st :
  totalFetched st < limit -> lines <> [] -> Forall wholeLine lines ->
  wfLoop limit st -> wfLoop limit (addMessage lines st).
Proof.
  intros Hl Hne Hlines (Hc & Hm & Hw). unfold wfLoop. cbn [addMessage totalFetched messages].
  rewrite length_app. destruct lines as [|line lines]; [done|]. cbn [length].
  split; [lia|]. split; [lia|]. by apply Forall_app.
Qed.

(** With the cursor of the start the loop does not go on (line 446). *)
Lemma nextPage_stops response st :
  cursor st = "" -> hasMore (nextPage response dateRange st) = false.
Proof. intros Hc. by rewrite nextPage_first. Qed.

(** Every step keeps what is known. *)
Lemma step_good x y : step x y -> good x -> good y.
Proof.
  intros Hs. destruct Hs; unfold good; cbn [fst snd]; try done.
  - intros ->. split; [done|apply wfLoop_start].
  - intros [Hc Hw]. split; [done|].
    destruct (renderMessage_lines _ _ _ _ _ _ ltac:(eassumption)).
    by apply wfLoop_addMessage.
  - intros [Hc _]. by rewrite nextPage_stops in * by done.
  - by intros [_ (_ & _ & Hw)].
  - by intros [_ Hl]%Forall_cons.
Qed.

Lemma good_start w : good (start w).
Proof. done. Qed.

(** Every state the machine reaches is in order, by induction on the
    run. *)
Lemma reachable_good w x : reachable w x -> good x.
Proof.
  intros Hr. eapply (rtc_ind_r good (start w)); [apply good_start| |exact Hr].
  intros y z _ Hyz Hy. by eapply step_good.
Qed.

(** The machine asks for a page in its first state only. *)
Lemma reachable_request w st s :
  reachable w (AtRequest st, s) -> st = startLoop dateRange.
Proof. apply reachable_good. Qed.

(** ** Every run ends *)

Lemma eventually_rtc P x y : rtc step x y -> eventually P y -> eventually P x.
Proof. induction 1; [done|]. intros Hz. eapply eventually_step; eauto. Qed.

Lemma eventually_mono (P Q : State -> Prop) x :
  (forall y, P y -> Q y) -> eventually P x -> eventually Q x.
Proof.
  intros HPQ. induction 1 as [x Hx|x y Hxy _ IH]; [by apply eventually_now, HPQ|].
  by eapply eventually_step.
Qed.

(** What is reached at all is reached by the run of [next]. *)
Lemma eventually_run P x : eventually P x <-> exists n, P (run n x).
Proof.
  split.
  - induction 1 as [x Hx|x y Hxy%step_next _ [n Hn]]; [by exists 0%nat|].
    exists (S n). cbn [run]. by rewrite Hxy.
  - intros [n Hn]. eapply eventually_rtc; [apply run_steps|]. by apply eventually_now.
Qed.

Section Live.
(** [Q] holds of the session as long as messages are rendered; a
    rendering that does not return halts the machine in [P]. *)
Variables (Q : Session -> Prop) (P : State -> Prop).
Hypothesis Hcompleted : forall x, completed x -> P x.
Hypothesis Hasked : forall st s, Q s -> Q (asked st s).
Hypothesis Hrender : forall msg s,
  Q s ->
  match renderMessage search filter msg s with
  | (Ret _, s') => Q s'
  | (Exit code, s') => P (Halted (Exit code), s')
  | (Panic text, s') => P (Halted (Panic text), s')
  end.

Lemma live_print lines s : eventually P (AtPrint lines, s).
Proof.
  revert s. induction lines as [|line lines IH]; intros s.
  - eapply eventually_step; [constructor|]. by apply eventually_now, Hcompleted.
  - eapply eventually_step; [constructor|]. apply IH.
Qed.

Lemma live_decision response st s :
  cursor st = "" -> eventually P (AtDecision response st, s).
Proof.
  intros Hc. eapply eventually_step; [by apply step_stop, nextPage_stops|].
  apply live_print.
Qed.

Lemma live_message response rest st s :
  cursor st = "" -> Q s -> eventually P (AtMessage response rest st, s).
Proof.
  revert st s. induction rest as [|msg rest IH]; intros st s Hc Hs.
  { eapply eventually_step; [constructor|]. by apply live_decision. }
  destruct (Z.le_gt_cases limit (totalFetched st)).
  { eapply eventually_step; [by apply step_break|]. by apply live_decision. }
  destruct (accepted filter showFilesOnly msg) eqn:Hacc;
    [|eapply eventually_step; [by apply step_skip; [lia|]|]; by apply IH].
  pose proof (Hrender msg s Hs) as Hr.
  destruct (renderMessage search filter msg s) as [[lines|code|text] s'] eqn:Er.
  - eapply eventually_step; [by eapply step_render; [lia|..]|]. by apply IH.
  - eapply eventually_step; [by eapply step_exit; [lia|..]|]. by apply eventually_now.
  - eapply eventually_step; [by eapply step_panic; [lia|..]|]. by apply eventually_now.
Qed.

Lemma live_request st s : st = startLoop dateRange -> Q s -> eventually P (AtRequest st, s).
Proof.
  intros -> Hs. destruct (pageAnswer (startLoop dateRange) s) as [e|e|e|response] eqn:Ea.
  4: { eapply eventually_step; [by apply step_page|]. apply live_message; [done|by apply Hasked]. }
  all: eapply eventually_step; [apply step_error; by rewrite Ea|];
    by apply eventually_now, Hcompleted.
Qed.

(** From a state that is in order a state of [P] is reached. *)
Lemma live_good x : good x -> Q x.2 -> P x \/ ~ halted x -> eventually P x.
Proof.
  destruct x as [[st|response rest st|response st|lines|o] s]; unfold good; cbn [fst snd].
  - intros. by apply live_request.
  - intros [Hc _] ? _. by apply live_message.
  - intros [Hc _] ? _. by apply live_decision.
  - intros. apply live_print.
  - intros _ _ [HP|Hn]; [by apply eventually_now|]. destruct Hn. by eexists.
Qed.

End Live.

(** Every run ends: from every state the machine reaches, whatever the
    server answers, some run leads to a state that has halted. *)
Lemma reachable_halts w x : reachable w x -> eventually halted x.
Proof.
  intros Hx%reachable_good. apply (live_good (fun _ => True)); try done.
  - intros y Hy. by exists (Ret true).
  - intros msg s _. destruct (renderMessage search filter msg s) as [[lines|code|text] s'];
      [done|by eexists..].
  - destruct x as [[| | | |o] s]; first [by right; intros [? [=]] | left; by exists o].
Qed.

(** ** With a map for the names the run ends well *)

Lemma asked_hasCache st s : hasCacheS s -> hasCacheS (asked st s).
Proof. done. Qed.

Lemma printed_hasCache line s : hasCacheS s -> hasCacheS (printed line s).
Proof. done. Qed.

Lemma renderMessage_hasCache msg s :
  hasCacheS s ->
  match renderMessage search filter msg s with
  | (Ret _, s') => hasCacheS s'
  | (Exit code, s') => completed (Halted (Exit code), s')
  | (Panic text, s') => completed (Halted (Panic text), s')
  end.
Proof.
  intros Hs. destruct (renderMessage_returning search filter msg s Hs) as [Hs' Hr].
  by destruct (renderMessage search filter msg s) as [[lines|code|text] s'];
    [|destruct Hr..].
Qed.

(** The session keeps its map, and a halt is a return. *)
Lemma step_hasCache x y :
  step x y -> hasCacheS x.2 -> hasCacheS y.2 /\ (halted y -> completed y).
Proof.
  intros Hs Hx. destruct Hs; cbn [fst snd] in *;
    try match goal with
        | Hr : renderMessage _ _ ?msg ?s = _ |- _ =>
            pose proof (renderMessage_hasCache msg s Hx) as Hc; rewrite Hr in Hc;
            try discriminate Hc
        end;
    (split; [done|]); first [by intros [? [=]] | done].
Qed.

Lemma reachable_hasCache w x :
  hasCache w -> reachable w x -> hasCacheS x.2 /\ (halted x -> completed x).
Proof.
  intros Hw Hr.
  eapply (rtc_ind_r (fun x => hasCacheS x.2 /\ (halted x -> completed x)) (start w));
    [| |exact Hr].
  - split; [done|by intros [? [=]]].
  - intros y z _ Hyz [Hy _]. by eapply step_hasCache.
Qed.

(** C12. Every state the machine reaches is in order.  By induction on
    the run: the request for a page is made with the variables of the
    start only (the machine never comes back to it with a cursor); in
    and after a page the cursor is empty, the count of messages is
    between zero and the limit and is at most the number of lines, and
    every line kept for printing ends with a newline; and when the
    configuration had a map for the names at the start, it still has
    one and the machine has not halted but by returning. *)
Theorem reachable_wf w x :
  reachable w x ->
  good x /\ (hasCache w -> hasCacheS x.2 /\ (halted x -> completed x)).
Proof.
  intros Hx. split; [by eapply reachable_good|]. intros Hw. by apply (reachable_hasCache w).
Qed.

(** C13. [show] always comes to its end: from every state the machine
    reaches, whatever the server answers, a run leads to a state that
    has halted, and the steps being a function it is the only run; when
    the configuration has a map for the names, that state is the one in
    which [fetchMessages] has returned: no answer of the server and no
    message makes the loops go on for ever or end in a panic. *)
Theorem reachable_completes w x :
  reachable w x ->
  eventually halted x /\ (hasCache w -> eventually completed x).
Proof.
  intros Hx. split; [by apply (reachable_halts w)|]. intros Hw.
  destruct (reachable_hasCache w x Hw Hx) as [Hs Hh].
  apply (live_good hasCacheS); try done.
  - apply renderMessage_hasCache.
  - by eapply reachable_good.
  - destruct x as [[| | | |o] s]; first [by right; intros [? [=]] | left; apply Hh; by exists o].
Qed.

(** ** The machine and the functions *)

(** The world after the lines were printed. *)
Lemma forM_Print_run lines s :
  exists s', forM lines Print (world s) = (Ret tt, world s') /\
             rtc step (AtPrint lines, s) (Halted (Ret true), s').
Proof.
  revert s. induction lines as [|line lines IH]; intros s.
  - exists s. split; [done|]. apply rtc_once. constructor.
  - destruct (IH (printed line s)) as (s' & Hp & Hr). exists s'. split.
    + cbn [forM]. unfold bind, Print, modify at 1. cbn [fst snd]. exact Hp.
    + eapply rtc_l; [constructor|done].
Qed.

(** The loop over the messages of a page is a run from the first
    message to the decision, or to a halt. *)
Lemma pageLoop_run response msgs st s :
  rtc step (AtMessage response msgs st, s)
    match pageLoop limit search filter showFilesOnly msgs st s with
    | (Ret st', s') => (AtDecision response st', s')
    | (Exit code, s') => (Halted (Exit code), s')
    | (Panic text, s') => (Halted (Panic text), s')
    end.
Proof.
  revert st s. induction msgs as [|msg rest IH]; intros st s; cbn [pageLoop].
  { apply rtc_once. constructor. }
  destruct (Z.leb_spec limit (totalFetched st)).
  { apply rtc_once. by constructor. }
  destruct (accepted filter showFilesOnly msg) eqn:Hacc;
    [|eapply rtc_l; [by apply step_skip|apply IH]].
  unfold bind at 1.
  destruct (renderMessage search filter msg s) as [[lines|code|text] s'] eqn:Er.
  - eapply rtc_l; [by eapply step_render|apply IH].
  - apply rtc_once. by apply step_exit.
  - apply rtc_once. by apply step_panic.
Qed.

(** The loop over the pages is a run from the request to the printing,
    or to a halt, when its rounds are enough. *)
Lemma historyLoop_run fuel st s :
  match historyLoop fuel limit dateRange oldest latest search filter showFilesOnly st s with
  | (Ret (Finished st'), s') => rtc step (AtRequest st, s) (AtPrint (messages st'), s')
  | (Ret Returned, s') => rtc step (AtRequest st, s) (Halted (Ret true), s')
  | (Ret OutOfFuel, _) => True
  | (Exit code, s') => rtc step (AtRequest st, s) (Halted (Exit code), s')
  | (Panic text, s') => rtc step (AtRequest st, s) (Halted (Panic text), s')
  end.
Proof.
  revert st s. induction fuel as [|fuel IH]; intros st s; [done|].
  cbn [historyLoop]. unfold round, bind at 1 2 3, get, liftW, send. cbn [fst snd].
  fold (pageRequest st s) (pageAnswer st s) (asked st s).
  destruct (pageAnswer st s) as [e|e|e|response] eqn:Ea.
  1-3: apply rtc_once; apply step_error; by rewrite Ea.
  pose proof (pageLoop_run response (reverseInPlace (Messages response)) st (asked st s)) as Hp.
  unfold bind at 1.
  destruct (pageLoop _ _ _ _ _ _ _) as [[st'|code|text] s'];
    [|by eapply rtc_l; [by apply step_page|]..].
  unfold ret at 1. cbv beta iota.
  destruct (hasMore (nextPage response dateRange st')) eqn:Hm; cbn [negb].
  - specialize (IH (nextPage response dateRange st') s').
    destruct (historyLoop fuel _ _ _ _ _ _ _ _ s') as [[[stn| |]|code|text] sn]; try done.
    all: eapply rtc_l; [by apply step_page|]; etrans; [exact Hp|];
      eapply rtc_l; [by apply step_again|done].
  - cbn [ret messages nextPage]. eapply rtc_l; [by apply step_page|].
    etrans; [exact Hp|]. apply rtc_once. by apply step_stop.
Qed.

(** What [fetchMessages] returns, unless its rounds ran out, is the halt
    of a run of the machine. *)
Lemma fetchMessages_run fuel w o w' :
  dateRangeBounds dateRange = inr (oldest, latest) ->
  fetchMessages fuel limit dateRange search filter showFilesOnly w = (o, w') ->
  ranOut o = false ->
  exists s', reachable w (Halted o, s') /\ world s' = w'.
Proof.
  intros Hb Hf Ho. unfold fetchMessages in Hf. rewrite Hb in Hf.
  unfold bind at 1, inSession in Hf. unfold reachable.
  pose proof (historyLoop_run fuel (startLoop dateRange) (startSession w)) as Hrun.
  fold (start w) in Hrun.
  destruct (historyLoop _ _ _ _ _ _ _ _ _ _) as [[[st| |]|code|text] s];
    cbn [finish] in Hf; try (injection Hf as <- <-; by eauto).
  destruct (forM_Print_run (messages st) s) as (s' & Hp & Hr).
  unfold bind in Hf. rewrite Hp in Hf. injection Hf as <- <-.
  exists s'. split; [by etrans|done].
Qed.

(** A state that has halted takes no step. *)
Lemma halted_nf x y : halted x -> step x y -> False.
Proof. intros Hx%next_halted Hy%step_next. congruence. Qed.

(** The halt of a run is the only one. *)
Lemma halt_unique x y z :
  rtc step x y -> rtc step x z -> halted y -> halted z -> y = z.
Proof.
  intros Hy. revert z. induction Hy as [x|x x' y Hx _ IH]; intros z Hz Hhy Hhz.
  - destruct Hz as [|x x' z Hx _]; [done|]. by destruct (halted_nf x x').
  - destruct Hz as [|x x2 z Hx2 Hz]; [by destruct (halted_nf x x')|].
    rewrite <- (step_deterministic _ _ _ Hx Hx2) in Hz. by apply IH.
Qed.

(** C11. The machine and the function agree: with at least one round,
    [fetchMessages] returns an outcome and a world exactly when the
    machine, started in the same world, halts with that outcome in a
    session with that world. *)
Theorem fetchMessages_machine fuel w o w' :
  dateRangeBounds dateRange = inr (oldest, latest) ->
  fetchMessages (S fuel) limit dateRange search filter showFilesOnly w = (o, w') <->
  exists s', reachable w (Halted o, s') /\ world s' = w'.
Proof.
  intros Hb.
  assert (ranOut (fetchMessages (S fuel) limit dateRange search filter showFilesOnly w).1
          = false) as Hout.
  { unfold fetchMessages. rewrite Hb. unfold bind. rewrite inSession_historyLoop.
    unfold inSession. destruct (showOnce _ _ _ _ _ _ _ _) as [[e| |] s'] eqn:E; [|done..].
    apply finish_ranOut. by eapply showOnce_ends. }
  split; [intros Hf; rewrite Hf in Hout; by eapply fetchMessages_run|].
  intros (s' & Hr & <-).
  destruct (fetchMessages (S fuel) limit dateRange search filter showFilesOnly w)
    as [o2 w2] eqn:Hf.
  destruct (fetchMessages_run (S fuel) w o2 w2 Hb Hf Hout) as (s2 & Hr2 & <-).
  assert ((Halted o2, s2) = (Halted o, s')) as [= -> ->]; [|done].
  eapply halt_unique; [exact Hr2|exact Hr|by eexists..].
Qed.

(** ** The flag [hasMore] is not read before it is written *)

#[export] Instance sameLoop_equivalence : Equivalence sameLoop.
Proof.
  split.
  - by intros st.
  - by intros st st' (? & ? & ?).
  - intros st1 st2 st3 (? & ? & ?) (? & ? & ?). repeat split; congruence.
Qed.

#[export] Instance cursor_proper : Proper (sameLoop ==> eq) cursor.
Proof. by intros st st' (? & ? & ?). Qed.

#[export] Instance messages_proper : Proper (sameLoop ==> eq) messages.
Proof. by intros st st' (? & ? & ?). Qed.

#[export] Instance totalFetched_proper : Proper (sameLoop ==> eq) totalFetched.
Proof. by intros st st' (? & ? & ?). Qed.

#[export] Instance nextPage_proper response :
  Proper (sameLoop ==> eq) (nextPage response dateRange).
Proof. intros st st' (Hc & Hm & Ht). unfold nextPage. by rewrite Hc, Hm, Ht. Qed.

#[export] Instance addMessage_proper lines : Proper (sameLoop ==> sameLoop) (addMessage lines).
Proof. intros st st' (Hc & Hm & Ht). unfold sameLoop. cbn. by rewrite Hc, Hm, Ht. Qed.

#[export] Instance pageRequest_proper : Proper (sameLoop ==> eq ==> eq) pageRequest.
Proof. intros st st' Hst s ? <-. unfold pageRequest. by rewrite Hst. Qed.

#[export] Instance pageAnswer_proper : Proper (sameLoop ==> eq ==> eq) pageAnswer.
Proof. intros st st' Hst s ? <-. unfold pageAnswer. by rewrite Hst. Qed.

#[export] Instance asked_proper : Proper (sameLoop ==> eq ==> eq) asked.
Proof. intros st st' Hst s ? <-. unfold asked. by rewrite Hst. Qed.

(** The assignment of line 370 changes [hasMore] and nothing else. *)
Lemma stopMore_same st : sameLoop (stopMore st) st.
Proof. done. Qed.

#[export] Instance sameControl_equivalence : Equivalence sameControl.
Proof.
  split.
  - intros [st|r rest st|r st|lines|o]; by constructor.
  - intros c c' Hc. destruct Hc; by constructor.
  - intros c1 c2 c3 H12 H23. destruct H12; inversion H23; subst; constructor; by etrans.
Qed.

#[export] Instance sameState_equivalence : Equivalence sameState.
Proof.
  split.
  - by intros x.
  - by intros x y [? ?].
  - intros x y z [? ?] [? ?]. split; [by etrans|congruence].
Qed.

(** States that agree but for [hasMore] take the same steps, to states
    that agree but for [hasMore]: the relation is a bisimulation. *)
(** A successor on either side, the points agreeing but for [hasMore]. *)
Lemma same_successor c c' s :
  sameControl c c' -> option_Forall2 sameState (Some (c, s)) (Some (c', s)).
Proof. by constructor. Qed.

#[export] Instance next_proper : Proper (sameState ==> option_Forall2 sameState) next.
Proof.
  intros [c s] [c' s'] [Hc Hs]. cbn [fst snd] in *. subst s'. unfold next. cbn [fst snd].
  destruct Hc as [st st' Hst|r rest st st' Hst|r st st' Hst|lines|o].
  - assert (pageAnswer st' s = pageAnswer st s) as -> by (by rewrite Hst).
    assert (asked st' s = asked st s) as -> by (by rewrite Hst).
    destruct (pageAnswer st s); cbn; apply same_successor; by constructor.
  - destruct rest as [|msg rest]; [apply same_successor; by constructor|]. rewrite <- Hst.
    destruct (limit <=? totalFetched st);
      [apply same_successor; constructor; by rewrite !stopMore_same|].
    destruct (accepted _ _ _); [|apply same_successor; by constructor].
    destruct (renderMessage _ _ _ _) as [[lines|code|text] s']; apply same_successor;
      constructor; by rewrite ?Hst.
  - assert (nextPage r dateRange st' = nextPage r dateRange st) as -> by (by rewrite Hst).
    destruct (hasMore _); apply same_successor; [by constructor|].
    assert (messages st' = messages st) as -> by (by rewrite Hst). constructor.
  - destruct lines; apply same_successor; constructor.
  - constructor.
Qed.

Lemma step_same x x' y :
  sameState x x' -> step x y -> exists y', step x' y' /\ sameState y y'.
Proof.
  intros Hx Hxy%step_next. pose proof (next_proper _ _ Hx) as Hn. rewrite Hxy in Hn.
  inversion Hn as [? y' Hy|]; subst. exists y'. split; [by apply step_next|done].
Qed.

Lemma rtc_same x x' y :
  sameState x x' -> rtc step x y -> exists y', rtc step x' y' /\ sameState y y'.
Proof.
  intros Hx Hxy. revert x' Hx. induction Hxy as [x|x y z Hxy _ IH]; intros x' Hx.
  - by exists x'.
  - destruct (step_same _ _ _ Hx Hxy) as (y' & Hy' & Hyy').
    destruct (IH _ Hyy') as (z' & Hz' & Hzz'). exists z'. split; [|done].
    by eapply rtc_l.
Qed.

(** States that agree but for [hasMore] halt with the same outcome in
    the same world: the flag is written again (line 446) before it is
    read (line 449). *)
Lemma hasMore_unread x x' o s' :
  sameState x x' -> rtc step x (Halted o, s') <-> rtc step x' (Halted o, s').
Proof.
  assert (forall x x', sameState x x' -> rtc step x (Halted o, s') ->
                       rtc step x' (Halted o, s')) as Himp.
  { intros y y' Hy Hr. destruct (rtc_same _ _ _ Hy Hr) as ([c s2] & Hr' & Hc & Hs2).
    cbn [fst snd] in *. by inversion Hc; subst. }
  intros Hx. split; apply Himp; [done|by symmetry].
Qed.

(** The assignment [hasMore = false] before the [break] (line 370) has
    no effect: the machine halts with the same outcome in the same
    world from the state after the [break] as from the state in which
    the flag was left alone.  Reaching the limit does not by itself end
    the loop over the pages. *)
Lemma break_dead_store response st s o s' :
  rtc step (AtDecision response (stopMore st), s) (Halted o, s') <->
  rtc step (AtDecision response st, s) (Halted o, s').
Proof. apply hasMore_unread. split; [constructor; apply stopMore_same|done]. Qed.

End Machine.

(** ** The machine of the demonstration *)

Lemma reachable_wf_witness :
  good 10 "" (start "" demoWorld).
Proof. apply (reachable_wf 10 "" "" "" "" "" false demoWorld). apply rtc_refl. Defined.

Lemma reachable_completes_witness :
  eventually 10 "" "" "" "" "" false completed (start "" demoWorld).
Proof.
  apply (reachable_completes 10 "" "" "" "" "" false demoWorld); [apply rtc_refl|by eexists].
Defined.

Lemma fetchMessages_machine_witness :
  exists s', reachable 10 "" "" "" "" "" false demoWorld (Halted (Ret true), s') /\
             world s' = (fetchMessages 1 10 "" "" "" false demoWorld).2.
Proof.
  apply (fetchMessages_machine 10 "" "" "" "" "" false 0 demoWorld); [reflexivity|].
  by vm_compute.
Defined.
