(* ===== verification/Actions.v ===== *)
(** * The commands that send one request (main.go, lines 247-273 and
    660-811)

    [sendMessage], [updateMessage] and [deleteMessage] post a JSON
    object and report success as soon as the request has been sent;
    [addReaction] and [removeReaction] also read the status of the
    answer through [handleError]; [handleEmoji] chooses between them and
    [listEmoji].  A Go [error] is an [option string], [None] for nil.
    The fields of a JSON object are listed in the order of their keys,
    the order in which [json.Marshal] writes a map. *)

From S2P Require Import Prelude Utf8 GoStrings Calendar GoTime Slack Reactions.

Local Open Scope go_scope.

(** [http.NewRequest("POST", url, body)] with the two headers. *)
Definition jsonRequest (url contentType token : string)
    (fields : list (string * string)) : Request :=
  {| Method := "POST";
     URL := url;
     Headers := [("Content-Type", contentType); bearer token];
     Body := JSONFields fields |}.

Section Actions.
Context `{Environment}.

(** [fmt.Errorf(format)] without operands: the format itself when it
    has no percent sign. *)
Definition Errorf (format : string) : string :=
  if Contains format "%" then sprintfBare format else format.

(** [handleError] (lines 785-797) on the body of a response. *)
Definition handleError (r : Fetch ApiStatus) : option string :=
  match r with
  | DoErr err | ReadErr err | DecodeErr err => Some err
  | Decoded response =>
      if negb (StatusOK response) then Some (Errorf (StatusError response)) else None
  end.

(** [sendMessage] (lines 247-273). *)
Definition sendMessage (message threadTS : string) : M World (option string) :=
  c <- gets config ;;
  let slackMessage :=
    [("channel", ChannelID c); ("text", message)]
    ++ (if negb (bool_decide (threadTS = "")) then [("thread_ts", threadTS)] else []) in
  r <- send apiCall
         (jsonRequest "https://slack.com/api/chat.postMessage"
            "application/json; charset=utf-8" (SlackBotToken c) slackMessage) ;;
  match r with
  | DoErr err => Println ["Error sending message:"; err] ;; ret (Some err)
  | _ => Println ["Message sent successfully"] ;; ret None
  end.

(** The emoji [addReaction] names (lines 665-671). *)
Definition addedEmoji (c : Config) (emoji : string) : string :=
  if bool_decide (emoji = "") then
    if negb (bool_decide (DefaultEmoji c = "")) then DefaultEmoji c
    else "white_check_mark"
  else emoji.

(** The emoji [removeReaction] names (lines 705-707). *)
Definition removedEmoji (emoji : string) : string :=
  if bool_decide (emoji = "") then "white_check_mark" else emoji.

Definition reactionRequest (url : string) (c : Config) (emoji ts : string) : Request :=
  jsonRequest url "application/json" (SlackBotToken c)
    [("channel", ChannelID c); ("name", emoji); ("timestamp", ts)].

(** What both reaction commands do with the answer. *)
Definition reacted (doing done : string) (r : Fetch ApiStatus) : M World (option string) :=
  match r with
  | DoErr err => ret (Some (doing +:+ err))
  | _ =>
      match handleError r with
      | Some err => ret (Some ("Error response from API: " +:+ err))
      | None => Println [done] ;; ret None
      end
  end.

(** [addReaction] (lines 660-698). *)
Definition addReaction (ts emoji : string) : M World (option string) :=
  if bool_decide (ts = "") then ret (Some "Error: ts (timestamp) is required") else
  c <- gets config ;;
  r <- send apiCall
         (reactionRequest "https://slack.com/api/reactions.add" c (addedEmoji c emoji) ts) ;;
  reacted "Error adding reaction: " "Reaction added successfully" r.

(** [removeReaction] (lines 700-734). *)
Definition removeReaction (ts emoji : string) : M World (option string) :=
  if bool_decide (ts = "") then ret (Some "Error: ts (timestamp) is required") else
  c <- gets config ;;
  r <- send apiCall
         (reactionRequest "https://slack.com/api/reactions.remove" c (removedEmoji emoji) ts) ;;
  reacted "Error removing reaction: " "Reaction removed successfully" r.

(** [updateMessage] (lines 736-759). *)
Definition updateMessage (ts message : string) : M World (option string) :=
  c <- gets config ;;
  r <- send apiCall
         (jsonRequest "https://slack.com/api/chat.update" "application/json"
            (SlackBotToken c)
            [("channel", ChannelID c); ("text", message); ("ts", ts)]) ;;
  match r with
  | DoErr err => Println ["Error updating message:"; err] ;; ret (Some err)
  | _ => Println ["Message updated successfully"] ;; ret None
  end.

(** [deleteMessage] (lines 761-783). *)
Definition deleteMessage (ts : string) : M World (option string) :=
  c <- gets config ;;
  r <- send apiCall
         (jsonRequest "https://slack.com/api/chat.delete" "application/json"
            (SlackBotToken c) [("channel", ChannelID c); ("ts", ts)]) ;;
  match r with
  | DoErr err => Println ["Error deleting message:"; err] ;; ret (Some err)
  | _ => Println ["Message deleted successfully"] ;; ret None
  end.

(** [handleEmoji] (lines 799-811). *)
Definition handleEmoji (ts emoji add del : string) : M World (option string) :=
  if negb (bool_decide (add = "")) then addReaction ts add
  else if negb (bool_decide (del = "")) then removeReaction ts del
  else if bool_decide (emoji = "") then listEmoji
  else addReaction ts emoji.

End Actions.

(** ** The commands and the frames *)

Section ActionsFrame.
Context `{Environment} (R : relation World) `{!Frame R}.
Hypothesis admits_json : forall method contentType token fields,
  admits R (jsonRequest ("https://slack.com/api/" +:+ method) contentType token fields).

#[local] Hint Extern 1 (admits _ (jsonRequest _ _ _ _)) =>
  apply (admits_json "chat.postMessage") || apply (admits_json "chat.update")
  || apply (admits_json "chat.delete") || apply (admits_json "reactions.add")
  || apply (admits_json "reactions.remove") : go.

Lemma reacted_frame doing done r : preserves R (reacted doing done r).
Proof. unfold reacted. preserves_tac. Qed.

#[local] Hint Resolve reacted_frame : go.

Lemma sendMessage_frame message threadTS : preserves R (sendMessage message threadTS).
Proof. unfold sendMessage. preserves_tac. Qed.

Lemma addReaction_frame ts emoji : preserves R (addReaction ts emoji).
Proof. unfold addReaction, reactionRequest. preserves_tac. Qed.

Lemma removeReaction_frame ts emoji : preserves R (removeReaction ts emoji).
Proof. unfold removeReaction, reactionRequest. preserves_tac. Qed.

Lemma updateMessage_frame ts message : preserves R (updateMessage ts message).
Proof. unfold updateMessage. preserves_tac. Qed.

Lemma deleteMessage_frame ts : preserves R (deleteMessage ts).
Proof. unfold deleteMessage. preserves_tac. Qed.

#[local] Hint Resolve addReaction_frame removeReaction_frame : go.

Lemma handleEmoji_frame ts emoji add del : preserves R (handleEmoji ts emoji add del).
Proof. unfold handleEmoji. preserves_tac. Qed.

End ActionsFrame.

(** ** What the commands send and report *)

Section ActionsProperties.
Context `{Environment}.

(** The request of a message to post. *)
Definition postRequest (c : Config) (message threadTS : string) : Request :=
  jsonRequest "https://slack.com/api/chat.postMessage" "application/json; charset=utf-8"
    (SlackBotToken c)
    ([("channel", ChannelID c); ("text", message)]
     ++ (if negb (bool_decide (threadTS = "")) then [("thread_ts", threadTS)] else [])).

(** The request could be sent. *)
Definition sent {A} (r : Fetch A) : bool :=
  match r with
  | DoErr _ => false
  | _ => true
  end.

(** [sendMessage] reports success without reading the answer: when
    the request could be sent, whatever the answer is (a status that is
    not ok, a body that cannot be read or decoded), the command prints
    that the message was sent and returns no error. *)
Theorem sendMessage_reports_success message threadTS w :
  sent (apiCall (requests w) (postRequest (config w) message threadTS)) = true ->
  sendMessage message threadTS w
  = (Ret None,
     addOutput ("Message sent successfully" +:+ nl)
       (addRequest (postRequest (config w) message threadTS) w)).
Proof.
  intros Hsent. unfold sendMessage, send, bind, gets. cbn.
  fold (postRequest (config w) message threadTS).
  by destruct (apiCall _ _).
Qed.

(** The answer of a reaction command that the server refuses. *)
Lemma reacted_refused doing done e w :
  Contains e "%" = false ->
  reacted doing done (Decoded {| StatusOK := false; StatusError := e |}) w
  = (Ret (Some ("Error response from API: " +:+ e)), w).
Proof. intros He. unfold reacted, handleError, Errorf. cbn. by rewrite He. Qed.

(** A refusal of the server reaches the caller of [addReaction]:
    when the answer says it is not ok and gives an error without a
    percent sign, the command sends its one request, prints nothing and
    returns the error behind the words "Error response from API: ". *)
Theorem addReaction_refused ts emoji e w :
  ts <> "" -> Contains e "%" = false ->
  apiCall (requests w)
    (reactionRequest "https://slack.com/api/reactions.add" (config w)
       (addedEmoji (config w) emoji) ts)
  = Decoded {| StatusOK := false; StatusError := e |} ->
  addReaction ts emoji w
  = (Ret (Some ("Error response from API: " +:+ e)),
     addRequest (reactionRequest "https://slack.com/api/reactions.add" (config w)
                   (addedEmoji (config w) emoji) ts) w).
Proof.
  intros Hts He Hans. unfold addReaction. rewrite bool_decide_eq_false_2 by done.
  unfold send, bind, gets. cbn [fst snd]. rewrite Hans. by apply reacted_refused.
Qed.

Lemma addReaction_requests ts emoji w :
  ts <> "" ->
  requests (addReaction ts emoji w).2
  = requests w ++ [reactionRequest "https://slack.com/api/reactions.add" (config w)
                     (addedEmoji (config w) emoji) ts]
  /\ config (addReaction ts emoji w).2 = config w.
Proof.
  intros Hts. unfold addReaction. rewrite bool_decide_eq_false_2 by done.
  unfold send, bind, gets, reacted. cbn [fst snd].
  destruct (apiCall _ _) as [| | |[[] e]]; cbn; try done; by destruct (handleError _).
Qed.

Lemma removeReaction_requests ts emoji w :
  ts <> "" ->
  requests (removeReaction ts emoji w).2
  = requests w ++ [reactionRequest "https://slack.com/api/reactions.remove" (config w)
                     (removedEmoji emoji) ts].
Proof.
  intros Hts. unfold removeReaction. rewrite bool_decide_eq_false_2 by done.
  unfold send, bind, gets, reacted. cbn [fst snd].
  destruct (apiCall _ _) as [| | |[[] e]]; cbn; try done; by destruct (handleError _).
Qed.

(** C35. The two reaction commands do not agree on the default emoji:
    with no emoji given, [addReaction] names the default emoji of the
    configuration and [removeReaction] names [white_check_mark], so that
    removing after adding asks for another reaction than the one added
    whenever the configuration names a default of its own. *)
Theorem default_emoji_mismatch ts w :
  ts <> "" -> DefaultEmoji (config w) <> "" ->
  DefaultEmoji (config w) <> "white_check_mark" ->
  exists added removed,
    requests (removeReaction ts "" (addReaction ts "" w).2).2
    = requests w
      ++ [reactionRequest "https://slack.com/api/reactions.add" (config w) added ts;
          reactionRequest "https://slack.com/api/reactions.remove" (config w) removed ts]
    /\ added = DefaultEmoji (config w) /\ removed = "white_check_mark"
    /\ added <> removed.
Proof.
  intros Hts Hne Hdiff. exists (DefaultEmoji (config w)), "white_check_mark".
  rewrite removeReaction_requests by done.
  destruct (addReaction_requests ts "" w Hts) as [-> ->].
  rewrite <- app_assoc. unfold addedEmoji, removedEmoji.
  by rewrite !bool_decide_eq_true_2, bool_decide_eq_false_2 by done.
Qed.

End ActionsProperties.

(** A server that refuses every command. *)
Definition refusingEnvironment : Environment := {|
  usersInfo := demoUsersInfo;
  conversationsHistory := fun _ _ => Decoded demoPage;
  conversationsReplies := fun _ _ => inr [];
  apiCall := fun _ _ => Decoded {| StatusOK := false; StatusError := "channel_not_found" |};
  getUploadURL := fun _ _ => None;
  completeUpload := fun _ _ => DoErr "dial tcp: i/o timeout";
  buildTime := "";
  download := fun _ _ => inl "dial tcp: i/o timeout";
  urlPath := fun _ => Some "/files-pri/T1-F1/report.pdf";
  createFileFails := fun _ => false;
  zoneOffset := fun _ => 0%Z;
  floatSeconds := fun _ => 0%Z;
  sprintfBare := fun format => format;
  createFails := false;
  writeFails := false;
  errorText := fun _ => "no such file or directory";
|}.

Lemma sendMessage_reports_success_witness :
  @sendMessage refusingEnvironment "hello" "" demoWorld
  = (Ret None,
     addOutput ("Message sent successfully" +:+ nl)
       (addRequest (postRequest (config demoWorld) "hello" "") demoWorld)).
Proof.
  apply (@sendMessage_reports_success refusingEnvironment "hello" "" demoWorld).
  reflexivity.
Defined.

Lemma addReaction_refused_witness :
  @addReaction refusingEnvironment "1704110400.000300" "" demoWorld
  = (Ret (Some ("Error response from API: " +:+ "channel_not_found")),
     addRequest (reactionRequest "https://slack.com/api/reactions.add" (config demoWorld)
                   (addedEmoji (config demoWorld) "") "1704110400.000300") demoWorld).
Proof.
  apply (@addReaction_refused refusingEnvironment "1704110400.000300" ""
           "channel_not_found" demoWorld); done.
Defined.

Lemma default_emoji_mismatch_witness :
  exists added removed,
    requests (removeReaction "1704110400.000300" ""
                (addReaction "1704110400.000300" "" demoWorld).2).2
    = requests demoWorld
      ++ [reactionRequest "https://slack.com/api/reactions.add" (config demoWorld) added
            "1704110400.000300";
          reactionRequest "https://slack.com/api/reactions.remove" (config demoWorld)
            removed "1704110400.000300"]
    /\ added = DefaultEmoji (config demoWorld) /\ removed = "white_check_mark"
    /\ added <> removed.
Proof. apply (default_emoji_mismatch "1704110400.000300" demoWorld); done. Defined.
