(* ===== verification/Files.v ===== *)
(** * File transfer: [uploadFile] and [getFile] (main.go, lines 513-658)

    An upload is three requests: one for a URL, one that sends the
    content of the file to that URL, one that completes the upload;
    [uploadFile] checks the last answer only.

    The file behind a URL is stored in the working directory under the
    last element of the URL's path; when a file of that name exists, a
    number in parentheses is put before the extension, the first one
    from 1 on for which no file exists.  The names of the directories
    every directory has (a dot, two dots, a slash) count as taken, they
    are what [path.Base] returns for a URL without a file name, and so
    do the names of the two configuration files.  The search for that
    number has
    no bound in the source; the model gives it one round more than
    there are names taken, which [freshName_found] shows to be
    enough. *)

From S2P Require Import Prelude Utf8 GoStrings Calendar GoTime Slack.

Local Open Scope Z_scope.
Local Open Scope go_scope.

(** ** [path.Base] and [path.Ext] *)

Definition isSlash (c : ascii) : bool := bool_decide (c = "/"%char).
Definition isDot (c : ascii) : bool := bool_decide (c = "."%char).

(** The longest prefix of a list whose elements fail the test. *)
Fixpoint upTo {A} (stop : A -> bool) (l : list A) : list A :=
  match l with
  | [] => []
  | x :: l' => if stop x then [] else x :: upTo stop l'
  end.

(** What is left of a list after its elements that pass the test. *)
Fixpoint skipWhile {A} (test : A -> bool) (l : list A) : list A :=
  match l with
  | [] => []
  | x :: l' => if test x then skipWhile test l' else l
  end.

(** [path.Base]: the last element of a path, after its trailing slashes
    are dropped; a dot for the empty path, a slash for slashes alone. *)
Definition Base (path : string) : string :=
  if bool_decide (path = "") then "." else
  let stripped := skipWhile isSlash (rev (String.list_ascii_of_string path)) in
  let last := rev (upTo isSlash stripped) in
  if bool_decide (last = []) then "/" else String.string_of_list_ascii last.

(** [path.Ext]: from the last dot of the last element on, or nothing. *)
Definition Ext (path : string) : string :=
  let element := upTo isSlash (rev (String.list_ascii_of_string path)) in
  if bool_decide (upTo isDot element = element) then ""
  else String "."%char (String.string_of_list_ascii (rev (upTo isDot element))).

(** ** A name that is free *)

(** [fmt.Sprintf("%s(%d)%s", name, i, ext)]. *)
Definition numbered (name ext : string) (i : Z) : string :=
  name +:+ "(" +:+ FormatInt i +:+ ")" +:+ ext.

(** The names of a file that is there. *)
Definition nameOf {A} (f : FileState A) (name : string) : gset string :=
  match f with
  | Absent => ∅
  | _ => {[ name ]}
  end.

(** The names for which [os.Stat] finds something: the files of the
    directory, the directories every directory has, and the two
    configuration files when they are there. *)
Definition entries (w : World) : gset string :=
  dom (directory w) ∪ {[ "."; ".."; "/" ]}
  ∪ nameOf (configFile w) configFileName ∪ nameOf (emojiFile w) emojiFileName.

(** The loop of lines 638-644, with a number of rounds. *)
Fixpoint freshName (fuel : nat) (names : gset string) (name ext : string) (i : Z)
  : option string :=
  match fuel with
  | O => None
  | S fuel =>
      let newName := numbered name ext i in
      if decide (newName ∈ names) then freshName fuel names name ext (i + 1)
      else Some newName
  end.

(** Lines 634-645: the name under which the file is stored. *)
Definition chooseName (names : gset string) (filename : string) : option string :=
  if decide (filename ∈ names) then
    let ext := Ext filename in
    let name := takeS (String.length filename - String.length ext) filename in
    freshName (S (size names)) names name ext 1
  else Some filename.

Definition fileRequest (c : Config) (fileURL : string) : Request :=
  {| Method := "GET"; URL := fileURL; Headers := [bearer (SlackUserToken c)];
     Body := NoPayload |}.

(** ** The requests of an upload *)

(** Lines 525-534: the form with the name and the size of the file.  The
    boundary of the multipart body, which [multipart.NewWriter] draws at
    random and [FormDataContentType] repeats in the header, is left
    out. *)
Definition uploadURLRequest (c : Config) (name fileSizeStr : string) : Request :=
  {| Method := "POST"; URL := slackUploadURL;
     Headers := [("Content-Type", "multipart/form-data")];
     Body := FormFields [("filename", name); ("length", fileSizeStr);
                         ("channels", ChannelID c); ("token", SlackBotToken c)] |}.

(** Lines 547-554: the content of the file, sent to the URL of the
    answer. *)
Definition contentRequest (uploadURL name content : string) : Request :=
  {| Method := "POST"; URL := uploadURL;
     Headers := [("Content-Type", "multipart/form-data")];
     Body := FormFile name content |}.

(** Lines 558-571: the completion, with the identifier of the answer. *)
Definition completeRequest (c : Config) (fileID : string) : Request :=
  {| Method := "POST"; URL := slackCompleteUploadURL;
     Headers := [("Content-Type", "application/json"); bearer (SlackBotToken c)];
     Body := JSONComplete fileID (ChannelID c) |}.

(** The type assertions [v.([]interface{})], [v.(map[string]interface{})]
    and [v.(string)] on the value a map gives for a key. *)
Definition asArray (v : option Json) : option (list Json) :=
  match v with
  | Some (JArray items) => Some items
  | _ => None
  end.

Definition asObject (v : option Json) : option (gmap string Json) :=
  match v with
  | Some (JObject fields) => Some fields
  | _ => None
  end.

Definition isString (v : option Json) : bool :=
  match v with
  | Some (JString _) => true
  | _ => false
  end.

(** Lines 593-610: the line for a decoded answer to the completion. *)
Definition completionLine (finalResponse : gmap string Json) : string :=
  match asArray (finalResponse !! "files") with
  | None | Some [] => "File information not found in response"
  | Some (first :: _) =>
      match asObject (Some first) with
      | None => "File information not found in response"
      | Some fileInfoMap =>
          if negb (isString (fileInfoMap !! "permalink"))
             || negb (isString (fileInfoMap !! "url_private"))
          then "File URLs not found in response"
          else "File uploaded and shared to Slack"
      end
  end.

(** The words a line of [getFile] starts with. *)
Definition reports : list string :=
  ["Error getting file:"; "Error creating file:"; "File downloaded successfully:"].

Section Files.
Context `{Environment}.

(** [getFile].  [http.NewRequest] parses the URL as [url.Parse] does;
    its error is dropped, so that for a URL that cannot be parsed [req]
    is nil and setting the header panics.  [os.Stat] is the lookup in
    the directory, [os.Create] and [io.Copy] together store the body
    under the name (the error of [io.Copy] is dropped by the source as
    well).  The result tells whether the rounds of the search were
    enough. *)
Definition getFile (fileURL : string) : M World bool :=
  match urlPath fileURL with
  | None => panic "invalid memory address or nil pointer dereference"
  | Some _ =>
      c <- gets config ;;
      r <- send download (fileRequest c fileURL) ;;
      match r with
      | inl err => Println ["Error getting file:"; err] ;; ret true
      | inr body =>
          match urlPath fileURL with
          | None => Println ["Error parsing URL:"; errorText ErrParseURL] ;; ret true
          | Some path =>
              w <- get ;;
              match chooseName (entries w) (Base path) with
              | None => ret false
              | Some filename =>
                  if createFileFails filename then
                    Println ["Error creating file:"; errorText ErrCreateFile] ;; ret true
                  else
                    modify (addFile filename body) ;;
                    Println ["File downloaded successfully:"; filename] ;; ret true
              end
          end
      end
  end.

(** [uploadFile].  [os.Open] is the lookup in the directory; the name
    of [Stat] is the last element of the path.  The error of the first
    [client.Do] is dropped, so that after a failure [resp] is nil and
    reading its body panics; the errors of [io.ReadAll] and [Decode]
    are dropped as well, and the struct is used as they left it.  The
    URL of the answer is parsed by [http.NewRequest], whose error is
    dropped: setting the header of a nil request panics.  The answer to
    the second request is not looked at.  [time.Sleep] before the last
    line leaves no trace in the state. *)
Definition uploadFile (filePath : string) : M World unit :=
  w <- get ;;
  match directory w !! filePath with
  | None => Println ["Error opening file:"; errorText ErrOpenFile]
  | Some content =>
      let name := Base filePath in
      let fileSizeStr := FormatInt (Z.of_nat (String.length content)) in
      c <- gets config ;;
      r <- send getUploadURL (uploadURLRequest c name fileSizeStr) ;;
      match r with
      | None => panic "invalid memory address or nil pointer dereference"
      | Some uploadURLResponse =>
          let uploadURL := UploadURL uploadURLResponse in
          let fileID := FileID uploadURLResponse in
          match urlPath uploadURL with
          | None => panic "invalid memory address or nil pointer dereference"
          | Some _ =>
              send (fun _ _ => tt) (contentRequest uploadURL name content) ;;
              f <- send completeUpload (completeRequest c fileID) ;;
              match f with
              | DoErr _ => Println ["Failed to complete file upload"]
              | ReadErr _ => Println ["Failed to read complete upload response"]
              | DecodeErr _ => Println ["Failed to decode complete upload response"]
              | Decoded finalResponse => Println [completionLine finalResponse]
              end
          end
      end
  end.

(** The three requests of an upload of [content] under [filePath], when
    the first is answered by [r]. *)
Definition uploadRequests (c : Config) (filePath content : string)
    (r : GetUploadURLResponse) : list Request :=
  [uploadURLRequest c (Base filePath) (FormatInt (Z.of_nat (String.length content)));
   contentRequest (UploadURL r) (Base filePath) content;
   completeRequest c (FileID r)].

(** The line for the answer to the completion. *)
Definition finalLine (f : Fetch (gmap string Json)) : string :=
  match f with
  | DoErr _ => "Failed to complete file upload"
  | ReadErr _ => "Failed to read complete upload response"
  | DecodeErr _ => "Failed to decode complete upload response"
  | Decoded finalResponse => completionLine finalResponse
  end.

(** The answer to the completion of an upload started in [w]. *)
Definition finalAnswer (filePath content : string) (r : GetUploadURLResponse) (w : World)
  : Fetch (gmap string Json) :=
  completeUpload (requests w ++ take 2 (uploadRequests (config w) filePath content r))
    (completeRequest (config w) (FileID r)).

End Files.

(** ** The transfers and the frames *)

Section FilesFrame.
Context `{Environment} (R : relation World) `{!Frame R}.

Section Upload.
Hypothesis admits_uploadURL : forall c name size, admits R (uploadURLRequest c name size).
Hypothesis admits_content : forall url name content,
  admits R (contentRequest url name content).
Hypothesis admits_complete : forall c fileID, admits R (completeRequest c fileID).

Lemma uploadFile_frame filePath : preserves R (uploadFile filePath).
Proof. unfold uploadFile. preserves_tac. Qed.

End Upload.

Context `{!Stores R}.
Hypothesis admits_file : forall c fileURL, admits R (fileRequest c fileURL).

Lemma addFile_frame name content : preserves R (modify (addFile name content)).
Proof. intros w. apply frame_file. Qed.

#[local] Hint Resolve addFile_frame : go.

Lemma getFile_frame fileURL : preserves R (getFile fileURL).
Proof. unfold getFile. preserves_tac. Qed.

End FilesFrame.

(** * Theorems *)

(** ** A name and its extension *)

(** The prefix is the whole list, or an element that passes the test
    follows it. *)
Lemma upTo_split {A} (stop : A -> bool) l :
  upTo stop l = l \/ exists x rest, stop x = true /\ l = upTo stop l ++ x :: rest.
Proof.
  induction l as [|x l IH]; [by left|]. cbn [upTo]. destruct (stop x) eqn:Hx.
  - right. by exists x, l.
  - destruct IH as [->|(y & rest & Hy & Hl)]; [by left|].
    right. exists y, rest. split; [done|]. cbn. by rewrite <- Hl.
Qed.

Lemma string_of_app l1 l2 :
  String.string_of_list_ascii (l1 ++ l2)
  = String.string_of_list_ascii l1 +:+ String.string_of_list_ascii l2.
Proof. induction l1 as [|c l1 IH]; [done|]. cbn. by rewrite IH. Qed.

(** The extension is the end of the name. *)
Lemma Ext_suffix filename : exists name, filename = name +:+ Ext filename.
Proof.
  unfold Ext. set (l := String.list_ascii_of_string filename).
  case_bool_decide as Hd; [exists filename; by rewrite app_nil_r_s|].
  destruct (upTo_split isDot (upTo isSlash (rev l))) as [?|(x & rest & Hx & He)]; [done|].
  apply bool_decide_eq_true in Hx as ->.
  assert (exists before, rev l = upTo isDot (upTo isSlash (rev l)) ++ "."%char :: before)
    as [before Hb].
  { destruct (upTo_split isSlash (rev l)) as [Hs|(y & more & _ & Hs)].
    - exists rest. by rewrite <- Hs at 1.
    - exists (rest ++ y :: more). rewrite Hs at 1. rewrite He at 1. by rewrite <- app_assoc. }
  exists (String.string_of_list_ascii (rev before)).
  transitivity (String.string_of_list_ascii l);
    [by unfold l; rewrite String.string_of_list_ascii_of_string|].
  apply (f_equal (@rev ascii)) in Hb. rewrite rev_involutive, rev_app_distr in Hb.
  set (e := upTo isDot (upTo isSlash (rev l))) in *. clearbody e l.
  subst l. cbn [rev]. by rewrite <- app_assoc, string_of_app.
Qed.

(** [filename[:len(filename)-len(ext)]] followed by the extension. *)
Lemma withoutExt_Ext filename :
  takeS (String.length filename - String.length (Ext filename)) filename +:+ Ext filename
  = filename.
Proof.
  destruct (Ext_suffix filename) as [name Hn].
  set (ext := Ext filename) in *. clearbody ext. subst filename.
  rewrite length_app_s.
  replace (String.length name + String.length ext - String.length ext)%nat
    with (String.length name) by lia.
  by rewrite takeS_app.
Qed.

(** ** The search for a free name *)

(** Two numbers give two names. *)
#[export] Instance numbered_inj name ext : Inj (=) (=) (numbered name ext).
Proof.
  intros i j Heq. unfold numbered, FormatInt in Heq.
  apply app_inv_head_s, app_inv_head_s, app_inv_tail_s in Heq.
  by apply (inj pretty).
Qed.

(** When the rounds run out, every number tried names an entry. *)
Lemma freshName_None fuel names name ext i :
  freshName fuel names name ext i = None ->
  forall k, 0 <= k < Z.of_nat fuel -> numbered name ext (i + k) ∈ names.
Proof.
  revert i. induction fuel as [|fuel IH]; intros i Hn k Hk; [lia|].
  cbn [freshName] in Hn. case_decide as Hi; [|done].
  destruct (decide (k = 0)) as [->|]; [by rewrite Z.add_0_r|].
  replace (i + k) with (i + 1 + (k - 1)) by lia. apply IH; [done|lia].
Qed.

(** The search ends: with more rounds than entries, a free name is
    found. *)
Lemma freshName_found fuel names name ext i :
  (size names < fuel)%nat -> is_Some (freshName fuel names name ext i).
Proof.
  intros Hfuel. destruct (freshName fuel names name ext i) as [n|] eqn:E; [done|].
  exfalso. pose proof (freshName_None _ _ _ _ _ E) as Hall.
  set (tried := numbered name ext <$> seqZ i (Z.of_nat fuel)).
  assert (NoDup tried) as Hnd by (apply (NoDup_fmap_2 _), NoDup_seqZ).
  assert (list_to_set tried ⊆ names) as Hsub.
  { intros n [j [-> Hj%elem_of_seqZ]]%elem_of_list_to_set%list_elem_of_fmap.
    replace j with (i + (j - i)) by lia. apply Hall. lia. }
  apply subseteq_size in Hsub.
  rewrite size_list_to_set in Hsub by done.
  unfold tried in Hsub. rewrite length_fmap, length_seqZ in Hsub. lia.
Qed.

(** The name found is free. *)
Lemma freshName_free fuel names name ext i n :
  freshName fuel names name ext i = Some n -> n ∉ names.
Proof.
  revert i. induction fuel as [|fuel IH]; intros i; [done|]. cbn [freshName].
  case_decide as Hi; [apply IH|]. by intros [= <-].
Qed.

(** The name found is the first that is free. *)
Lemma freshName_first fuel names name ext i n :
  freshName fuel names name ext i = Some n ->
  exists k, 0 <= k /\ n = numbered name ext (i + k) /\
            forall j, 0 <= j < k -> numbered name ext (i + j) ∈ names.
Proof.
  revert i. induction fuel as [|fuel IH]; intros i; [done|]. cbn [freshName].
  case_decide as Hi.
  - intros (k & Hk & -> & Hbelow)%IH. exists (k + 1). split; [lia|]. split; [f_equal; lia|].
    intros j Hj. destruct (decide (j = 0)) as [->|]; [by rewrite Z.add_0_r|].
    replace (i + j) with (i + 1 + (j - 1)) by lia. apply Hbelow. lia.
  - intros [= <-]. exists 0. split; [lia|]. split; [by rewrite Z.add_0_r|]. lia.
Qed.

Lemma chooseName_found names filename : is_Some (chooseName names filename).
Proof. unfold chooseName. case_decide; [apply freshName_found; lia|done]. Qed.

Lemma chooseName_free names filename n :
  chooseName names filename = Some n -> n ∉ names.
Proof.
  unfold chooseName. case_decide as Hf; [apply freshName_free|]. by intros [= <-].
Qed.

(** A name that is no entry is the name of no file. *)
Lemma entries_file w n : n ∉ entries w -> directory w !! n = None.
Proof. intros Hn. apply not_elem_of_dom. set_solver. Qed.

(** C28. The search for a name ends and finds the right one: for every
    set of names that are taken and every name, [chooseName] gives a
    name that is not taken; it is the name itself when that is free,
    and otherwise the name with a number in parentheses before its
    extension, the first number from 1 on whose name is free.  The loop
    of lines 638-644 has no bound; one round more than there are names
    taken is enough. *)
Theorem chooseName_fresh names filename :
  exists n, chooseName names filename = Some n /\ (n ∉ names) /\
    if decide (filename ∈ names) then
      exists name k, filename = name +:+ Ext filename /\ 1 <= k /\
        n = numbered name (Ext filename) k /\
        forall j, 1 <= j < k -> numbered name (Ext filename) j ∈ names
    else n = filename.
Proof.
  destruct (chooseName_found names filename) as [n Hn]. exists n.
  split; [done|]. split; [by eapply chooseName_free|].
  unfold chooseName in Hn. case_decide; [|by injection Hn].
  apply freshName_first in Hn as (k & Hk & -> & Hbelow).
  eexists _, (1 + k). split; [symmetry; apply withoutExt_Ext|].
  split; [lia|]. split; [done|]. intros j Hj.
  replace j with (1 + (j - 1)) by lia. apply Hbelow. lia.
Qed.

(** ** The download *)

Section FilesProperties.
Context `{Environment}.

Lemma getFile_unparsed fileURL w :
  urlPath fileURL = None ->
  getFile fileURL w = (Panic "invalid memory address or nil pointer dereference", w).
Proof. unfold getFile. by intros ->. Qed.

(** The run of [getFile] on a URL that can be parsed. *)
Lemma getFile_parsed fileURL path w :
  urlPath fileURL = Some path ->
  getFile fileURL w =
    let r := fileRequest (config w) fileURL in
    match download (requests w) r with
    | inl err =>
        (Ret true, addOutput ("Error getting file: " +:+ err +:+ nl) (addRequest r w))
    | inr body =>
        match chooseName (entries w) (Base path) with
        | None => (Ret false, addRequest r w)
        | Some n =>
            if createFileFails n then
              (Ret true, addOutput ("Error creating file: " +:+ errorText ErrCreateFile +:+ nl)
                           (addRequest r w))
            else
              (Ret true, addOutput ("File downloaded successfully: " +:+ n +:+ nl)
                           (addFile n body (addRequest r w)))
        end
    end.
Proof.
  intros Hp. unfold getFile. rewrite Hp. cbn zeta.
  unfold bind, gets, get, send, Println, modify, ret. cbn [fst snd].
  destruct (download _ _) as [err|body]; [done|].
  change (entries (addRequest _ w)) with (entries w).
  destruct (chooseName _ _) as [n|]; [|done]. by destruct (createFileFails n).
Qed.

(** C29. A download changes no file that exists: the directory after
    [getFile] holds every file it held before, with the same content.
    The one file that may be added is stored under a name that was
    free. *)
Theorem getFile_keeps_files fileURL w :
  directory w ⊆ directory (getFile fileURL w).2.
Proof.
  destruct (urlPath fileURL) as [path|] eqn:Hp; [|by rewrite getFile_unparsed].
  rewrite (getFile_parsed _ _ _ Hp). cbn zeta.
  destruct (download _ _) as [err|body]; [done|].
  destruct (chooseName _ _) as [n|] eqn:Hn; [|done].
  destruct (createFileFails n); [done|].
  cbn [snd directory addOutput addFile addRequest].
  by apply insert_subseteq, entries_file, (chooseName_free _ (Base path)).
Qed.

(** C30. How [getFile] ends.  For a URL that cannot be parsed it panics
    before anything is sent or printed: the error of [http.NewRequest]
    is dropped and the header is set on a nil request.  For every other
    URL it returns (the search for a name never runs out of rounds),
    having sent exactly one request, with the user token, and printed
    exactly one line, which starts with one of the words of [reports]:
    the line [Error parsing URL:] of line 630 is never printed. *)
Theorem getFile_outcome fileURL w :
  match urlPath fileURL with
  | None =>
      getFile fileURL w = (Panic "invalid memory address or nil pointer dereference", w)
  | Some _ =>
      (getFile fileURL w).1 = Ret true /\
      requests (getFile fileURL w).2 = requests w ++ [fileRequest (config w) fileURL] /\
      exists head rest, head ∈ reports /\
        stdout (getFile fileURL w).2 = stdout w ++ [head +:+ " " +:+ rest +:+ nl]
  end.
Proof.
  destruct (urlPath fileURL) as [path|] eqn:Hp; [|by apply getFile_unparsed].
  rewrite (getFile_parsed _ _ _ Hp). cbn zeta.
  destruct (download _ _) as [err|body].
  { split; [done|]. split; [done|]. exists "Error getting file:", err. split; [set_solver|done]. }
  destruct (chooseName_found (entries w) (Base path)) as [n ->].
  destruct (createFileFails n); (split; [done|]); (split; [done|]).
  - exists "Error creating file:", (errorText ErrCreateFile). split; [set_solver|done].
  - exists "File downloaded successfully:", n. split; [set_solver|done].
Qed.

(** A download that succeeds: when the URL has a path, the file could
    be fetched and the file of the chosen name could be created, the
    body is stored under that name, which is the last element of the
    path or its first free numbered variant, every other file is as it
    was, and the line that is printed names the file. *)
Theorem getFile_stores fileURL path body n w :
  urlPath fileURL = Some path ->
  download (requests w) (fileRequest (config w) fileURL) = inr body ->
  chooseName (entries w) (Base path) = Some n ->
  createFileFails n = false ->
  directory w !! n = None /\
  directory (getFile fileURL w).2 = <[n := body]> (directory w) /\
  stdout (getFile fileURL w).2
    = stdout w ++ ["File downloaded successfully: " +:+ n +:+ nl].
Proof.
  intros Hp Hd Hn Hc. rewrite (getFile_parsed _ _ _ Hp). cbn zeta.
  rewrite Hd, Hn, Hc. split; [by eapply entries_file, chooseName_free|done].
Qed.

(** A numbered name has a parenthesis, the names the program does not
    make have none. *)
Definition hasParen (s : string) : bool := negb (allBytes (isNot "("%char) s).

Lemma hasParen_numbered name ext i : hasParen (numbered name ext i) = true.
Proof.
  unfold hasParen, numbered. rewrite allBytes_app, (allBytes_app _ "(").
  by rewrite andb_false_r.
Qed.

(** A goal that holds by evaluation for every element of a list. *)
Ltac each_of H :=
  repeat (apply elem_of_cons in H as [->|H]); try (by apply elem_of_nil in H).

(** A URL without a file name: the path is empty or a slash, its last
    element is the directory itself, which is there, and the search
    takes the first numbered name. *)
Lemma chooseName_directory w path :
  path ∈ [""; "/"] -> numbered path (Ext (Base path)) 1 ∉ entries w ->
  chooseName (entries w) (Base path)
  = Some (if decide (path = "") then "(1)." else "/(1)").
Proof.
  intros Hp Hf. unfold chooseName.
  assert (Base path ∈ entries w) by (unfold entries; each_of Hp; set_solver).
  assert (takeS (String.length (Base path) - String.length (Ext (Base path))) (Base path)
          = path) as ->
    by (by each_of Hp).
  rewrite decide_True by done. cbn [freshName]. rewrite decide_False by done.
  by each_of Hp.
Qed.

(** A name of the program's own making is an entry only as a file. *)
Lemma entries_numbered w name ext i :
  directory w !! numbered name ext i = None -> numbered name ext i ∉ entries w.
Proof.
  intros Hd. pose proof (hasParen_numbered name ext i) as Hp. unfold entries.
  apply not_elem_of_dom in Hd.
  destruct (configFile w), (emojiFile w); cbn [nameOf];
    set_unfold; intros Hn; destruct_or!; try done; by rewrite Hn in Hp.
Qed.

(** The download of a URL that ends with its host, or with a slash,
    does not fail: the body is stored under a name made of the number
    alone, [(1).] in the working directory for an empty path and [/(1)]
    in the root directory for a slash. *)
Theorem getFile_without_name fileURL path body w :
  urlPath fileURL = Some path -> path ∈ [""; "/"] ->
  download (requests w) (fileRequest (config w) fileURL) = inr body ->
  let n := if decide (path = "") then "(1)." else "/(1)" in
  directory w !! n = None -> createFileFails n = false ->
  directory (getFile fileURL w).2 = <[n := body]> (directory w) /\
  stdout (getFile fileURL w).2
    = stdout w ++ ["File downloaded successfully: " +:+ n +:+ nl].
Proof.
  intros Hu Hp Hd n Hf Hc.
  eapply getFile_stores; [done..| |done]. apply chooseName_directory; [done|].
  apply entries_numbered. by each_of Hp.
Qed.

(** ** The upload *)

Lemma uploadFile_absent filePath w :
  directory w !! filePath = None ->
  uploadFile filePath w
  = (Ret tt, addOutput ("Error opening file: " +:+ errorText ErrOpenFile +:+ nl) w).
Proof. intros Hf. unfold uploadFile, bind, get. cbn [fst snd]. by rewrite Hf. Qed.

(** The run of an upload whose first request is answered with a URL
    that can be parsed. *)
Lemma uploadFile_run filePath content r path w :
  directory w !! filePath = Some content ->
  getUploadURL (requests w) (uploadURLRequest (config w) (Base filePath)
                               (FormatInt (Z.of_nat (String.length content)))) = Some r ->
  urlPath (UploadURL r) = Some path ->
  uploadFile filePath w
  = (Ret tt,
     addOutput (finalLine (finalAnswer filePath content r w) +:+ nl)
       (foldl (fun w q => addRequest q w) w (uploadRequests (config w) filePath content r))).
Proof.
  intros Hf Hr Hp. unfold uploadFile, bind, get, gets, send. cbn [fst snd].
  rewrite Hf. cbn zeta. cbn [fst snd]. rewrite Hr, Hp. cbn [fst snd requests addRequest config].
  unfold finalAnswer, uploadRequests. cbn [take foldl]. rewrite <- app_assoc. cbn [app].
  by destruct (completeUpload _ _).
Qed.

(** When the answer to the completion earns the line of success. *)
Lemma completionLine_success finalResponse :
  completionLine finalResponse = "File uploaded and shared to Slack" <->
  exists info rest permalink url,
    finalResponse !! "files" = Some (JArray (JObject info :: rest)) /\
    info !! "permalink" = Some (JString permalink) /\
    info !! "url_private" = Some (JString url).
Proof.
  unfold completionLine, asArray, asObject, isString. split.
  - destruct (finalResponse !! "files") as [[| | | |[|[| | | | |info] rest]|]|];
      try discriminate.
    cbn. destruct (info !! "permalink") as [[| | |permalink| |]|] eqn:Hp; try discriminate.
    destruct (info !! "url_private") as [[| | |url| |]|] eqn:Hu; try discriminate.
    intros _. by exists info, rest, permalink, url.
  - intros (info & rest & permalink & url & -> & -> & ->). done.
Qed.

(** C31. The protocol of an upload: when the file can be opened and the
    request for an upload URL is answered with a URL that can be
    parsed, [uploadFile] returns after exactly three requests, in this
    order: the form with the name and the size of the file, the content
    sent to the URL of the answer, and the completion with the file
    identifier of the answer and the channel; it prints one line and
    changes neither the files nor the configuration.  Nothing asks that
    the first answer be ok or that the content was received: an answer
    with ok false and empty fields is followed by the same two
    requests. *)
Theorem uploadFile_protocol filePath content r path w :
  directory w !! filePath = Some content ->
  getUploadURL (requests w) (uploadURLRequest (config w) (Base filePath)
                               (FormatInt (Z.of_nat (String.length content)))) = Some r ->
  urlPath (UploadURL r) = Some path ->
  let w' := (uploadFile filePath w).2 in
  (uploadFile filePath w).1 = Ret tt /\
  requests w' = requests w ++ uploadRequests (config w) filePath content r /\
  stdout w' = stdout w ++ [finalLine (finalAnswer filePath content r w) +:+ nl] /\
  directory w' = directory w /\ config w' = config w.
Proof.
  intros Hf Hr Hp. rewrite (uploadFile_run _ _ _ _ _ Hf Hr Hp). cbn.
  by rewrite <- !app_assoc.
Qed.

(** An upload whose first request fails panics: the error of
    [client.Do] on line 537 is dropped and the body of a nil response is
    read on line 539.  The request has been sent, nothing is printed;
    the same happens, one step later, when the URL of the answer cannot
    be parsed. *)
Theorem uploadFile_no_answer filePath content w :
  directory w !! filePath = Some content ->
  let q := uploadURLRequest (config w) (Base filePath)
             (FormatInt (Z.of_nat (String.length content))) in
  match getUploadURL (requests w) q with
  | Some r => urlPath (UploadURL r) = None
  | None => True
  end ->
  uploadFile filePath w
  = (Panic "invalid memory address or nil pointer dereference", addRequest q w).
Proof.
  intros Hf q Hr. unfold uploadFile, bind, get, gets, send. cbn [fst snd].
  rewrite Hf. cbn zeta. cbn [fst snd]. fold q.
  destruct (getUploadURL (requests w) q) as [r|]; [|done]. by rewrite Hr.
Qed.

(** The line of success is earned by the last answer alone: an
    upload that gets as far as the completion prints
    [File uploaded and shared to Slack] exactly when the answer to the
    completion could be decoded and the first entry of its [files] is an
    object whose [permalink] and [url_private] are strings. *)
Theorem uploadFile_success_line filePath content r path w :
  directory w !! filePath = Some content ->
  getUploadURL (requests w) (uploadURLRequest (config w) (Base filePath)
                               (FormatInt (Z.of_nat (String.length content)))) = Some r ->
  urlPath (UploadURL r) = Some path ->
  stdout (uploadFile filePath w).2
    = stdout w ++ ["File uploaded and shared to Slack" +:+ nl] <->
  exists finalResponse info rest permalink url,
    finalAnswer filePath content r w = Decoded finalResponse /\
    finalResponse !! "files" = Some (JArray (JObject info :: rest)) /\
    info !! "permalink" = Some (JString permalink) /\
    info !! "url_private" = Some (JString url).
Proof.
  intros Hf Hr Hp. rewrite (uploadFile_run _ _ _ _ _ Hf Hr Hp).
  cbn [snd stdout addOutput foldl uploadRequests addRequest]. split.
  - intros Hl%app_inv_head. injection Hl as Hl%app_inv_tail_s.
    destruct (finalAnswer _ _ _ _) as [e|e|e|finalResponse]; try discriminate.
    apply completionLine_success in Hl as (info & rest & permalink & url & Hl).
    by exists finalResponse, info, rest, permalink, url.
  - intros (finalResponse & info & rest & permalink & url & -> & Hfiles).
    cbn [finalLine]. assert (completionLine finalResponse = "File uploaded and shared to Slack")
      as -> by (apply completionLine_success; eauto 10).
    done.
Qed.

End FilesProperties.

(** The download of the demonstration: [report.pdf] and
    [report(1).pdf] exist, the file is stored as [report(2).pdf]. *)
Lemma getFile_stores_witness :
  directory (getFile "https://files.slack.com/files-pri/T1-F1/report.pdf" demoWorld).2
    !! "report(2).pdf" = Some "new".
Proof.
  pose proof (getFile_stores "https://files.slack.com/files-pri/T1-F1/report.pdf"
                "/files-pri/T1-F1/report.pdf" "new" "report(2).pdf" demoWorld
                eq_refl eq_refl) as Hs.
  destruct Hs as (_ & -> & _); [by vm_compute..|]. apply lookup_insert_eq.
Defined.

(** The upload of the demonstration: three requests, the second to the
    URL and the third with the identifier of the first answer. *)
Lemma uploadFile_protocol_witness :
  requests (uploadFile "report.pdf" demoWorld).2
  = uploadRequests demoConfig "report.pdf" "old"
      {| UploadOK := true; UploadURL := "https://files.slack.com/upload/v1/abc";
         FileID := "F07" |}.
Proof.
  pose proof (@uploadFile_protocol demoEnvironment "report.pdf" "old"
                {| UploadOK := true; UploadURL := "https://files.slack.com/upload/v1/abc";
                   FileID := "F07" |}
                "/files-pri/T1-F1/report.pdf" demoWorld eq_refl eq_refl eq_refl)
    as (_ & Hr & _).
  exact Hr.
Defined.

(** Without a server the upload panics after its first request. *)
Lemma uploadFile_no_answer_witness :
  (@uploadFile offlineEnvironment "report.pdf" demoWorld).1
  = Panic "invalid memory address or nil pointer dereference".
Proof.
  by rewrite (@uploadFile_no_answer offlineEnvironment "report.pdf" "old" demoWorld eq_refl I).
Defined.

(** The answer of the demonstration earns the line of success. *)
Lemma uploadFile_success_line_witness :
  stdout (uploadFile "report.pdf" demoWorld).2 = ["File uploaded and shared to Slack" +:+ nl].
Proof.
  apply (@uploadFile_success_line demoEnvironment "report.pdf" "old"
           {| UploadOK := true; UploadURL := "https://files.slack.com/upload/v1/abc";
              FileID := "F07" |}
           "/files-pri/T1-F1/report.pdf" demoWorld eq_refl eq_refl eq_refl).
  do 5 eexists. split; [reflexivity|]. repeat split; reflexivity.
Defined.

Lemma getFile_without_name_witness :
  directory (getFile (H := demoEnvironment) "https://file.url" demoWorld).2
  = <["(1)." := "new"]> (directory demoWorld) /\
  stdout (getFile (H := demoEnvironment) "https://file.url" demoWorld).2
  = stdout demoWorld ++ ["File downloaded successfully: (1)." +:+ nl].
Proof.
  by apply (getFile_without_name (H := demoEnvironment) "https://file.url" ""
              "new" demoWorld); [|set_solver|..].
Defined.
