(* ===== verification/Main.v ===== *)
(** * The command line: [main] (main.go, lines 848-1011)

    [main] checks the configuration, prints a line with the build time
    and hands the command line to the cobra library, which calls the
    [Run] function of the command it found.  The model takes what cobra
    made of the command line as its input: a command with its
    arguments and flags, a help text, or the error of the parser;
    [CommandLine] computes it from the arguments of the process.  The
    [Run] functions are modelled one by one; they drop the errors the
    commands return. *)

From S2P Require Import Prelude Utf8 GoStrings Calendar GoTime Slack TimeRange.
From S2P Require Import Resolver Reactions Threads Formatter Paginator Actions Files.

Local Open Scope Z_scope.
Local Open Scope go_scope.

(** ** [strconv.Atoi] *)

(** A sign, then decimal digits, at least one; the value fits in a Go
    [int] of 64 bits.  Every error of [strconv.Atoi] is [None]. *)
Definition Atoi (s : string) : option Z :=
  let '(neg, digits) :=
    match s with
    | String c s' =>
        if bool_decide (c = "-"%char) then (true, s')
        else if bool_decide (c = "+"%char) then (false, s')
        else (false, s)
    | "" => (false, "")
    end in
  if bool_decide (digits = "") then None
  else if allBytes isDigit digits then
    let n := decimalValue digits 0 in
    if neg then (if n <=? 2 ^ 63 then Some (- n) else None)
    else (if n <? 2 ^ 63 then Some n else None)
  else None.

(** ** The command line as cobra parsed it *)

(** The values of the flags; a string that was not given is empty,
    [--files] that was not given is false, and [--limit] that was not
    given has the default of line 896. *)
Record Flags : Type := {
  tsFlag : string;
  dateFlag : string;
  searchFlag : string;
  filterFlag : string;
  limitFlag : option Z;
  filesFlag : bool;
  addFlag : string;
  delFlag : string;
}.

(** Flags that were not given. *)
Definition noFlags : Flags :=
  {| tsFlag := ""; dateFlag := ""; searchFlag := ""; filterFlag := ""; limitFlag := None;
     filesFlag := false; addFlag := ""; delFlag := "" |}.

Inductive Command : Type :=
| sendCmd | showCmd | uploadCmd | downloadCmd | emojiCmd | editCmd | deleteCmd
| examplesCmd.

#[export] Instance Command_eq_dec : EqDecision Command.
Proof. solve_decision. Defined.

(** What [rootCmd.Execute] does: it runs a command, prints a help text
    and returns nil, or returns the error of the parser. *)
Inductive Parsed : Type :=
| Run (cmd : Command) (args : list string) (flags : Flags)
| Help (text : string)
| Rejected (err : string).

(** The flags each command declares (lines 867, 893-897, 940-941). *)
Definition flagsOf (cmd : Command) : list string :=
  match cmd with
  | sendCmd => ["ts"]
  | showCmd => ["date"; "search"; "filter"; "limit"; "files"]
  | emojiCmd => ["add"; "del"]
  | _ => []
  end.

(** The text of [examples] (lines 971-993). *)
Definition quote : string := String "034"%char "".

Definition examplesText : string :=
  Join
    ["Examples:";
     "   ./slack show";
     "   ./slack show 100";
     "   ./slack show --date 2023-12-31";
     "   ./slack show --date 2023-12-29:2023-12-31";
     "   ./slack show --search keyword";
     "   ./slack show 500 --search keyword";
     "   ./slack show --filter keyword";
     "   ./slack show 500 --filter keyword";
     "   ./slack show --files";
     "   ./slack send " +:+ quote +:+ "Hello, Slack!" +:+ quote;
     "   ./slack send " +:+ quote +:+ "Hello, Slack!" +:+ quote
       +:+ " --ts 1234567890.123456 (reply)";
     "   ./slack edit --ts 1234567890.123456 --msg " +:+ quote +:+ "Updated message" +:+ quote;
     "   ./slack edit 1234567890.123456 " +:+ quote +:+ "Updated message" +:+ quote;
     "   ./slack delete --ts 1234567890.123456";
     "   ./slack delete 1234567890.123456";
     "   ./slack upload path/to/your/file.txt";
     "   ./slack download https://file.url";
     "   ./slack emoji";
     "   ./slack emoji 1234567890.123456";
     "   ./slack emoji 1234567890.123456 white-check-mark";
     "   ./slack emoji 1234567890.123456 --add thumbsup";
     "   ./slack emoji 1234567890.123456 --del white-check-mark"]
    nl.

Section Main.
Context `{Environment}.

(** ** The [Run] functions *)

(** Lines 858-865. *)
Definition sendRun (args : list string) (flags : Flags) : M World unit :=
  match args with
  | [] => Println ["Error: message is required"]
  | message :: _ => _ <- sendMessage message (tsFlag flags) ;; ret tt
  end.

(** Lines 874-885: the limit of [show]: the argument when it is a
    number, the configured default with a warning when it is not, the
    flag when there is no argument. *)
Definition showLimit (defaultLimit : Z) (args : list string) (flags : Flags) : M World Z :=
  match args with
  | arg :: _ =>
      match Atoi arg with
      | None =>
          Println ["Invalid limit value, using default value."] ;;
          c <- gets config ;;
          ret (DefaultShowLimit c)
      | Some parsedLimit => ret parsedLimit
      end
  | [] => ret (default defaultLimit (limitFlag flags))
  end.

(** Lines 873-891. *)
Definition showRun (fuel : nat) (defaultLimit : Z) (args : list string) (flags : Flags)
  : M World bool :=
  limit <- showLimit defaultLimit args flags ;;
  fetchMessages fuel limit (dateFlag flags) (searchFlag flags) (filterFlag flags)
    (filesFlag flags).

(** Lines 902-908. *)
Definition uploadRun (args : list string) : M World unit :=
  match args with
  | [] => Println ["Error: file path is required"]
  | filePath :: _ => uploadFile filePath
  end.

(** Lines 914-920. *)
Definition downloadRun (args : list string) : M World bool :=
  match args with
  | [] => Println ["Error: file URL is required"] ;; ret true
  | fileURL :: _ => getFile fileURL
  end.

(** Lines 926-938. *)
Definition emojiRun (args : list string) (flags : Flags) : M World unit :=
  let ts := nth 0 args "" in
  let emoji := nth 1 args "" in
  _ <- handleEmoji ts emoji (addFlag flags) (delFlag flags) ;; ret tt.

(** Lines 946-952. *)
Definition editRun (args : list string) : M World unit :=
  match args with
  | ts :: message :: _ => _ <- updateMessage ts message ;; ret tt
  | _ => Println ["Error: ts (timestamp) and message are required"]
  end.

(** Lines 958-964. *)
Definition deleteRun (args : list string) : M World unit :=
  match args with
  | [] => Println ["Error: ts (timestamp) is required"]
  | ts :: _ => _ <- deleteMessage ts ;; ret tt
  end.

(** Lines 970-994. *)
Definition examplesRun : M World unit := Println [examplesText].

(** The [Run] of a command; the result tells whether the rounds given
    to [show] and [download] were enough. *)
Definition runCommand (fuel : nat) (defaultLimit : Z) (cmd : Command)
    (args : list string) (flags : Flags) : M World bool :=
  match cmd with
  | sendCmd => sendRun args flags ;; ret true
  | showCmd => showRun fuel defaultLimit args flags
  | uploadCmd => uploadRun args ;; ret true
  | downloadCmd => downloadRun args
  | emojiCmd => emojiRun args flags ;; ret true
  | editCmd => editRun args ;; ret true
  | deleteCmd => deleteRun args ;; ret true
  | examplesCmd => examplesRun ;; ret true
  end.

(** ** [main] *)

(** Lines 851-1011, what [main] does after the start-up check.  The
    default of [--limit] is read from the configuration when the
    commands are built (line 896). *)
Definition afterStartup (fuel : nat) (p : Parsed) : M World bool :=
  Print ("Slack CLI (build time: " +:+ buildTime +:+ ")" +:+ nl) ;;
  c <- gets config ;;
  match p with
  | Run cmd args flags => runCommand fuel (DefaultShowLimit c) cmd args flags
  | Help text => Print text ;; ret true
  | Rejected err => Println [err] ;; exit 1
  end.

Definition main (fuel : nat) (p : Parsed) : M World bool :=
  checkAndLoadConfig ;; afterStartup fuel p.

End Main.

(** The command line is not a download. *)
Definition notDownload (p : Parsed) : Prop :=
  match p with
  | Run downloadCmd _ _ => False
  | _ => True
  end.

(** ** The commands and the frames

    What every command but [download] respects: a frame that
    remembering a name respects and that admits the requests to the
    Slack Web API and the one that carries the content of a file. *)

Section MainFrame.
Context `{Environment} (R : relation World) `{!Frame R} `{!Remembers R}.
Hypothesis admits_usersInfo : forall token userID, admits R (usersInfoRequest token userID).
Hypothesis admits_replies : forall channel token ts, admits R (repliesRequest channel token ts).
Hypothesis admits_history : forall c limit oldest latest cursor,
  admits R (historyRequest c limit oldest latest cursor).
Hypothesis admits_json : forall method contentType token fields,
  admits R (jsonRequest ("https://slack.com/api/" +:+ method) contentType token fields).
Hypothesis admits_uploadURL : forall c name size, admits R (uploadURLRequest c name size).
Hypothesis admits_content : forall url name content,
  admits R (contentRequest url name content).
Hypothesis admits_complete : forall c fileID, admits R (completeRequest c fileID).

#[local] Hint Resolve fetchMessages_frame sendMessage_frame handleEmoji_frame
  updateMessage_frame deleteMessage_frame uploadFile_frame : go.

Lemma showLimit_frame defaultLimit args flags :
  preserves R (showLimit defaultLimit args flags).
Proof. unfold showLimit. preserves_tac. Qed.

#[local] Hint Resolve showLimit_frame : go.

Lemma runCommand_frame fuel defaultLimit cmd args flags :
  cmd <> downloadCmd -> preserves R (runCommand fuel defaultLimit cmd args flags).
Proof.
  intros Hcmd. destruct cmd; try done; cbn [runCommand];
    unfold sendRun, showRun, uploadRun, emojiRun, editRun, deleteRun, examplesRun;
    preserves_tac.
Qed.

Lemma afterStartup_frame fuel p : notDownload p -> preserves R (afterStartup fuel p).
Proof.
  intros Hp. unfold afterStartup. preserves_tac. apply runCommand_frame. by intros ->.
Qed.

Lemma main_frame `{!Saves R} fuel p : notDownload p -> preserves R (main fuel p).
Proof. intros Hp. unfold main. pose proof (afterStartup_frame fuel p Hp). preserves_tac. Qed.

(** With the files stored and the request of a download, every command
    line. *)
Context `{!Stores R}.
Hypothesis admits_file : forall c fileURL, admits R (fileRequest c fileURL).

#[local] Hint Resolve getFile_frame : go.

Lemma downloadRun_frame args : preserves R (downloadRun args).
Proof. unfold downloadRun. preserves_tac. Qed.

Lemma afterStartup_frame_download fuel p : preserves R (afterStartup fuel p).
Proof.
  destruct p as [cmd args flags|text|err]; try by apply afterStartup_frame.
  destruct (decide (cmd = downloadCmd)) as [->|Hcmd];
    [|by apply afterStartup_frame; destruct cmd].
  unfold afterStartup. cbn [runCommand]. pose proof downloadRun_frame. preserves_tac.
Qed.

Lemma main_frame_download `{!Saves R} fuel p : preserves R (main fuel p).
Proof. unfold main. pose proof (afterStartup_frame_download fuel p). preserves_tac. Qed.

End MainFrame.

(** * Theorems *)

(** ** No command ends the process

    [os.Exit] is called by [checkAndLoadConfig] and by [main] alone:
    every command returns or panics. *)

Section NoExit.
Context `{Environment}.

Lemma send_noExit {A} (answer : list Request -> Request -> A) r : noExit (send answer r).
Proof. done. Qed.

Lemma Println_noExit args : noExit (Println args).
Proof. done. Qed.

Lemma Print_noExit s : noExit (Print s).
Proof. done. Qed.

Lemma liftW_noExit {A} (m : M World A) : noExit m -> noExit (liftW m).
Proof. intros Hm s. specialize (Hm (world s)). unfold liftW. by destruct (m (world s)). Qed.

Lemma inSession_noExit {A} (m : M Session A) : noExit m -> noExit (inSession m).
Proof.
  intros Hm w. specialize (Hm (startSession w)). unfold inSession.
  by destruct (m (startSession w)).
Qed.

#[local] Hint Resolve send_noExit Println_noExit Print_noExit liftW_noExit
  inSession_noExit : go.

Lemma saveConfig_noExit : noExit saveConfig.
Proof. unfold saveConfig. noExit_tac. Qed.

Lemma loadEmojiConfig_noExit : noExit loadEmojiConfig.
Proof. unfold loadEmojiConfig. noExit_tac. Qed.

#[local] Hint Resolve saveConfig_noExit loadEmojiConfig_noExit : go.

Lemma rememberName_noExit userID name : noExit (rememberName userID name).
Proof. unfold rememberName. noExit_tac. Qed.

#[local] Hint Resolve rememberName_noExit : go.

Lemma getUserName_noExit userID : noExit (getUserName userID).
Proof. unfold getUserName. noExit_tac. Qed.

#[local] Hint Resolve getUserName_noExit : go.

Lemma collectReplies_noExit threadTs filter msgs :
  noExit (collectReplies threadTs filter msgs).
Proof. induction msgs as [|msg rest IH]; cbn [collectReplies]; noExit_tac. Qed.

#[local] Hint Resolve collectReplies_noExit : go.

Lemma getThreadReplies_noExit threadTs filter search :
  noExit (getThreadReplies threadTs filter search).
Proof. unfold getThreadReplies. noExit_tac. Qed.

Lemma renderReply_noExit search reply : noExit (renderReply search reply).
Proof. unfold renderReply. noExit_tac. Qed.

#[local] Hint Resolve getThreadReplies_noExit renderReply_noExit : go.

Lemma renderMessage_noExit search filter msg : noExit (renderMessage search filter msg).
Proof. unfold renderMessage. noExit_tac. Qed.

#[local] Hint Resolve renderMessage_noExit : go.

Lemma pageLoop_noExit limit search filter files msgs st :
  noExit (pageLoop limit search filter files msgs st).
Proof.
  revert st. induction msgs as [|msg rest IH]; intros st; cbn [pageLoop]; noExit_tac.
Qed.

#[local] Hint Resolve pageLoop_noExit : go.

Lemma round_noExit limit dateRange oldest latest search filter files st :
  noExit (round limit dateRange oldest latest search filter files st).
Proof. unfold round. noExit_tac. Qed.

#[local] Hint Resolve round_noExit : go.

Lemma historyLoop_noExit fuel limit dateRange oldest latest search filter files st :
  noExit (historyLoop fuel limit dateRange oldest latest search filter files st).
Proof.
  revert st. induction fuel as [|fuel IH]; intros st; cbn [historyLoop]; noExit_tac.
Qed.

Lemma finish_noExit e : noExit (finish e).
Proof. destruct e; cbn [finish]; noExit_tac. Qed.

#[local] Hint Resolve historyLoop_noExit finish_noExit : go.

Lemma fetchMessages_noExit fuel limit dateRange search filter files :
  noExit (fetchMessages fuel limit dateRange search filter files).
Proof. unfold fetchMessages. noExit_tac. Qed.

Lemma listEmoji_noExit : noExit listEmoji.
Proof. unfold listEmoji. noExit_tac. Qed.

Lemma reacted_noExit doing done r : noExit (reacted doing done r).
Proof. unfold reacted. noExit_tac. Qed.

#[local] Hint Resolve fetchMessages_noExit listEmoji_noExit reacted_noExit : go.

Lemma sendMessage_noExit message threadTS : noExit (sendMessage message threadTS).
Proof. unfold sendMessage. noExit_tac. Qed.

Lemma addReaction_noExit ts emoji : noExit (addReaction ts emoji).
Proof. unfold addReaction. noExit_tac. Qed.

Lemma removeReaction_noExit ts emoji : noExit (removeReaction ts emoji).
Proof. unfold removeReaction. noExit_tac. Qed.

Lemma updateMessage_noExit ts message : noExit (updateMessage ts message).
Proof. unfold updateMessage. noExit_tac. Qed.

Lemma deleteMessage_noExit ts : noExit (deleteMessage ts).
Proof. unfold deleteMessage. noExit_tac. Qed.

#[local] Hint Resolve sendMessage_noExit addReaction_noExit removeReaction_noExit
  updateMessage_noExit deleteMessage_noExit : go.

Lemma handleEmoji_noExit ts emoji add del : noExit (handleEmoji ts emoji add del).
Proof. unfold handleEmoji. noExit_tac. Qed.

Lemma getFile_noExit fileURL : noExit (getFile fileURL).
Proof. unfold getFile. noExit_tac. Qed.

Lemma uploadFile_noExit filePath : noExit (uploadFile filePath).
Proof. unfold uploadFile. noExit_tac. Qed.

#[local] Hint Resolve handleEmoji_noExit getFile_noExit uploadFile_noExit : go.

Lemma showLimit_noExit defaultLimit args flags : noExit (showLimit defaultLimit args flags).
Proof. unfold showLimit. noExit_tac. Qed.

#[local] Hint Resolve showLimit_noExit : go.

(** Whatever the command line, the [Run] of a command does not end the
    process. *)
Lemma runCommand_noExit fuel defaultLimit cmd args flags :
  noExit (runCommand fuel defaultLimit cmd args flags).
Proof.
  destruct cmd; cbn [runCommand];
    unfold sendRun, showRun, uploadRun, downloadRun, emojiRun, editRun, deleteRun,
      examplesRun; noExit_tac.
Qed.

End NoExit.

(** ** The code [main] ends the process with *)

Section MainProperties.
Context `{Environment}.

(** C33. The exit code of the program: [main] ends the process with code
    0 on a first run that could write the template, with code 1 when
    the configuration or the emoji table cannot be read or the template
    cannot be written, and with code 1 when cobra rejects the command
    line; in every other case no command calls [os.Exit]: the process
    ends when [main] returns, or by a panic. *)
Theorem main_exit_code fuel p w :
  exitCode (main fuel p w).1 =
  match configFile w with
  | Absent => Some (if createFails || writeFails then 1 else 0)
  | Unreadable | Garbled => Some 1
  | Holds _ =>
      match emojiFile w with
      | Holds _ => match p with Rejected _ => Some 1 | _ => None end
      | _ => Some 1
      end
  end.
Proof.
  unfold main. rewrite exitCode_bind.
  pose proof (checkAndLoadConfig_exitCode w) as Hcode.
  pose proof (checkAndLoadConfig_loaded w) as Hload.
  destruct (configFile w) as [| |c|], (emojiFile w) as [| |e|];
    try (by destruct (checkAndLoadConfig w).1; simplify_eq/=).
  rewrite (Hload c e) by done. cbn [fst snd].
  destruct p as [cmd args flags|text|err]; [|done..].
  apply runCommand_noExit.
Qed.

(** ** Errors the commands return *)

(** A reaction that fails prints nothing. *)
Lemma reacted_error doing done r e w w' :
  reacted doing done r w = (Ret (Some e), w') -> w' = w.
Proof.
  unfold reacted. destruct r as [err|err|err|response]; cbn;
    repeat case_match; unfold bind, Println, modify, ret; cbn; congruence.
Qed.

Lemma addReaction_error ts emoji e w w' :
  addReaction ts emoji w = (Ret (Some e), w') -> stdout w' = stdout w.
Proof.
  unfold addReaction. case_bool_decide; [by intros [= _ <-]|].
  unfold bind, gets, send. cbn [fst snd]. by intros ->%reacted_error.
Qed.

Lemma removeReaction_error ts emoji e w w' :
  removeReaction ts emoji w = (Ret (Some e), w') -> stdout w' = stdout w.
Proof.
  unfold removeReaction. case_bool_decide; [by intros [= _ <-]|].
  unfold bind, gets, send. cbn [fst snd]. by intros ->%reacted_error.
Qed.

(** A reaction that fails is silent: [emoji] drops the error that
    [handleEmoji] returns.  When a reaction is asked for (with [--add],
    with [--del] or with an emoji after the timestamp) and the command
    returns an error (no timestamp was given, the request failed, the
    server refused), nothing at all is printed and the [Run] function
    returns as after a success. *)
Theorem emojiRun_error_silent args flags e w :
  addFlag flags <> "" \/ delFlag flags <> "" \/ nth 1 args "" <> "" ->
  (handleEmoji (nth 0 args "") (nth 1 args "") (addFlag flags) (delFlag flags) w).1
    = Ret (Some e) ->
  (emojiRun args flags w).1 = Ret tt /\
  stdout (emojiRun args flags w).2 = stdout w.
Proof.
  intros Hasked Herr. unfold emojiRun. cbn zeta. unfold bind.
  destruct (handleEmoji _ _ _ _ w) as [o w'] eqn:Hrun. cbn [fst] in Herr. subst o.
  split; [done|]. cbn [snd]. revert Hrun. unfold handleEmoji.
  repeat case_bool_decide; cbn [negb];
    first [apply addReaction_error | apply removeReaction_error
          | by destruct Hasked as [?|[?|?]]].
Qed.

(** ** The limit of [show] *)

(** A number that [Atoi] accepts fits in 64 bits. *)
Lemma Atoi_bounds s n : Atoi s = Some n -> - 2 ^ 63 <= n < 2 ^ 63.
Proof.
  assert (forall digits acc, allBytes isDigit digits = true -> 0 <= acc ->
            0 <= decimalValue digits acc) as Hpos.
  { induction digits as [|c digits IH]; intros acc Hd Hacc; [done|].
    cbn [allBytes decimalValue] in *. apply andb_prop in Hd as [Hc Hd].
    apply IH; [done|]. unfold isDigit in Hc. lia. }
  unfold Atoi. repeat case_match; try done; intros [= <-];
    match goal with Hd : allBytes isDigit ?d = true |- _ => specialize (Hpos d 0 Hd) end;
    lia.
Qed.

(** Without room no message is rendered: a limit that is not positive
    leaves the request and nothing else. *)
Lemma fetchMessages_no_room fuel limit dateRange oldest latest search filter files
    response w :
  limit <= 0 ->
  dateRangeBounds dateRange = inr (oldest, latest) ->
  conversationsHistory (requests w) (historyRequest (config w) limit oldest latest "")
    = Decoded response ->
  fetchMessages (S fuel) limit dateRange search filter files w
  = (Ret true, addRequest (historyRequest (config w) limit oldest latest "") w).
Proof.
  intros Hl Hb Ha. unfold fetchMessages. rewrite Hb. unfold bind at 1.
  rewrite inSession_historyLoop. unfold inSession. rewrite showOnce_answered.
  unfold firstPage, requested. cbn [startSession world]. rewrite Ha.
  cbn [answered]. by rewrite selected_full by done.
Qed.

(** [show] with a limit that is not positive shows nothing: when the
    argument is a number not above zero, the date range is well formed
    and the server answers, [show] sends its one request, with that
    limit, and prints nothing, whatever the page holds; the limit is not
    checked before it is used. *)
Theorem showRun_nothing fuel defaultLimit arg rest flags n oldest latest response w :
  Atoi arg = Some n -> n <= 0 ->
  dateRangeBounds (dateFlag flags) = inr (oldest, latest) ->
  conversationsHistory (requests w) (historyRequest (config w) n oldest latest "")
    = Decoded response ->
  showRun (S fuel) defaultLimit (arg :: rest) flags w
  = (Ret true, addRequest (historyRequest (config w) n oldest latest "") w).
Proof.
  intros Ha Hn Hb Hr. unfold showRun, showLimit. rewrite Ha, bind_ret_l.
  by eapply fetchMessages_no_room.
Qed.

End MainProperties.

(** The examples name flags that [edit] and [delete] do not declare. *)
Lemma examples_undeclared_flags :
  Contains examplesText "./slack edit --ts 1234567890.123456 --msg" = true /\
  flagsOf editCmd = [] /\
  Contains examplesText "./slack delete --ts 1234567890.123456" = true /\
  flagsOf deleteCmd = [].
Proof. by vm_compute. Qed.

(** [slack emoji --add thumbsup], without a timestamp, prints nothing. *)
Lemma emojiRun_error_silent_witness :
  stdout (emojiRun [] {| tsFlag := ""; dateFlag := ""; searchFlag := ""; filterFlag := "";
                         limitFlag := None; filesFlag := false; addFlag := "thumbsup";
                         delFlag := "" |} demoWorld).2 = [].
Proof.
  refine (proj2 (@emojiRun_error_silent demoEnvironment [] _
                   "Error: ts (timestamp) is required" demoWorld _ _)).
  - by left.
  - reflexivity.
Defined.

(** [slack show 0] sends a request and prints nothing. *)
Lemma showRun_nothing_witness :
  stdout (showRun 1 20 ["0"] noFlags demoWorld).2 = [].
Proof.
  by rewrite (@showRun_nothing demoEnvironment 0 20 "0" [] noFlags 0 "" "" demoPage demoWorld
                eq_refl (Z.le_refl 0) eq_refl eq_refl).
Defined.
