(* ===== verification/CommandLine.v ===== *)
(** * The command line as cobra reads it (main.go, lines 853-1008)

    [main] builds a tree of commands, a root with eight children, gives
    three of them flags and calls [rootCmd.Execute], which finds the
    command the first argument names, reads the flags among the other
    arguments, checks the number of arguments that are left and calls
    the [Run] function of the command.  This file models that path:
    the commands and their flags as main.go declares them, the loop of
    the flag parser over the arguments (long flags with [=] or with
    the value in the next argument, the shorthand [-h], the terminator
    [--], flags and arguments in any order), the conversion of the
    values ([strconv.ParseInt] with base 0, [strconv.ParseBool]), the
    help flag that cobra adds to every command and the check
    [cobra.MaximumNArgs(1)] of [show].  What the library does when the
    first argument is not the name of a command (flags of the root,
    unknown commands and their suggestions, the completion commands),
    the text of a help page and the quoting in an error text are left
    to the class [Cobra].  [program] is [main] on what [Execute] makes
    of the arguments; two lines of [examples] are followed from the
    arguments to what the program does, a [show] with a date and the
    [download]. *)

From S2P Require Import Prelude Utf8 GoStrings Calendar GoTime Slack TimeRange Resolver.
From S2P Require Import Reactions Threads Formatter Paginator Actions Files Main.

Local Open Scope Z_scope.
Local Open Scope go_scope.

(** ** The commands (lines 853-1004) *)

Definition Use (cmd : Command) : string :=
  match cmd with
  | sendCmd => "send [message]"
  | showCmd => "show [limit]"
  | uploadCmd => "upload [filePath]"
  | downloadCmd => "download [fileURL]"
  | emojiCmd => "emoji [ts] [emoji]"
  | editCmd => "edit [ts] [message]"
  | deleteCmd => "delete [ts]"
  | examplesCmd => "examples"
  end.

Definition Short (cmd : Command) : string :=
  match cmd with
  | sendCmd => "Send a message to Slack"
  | showCmd => "Get messages from Slack"
  | uploadCmd => "Upload a file to Slack"
  | downloadCmd => "Download a file from Slack"
  | emojiCmd => "Add or remove a reaction to a Slack message"
  | editCmd => "Update a Slack message"
  | deleteCmd => "Delete a Slack message"
  | examplesCmd => "Show examples for all commands"
  end.

(** The name of a command: its [Use] up to the first space. *)
Definition commandName (cmd : Command) : string :=
  match Index (Use cmd) " " with
  | Some i => takeS i (Use cmd)
  | None => Use cmd
  end.

(** The children of the root, in the order of [AddCommand] (lines
    997-1004). *)
Definition commands : list Command :=
  [sendCmd; showCmd; uploadCmd; downloadCmd; emojiCmd; editCmd; deleteCmd; examplesCmd].

(** The child of the root an argument names, when it names exactly one. *)
Definition findNext (next : string) : option Command :=
  match base.filter (fun cmd => commandName cmd = next) commands with
  | [cmd] => Some cmd
  | _ => None
  end.

(** ** The flags (lines 867, 893-897, 940-941) *)

Inductive FlagKind : Type := stringFlag | intFlag | boolFlag.

#[export] Instance FlagKind_eq_dec : EqDecision FlagKind.
Proof. solve_decision. Defined.

(** The flags a command declares, with the type of their values. *)
Definition declared (cmd : Command) : list (string * FlagKind) :=
  match cmd with
  | sendCmd => [("ts", stringFlag)]
  | showCmd => [("date", stringFlag); ("search", stringFlag); ("filter", stringFlag);
                ("limit", intFlag); ("files", boolFlag)]
  | emojiCmd => [("add", stringFlag); ("del", stringFlag)]
  | _ => []
  end.

(** The flag of a name: one the command declares, or the flag [help]
    that cobra adds to every command before it parses. *)
Definition lookupFlag (cmd : Command) (name : string) : option FlagKind :=
  match list_find (fun d => d.1 = name) (declared cmd) with
  | Some (_, d) => Some d.2
  | None => if bool_decide (name = "help") then Some boolFlag else None
  end.

(** The flag of a one-letter shorthand: [-h] for [help] and no other. *)
Definition lookupShorthand (c : ascii) : option (string * FlagKind) :=
  if bool_decide (c = "h"%char) then Some ("help", boolFlag) else None.

(** The value a flag takes when it is given without one: [true] for a
    flag of type bool, none (the empty string) for the others. *)
Definition noOptDefVal (kind : FlagKind) : string :=
  match kind with
  | boolFlag => "true"
  | _ => ""
  end.

(** ** Values *)

Inductive FlagValue : Type :=
| StringValue (s : string)
| IntValue (n : Z)
| BoolValue (b : bool).

(** The flags that were set, by name. *)
Abbreviation Values := (gmap string FlagValue).

(** [strconv.ParseBool]. *)
Definition ParseBool (str : string) : option bool :=
  if bool_decide (str ∈ ["1"; "t"; "T"; "true"; "TRUE"; "True"]) then Some true
  else if bool_decide (str ∈ ["0"; "f"; "F"; "false"; "FALSE"; "False"]) then Some false
  else None.

(** The base a prefix selects in [strconv.ParseUint(s, 0, _)], and the
    digits after the prefix: [0b], [0o] and [0x] when something follows
    them, else octal after a zero, else decimal. *)
Definition prefixBase (s : string) : Z * string :=
  match s with
  | String c0 (String c1 rest as s1) =>
      if bool_decide (c0 = "0"%char) then
        let long := bool_decide (rest <> "") in
        if long && bool_decide (lower (byteZ c1) = 0x62) then (2, rest)
        else if long && bool_decide (lower (byteZ c1) = 0x6F) then (8, rest)
        else if long && bool_decide (lower (byteZ c1) = 0x78) then (16, rest)
        else (8, s1)
      else (10, s)
  | String c0 "" => if bool_decide (c0 = "0"%char) then (8, "") else (10, s)
  | "" => (10, s)
  end.

(** What the loop of [underscoreOK] saw last. *)
Inductive Saw : Type := sawStart | sawDigit | sawUnderscore | sawOther.

#[export] Instance Saw_eq_dec : EqDecision Saw.
Proof. solve_decision. Defined.

Fixpoint underscoreLoop (hex : bool) (s : string) (saw : Saw) : bool :=
  match s with
  | "" => negb (bool_decide (saw = sawUnderscore))
  | String c s' =>
      let b := byteZ c in
      if isDigit c || hex && (0x61 <=? lower b) && (lower b <=? 0x66)
      then underscoreLoop hex s' sawDigit
      else if bool_decide (c = "_"%char) then
        if bool_decide (saw = sawDigit) then underscoreLoop hex s' sawUnderscore else false
      else if bool_decide (saw = sawUnderscore) then false
      else underscoreLoop hex s' sawOther
  end.

(** [underscoreOK]: underscores stand between digits only, a base
    prefix counting as a digit. *)
Definition underscoreOK (s : string) : bool :=
  let s := match s with
           | String c s' =>
               if bool_decide (c = "-"%char) || bool_decide (c = "+"%char) then s' else s
           | "" => s
           end in
  match s with
  | String c0 (String c1 rest) =>
      let l := lower (byteZ c1) in
      if bool_decide (c0 = "0"%char) &&
         (bool_decide (l = 0x62) || bool_decide (l = 0x6F) || bool_decide (l = 0x78))
      then underscoreLoop (bool_decide (l = 0x78)) rest sawDigit
      else underscoreLoop false s sawStart
  | _ => underscoreLoop false s sawStart
  end.

(** The bytes of a string other than underscores: with base 0 the loop
    of [ParseUint] passes over them. *)
Fixpoint withoutUnderscores (s : string) : string :=
  match s with
  | "" => ""
  | String c s' =>
      if bool_decide (c = "_"%char) then withoutUnderscores s'
      else String c (withoutUnderscores s')
  end.

(** [strconv.ParseUint(s, 0, bitSize)]. *)
Definition ParseUintAuto (s : string) (bitSize : Z) : option Z :=
  if decide (s = "") then None
  else
    let '(base, digits) := prefixBase s in
    match parseUintLoop base (2 ^ bitSize - 1) (withoutUnderscores digits) 0 with
    | None => None
    | Some n =>
        if negb (allBytes (isNot "_") digits) && negb (underscoreOK s) then None
        else Some n
    end.

(** [strconv.ParseInt(s, 0, bitSize)], as the flags of type int call it. *)
Definition ParseIntAuto (s : string) (bitSize : Z) : option Z :=
  match s with
  | "" => None
  | String c s' =>
      let neg := bool_decide (c = "-"%char) in
      let digits := if bool_decide (c = "+"%char) || neg then s' else s in
      match ParseUintAuto digits bitSize with
      | None => None
      | Some un =>
          let cutoff := 2 ^ (bitSize - 1) in
          if negb neg && (cutoff <=? un) then None
          else if neg && (cutoff <? un) then None
          else Some (if neg then - un else un)
      end
  end.

(** The value of a flag from the text on the command line. *)
Definition convert (kind : FlagKind) (value : string) : option FlagValue :=
  match kind with
  | stringFlag => Some (StringValue value)
  | intFlag => IntValue <$> ParseIntAuto value 64
  | boolFlag => BoolValue <$> ParseBool value
  end.

(** ** Errors *)

Inductive FlagError : Type :=
| BadFlagSyntax (s : string)
| UnknownFlag (name : string)
| UnknownShorthand (c : ascii) (shorthands : string)
| NeedsArgument (s : string)
| ShorthandNeedsArgument (c : ascii) (shorthands : string)
| InvalidArgument (value name : string) (kind : FlagKind).

(** What the library decides and the program only passes on. *)
Class Cobra : Type := {
  (** the verb [%q] on a string and on a byte *)
  Quote : string -> string;
  QuoteByte : ascii -> string;
  (** the text of the error of [strconv] for a value *)
  conversionError : FlagKind -> string -> string;
  (** the help page of the root ([None]) or of a command *)
  helpText : option Command -> string;
  (** what [Execute] makes of arguments the first of which is not the
      name of a command *)
  elsewhere : list string -> Parsed;
}.

Section CommandLine.
Context `{Cobra}.

(** The text of an error of the flag parser. *)
Definition errorText (e : FlagError) : string :=
  match e with
  | BadFlagSyntax s => "bad flag syntax: " +:+ s
  | UnknownFlag name => "unknown flag: --" +:+ name
  | UnknownShorthand c shorthands =>
      "unknown shorthand flag: " +:+ QuoteByte c +:+ " in -" +:+ shorthands
  | NeedsArgument s => "flag needs an argument: " +:+ s
  | ShorthandNeedsArgument c shorthands =>
      "flag needs an argument: " +:+ QuoteByte c +:+ " in -" +:+ shorthands
  | InvalidArgument value name kind =>
      "invalid argument " +:+ Quote value +:+ " for "
      +:+ Quote ((if bool_decide (name = "help") then "-h, --" else "--") +:+ name)
      +:+ " flag: " +:+ conversionError kind value
  end.

End CommandLine.

(** ** The flag parser *)

(** [FlagSet.Set]. *)
Definition setFlag (name : string) (kind : FlagKind) (value : string) (vs : Values)
  : FlagError + Values :=
  match convert kind value with
  | Some v => inr (<[name := v]> vs)
  | None => inl (InvalidArgument value name kind)
  end.

(** What a flag argument leaves to do: nothing, the value being set, or
    to take the value from the next argument, which is an error when
    there is none. *)
Inductive Pending : Type :=
| Stored (vs : Values)
| Wants (name : string) (kind : FlagKind) (e : FlagError).

Definition stored (r : FlagError + Values) : FlagError + Pending :=
  match r with
  | inl e => inl e
  | inr vs => inr (Stored vs)
  end.

(** [parseLongArg] on an argument [s] that begins with [--] and is
    longer. *)
Definition parseLongArg (cmd : Command) (s : string) (vs : Values) : FlagError + Pending :=
  let name := dropS 2 s in
  match name with
  | "" => inl (BadFlagSyntax s)
  | String c _ =>
      if bool_decide (c = "-"%char) || bool_decide (c = "="%char) then inl (BadFlagSyntax s)
      else
        let '(name, value) := match Cut name "=" with
                              | Some (name, value) => (name, Some value)
                              | None => (name, None)
                              end in
        match lookupFlag cmd name with
        | None => inl (UnknownFlag name)
        | Some kind =>
            match value with
            | Some value => stored (setFlag name kind value vs)
            | None =>
                if bool_decide (noOptDefVal kind <> "")
                then stored (setFlag name kind (noOptDefVal kind) vs)
                else inr (Wants name kind (NeedsArgument s))
            end
        end
  end.

(** [parseShortArg]: the loop of [parseSingleShortArg] over the letters
    after the dash. *)
Fixpoint parseShortArg (shorthands : string) (vs : Values) : FlagError + Pending :=
  match shorthands with
  | "" => inr (Stored vs)
  | String c rest =>
      if HasPrefix shorthands "test." then inr (Stored vs)
      else
        match lookupShorthand c with
        | None => inl (UnknownShorthand c shorthands)
        | Some (name, kind) =>
            if (2 <? String.length shorthands)%nat && HasPrefix rest "="
            then stored (setFlag name kind (dropS 1 rest) vs)
            else if bool_decide (noOptDefVal kind <> "") then
              match setFlag name kind (noOptDefVal kind) vs with
              | inl e => inl e
              | inr vs => parseShortArg rest vs
              end
            else if bool_decide (rest <> "") then stored (setFlag name kind rest vs)
            else inr (Wants name kind (ShorthandNeedsArgument c shorthands))
        end
  end.

(** An argument that is no flag: empty, not begun with a dash, or a
    dash alone. *)
Definition positional (s : string) : bool :=
  negb (HasPrefix s "-") || bool_decide (String.length s = 1%nat).

(** [parseArgs]: the loop of [FlagSet.Parse] with flags and arguments in
    any order; [args] collects the arguments that are no flags. *)
Fixpoint parseArgs (cmd : Command) (arguments : list string) (vs : Values)
    (args : list string) : FlagError + Values * list string :=
  match arguments with
  | [] => inr (vs, args)
  | s :: arguments =>
      if positional s then parseArgs cmd arguments vs (args ++ [s])
      else if bool_decide (s = "--") then inr (vs, args ++ arguments)
      else
        match (if HasPrefix s "--" then parseLongArg cmd s vs
               else parseShortArg (dropS 1 s) vs) with
        | inl e => inl e
        | inr (Stored vs) => parseArgs cmd arguments vs args
        | inr (Wants name kind e) =>
            match arguments with
            | [] => inl e
            | value :: arguments =>
                match setFlag name kind value vs with
                | inl e => inl e
                | inr vs => parseArgs cmd arguments vs args
                end
            end
        end
  end.

(** ** What the [Run] functions read *)

Definition GetString (vs : Values) (name : string) : string :=
  match vs !! name with
  | Some (StringValue s) => s
  | _ => ""
  end.

Definition GetBool (vs : Values) (name : string) : bool :=
  match vs !! name with
  | Some (BoolValue b) => b
  | _ => false
  end.

(** [None] when the flag was not given: its default is read from the
    configuration (line 896). *)
Definition GetInt (vs : Values) (name : string) : option Z :=
  match vs !! name with
  | Some (IntValue n) => Some n
  | _ => None
  end.

Definition flagsFrom (vs : Values) : Flags :=
  {| tsFlag := GetString vs "ts";
     dateFlag := GetString vs "date";
     searchFlag := GetString vs "search";
     filterFlag := GetString vs "filter";
     limitFlag := GetInt vs "limit";
     filesFlag := GetBool vs "files";
     addFlag := GetString vs "add";
     delFlag := GetString vs "del" |}.

(** ** [Execute] *)

(** The check of the arguments: [cobra.MaximumNArgs(1)] for [show]
    (line 872), none for the other commands. *)
Definition validateArgs (cmd : Command) (args : list string) : option string :=
  match cmd with
  | showCmd =>
      if (1 <? length args)%nat
      then Some ("accepts at most 1 arg(s), received " +:+ FormatInt (Z.of_nat (length args)))
      else None
  | _ => None
  end.

Section Execute.
Context `{Cobra}.

(** What cobra does with a command it found and the arguments after
    its name. *)
Definition execute (cmd : Command) (a : list string) : Parsed :=
  match parseArgs cmd a ∅ [] with
  | inl e => Rejected (errorText e)
  | inr (vs, args) =>
      if GetBool vs "help" then Help (helpText (Some cmd))
      else
        match validateArgs cmd args with
        | Some err => Rejected err
        | None => Run cmd args (flagsFrom vs)
        end
  end.

(** [rootCmd.Execute()] on the arguments of the process after its
    name. *)
Definition Execute (args : list string) : Parsed :=
  match args with
  | [] => Help (helpText None)
  | next :: a =>
      match findNext next with
      | Some cmd => execute cmd a
      | None => elsewhere args
      end
  end.

Context `{Environment}.

(** The program on its arguments. *)
Definition program (fuel : nat) (args : list string) : M World bool :=
  main fuel (Execute args).

End Execute.

(** A library that quotes with double and single quotes and has no
    more to say. *)
Definition demoCobra : Cobra :=
  {| Quote := fun s => quote +:+ s +:+ quote;
     QuoteByte := fun c => "'" +:+ String c "" +:+ "'";
     conversionError := fun _ _ => "invalid syntax";
     helpText := fun _ => "Usage:" +:+ nl;
     elsewhere := fun _ => Rejected "unknown command" |}.

(** ** What the theorems speak of *)

(** A name a flag can have: not empty, no [=] in it, no dash in front. *)
Definition flagName (name : string) : bool :=
  negb (bool_decide (name = "")) && allBytes (isNot "=") name && negb (HasPrefix name "-").

(** A flag and its value in one argument. *)
Definition longFlag (name value : string) : string := "--" +:+ name +:+ "=" +:+ value.

(** The verb [%t]. *)
Definition FormatBool (b : bool) : string := if b then "true" else "false".

(** The values after a list of assignments. *)
Fixpoint assign (cmd : Command) (l : list (string * string)) (vs : Values) : option Values :=
  match l with
  | [] => Some vs
  | (name, value) :: l =>
      kind ← lookupFlag cmd name ;
      v ← convert kind value ;
      assign cmd l (<[name := v]> vs)
  end.

(** The type of a value. *)
Definition kindOf (v : FlagValue) : FlagKind :=
  match v with
  | StringValue _ => stringFlag
  | IntValue _ => intFlag
  | BoolValue _ => boolFlag
  end.

(** The values are those of flags of the command, each of the type its
    flag was declared with. *)
Definition typed (cmd : Command) (vs : Values) : Prop :=
  forall name v, vs !! name = Some v -> lookupFlag cmd name = Some (kindOf v).

Definition typedPending (cmd : Command) (p : Pending) : Prop :=
  match p with
  | Stored vs => typed cmd vs
  | Wants name kind _ => lookupFlag cmd name = Some kind
  end.

(** The flags with those the command does not declare at their default. *)
Definition declares (cmd : Command) (name : string) : bool :=
  bool_decide (name ∈ flagsOf cmd).

Definition restrict (cmd : Command) (fl : Flags) : Flags :=
  {| tsFlag := if declares cmd "ts" then tsFlag fl else "";
     dateFlag := if declares cmd "date" then dateFlag fl else "";
     searchFlag := if declares cmd "search" then searchFlag fl else "";
     filterFlag := if declares cmd "filter" then filterFlag fl else "";
     limitFlag := if declares cmd "limit" then limitFlag fl else None;
     filesFlag := if declares cmd "files" then filesFlag fl else false;
     addFlag := if declares cmd "add" then addFlag fl else "";
     delFlag := if declares cmd "del" then delFlag fl else "" |}.

(** * Theorems *)

(** ** Numbers on the command line *)

Lemma FormatInt_no_sign n :
  0 <= n -> exists c t, FormatInt n = String c t /\ c <> "-"%char /\ c <> "+"%char.
Proof.
  intros Hn. destruct (FormatInt_digits n Hn) as (Hd & _ & Hne & _).
  destruct (FormatInt n) as [|c t]; [done|]. exists c, t. split; [done|].
  cbn [allBytes] in Hd. apply andb_prop in Hd as [Hc _]. by apply isDigit_not_sign.
Qed.

Lemma allBytes_isDigit_underscore s :
  allBytes isDigit s = true -> allBytes (isNot "_") s = true /\ withoutUnderscores s = s.
Proof.
  induction s as [|c s IH]; [done|]. cbn [allBytes withoutUnderscores].
  intros [Hc Hs]%andb_prop. destruct (IH Hs) as [-> ->].
  assert (c <> "_"%char) as Hu by (by intros ->).
  unfold isNot at 1. by rewrite !bool_decide_eq_false_2.
Qed.

(** [ParseUint] with base 0 reads what [FormatInt] prints. *)
Lemma ParseUintAuto_FormatInt n bitSize :
  0 <= n < 2 ^ bitSize -> 0 <= bitSize <= 64 ->
  ParseUintAuto (FormatInt n) bitSize = Some n.
Proof.
  intros Hn Hb. destruct (FormatInt_digits n ltac:(lia)) as (Hd & Hv & Hne & Hlead).
  assert (2 ^ bitSize <= 2 ^ 64) by (apply Z.pow_le_mono_r; lia).
  unfold ParseUintAuto. rewrite decide_False by done.
  destruct (decide (n = 0)) as [->|Hpos]; [by destruct bitSize|].
  destruct Hlead as (c & t & Hs & Hc); [lia|]. rewrite Hs in *.
  assert (prefixBase (String c t) = (10, String c t)) as ->.
  { unfold prefixBase. destruct t; by rewrite bool_decide_eq_false_2. }
  destruct (allBytes_isDigit_underscore _ Hd) as [-> ->]. cbn [negb andb].
  rewrite parseUintLoop_decimal by (done || lia). by rewrite Hv.
Qed.

(** Reading what [FormatInt] prints gives the number back, for every
    number of 64 bits: with the base 0 of an int flag, and with
    [strconv.Atoi], which [show] calls on its argument. *)
Lemma ParseIntAuto_FormatInt n :
  - 2 ^ 63 <= n < 2 ^ 63 -> ParseIntAuto (FormatInt n) 64 = Some n.
Proof.
  intros Hn. destruct (Z.lt_ge_cases n 0) as [Hneg|Hpos].
  - rewrite FormatInt_negative, app_cons_s, app_nil_l_s by done. unfold ParseIntAuto.
    rewrite bool_decide_eq_false_2, bool_decide_eq_true_2 by done. cbn [orb negb andb].
    rewrite ParseUintAuto_FormatInt by lia.
    rewrite (proj2 (Z.ltb_ge _ _)) by lia. f_equal. lia.
  - destruct (FormatInt_no_sign n Hpos) as (c & t & Hs & Hm & Hp).
    unfold ParseIntAuto. rewrite Hs, !bool_decide_eq_false_2 by done.
    cbn [orb negb andb]. rewrite <- Hs, ParseUintAuto_FormatInt by lia.
    by rewrite (proj2 (Z.leb_gt _ _)) by lia.
Qed.

Lemma Atoi_FormatInt n : - 2 ^ 63 <= n < 2 ^ 63 -> Atoi (FormatInt n) = Some n.
Proof.
  intros Hn. unfold Atoi. destruct (Z.lt_ge_cases n 0) as [Hneg|Hpos].
  - rewrite FormatInt_negative, app_cons_s, app_nil_l_s by done.
    rewrite bool_decide_eq_true_2 by done.
    destruct (FormatInt_digits (- n) ltac:(lia)) as (-> & -> & Hne & _).
    rewrite bool_decide_eq_false_2 by done.
    rewrite (proj2 (Z.leb_le _ _)) by lia. f_equal. lia.
  - destruct (FormatInt_no_sign n Hpos) as (c & t & Hs & Hm & Hp).
    destruct (FormatInt_digits n Hpos) as (Hd & Hv & Hne & _).
    rewrite Hs, !bool_decide_eq_false_2 by done. rewrite <- Hs, Hd, Hv.
    by rewrite (proj2 (Z.ltb_lt _ _)) by lia.
Qed.

(** ** The flag parser *)

Lemma lookupFlag_flagName cmd name kind : lookupFlag cmd name = Some kind -> flagName name = true.
Proof.
  unfold lookupFlag. destruct cmd; cbn [declared list_find]; unfold list_find; cbn;
    repeat case_decide; subst; try done; case_bool_decide; by subst.
Qed.

Lemma flagName_first name :
  flagName name = true ->
  exists c rest, name = String c rest /\ c <> "-"%char /\ c <> "="%char.
Proof.
  unfold flagName. destruct name as [|c rest]; [done|].
  intros [[_ He]%andb_prop Hd]%andb_prop. exists c, rest. split; [done|].
  cbn [allBytes HasPrefix] in *. apply andb_prop in He as [He _].
  unfold isNot in He. apply negb_true_iff, bool_decide_eq_false in He.
  split; [|done]. intros ->. by rewrite decide_True, HasPrefix_nil in Hd.
Qed.

Lemma positional_dashes s : positional ("--" +:+ s) = false.
Proof.
  unfold positional. rewrite !app_cons_s, app_nil_l_s. cbn [HasPrefix].
  rewrite decide_True by done. by rewrite bool_decide_eq_false_2.
Qed.

(** A long flag with its value in the same argument. *)
Lemma parseLongArg_value cmd name value vs :
  flagName name = true ->
  parseLongArg cmd (longFlag name value) vs =
  match lookupFlag cmd name with
  | None => inl (UnknownFlag name)
  | Some kind => stored (setFlag name kind value vs)
  end.
Proof.
  intros Hn. pose proof Hn as (c & rest & -> & Hd & He)%flagName_first.
  apply andb_prop in Hn as [[_ Ha]%andb_prop _].
  unfold parseLongArg, longFlag.
  rewrite (app_cons_s "-" "-"), (app_cons_s "-" ""), app_nil_l_s, (app_cons_s c rest).
  cbn [dropS]. rewrite !bool_decide_eq_false_2 by done. cbn [orb].
  rewrite <- (app_cons_s c rest). unfold Cut.
  rewrite (Index_at "=" "" _ value Ha).
  replace (String.length (String c rest) + String.length "=")%nat
    with (String.length (String c rest +:+ "=")) by (by rewrite length_app_s).
  by rewrite <- (app_assoc_s _ "=" value), dropS_app, app_assoc_s, takeS_app.
Qed.

(** A long flag alone. *)
Lemma parseLongArg_alone cmd name vs :
  flagName name = true ->
  parseLongArg cmd ("--" +:+ name) vs =
  match lookupFlag cmd name with
  | None => inl (UnknownFlag name)
  | Some kind =>
      if bool_decide (noOptDefVal kind <> "")
      then stored (setFlag name kind (noOptDefVal kind) vs)
      else inr (Wants name kind (NeedsArgument ("--" +:+ name)))
  end.
Proof.
  intros Hn. pose proof Hn as (c & rest & -> & Hd & He)%flagName_first.
  apply andb_prop in Hn as [[_ Ha]%andb_prop _].
  unfold parseLongArg. rewrite (app_cons_s "-" "-"), (app_cons_s "-" ""), app_nil_l_s.
  cbn [dropS]. rewrite !bool_decide_eq_false_2 by done. cbn [orb].
  unfold Cut. by rewrite (Index_absent "=" "" _ Ha).
Qed.

Lemma not_terminator name : flagName name = true -> "--" +:+ name <> "--".
Proof. intros (c & rest & -> & _)%flagName_first. done. Qed.

Lemma HasPrefix_dashes s : HasPrefix ("--" +:+ s) "--" = true.
Proof. apply HasPrefix_app. Qed.

(** Arguments that are no flags are passed on in order. *)
Lemma parseArgs_positional cmd a rest vs args :
  Forall (fun s => positional s = true) a ->
  parseArgs cmd (a ++ rest) vs args = parseArgs cmd rest vs (args ++ a).
Proof.
  revert args. induction a as [|s a IH]; intros args Ha; [by rewrite app_nil_r|].
  apply Forall_cons in Ha as [Hs Ha]. cbn [parseArgs app]. rewrite Hs, IH by done.
  by rewrite <- app_assoc.
Qed.

(** After the terminator nothing is a flag. *)
Lemma parseArgs_terminator cmd a vs args :
  parseArgs cmd ("--" :: a) vs args = inr (vs, args ++ a).
Proof. reflexivity. Qed.

Lemma parseArgs_long_value cmd name value rest vs args :
  flagName name = true ->
  parseArgs cmd (longFlag name value :: rest) vs args =
  match lookupFlag cmd name with
  | None => inl (UnknownFlag name)
  | Some kind =>
      match setFlag name kind value vs with
      | inl e => inl e
      | inr vs => parseArgs cmd rest vs args
      end
  end.
Proof.
  intros Hn. cbn [parseArgs]. rewrite parseLongArg_value by done. unfold longFlag.
  rewrite positional_dashes, HasPrefix_dashes.
  rewrite bool_decide_eq_false_2
    by (pose proof Hn as (c & t & -> & _)%flagName_first; done).
  destruct (lookupFlag cmd name) as [kind|]; [|done].
  by destruct (setFlag name kind value vs).
Qed.

Lemma parseArgs_long_alone cmd name rest vs args :
  flagName name = true ->
  parseArgs cmd (("--" +:+ name) :: rest) vs args =
  match lookupFlag cmd name with
  | None => inl (UnknownFlag name)
  | Some kind =>
      if bool_decide (noOptDefVal kind <> "") then
        match setFlag name kind (noOptDefVal kind) vs with
        | inl e => inl e
        | inr vs => parseArgs cmd rest vs args
        end
      else
        match rest with
        | [] => inl (NeedsArgument ("--" +:+ name))
        | value :: rest =>
            match setFlag name kind value vs with
            | inl e => inl e
            | inr vs => parseArgs cmd rest vs args
            end
        end
  end.
Proof.
  intros Hn. cbn [parseArgs].
  rewrite positional_dashes, HasPrefix_dashes, bool_decide_eq_false_2
    by by apply not_terminator.
  rewrite parseLongArg_alone by done.
  destruct (lookupFlag cmd name) as [kind|]; [|done].
  case_bool_decide; [|done]. by destruct (setFlag _ _ _ _).
Qed.

(** Assignments written as [--name=value] before a terminator are read
    back, and what follows the terminator is taken as it is. *)
Lemma parseArgs_assign cmd l a vs vs' args :
  assign cmd l vs = Some vs' ->
  parseArgs cmd (map (fun nv => longFlag nv.1 nv.2) l ++ "--" :: a) vs args
  = inr (vs', args ++ a).
Proof.
  revert vs. induction l as [|[name value] l IH]; intros vs Hl.
  - by injection Hl as ->.
  - cbn [assign] in Hl. destruct (lookupFlag cmd name) as [kind|] eqn:Hk; [|done].
    cbn [mbind option_bind] in Hl. destruct (convert kind value) as [v|] eqn:Hv; [|done].
    cbn [mbind option_bind] in Hl. cbn [map app fst snd].
    rewrite parseArgs_long_value, Hk by by eapply lookupFlag_flagName.
    unfold setFlag. rewrite Hv. by apply IH.
Qed.

(** ** The values are well typed *)

Lemma typed_empty cmd : typed cmd ∅.
Proof. intros name v. by rewrite lookup_empty. Qed.

Lemma convert_kindOf kind value v : convert kind value = Some v -> kindOf v = kind.
Proof. destruct kind; cbn; intros; by simplify_option_eq. Qed.

Lemma setFlag_typed cmd name kind value vs vs' :
  lookupFlag cmd name = Some kind -> typed cmd vs ->
  setFlag name kind value vs = inr vs' -> typed cmd vs'.
Proof.
  intros Hk Hvs. unfold setFlag. destruct (convert kind value) as [v|] eqn:Hv; [|done].
  intros [= <-] name' v'. destruct (decide (name' = name)) as [->|Hne].
  - rewrite lookup_insert_eq. intros [= <-]. by rewrite (convert_kindOf _ _ _ Hv).
  - rewrite lookup_insert_ne by done. apply Hvs.
Qed.

Lemma stored_typed cmd name kind value vs p :
  lookupFlag cmd name = Some kind -> typed cmd vs ->
  stored (setFlag name kind value vs) = inr p -> typedPending cmd p.
Proof.
  intros Hk Hvs. destruct (setFlag name kind value vs) as [e|vs'] eqn:Hs; [done|].
  intros [= <-]. by eapply setFlag_typed.
Qed.

Lemma parseLongArg_typed cmd s vs p :
  typed cmd vs -> parseLongArg cmd s vs = inr p -> typedPending cmd p.
Proof.
  intros Hvs. unfold parseLongArg. destruct (dropS 2 s) as [|c rest]; [done|].
  destruct (_ || _); [done|].
  destruct (match Cut _ _ with Some _ => _ | None => _ end) as [name value].
  destruct (lookupFlag cmd name) as [kind|] eqn:Hk; [|done].
  destruct value as [value|]; [by apply stored_typed|].
  case_bool_decide; [by apply stored_typed|]. by intros [= <-].
Qed.

Lemma lookupShorthand_lookupFlag cmd c name kind :
  lookupShorthand c = Some (name, kind) -> lookupFlag cmd name = Some kind.
Proof. unfold lookupShorthand. case_bool_decide; [|done]. intros [= <- <-]. by destruct cmd. Qed.

Lemma parseShortArg_typed cmd shorthands vs p :
  typed cmd vs -> parseShortArg shorthands vs = inr p -> typedPending cmd p.
Proof.
  revert vs. induction shorthands as [|c rest IH]; intros vs Hvs; cbn [parseShortArg].
  { by intros [= <-]. }
  destruct (HasPrefix _ "test."); [by intros [= <-]|].
  destruct (lookupShorthand c) as [[name kind]|] eqn:Hc; [|done].
  apply (lookupShorthand_lookupFlag cmd) in Hc.
  destruct (_ && _); [by apply stored_typed|].
  case_bool_decide.
  - destruct (setFlag _ _ _ _) as [e|vs'] eqn:Hs; [done|].
    apply IH. by eapply setFlag_typed.
  - case_bool_decide; [by apply stored_typed|]. by intros [= <-].
Qed.

(** The loop keeps the values well typed and passes on, in their order,
    arguments of the command line and nothing else. *)
Lemma parseArgs_typed cmd arguments vs args vs' args' :
  typed cmd vs -> parseArgs cmd arguments vs args = inr (vs', args') ->
  typed cmd vs' /\ exists l, args' = args ++ l /\ sublist l arguments.
Proof.
  remember (length arguments) as n eqn:Hlen. revert arguments Hlen vs args.
  induction (lt_wf n) as [n _ IH]. intros [|s a] -> vs args Hvs; cbn [parseArgs].
  { intros [= <- <-]. split; [done|]. exists []. by rewrite app_nil_r. }
  assert (forall a' vs1, (length a' <= length a)%nat -> typed cmd vs1 -> sublist a' a ->
            parseArgs cmd a' vs1 args = inr (vs', args') ->
            typed cmd vs' /\ exists l, args' = args ++ l /\ sublist l (s :: a)) as Hrec.
  { intros a' vs1 Hle Hvs1 Hsub Hp.
    destruct (IH (length a') ltac:(cbn; lia) a' eq_refl vs1 args Hvs1 Hp) as (Ht & l & -> & Hl).
    split; [done|]. exists l. split; [done|]. apply sublist_cons. by etrans. }
  destruct (positional s).
  { intros Hp. destruct (IH (length a) ltac:(cbn; lia) a eq_refl vs _ Hvs Hp)
      as (Ht & l & -> & Hl).
    split; [done|]. exists (s :: l). rewrite <- app_assoc. split; [done|].
    by apply sublist_skip. }
  case_bool_decide.
  { intros [= <- <-]. split; [done|]. exists a. split; [done|]. by apply sublist_cons. }
  destruct (if HasPrefix s "--" then _ else _) as [e|p] eqn:Hp; [done|].
  assert (typedPending cmd p) as Hpend
    by (destruct (HasPrefix s "--"); eauto using parseLongArg_typed, parseShortArg_typed).
  destruct p as [vs1|name kind e]; [by apply Hrec|].
  destruct a as [|value a]; [done|].
  destruct (setFlag name kind value vs) as [e'|vs1] eqn:Hs; [done|].
  apply (Hrec a vs1); [cbn; lia|by eapply setFlag_typed|by apply sublist_cons].
Qed.

(** ** [Execute] *)

Section ExecuteProperties.
Context `{Cobra}.

Lemma flagsFrom_empty : flagsFrom ∅ = noFlags.
Proof. reflexivity. Qed.

Lemma Execute_arguments next cmd a :
  findNext next = Some cmd -> Forall (fun s => positional s = true) a ->
  validateArgs cmd a = None ->
  Execute (next :: a) = Run cmd a noFlags.
Proof.
  intros Hc Ha Hv. unfold Execute, execute. rewrite Hc.
  rewrite <- (app_nil_r a) at 1. rewrite parseArgs_positional by done.
  cbn [parseArgs app]. by rewrite Hv.
Qed.

(** A flag the command does not declare ends the program before
    the command runs: when the first argument names a command and,
    after arguments that are no flags, an argument [--name] follows
    whose name is none of the command's flags nor [help], [Execute]
    returns the error [unknown flag: --name], whatever comes after.
    The lines of [examples] that give [--ts] and [--msg] to [edit] and
    [--ts] to [delete] are such command lines. *)
Theorem Execute_unknown_flag next cmd before name rest :
  findNext next = Some cmd -> Forall (fun s => positional s = true) before ->
  flagName name = true -> lookupFlag cmd name = None ->
  Execute (next :: before ++ ("--" +:+ name) :: rest)
  = Rejected ("unknown flag: --" +:+ name).
Proof.
  intros Hc Hb Hn Hl. unfold Execute, execute. rewrite Hc.
  by rewrite parseArgs_positional, parseArgs_long_alone, Hl.
Qed.

(** C40. The flags of [show] are read back as they were written: for
    any date, search pattern, filter, limit of 64 bits and files-only
    choice, written as [--name=value] arguments before the terminator
    [--], and at most one argument after it (which may begin with a
    dash), [Execute] runs [show] with that argument and those flags,
    the flags of the other commands at their defaults. *)
Theorem Execute_show date search filter n files a :
  - 2 ^ 63 <= n < 2 ^ 63 -> (length a <= 1)%nat ->
  Execute ("show" :: [longFlag "date" date; longFlag "search" search;
                      longFlag "filter" filter; longFlag "limit" (FormatInt n);
                      longFlag "files" (FormatBool files); "--"] ++ a)
  = Run showCmd a {| tsFlag := ""; dateFlag := date; searchFlag := search;
                     filterFlag := filter; limitFlag := Some n; filesFlag := files;
                     addFlag := ""; delFlag := "" |}.
Proof.
  intros Hn Ha. unfold Execute, execute.
  change (findNext "show") with (Some showCmd). cbv iota.
  rewrite (parseArgs_assign showCmd
             [("date", date); ("search", search); ("filter", filter);
              ("limit", FormatInt n); ("files", FormatBool files)] a ∅
             (<["files" := BoolValue files]> (<["limit" := IntValue n]>
                (<["filter" := StringValue filter]> (<["search" := StringValue search]>
                   (<["date" := StringValue date]> ∅)))))).
  - unfold validateArgs. rewrite (proj2 (Nat.ltb_ge _ _)) by done.
    unfold flagsFrom, GetBool, GetString, GetInt. by simplify_map_eq.
  - cbn [assign]. change (lookupFlag showCmd "date") with (Some stringFlag).
    change (lookupFlag showCmd "search") with (Some stringFlag).
    change (lookupFlag showCmd "filter") with (Some stringFlag).
    change (lookupFlag showCmd "limit") with (Some intFlag).
    change (lookupFlag showCmd "files") with (Some boolFlag).
    cbn [mbind option_bind convert fmap option_fmap option_map].
    rewrite ParseIntAuto_FormatInt by done. by destruct files.
Qed.

Lemma typed_undeclared cmd vs name :
  typed cmd vs -> lookupFlag cmd name = None -> vs !! name = None.
Proof.
  intros Hvs Hn. destruct (vs !! name) as [v|] eqn:Hv; [|done].
  apply Hvs in Hv. congruence.
Qed.

Lemma flagsOf_declared cmd : flagsOf cmd = (declared cmd).*1.
Proof. by destruct cmd. Qed.

(** Flags the command does not declare are at their defaults. *)
Lemma restrict_flagsFrom cmd vs : typed cmd vs -> restrict cmd (flagsFrom vs) = flagsFrom vs.
Proof.
  intros Hvs. unfold restrict, flagsFrom, GetString, GetInt, GetBool.
  destruct cmd; cbn [tsFlag dateFlag searchFlag filterFlag limitFlag filesFlag addFlag delFlag];
    repeat match goal with
           | |- context [if declares ?c ?n then _ else _] =>
               let b := eval vm_compute in (declares c n) in
               change (declares c n) with b; cbv iota
           end;
    repeat match goal with
           | |- context [vs !! ?n] =>
               rewrite (typed_undeclared _ vs n Hvs) by done
           end; done.
Qed.

(** C39. What a [Run] function is called with: when [cobra] runs a
    command, it is the command that was found; the flags are well
    formed for it, those it does not declare being at their defaults;
    the arguments are arguments of the command line, in their order;
    and [show] has at most one. *)
Theorem execute_Run cmd a cmd' args fl :
  execute cmd a = Run cmd' args fl ->
  cmd' = cmd /\ restrict cmd fl = fl /\ sublist args a /\
  (cmd = showCmd -> (length args <= 1)%nat).
Proof.
  unfold execute. destruct (parseArgs cmd a ∅ []) as [e|[vs args0]] eqn:Hp; [done|].
  destruct (parseArgs_typed _ _ _ _ _ _ (typed_empty cmd) Hp) as (Hvs & l & -> & Hl).
  cbn [app]. destruct (GetBool vs "help"); [done|].
  destruct (validateArgs cmd l) as [err|] eqn:Hv; [done|]. intros [= <- <- <-].
  split; [done|]. split; [by apply restrict_flagsFrom|]. split; [done|].
  intros ->. cbn [validateArgs] in Hv. destruct (Nat.ltb_spec 1 (length l)); [done|lia].
Qed.

(** A limit that is negative cannot be given as the argument of [show]
    unless it follows the terminator: its sign makes it a group of
    shorthand flags, of which the first digit is none. *)
Lemma Execute_negative_limit n :
  n < 0 ->
  exists c rest, FormatInt (- n) = String c rest /\
    Execute ["show"; FormatInt n] = Rejected (errorText (UnknownShorthand c (String c rest))).
Proof.
  intros Hn. destruct (FormatInt_digits (- n) ltac:(lia)) as (Hd & _ & Hne & _).
  destruct (FormatInt (- n)) as [|c rest] eqn:Hs; [done|]. exists c, rest. split; [done|].
  cbn [allBytes] in Hd. apply andb_prop in Hd as [Hc _].
  assert (c <> "-"%char /\ c <> "t"%char /\ c <> "h"%char) as (Hm & Ht & Hh)
    by (repeat split; intros ->; done).
  unfold Execute, execute. change (findNext "show") with (Some showCmd). cbv iota.
  rewrite FormatInt_negative, Hs, app_cons_s, app_nil_l_s by done.
  cbn [parseArgs HasPrefix dropS parseShortArg].
  assert (positional (String "-" (String c rest)) = false) as -> by done.
  rewrite bool_decide_eq_false_2 by congruence.
  rewrite decide_True, (decide_False (P := c = "-"%char)), (decide_False (P := c = "t"%char)) by done.
  unfold lookupShorthand. by rewrite bool_decide_eq_false_2.
Qed.

End ExecuteProperties.

Section Scenario.
Context `{Cobra} `{Environment}.

Lemma positional_FormatInt n : 0 <= n -> positional (FormatInt n) = true.
Proof.
  intros (c & t & -> & Hm & _)%FormatInt_no_sign. unfold positional. cbn [HasPrefix].
  by rewrite decide_False.
Qed.

(** A limit and a date: [show N --date D]. *)
Lemma Execute_show_date n date :
  0 <= n ->
  Execute ["show"; FormatInt n; "--date"; date]
  = Run showCmd [FormatInt n]
      {| tsFlag := ""; dateFlag := date; searchFlag := ""; filterFlag := "";
         limitFlag := None; filesFlag := false; addFlag := ""; delFlag := "" |}.
Proof.
  intros Hn. unfold Execute, execute. change (findNext "show") with (Some showCmd).
  cbv iota. change [FormatInt n; "--date"; date] with ([FormatInt n] ++ ["--" +:+ "date"; date]).
  rewrite parseArgs_positional by (repeat constructor; by apply positional_FormatInt).
  rewrite parseArgs_long_alone by done.
  change (lookupFlag showCmd "date") with (Some stringFlag). cbn.
  unfold flagsFrom, GetBool, GetString, GetInt. by simplify_map_eq.
Qed.

(** C18. [slack show N --date YYYY-MM-DD] from the command line to the
    request: with both configuration files in place, a limit [n] that is
    not negative and a date of the calendar, the program loads the
    configuration, prints its build time, and does what [fetchMessages]
    does in its one round: it sends a single request for [n] messages
    between the midnight that begins the day in UTC and the instant
    86399 seconds later, renders the first [n] accepted messages of the
    page in chronological order and prints them. *)
Theorem program_show_date fuel n y m d c e w :
  (0 < fuel)%nat -> 0 <= n < 2 ^ 63 -> 0 <= y < 10000 -> validDate y m d = true ->
  configFile w = Holds c -> emojiFile w = Holds e ->
  program fuel ["show"; FormatInt n; "--date"; FormatDate y m d] w
  = (Print ("Slack CLI (build time: " +:+ buildTime +:+ ")" +:+ nl) ;;
     r <- inSession (showOnce n (FormatDate y m d) (FormatInt (Date y m d 0 0 0))
                       (FormatInt (Date y m d 0 0 0 + 86399)) "" "" false) ;;
     finish r) (loadedWorld c e w).
Proof.
  intros Hfuel Hn Hy Hv Hc He. destruct fuel as [|fuel]; [lia|].
  unfold program, main, afterStartup. rewrite Execute_show_date by lia.
  rewrite (bind_Ret _ _ _ _ _ (checkAndLoadConfig_loaded w c e Hc He)).
  apply bind_ext. intros [] w1. rewrite bind_gets.
  unfold runCommand, showRun, showLimit. rewrite Atoi_FormatInt, bind_ret_l by lia.
  unfold fetchMessages. cbn [dateFlag searchFlag filterFlag filesFlag].
  rewrite dateRangeBounds_single by done.
  unfold bind. by rewrite inSession_historyLoop.
Qed.

(** The argument of [show] wins over the flag [--limit]. *)
Lemma showLimit_argument defaultLimit n rest flags w :
  - 2 ^ 63 <= n < 2 ^ 63 ->
  showLimit defaultLimit (FormatInt n :: rest) flags w = (Ret n, w).
Proof. intros Hn. unfold showLimit. by rewrite Atoi_FormatInt. Qed.

(** One argument and no flag: [download URL]. *)
Lemma Execute_download url :
  positional url = true -> Execute ["download"; url] = Run downloadCmd [url] noFlags.
Proof.
  intros Hu. unfold Execute, execute. change (findNext "download") with (Some downloadCmd).
  cbv iota. change [url] with ([url] ++ []).
  by rewrite parseArgs_positional by (by repeat constructor).
Qed.

(** The world in which the command runs: the files are loaded and the
    line with the build time is printed. *)
Lemma program_Run fuel cmd args flags a c e w :
  Execute a = Run cmd args flags -> configFile w = Holds c -> emojiFile w = Holds e ->
  program fuel a w
  = runCommand fuel (DefaultShowLimit c) cmd args flags
      (addOutput ("Slack CLI (build time: " +:+ buildTime +:+ ")" +:+ nl)
         (loadedWorld c e w)).
Proof.
  intros Ha Hc He. unfold program, main, afterStartup. rewrite Ha.
  rewrite (bind_Ret _ _ _ _ _ (checkAndLoadConfig_loaded w c e Hc He)).
  unfold bind at 1, Print, modify. cbn [fst snd]. rewrite bind_gets.
  by destruct e.
Qed.

(** C32. The line [./slack download https://file.url] of [examples], run
    as it is written.  With both configuration files in place, the URL
    parsed as [url.Parse] does (it has no path), an answer of the
    server, no file named [(1).] yet and a file that can be created:
    the last element of the empty path is a dot, which [os.Stat] finds,
    so the numbering meant for duplicates takes over, and the program
    leaves the directory as it was but for the body, stored in a file
    named [(1).]. *)
Theorem program_download_example fuel c e body w :
  configFile w = Holds c -> emojiFile w = Holds e ->
  urlPath "https://file.url" = Some "" ->
  download (requests w) (fileRequest c "https://file.url") = inr body ->
  directory w !! "(1)." = None -> createFileFails "(1)." = false ->
  directory (program fuel ["download"; "https://file.url"] w).2
  = <["(1)." := body]> (directory w).
Proof.
  intros Hc He Hu Hd Hf Hn.
  rewrite (program_Run _ _ _ _ _ c e w (Execute_download "https://file.url" eq_refl)) by done.
  cbn [runCommand downloadRun].
  set (w1 := addOutput _ _).
  assert (requests w1 = requests w /\ config w1 = c /\ directory w1 = directory w)
    as (Hr & Hcf & Hdir) by by destruct e.
  rewrite <- Hdir.
  apply (getFile_without_name _ "" body w1 Hu); [set_solver|by rewrite Hr, Hcf|..].
  all: by rewrite ?Hdir, decide_True.
Qed.

End Scenario.

(** ** The theorems at work *)

(** The lines of [examples] for [edit] and [delete] with flags. *)
Lemma Execute_unknown_flag_witness :
  @Execute demoCobra ["edit"; "--ts"; "1234567890.123456"; "--msg"; "Updated message"]
  = Rejected "unknown flag: --ts" /\
  @Execute demoCobra ["delete"; "--ts"; "1234567890.123456"] = Rejected "unknown flag: --ts".
Proof.
  split.
  - apply (@Execute_unknown_flag demoCobra "edit" editCmd [] "ts"
             ["1234567890.123456"; "--msg"; "Updated message"]); by vm_compute.
  - apply (@Execute_unknown_flag demoCobra "delete" deleteCmd [] "ts"
             ["1234567890.123456"]); by vm_compute.
Defined.

Lemma Execute_show_witness :
  @Execute demoCobra
    ["show"; "--date=2023-12-31"; "--search=keyword"; "--filter="; "--limit=500";
     "--files=false"; "--"; "-5"]
  = Run showCmd ["-5"]
      {| tsFlag := ""; dateFlag := "2023-12-31"; searchFlag := "keyword"; filterFlag := "";
         limitFlag := Some 500; filesFlag := false; addFlag := ""; delFlag := "" |}.
Proof.
  apply (@Execute_show demoCobra "2023-12-31" "keyword" "" 500 false ["-5"]); [lia|done].
Defined.

Lemma execute_Run_witness :
  emojiCmd = emojiCmd /\
  restrict emojiCmd
    {| tsFlag := ""; dateFlag := ""; searchFlag := ""; filterFlag := "";
       limitFlag := None; filesFlag := false; addFlag := "thumbsup"; delFlag := "" |}
  = {| tsFlag := ""; dateFlag := ""; searchFlag := ""; filterFlag := "";
       limitFlag := None; filesFlag := false; addFlag := "thumbsup"; delFlag := "" |} /\
  sublist ["1234567890.123456"] ["1234567890.123456"; "--add"; "thumbsup"] /\
  (emojiCmd = showCmd -> (1 <= 1)%nat).
Proof.
  apply (@execute_Run demoCobra emojiCmd ["1234567890.123456"; "--add"; "thumbsup"]
           emojiCmd ["1234567890.123456"]
           {| tsFlag := ""; dateFlag := ""; searchFlag := ""; filterFlag := "";
              limitFlag := None; filesFlag := false; addFlag := "thumbsup"; delFlag := "" |}).
  by vm_compute.
Defined.

Lemma program_show_date_witness :
  @program demoCobra demoEnvironment 1 ["show"; "2"; "--date"; "2024-01-01"] demoWorld
  = (Print ("Slack CLI (build time: " +:+ buildTime +:+ ")" +:+ nl) ;;
     r <- inSession (showOnce 2 "2024-01-01" "1704067200" "1704153599" "" "" false) ;;
     finish r) (loadedWorld demoConfig (Some {[ "white_check_mark" := "&#x2705;";
                                               "thumbsup" := "&#x1F44D;" ]}) demoWorld).
Proof.
  apply (@program_show_date demoCobra demoEnvironment 1 2 2024 1 1 demoConfig _ demoWorld);
    done || lia.
Defined.

Lemma program_download_example_witness :
  directory (@program demoCobra demoEnvironment 1 ["download"; "https://file.url"] demoWorld).2
  = <["(1)." := "new"]> (directory demoWorld).
Proof.
  by eapply (@program_download_example demoCobra demoEnvironment 1 demoConfig _ "new" demoWorld).
Defined.
