(* ===== verification/Credentials.v ===== *)
(** * Where the tokens go

    Every request of the program carries a token of the configuration,
    in its [Authorization] header or, for the first request of an
    upload, in a field of its form.  This file shows to which URLs the
    tokens are sent: a request [exposes] its token when it carries one
    to a URL that is not of the Slack Web API.  The relation [keeps P]
    of [Slack] is a frame that admits the requests [P] does not hold
    of, and every command but [download] respects such a frame
    ([main_frame]); with [P := exposes] this says that no command but
    [download] sends a token anywhere else, and that [download] sends
    the user token to whatever URL it is given. *)

From S2P Require Import Prelude Utf8 GoStrings Calendar GoTime Slack TimeRange Resolver.
From S2P Require Import Reactions Threads Formatter Paginator Actions Files Main.

Local Open Scope Z_scope.
Local Open Scope go_scope.

(** ** Requests that carry a token *)

(** The URL is one of the Slack Web API. *)
Definition toAPI (r : Request) : bool := HasPrefix (URL r) "https://slack.com/api/".

(** The request has an [Authorization] header, or a [token] field in
    its form. *)
Definition credentials (r : Request) : bool :=
  existsb (fun h => bool_decide (h.1 = "Authorization")) (Headers r)
  || match Body r with
     | FormFields fields => existsb (fun f => bool_decide (f.1 = "token")) fields
     | _ => false
     end.

(** The request carries a token to a URL that is not of the API. *)
Definition exposes (r : Request) : bool := credentials r && negb (toAPI r).

(** The requests of a world that expose a token. *)
Definition exposed (w : World) : list Request :=
  base.filter (fun r => exposes r) (requests w).

(** * Theorems *)

(** ** The requests of the program do not expose a token *)

Lemma exposes_toAPI r : toAPI r = true -> exposes r = false.
Proof. intros Hr. unfold exposes. rewrite Hr. apply andb_false_r. Qed.

Lemma toAPI_literal r prefix rest :
  URL r = prefix +:+ rest -> HasPrefix prefix "https://slack.com/api/" = true ->
  exposes r = false.
Proof.
  intros Hu Hp. apply exposes_toAPI. unfold toAPI. by rewrite Hu, (HasPrefix_app_l _ _ _ Hp).
Qed.

Lemma exposes_usersInfo token userID : exposes (usersInfoRequest token userID) = false.
Proof. by eapply toAPI_literal. Qed.

Lemma exposes_replies channel token ts : exposes (repliesRequest channel token ts) = false.
Proof.
  by apply (toAPI_literal _ "https://slack.com/api/"
              ("conversations.replies?channel=" +:+ channel +:+ "&ts=" +:+ ts)).
Qed.

Lemma toAPI_history c limit oldest latest cursor :
  toAPI (historyRequest c limit oldest latest cursor) = true.
Proof.
  unfold toAPI, historyRequest, historyURL. cbn [URL].
  repeat case_match; rewrite ?app_assoc_s; by apply HasPrefix_app_l.
Qed.

Lemma exposes_history c limit oldest latest cursor :
  exposes (historyRequest c limit oldest latest cursor) = false.
Proof. apply exposes_toAPI, toAPI_history. Qed.

Lemma exposes_json method contentType token fields :
  exposes (jsonRequest ("https://slack.com/api/" +:+ method) contentType token fields) = false.
Proof. by eapply toAPI_literal. Qed.

Lemma exposes_uploadURL c name size : exposes (uploadURLRequest c name size) = false.
Proof. by eapply (toAPI_literal _ slackUploadURL ""). Qed.

(** The content of a file is sent without a token. *)
Lemma exposes_content url name content : exposes (contentRequest url name content) = false.
Proof. reflexivity. Qed.

Lemma exposes_complete c fileID : exposes (completeRequest c fileID) = false.
Proof. by eapply (toAPI_literal _ slackCompleteUploadURL ""). Qed.

Section Exposure.
Context `{Environment}.

(** C14. The tokens stay with Slack: whatever the command line, unless
    it is a download, and whatever the files and the server hold, no
    request that [main] sends carries a token to a URL that is not of
    the Slack Web API; the content of an uploaded file, the one request
    to a URL that the server chose, carries none. *)
Theorem main_no_exposure fuel p w :
  notDownload p -> exposed (main fuel p w).2 = exposed w.
Proof.
  intros Hp. apply (main_frame (keeps exposes)); auto using keeps_admits,
    exposes_usersInfo, exposes_replies, exposes_history, exposes_json, exposes_uploadURL,
    exposes_content, exposes_complete with go.
Qed.

(** C15. A download sends the user token to the URL it is given: when the
    URL can be parsed and is not one of the Slack Web API, the request
    of [getFile] carries the token of the user to it, and is the one
    request of the command. *)
Theorem getFile_exposes fileURL path w :
  urlPath fileURL = Some path ->
  HasPrefix fileURL "https://slack.com/api/" = false ->
  exposed (getFile fileURL w).2 = exposed w ++ [fileRequest (config w) fileURL] /\
  (bearer (SlackUserToken (config w))) ∈ Headers (fileRequest (config w) fileURL).
Proof.
  intros Hp Hu. split; [|set_solver]. rewrite (getFile_parsed _ _ _ Hp). cbn zeta.
  assert (exposed (addRequest (fileRequest (config w) fileURL) w)
          = exposed w ++ [fileRequest (config w) fileURL]) as Ha.
  { apply (added_addRequest exposes). unfold exposes, toAPI. cbn. by rewrite Hu. }
  by repeat case_match.
Qed.

End Exposure.

Lemma main_no_exposure_witness :
  exposed (main 1 (Run showCmd [] noFlags) demoWorld).2 = [].
Proof. by apply (main_no_exposure 1 (Run showCmd [] noFlags) demoWorld). Defined.

Lemma getFile_exposes_witness :
  exposed (getFile "https://example.com/report.pdf" demoWorld).2
  = [fileRequest demoConfig "https://example.com/report.pdf"].
Proof.
  by apply (getFile_exposes "https://example.com/report.pdf"
              "/files-pri/T1-F1/report.pdf" demoWorld).
Defined.
