(* ===== verification/Persistence.v ===== *)
(** * What a run leaves for the next one

    The program keeps nothing in memory between two runs: a process
    starts with the zero values of [config] and [emojiList] (main.go,
    lines 39-40) and reads the two files.  This file follows the files
    through a run and from one run to the next.  The relations
    "the emoji file is the same", "the files of the directory are the
    same", "a configuration that is on the disk stays on the disk" and
    "the settings of the configuration are the same and no name is lost"
    are frames, so that the passes of [Main] carry them through every
    command; the names that [getUserName] learns are followed through
    [saveConfig], the end of the process, [checkAndLoadConfig] and the
    copy of the cache that [fetchMessages] makes. *)

From S2P Require Import Prelude Utf8 GoStrings Calendar GoTime Slack TimeRange Resolver.
From S2P Require Import Reactions Threads Formatter Paginator Actions Files Main.

Local Open Scope Z_scope.
Local Open Scope go_scope.

(** ** A process that starts *)

(** [var config Config] (line 39): the zero value of the struct. *)
Definition zeroConfig : Config :=
  {| SlackBotToken := ""; SlackUserToken := ""; ChannelID := ""; ServerBotUserID := "";
     UserCache := None; DefaultShowLimit := 0; DefaultEmoji := "" |}.

(** The world of a process that starts in what an earlier one left: the
    globals have their zero values (lines 39-40); the files, and what
    the server and the terminal have seen, are as they were. *)
Definition startProcess (w : World) : World := setEmojiList None (setConfig zeroConfig w).

Section Runs.
Context `{Environment}.

(** One run of the program. *)
Definition execution (fuel : nat) (p : Parsed) : M World bool :=
  fun w => main fuel p (startProcess w).

(** The world after a sequence of runs, one command line each. *)
Fixpoint runs (fuel : nat) (ps : list Parsed) (w : World) : World :=
  match ps with
  | [] => w
  | p :: ps => runs fuel ps (execution fuel p w).2
  end.

End Runs.

(** ** Relations that are frames *)

(** The part [f] of the world is the same. *)
Definition unchanged {A} (f : World -> A) : relation World := fun w w' => f w' = f w.

#[export] Instance unchanged_preorder {A} (f : World -> A) : PreOrder (unchanged f).
Proof. split; [done|]. intros w1 w2 w3 H12 H23. unfold unchanged in *. congruence. Qed.

(** The configuration file can be used: there is none yet, or it
    decodes. *)
Definition usable (w : World) : Prop :=
  match configFile w with
  | Absent | Holds _ => True
  | Unreadable | Garbled => False
  end.

(** The configuration file holds the configuration in memory. *)
Definition synced (w : World) : Prop := configFile w = Holds (config w).

(** A configuration that is on the disk stays on the disk. *)
Definition staysSynced : relation World := fun w w' => synced w -> synced w'.

(** The settings of two configurations are the same: all but the cache
    of names. *)
Definition sameSettings (c c' : Config) : Prop :=
  SlackBotToken c' = SlackBotToken c /\ SlackUserToken c' = SlackUserToken c /\
  ChannelID c' = ChannelID c /\ ServerBotUserID c' = ServerBotUserID c /\
  DefaultShowLimit c' = DefaultShowLimit c /\ DefaultEmoji c' = DefaultEmoji c.

(** No name is forgotten; a nil map stays nil. *)
Definition cacheGrows (m m' : option (gmap string string)) : Prop :=
  match m, m' with
  | Some m, Some m' => dom m ⊆ dom m'
  | None, None => True
  | _, _ => False
  end.

(** The configuration in memory changes in its cache of names only,
    which grows. *)
Definition keepsSettings : relation World :=
  fun w w' => sameSettings (config w) (config w')
              /\ cacheGrows (UserCache (config w)) (UserCache (config w')).

(** * Theorems *)

#[export] Instance staysSynced_preorder : PreOrder staysSynced.
Proof. split; [by intros w Hw|]. intros w1 w2 w3 H12 H23 Hw. by apply H23, H12. Qed.

#[export] Instance emojiFile_frame : Frame (unchanged emojiFile).
Proof. by split; [tc_solve|..]. Qed.

#[export] Instance emojiFile_saves : Saves (unchanged emojiFile).
Proof. by split. Qed.

#[export] Instance emojiFile_stores : Stores (unchanged emojiFile).
Proof. by intros ???. Qed.

#[export] Instance directory_frame : Frame (unchanged directory).
Proof. by split; [tc_solve|..]. Qed.

#[export] Instance directory_saves : Saves (unchanged directory).
Proof. by split. Qed.

#[export] Instance staysSynced_frame : Frame staysSynced.
Proof. split; [tc_solve|..]; by intros ? w Hw. Qed.

#[export] Instance staysSynced_stores : Stores staysSynced.
Proof. by intros ?? w Hw. Qed.

(** A request changes none of the three. *)
Lemma emojiFile_admits r : admits (unchanged emojiFile) r.
Proof. by intros w. Qed.

Lemma directory_admits r : admits (unchanged directory) r.
Proof. by intros w. Qed.

Lemma staysSynced_admits r : admits staysSynced r.
Proof. by intros w Hw. Qed.

#[export] Hint Resolve emojiFile_admits directory_admits staysSynced_admits : go.

#[export] Instance sameSettings_preorder : PreOrder sameSettings.
Proof.
  split; [by intros c|]. intros c1 c2 c3 H12 H23. unfold sameSettings in *.
  destruct_and!. repeat split; congruence.
Qed.

#[export] Instance cacheGrows_preorder : PreOrder cacheGrows.
Proof.
  split; [by intros [m|]; cbn|]. intros [m1|] [m2|] [m3|]; cbn; try done. set_solver.
Qed.

#[export] Instance keepsSettings_preorder : PreOrder keepsSettings.
Proof.
  split; [by intros w; split|]. intros w1 w2 w3 [Hs12 Hc12] [Hs23 Hc23].
  split; by etrans.
Qed.

(** An update that leaves the configuration in memory alone. *)
Lemma keepsSettings_same w w' : config w' = config w -> keepsSettings w w'.
Proof. intros Hc. unfold keepsSettings. rewrite Hc. split; reflexivity. Qed.

#[export] Instance keepsSettings_frame : Frame keepsSettings.
Proof. split; [tc_solve|..]; intros ? w; by apply keepsSettings_same. Qed.

#[export] Instance keepsSettings_stores : Stores keepsSettings.
Proof. intros ?? w. by apply keepsSettings_same. Qed.

Lemma keepsSettings_admits r : admits keepsSettings r.
Proof. intros w. by apply keepsSettings_same. Qed.

#[export] Hint Resolve keepsSettings_admits : go.

(** Remembering a name changes the cache only, and adds to it. *)
#[export] Instance keepsSettings_remembers `{Environment} : Remembers keepsSettings.
Proof.
  intros userID name w. unfold rememberName, saveConfig, keepsSettings. munfold. cbn.
  destruct (UserCache (config w)) as [m|] eqn:Em; [|by cbn; rewrite Em].
  destruct createFails, writeFails; cbn; (split; [done|]); rewrite dom_insert; set_solver.
Qed.

(** ** The files after a run *)

Section Files.
Context `{Environment}.

(** No command line makes the program write the emoji file. *)
Theorem main_emojiFile fuel p w : emojiFile (main fuel p w).2 = emojiFile w.
Proof. apply (main_frame_download (unchanged emojiFile)); auto with go. Qed.

(** No command but [download] changes the files of the directory. *)
Theorem main_directory fuel p w :
  notDownload p -> directory (main fuel p w).2 = directory w.
Proof. intros Hp. apply (main_frame (unchanged directory)); auto with go. Qed.

End Files.

(** ** The configuration on the disk *)

Lemma usable_startProcess w : usable (startProcess w) <-> usable w.
Proof. done. Qed.

Lemma synced_usable w : synced w -> usable w.
Proof. unfold synced, usable. by intros ->. Qed.

Section Synced.
Context `{Environment}.
Hypothesis creates : createFails = false.
Hypothesis writes : writeFails = false.

(** With a file system that works, a name that is remembered is on the
    disk when [rememberName] returns. *)
#[local] Instance staysSynced_remembers : Remembers staysSynced.
Proof.
  intros userID name w Hw. unfold rememberName, saveConfig. rewrite creates, writes.
  munfold. cbn. by destruct (UserCache (config w)).
Qed.

(** What follows the start-up check keeps the configuration on the
    disk. *)
Lemma afterStartup_synced fuel p w : synced w -> synced (afterStartup fuel p w).2.
Proof. apply (afterStartup_frame_download staysSynced); auto with go. Qed.

(** The start-up check puts the configuration on the disk, or finds it
    there. *)
Lemma checkAndLoadConfig_synced w : usable w -> synced (checkAndLoadConfig w).2.
Proof.
  unfold usable, synced, checkAndLoadConfig, createConfig, saveConfig, loadConfig,
    loadEmojiConfig.
  rewrite creates, writes. destruct w as [cfg table cf ef sent out dir]. munfold. cbn.
  destruct cf as [| |c|]; [done..| |done]. by destruct ef as [| |[e|]|].
Qed.

(** Whatever the command line, a run that finds no configuration or
    one that decodes ends with the configuration of its memory on the
    disk. *)
Theorem main_synced fuel p w : usable w -> synced (main fuel p w).2.
Proof.
  intros Hw%checkAndLoadConfig_synced. unfold main, bind.
  destruct (checkAndLoadConfig w) as [[[]| |] w1]; [|done..]. by apply afterStartup_synced.
Qed.

(** C21. Run after run, the configuration file stays one that decodes. *)
Theorem runs_synced fuel ps w : usable w -> ps <> [] -> synced (runs fuel ps w).
Proof.
  revert w. induction ps as [|p ps IH]; intros w Hw Hps; [done|]. cbn [runs].
  pose proof (main_synced fuel p (startProcess w) Hw) as H1.
  destruct ps as [|p' ps]; [done|]. by apply IH; [apply synced_usable|].
Qed.

(** The start-up check puts the configuration of the file in memory. *)
Lemma checkAndLoadConfig_config w c :
  configFile w = Holds c -> config (checkAndLoadConfig w).2 = c.
Proof.
  destruct w as [cfg table cf ef sent out dir]. cbn [configFile]. intros ->.
  unfold checkAndLoadConfig, loadConfig, loadEmojiConfig. munfold. cbn.
  by destruct ef as [| |[e|]|].
Qed.

(** C34. A run changes nothing of the configuration file but the names it
    holds: with a file system that works, the file after a run that
    found a configuration holds the same tokens, channel and defaults,
    and every name it held. *)
Theorem main_keeps_settings fuel p c w :
  configFile w = Holds c ->
  exists c', configFile (main fuel p w).2 = Holds c' /\
    sameSettings c c' /\ cacheGrows (UserCache c) (UserCache c').
Proof.
  intros Hc. exists (config (main fuel p w).2). split.
  { apply main_synced. unfold usable. by rewrite Hc. }
  pose proof (checkAndLoadConfig_config w c Hc) as Hl. unfold main, bind.
  destruct (checkAndLoadConfig w) as [[[]| |] w1]; cbn [snd] in *; subst c;
    [|by split; reflexivity..].
  apply (afterStartup_frame_download keepsSettings); auto with go.
Qed.

End Synced.

(** ** A name that was learned *)

Section Names.
Context `{Environment}.
Implicit Types (userID : string) (s : Session) (p : UserProfile).

(** The files after the server named a user. *)
Lemma afterSuccess_emojiFile userID name m s :
  emojiFile (world (afterSuccess userID name m s)) = emojiFile (world s).
Proof. unfold afterSuccess, saveConfig. munfold. cbn. by repeat case_match. Qed.

Lemma afterSuccess_configFile userID name m s :
  configFile (world (afterSuccess userID name m s))
  = if createFails then configFile (world s)
    else if writeFails then Garbled
    else Holds (withUserCache (<[userID := name]> m) (config (world s))).
Proof. unfold afterSuccess, saveConfig. munfold. cbn. by repeat case_match. Qed.

(** C20. A name is asked of the server once, and not once per run: when a
    lookup is answered with a name and the file system works, the
    process that starts after the one that asked finds the name in the
    configuration file, and a session of it answers from the cache,
    without a request. *)
Theorem name_survives_restart userID s p m e :
  createFails = false -> writeFails = false ->
  userID <> "" -> missed userID s -> lookupAnswer userID s = Decoded p -> OK p = true ->
  UserCache (config (world s)) = Some m -> emojiFile (world s) = Holds e ->
  let w1 := startProcess (world (getUserName userID s).2) in
  exists w2,
    checkAndLoadConfig w1 = (Ret tt, w2) /\
    getUserName userID (startSession w2) = (Ret (RealName p), startSession w2).
Proof.
  intros Hc Hw Hne Hmiss Ha Hok Hm He w1. unfold w1.
  rewrite (getUserName_success _ _ _ _ Hne Hmiss Ha Hok Hm). cbn [snd].
  eexists. split.
  - apply checkAndLoadConfig_loaded.
    + change (configFile (startProcess ?w)) with (configFile w).
      by rewrite afterSuccess_configFile, Hc, Hw.
    + change (emojiFile (startProcess ?w)) with (emojiFile w).
      by rewrite afterSuccess_emojiFile.
  - apply getUserName_session_hit; [done|]. destruct e; cbn; apply lookup_insert_eq.
Qed.

(** C22. A write that fails loses the configuration: [os.Create] has emptied
    the file when [Write] fails, [saveConfig] returns the error and
    [getUserName] drops it (line 240).  The lookup returns the name as
    if nothing had happened; the next run, whatever its command line,
    stops at the start-up check with code 1. *)
Theorem failed_write_loses_configuration userID s p m fuel q :
  createFails = false -> writeFails = true ->
  userID <> "" -> missed userID s -> lookupAnswer userID s = Decoded p -> OK p = true ->
  UserCache (config (world s)) = Some m ->
  (getUserName userID s).1 = Ret (RealName p) /\
  configFile (world (getUserName userID s).2) = Garbled /\
  (execution fuel q (world (getUserName userID s).2)).1 = Exit 1.
Proof.
  intros Hc Hw Hne Hmiss Ha Hok Hm.
  rewrite (getUserName_success _ _ _ _ Hne Hmiss Ha Hok Hm). cbn [fst snd].
  assert (configFile (world (afterSuccess userID (RealName p) m s)) = Garbled) as Hg
    by by rewrite afterSuccess_configFile, Hc, Hw.
  split; [done|]. split; [done|]. unfold execution, main.
  pose proof (checkAndLoadConfig_exitCode
                (startProcess (world (afterSuccess userID (RealName p) m s)))) as He.
  change (configFile (startProcess ?w)) with (configFile w) in He. rewrite Hg in He.
  unfold bind. by destruct (checkAndLoadConfig _) as [[[]| |] w2]; simplify_eq/=.
Qed.

End Names.

(** ** The theorems at work *)

(** The environment of the demonstration on a disk that is full: files
    are created and cannot be written. *)
Definition fullDisk : Environment :=
  {| usersInfo := @usersInfo demoEnvironment;
     conversationsHistory := @conversationsHistory demoEnvironment;
     conversationsReplies := @conversationsReplies demoEnvironment;
     apiCall := @apiCall demoEnvironment;
     getUploadURL := @getUploadURL demoEnvironment;
     completeUpload := @completeUpload demoEnvironment;
     buildTime := @buildTime demoEnvironment;
     download := @download demoEnvironment;
     urlPath := @urlPath demoEnvironment;
     createFileFails := @createFileFails demoEnvironment;
     zoneOffset := @zoneOffset demoEnvironment;
     floatSeconds := @floatSeconds demoEnvironment;
     sprintfBare := @sprintfBare demoEnvironment;
     createFails := false;
     writeFails := true;
     errorText := @errorText demoEnvironment |}.

(** A first run, then two commands. *)
Lemma runs_synced_witness :
  synced (runs (H := demoEnvironment) 1
            [Run examplesCmd [] noFlags; Run showCmd [] noFlags; Run emojiCmd [] noFlags]
            (setConfigFile Absent demoWorld)).
Proof.
  by apply (runs_synced (H := demoEnvironment) eq_refl eq_refl 1
              [Run examplesCmd [] noFlags; Run showCmd [] noFlags; Run emojiCmd [] noFlags]
              (setConfigFile Absent demoWorld)).
Defined.

(** The server knows the user U1. *)
Lemma name_survives_restart_witness :
  exists w2,
    checkAndLoadConfig (H := demoEnvironment)
      (startProcess (world (getUserName (H := demoEnvironment) "U1"
                              (startSession demoWorld)).2)) = (Ret tt, w2) /\
    getUserName (H := demoEnvironment) "U1" (startSession w2) = (Ret "Alice", startSession w2).
Proof.
  by apply (name_survives_restart (H := demoEnvironment) "U1" (startSession demoWorld)
              {| OK := true; RealName := "Alice" |} {[ "U075JAXRYV7" := "Bot" ]}
              (Some {[ "white_check_mark" := "&#x2705;"; "thumbsup" := "&#x1F44D;" ]})).
Defined.

Lemma failed_write_loses_configuration_witness :
  (getUserName (H := fullDisk) "U1" (startSession demoWorld)).1 = Ret "Alice" /\
  configFile (world (getUserName (H := fullDisk) "U1" (startSession demoWorld)).2) = Garbled /\
  (execution (H := fullDisk) 1 (Run examplesCmd [] noFlags)
     (world (getUserName (H := fullDisk) "U1" (startSession demoWorld)).2)).1 = Exit 1.
Proof.
  by apply (failed_write_loses_configuration (H := fullDisk) "U1" (startSession demoWorld)
              {| OK := true; RealName := "Alice" |} {[ "U075JAXRYV7" := "Bot" ]} 1
              (Run examplesCmd [] noFlags)).
Defined.

Lemma main_keeps_settings_witness :
  exists c',
    configFile (main (H := demoEnvironment) 1 (Run showCmd [] noFlags) demoWorld).2 = Holds c' /\
    sameSettings demoConfig c' /\ cacheGrows (UserCache demoConfig) (UserCache c').
Proof.
  by apply (main_keeps_settings (H := demoEnvironment) eq_refl eq_refl 1
              (Run showCmd [] noFlags) demoConfig demoWorld).
Defined.
